(** * PDF417 decoded bit stream parser

    A shallow embedding of [src/pdf417/PDFDecodedBitStreamParser.cpp]
    (namespace [ZXing::Pdf417]) and the properties of its decoders.

    Conventions of the embedding
    - [int] values are integers in [Z]; [a / b] and [a % b] on [int] are
      [Z.quot] and [Z.rem] (truncation towards zero).
    - the [long] accumulator of Byte Compaction is a 64-bit two's complement
      integer: every assignment to it goes through [wrap64].
    - [char] and [uint8_t] values are the byte pattern, an integer in
      [0, 256): a cast to either is [to_byte].
    - [std::vector] and [std::array] are lists; [operator[]] outside the
      bounds does not return ([Stuck OutOfBounds]).
    - every dereference of the [codewords] argument is recorded, in order,
      in a log of the indices read.
    - a [while] loop is iterated with fuel; the entry points supply the fuel
      and are proved never to exhaust it. *)

From Stdlib Require Import ZArith List String Ascii Bool Lia.
From Stdlib Require Import DecimalString DecimalZ DecimalFacts DecimalPos.
Import ListNotations.
Open Scope Z_scope.

Set Implicit Arguments.

(** ** Outcomes of a call, and the log of codeword reads *)

Inductive fault : Type :=
| OutOfBounds       (* operator[] outside a vector, an array or a table *)
| LengthError       (* a vector built or reserved with a negative size *)
| InvalidArgument   (* std::stoi throws: no number, or out of the range of int *)
| OutOfFuel.        (* the fuel of a while loop of this model ran out *)

Inductive outcome (A : Type) : Type :=
| Ret (a : A)
| Stuck (f : fault).

Arguments Stuck {A} f.

Definition trace : Type := list Z.

Definition M (A : Type) : Type := (trace * outcome A)%type.

Definition ret {A : Type} (a : A) : M A := ([], Ret a).

Definition stuck {A : Type} (f : fault) : M A := ([], Stuck f).

Definition bind {A B : Type} (m : M A) (k : A -> M B) : M B :=
  match m with
  | (t, Ret a) => let (t', r) := k a in (t ++ t', r)
  | (t, Stuck f) => (t, Stuck f)
  end.

Notation "x <- m ;; k" := (bind m (fun x => k))
  (at level 61, m at next level, right associativity).
Notation "' p <- m ;; k" := (bind m (fun x => match x with p => k end))
  (at level 61, p pattern, m at next level, right associativity).

Definition reads {A : Type} (m : M A) : trace := fst m.
Definition result_of {A : Type} (m : M A) : outcome A := snd m.

(** [while (cond) body], with fuel. *)
Fixpoint while {S : Type} (fuel : nat) (cond : S -> M bool) (body : S -> M S)
    (s : S) : M S :=
  match fuel with
  | O => stuck OutOfFuel
  | Datatypes.S fuel' =>
      b <- cond s ;;
      if b then s' <- body s ;; while fuel' cond body s' else ret s
  end.

(** [for (i = from; i < from + n; i++) body]. *)
Fixpoint for_range {S : Type} (n : nat) (i : Z) (body : Z -> S -> M S) (s : S)
    : M S :=
  match n with
  | O => ret s
  | Datatypes.S n' => s' <- body i s ;; for_range n' (i + 1) body s'
  end.

(** ** Vectors, arrays and casts *)

Definition vec : Type := list Z.

Definition in_range (v : list Z) (i : Z) : bool :=
  (0 <=? i) && (i <? Z.of_nat (List.length v)).

(** The element at an index that is in range. *)
Definition item (v : list Z) (i : Z) : Z := nth (Z.to_nat i) v 0.

(** [codewords[i]]: the only access to the codeword stream. *)
Definition rd (codewords : list Z) (i : Z) : M Z :=
  if in_range codewords i then ([i], Ret (item codewords i))
  else ([i], Stuck OutOfBounds).

(** [v[i]] on a local vector, array or constant table. *)
Definition vget (v : vec) (i : Z) : M Z :=
  if in_range v i then ret (item v i) else stuck OutOfBounds.

Fixpoint upd (v : vec) (n : nat) (x : Z) : vec :=
  match v, n with
  | [], _ => []
  | _ :: v', O => x :: v'
  | y :: v', Datatypes.S n' => y :: upd v' n' x
  end.

(** [v[i] = x] on a local vector or array. *)
Definition vset (v : vec) (i : Z) (x : Z) : M vec :=
  if in_range v i then ret (upd v (Z.to_nat i) x) else stuck OutOfBounds.

(** [std::vector<int> v(n, 0)]. *)
Definition vnew (n : Z) : M vec :=
  if n <? 0 then stuck LengthError else ret (repeat 0 (Z.to_nat n)).

Definition to_byte (x : Z) : Z := x mod 256.

Definition wrap64 (x : Z) : Z := (x + 2 ^ 63) mod 2 ^ 64 - 2 ^ 63.

(** ** Constants *)

Inductive Mode : Type :=
| ALPHA | LOWER | MIXED | PUNCT | ALPHA_SHIFT | PUNCT_SHIFT.

Definition TEXT_COMPACTION_MODE_LATCH : Z := 900.
Definition BYTE_COMPACTION_MODE_LATCH : Z := 901.
Definition NUMERIC_COMPACTION_MODE_LATCH : Z := 902.
Definition BYTE_COMPACTION_MODE_LATCH_6 : Z := 924.
Definition ECI_USER_DEFINED : Z := 925.
Definition ECI_GENERAL_PURPOSE : Z := 926.
Definition ECI_CHARSET : Z := 927.
Definition BEGIN_MACRO_PDF417_CONTROL_BLOCK : Z := 928.
Definition BEGIN_MACRO_PDF417_OPTIONAL_FIELD : Z := 923.
Definition MACRO_PDF417_TERMINATOR : Z := 922.
Definition MODE_SHIFT_TO_BYTE_COMPACTION_MODE : Z := 913.
Definition MAX_NUMERIC_CODEWORDS : Z := 15.

Definition PL : Z := 25.
Definition LL : Z := 27.
Definition AS : Z := 27.
Definition ML : Z := 28.
Definition AL : Z := 28.
Definition PS : Z := 29.
Definition PAL : Z := 29.

Definition chars (s : string) : list Z :=
  map (fun a => Z.of_N (N_of_ascii a)) (list_ascii_of_string s).

(** The 29 characters of the Punctuation sub-mode, as ASCII codes
    (59 is the semicolon, 13 CR, 9 HT, 10 LF, 39 the apostrophe). *)
Definition PUNCT_CHARS : vec :=
  [59; 60; 62; 64; 91; 92; 93; 95; 96; 126; 33;
   13; 9; 44; 58; 10; 45; 46; 36; 47; 34; 124; 42;
   40; 41; 63; 123; 125; 39].

(** The 25 characters of the Mixed sub-mode, as ASCII codes
    (48 to 57 are the digits, 38 the ampersand, 94 the caret). *)
Definition MIXED_CHARS : vec :=
  [48; 49; 50; 51; 52; 53; 54; 55; 56; 57; 38;
   13; 9; 44; 58; 35; 45; 46; 36; 47; 43; 37; 42;
   61; 94].

Definition NUMBER_OF_SEQUENCE_CODEWORDS : Z := 2.

(** Modelled from the spec: [BigInteger] ([ZXBigInteger.h]) is not part of
    the sources at hand.  The spec calls it arbitrary-precision arithmetic
    whose [toString] renders the decimal digits; it is [Z] here. *)
Definition BigInteger : Type := Z.

Definition toString (b : BigInteger) : string :=
  NilZero.string_of_int (Z.to_int b).

(** The table [EXP900()], filled as [initInstance] fills it:
    [table[0] = 1], [table[1] = 900], [table[i] = table[i - 1] * 900]. *)
Fixpoint fill_exp900 (n : nat) (prev : BigInteger) : list BigInteger :=
  match n with
  | O => []
  | Datatypes.S n' => let next := prev * 900 in next :: fill_exp900 n' next
  end.

Definition EXP900 : list BigInteger := 1 :: 900 :: fill_exp900 14 900.

(** Modelled from the spec: [String] ([ZXString.h]) is not part of the
    sources at hand.  The spec calls it an append-only text accumulator; it
    is the list of the bytes appended, [appendUtf8] appends its argument and
    [+=] appends the other text. *)
Definition String : Type := list Z.

Definition appendUtf8 (s : String) (c : Z) : String := s ++ [c].

Definition appendUtf8_str (s : String) (str : string) : String :=
  s ++ chars str.

Definition empty (s : String) : bool :=
  match s with
  | [] => true
  | _ :: _ => false
  end.

Inductive ErrorStatus : Type := NoError | FormatError.

Definition StatusIsError (s : ErrorStatus) : bool :=
  match s with
  | NoError => false
  | FormatError => true
  end.

Definition StatusIsOK (s : ErrorStatus) : bool := negb (StatusIsError s).

(** [std::to_string(int)] and [std::stoi]. *)
Definition to_string (n : Z) : string := NilZero.string_of_int (Z.to_int n).

Definition INT_MAX : Z := 2 ^ 31 - 1.

Definition stoi (s : string) : M Z :=
  match NilZero.uint_of_string s with
  | Some u => if Z.of_uint u <=? INT_MAX then ret (Z.of_uint u)
              else stuck InvalidArgument
  | None => stuck InvalidArgument
  end.

(** ** Text Compaction: the sub-mode machine ([DecodeTextCompaction]) *)

Record TextDecodeState : Type := mkTextDecodeState {
  subMode : Mode;
  priorToShiftMode : Mode;
  decoded : String
}.

Definition set_subMode (st : TextDecodeState) (m : Mode) : TextDecodeState :=
  mkTextDecodeState m (priorToShiftMode st) (decoded st).

(** [priorToShiftMode = subMode; subMode = m;] *)
Definition shift_to (st : TextDecodeState) (m : Mode) : TextDecodeState :=
  mkTextDecodeState m (subMode st) (decoded st).

Definition append_char (st : TextDecodeState) (c : Z) : TextDecodeState :=
  mkTextDecodeState (subMode st) (priorToShiftMode st)
    (appendUtf8 (decoded st) c).

(** [result.appendUtf8((char)byteCompactionData[i]);] *)
Definition append_escaped (byteCompactionData : vec) (i : Z)
    (st : TextDecodeState) : M (TextDecodeState * Z) :=
  b <- vget byteCompactionData i ;;
  ret (append_char st (to_byte b), 0).

(** The [switch (subMode)] of the loop body: the new state and [ch]. *)
Definition DecodeTextCompaction_switch (byteCompactionData : vec) (i : Z)
    (subModeCh : Z) (st : TextDecodeState) : M (TextDecodeState * Z) :=
  match subMode st with
  | ALPHA =>
      if subModeCh <? 26 then ret (st, to_byte (65 + subModeCh))
      else if subModeCh =? 26 then ret (st, 32)
      else if subModeCh =? LL then ret (set_subMode st LOWER, 0)
      else if subModeCh =? ML then ret (set_subMode st MIXED, 0)
      else if subModeCh =? PS then ret (shift_to st PUNCT_SHIFT, 0)
      else if subModeCh =? MODE_SHIFT_TO_BYTE_COMPACTION_MODE
           then append_escaped byteCompactionData i st
      else if subModeCh =? TEXT_COMPACTION_MODE_LATCH
           then ret (set_subMode st ALPHA, 0)
      else ret (st, 0)
  | LOWER =>
      if subModeCh <? 26 then ret (st, to_byte (97 + subModeCh))
      else if subModeCh =? 26 then ret (st, 32)
      else if subModeCh =? AS then ret (shift_to st ALPHA_SHIFT, 0)
      else if subModeCh =? ML then ret (set_subMode st MIXED, 0)
      else if subModeCh =? PS then ret (shift_to st PUNCT_SHIFT, 0)
      else if subModeCh =? MODE_SHIFT_TO_BYTE_COMPACTION_MODE
           then append_escaped byteCompactionData i st
      else if subModeCh =? TEXT_COMPACTION_MODE_LATCH
           then ret (set_subMode st ALPHA, 0)
      else ret (st, 0)
  | MIXED =>
      if subModeCh <? PL
      then ch <- vget MIXED_CHARS subModeCh ;; ret (st, ch)
      else if subModeCh =? PL then ret (set_subMode st PUNCT, 0)
      else if subModeCh =? 26 then ret (st, 32)
      else if subModeCh =? LL then ret (set_subMode st LOWER, 0)
      else if subModeCh =? AL then ret (set_subMode st ALPHA, 0)
      else if subModeCh =? PS then ret (shift_to st PUNCT_SHIFT, 0)
      else if subModeCh =? MODE_SHIFT_TO_BYTE_COMPACTION_MODE
           then append_escaped byteCompactionData i st
      else if subModeCh =? TEXT_COMPACTION_MODE_LATCH
           then ret (set_subMode st ALPHA, 0)
      else ret (st, 0)
  | PUNCT =>
      if subModeCh <? PAL
      then ch <- vget PUNCT_CHARS subModeCh ;; ret (st, ch)
      else if subModeCh =? PAL then ret (set_subMode st ALPHA, 0)
      else if subModeCh =? MODE_SHIFT_TO_BYTE_COMPACTION_MODE
           then append_escaped byteCompactionData i st
      else if subModeCh =? TEXT_COMPACTION_MODE_LATCH
           then ret (set_subMode st ALPHA, 0)
      else ret (st, 0)
  | ALPHA_SHIFT =>
      (* Restore sub-mode *)
      let st := set_subMode st (priorToShiftMode st) in
      if subModeCh <? 26 then ret (st, to_byte (65 + subModeCh))
      else if subModeCh =? 26 then ret (st, 32)
      else if subModeCh =? TEXT_COMPACTION_MODE_LATCH
           then ret (set_subMode st ALPHA, 0)
      else ret (st, 0)
  | PUNCT_SHIFT =>
      (* Restore sub-mode *)
      let st := set_subMode st (priorToShiftMode st) in
      if subModeCh <? PAL
      then ch <- vget PUNCT_CHARS subModeCh ;; ret (st, ch)
      else if subModeCh =? PAL then ret (set_subMode st ALPHA, 0)
      else if subModeCh =? MODE_SHIFT_TO_BYTE_COMPACTION_MODE
           then append_escaped byteCompactionData i st
      else if subModeCh =? TEXT_COMPACTION_MODE_LATCH
           then ret (set_subMode st ALPHA, 0)
      else ret (st, 0)
  end.

(** One iteration of [while (i < length)]: the entry at [i]. *)
Definition DecodeTextCompaction_step (textCompactionData byteCompactionData : vec)
    (i : Z) (st : TextDecodeState) : M TextDecodeState :=
  subModeCh <- vget textCompactionData i ;;
  ' (st', ch) <- DecodeTextCompaction_switch byteCompactionData i subModeCh st ;;
  ret (if ch =? 0 then st' else append_char st' ch).

(** [i] runs from [0] to [length - 1], one step each. *)
Definition DecodeTextCompaction (textCompactionData byteCompactionData : vec)
    (length : Z) (result : String) : M String :=
  st <- for_range (Z.to_nat length) 0
          (DecodeTextCompaction_step textCompactionData byteCompactionData)
          (mkTextDecodeState ALPHA ALPHA result) ;;
  ret (decoded st).

(** ** Text Compaction: collecting the codewords ([TextCompaction]) *)

Record TextState : Type := mkTextState {
  t_codeIndex : Z;
  t_index : Z;
  t_end : bool;
  textCompactionData : vec;
  byteCompactionData : vec
}.

(** The codewords at which a sub-decoder hands the cursor back. *)
Definition text_stop (code : Z) : bool :=
  (code =? BYTE_COMPACTION_MODE_LATCH)
  || (code =? BYTE_COMPACTION_MODE_LATCH_6)
  || (code =? NUMERIC_COMPACTION_MODE_LATCH)
  || (code =? BEGIN_MACRO_PDF417_CONTROL_BLOCK)
  || (code =? BEGIN_MACRO_PDF417_OPTIONAL_FIELD)
  || (code =? MACRO_PDF417_TERMINATOR).

Definition TextCompaction_cond (codewords : list Z) (st : TextState) : M bool :=
  count <- rd codewords 0 ;;
  ret ((t_codeIndex st <? count) && negb (t_end st)).

Definition TextCompaction_body (codewords : list Z) (st : TextState)
    : M TextState :=
  code <- rd codewords (t_codeIndex st) ;;
  let codeIndex := t_codeIndex st + 1 in
  let index := t_index st in
  if code <? TEXT_COMPACTION_MODE_LATCH then
    tcd <- vset (textCompactionData st) index (Z.quot code 30) ;;
    tcd <- vset tcd (index + 1) (Z.rem code 30) ;;
    ret (mkTextState codeIndex (index + 2) (t_end st) tcd
           (byteCompactionData st))
  else if code =? TEXT_COMPACTION_MODE_LATCH then
    (* reinitialize text compaction mode to alpha sub mode *)
    tcd <- vset (textCompactionData st) index TEXT_COMPACTION_MODE_LATCH ;;
    ret (mkTextState codeIndex (index + 1) (t_end st) tcd
           (byteCompactionData st))
  else if text_stop code then
    ret (mkTextState (codeIndex - 1) index true (textCompactionData st)
           (byteCompactionData st))
  else if code =? MODE_SHIFT_TO_BYTE_COMPACTION_MODE then
    tcd <- vset (textCompactionData st) index
             MODE_SHIFT_TO_BYTE_COMPACTION_MODE ;;
    code <- rd codewords codeIndex ;;
    let codeIndex := codeIndex + 1 in
    bcd <- vset (byteCompactionData st) index code ;;
    ret (mkTextState codeIndex (index + 1) (t_end st) tcd bcd)
  else
    ret (mkTextState codeIndex index (t_end st) (textCompactionData st)
           (byteCompactionData st)).

(** The fuel of a loop that stops at the declared count [codewords[0]]. *)
Definition fuel_from (codewords : list Z) (codeIndex : Z) : nat :=
  Datatypes.S (Z.to_nat (item codewords 0 - codeIndex)).

(** The sizes of the two buffers are computed here without a bound; they
    are those of the source, which computes them in [int], as long as
    [(codewords[0] - codeIndex) * 2] is within [int]. *)
Definition TextCompaction (codewords : list Z) (codeIndex : Z)
    (result : String) : M (Z * String) :=
  count <- rd codewords 0 ;;
  tcd <- vnew ((count - codeIndex) * 2) ;;
  count <- rd codewords 0 ;;
  bcd <- vnew ((count - codeIndex) * 2) ;;
  st <- while (fuel_from codewords codeIndex)
          (TextCompaction_cond codewords) (TextCompaction_body codewords)
          (mkTextState codeIndex 0 false tcd bcd) ;;
  result <- DecodeTextCompaction (textCompactionData st)
              (byteCompactionData st) (t_index st) result ;;
  ret (t_codeIndex st, result).

(** ** Byte Compaction ([ByteCompaction]) *)

Definition byte_stop (code : Z) : bool :=
  (code =? TEXT_COMPACTION_MODE_LATCH)
  || (code =? BYTE_COMPACTION_MODE_LATCH)
  || (code =? NUMERIC_COMPACTION_MODE_LATCH)
  || (code =? BYTE_COMPACTION_MODE_LATCH_6)
  || (code =? BEGIN_MACRO_PDF417_CONTROL_BLOCK)
  || (code =? BEGIN_MACRO_PDF417_OPTIONAL_FIELD)
  || (code =? MACRO_PDF417_TERMINATOR).

(** [for (j = 0; j < 6; ++j) push_back((uint8_t)(value >> (8 * (5 - j))))] *)
Definition sextet (value : Z) : list Z :=
  map (fun j => to_byte (Z.shiftr value (8 * (5 - j)))) [0; 1; 2; 3; 4; 5].

(** [value = 900 * value + code;] on the [long] accumulator. *)
Definition base900_add (value code : Z) : Z := wrap64 (900 * value + code).

(** [(count % 5 == 0) && (count > 0)] *)
Definition group_full (count : Z) : bool :=
  (Z.rem count 5 =? 0) && (count >? 0).

Record ByteState : Type := mkByteState {
  b_codeIndex : Z;
  b_count : Z;
  b_value : Z;
  byteCompactedCodewords : vec;
  b_end : bool;
  nextCode : Z;
  decodedBytes : list Z
}.

Definition ByteCompaction_cond (codewords : list Z) (st : ByteState) : M bool :=
  count <- rd codewords 0 ;;
  ret ((b_codeIndex st <? count) && negb (b_end st)).

(** The loop body of the branch [mode == BYTE_COMPACTION_MODE_LATCH]. *)
Definition ByteCompaction_body (codewords : list Z) (st : ByteState)
    : M ByteState :=
  bcc <- vset (byteCompactedCodewords st) (b_count st) (nextCode st) ;;
  let count := b_count st + 1 in
  (* Base 900 *)
  let value := base900_add (b_value st) (nextCode st) in
  next <- rd codewords (b_codeIndex st) ;;
  let codeIndex := b_codeIndex st + 1 in
  if byte_stop next then
    ret (mkByteState (codeIndex - 1) count value bcc true next
           (decodedBytes st))
  else if group_full count then
    (* Decode every 5 codewords, convert to Base 256 *)
    ret (mkByteState codeIndex 0 0 bcc (b_end st) next
           (decodedBytes st ++ sextet value))
  else
    ret (mkByteState codeIndex count value bcc (b_end st) next
           (decodedBytes st)).

(** [for (i = 0; i < count; i++) push_back((uint8_t)byteCompactedCodewords[i])] *)
Definition push_raw (bcc : vec) (i : Z) (bytes : list Z) : M (list Z) :=
  c <- vget bcc i ;;
  ret (bytes ++ [to_byte c]).

(** The statements after the loop of the branch
    [mode == BYTE_COMPACTION_MODE_LATCH]. *)
Definition ByteCompaction_tail (codewords : list Z) (st : ByteState)
    : M (Z * list Z) :=
  (* if the end of all codewords is reached the last codeword needs to be
     added *)
  count <- rd codewords 0 ;;
  ' (bcc, cnt) <-
    (if (b_codeIndex st =? count)
        && (nextCode st <? TEXT_COMPACTION_MODE_LATCH)
     then bcc <- vset (byteCompactedCodewords st) (b_count st) (nextCode st) ;;
          ret (bcc, b_count st + 1)
     else ret (byteCompactedCodewords st, b_count st)) ;;
  (* the last group of codewords is interpreted directly as one byte per
     codeword, without compaction *)
  bytes <- for_range (Z.to_nat cnt) 0 (push_raw bcc) (decodedBytes st) ;;
  ret (b_codeIndex st, bytes).

Definition ByteCompaction_901 (codewords : list Z) (codeIndex : Z)
    : M (Z * list Z) :=
  next <- rd codewords codeIndex ;;
  let codeIndex := codeIndex + 1 in
  st <- while (fuel_from codewords codeIndex)
          (ByteCompaction_cond codewords) (ByteCompaction_body codewords)
          (mkByteState codeIndex 0 0 [0; 0; 0; 0; 0; 0] false next []) ;;
  ByteCompaction_tail codewords st.

Record Byte6State : Type := mkByte6State {
  s_codeIndex : Z;
  s_count : Z;
  s_value : Z;
  s_end : bool;
  s_decodedBytes : list Z
}.

Definition ByteCompaction6_cond (codewords : list Z) (st : Byte6State)
    : M bool :=
  count <- rd codewords 0 ;;
  ret ((s_codeIndex st <? count) && negb (s_end st)).

(** The loop body of the branch [mode == BYTE_COMPACTION_MODE_LATCH_6]. *)
Definition ByteCompaction6_body (codewords : list Z) (st : Byte6State)
    : M Byte6State :=
  code <- rd codewords (s_codeIndex st) ;;
  let codeIndex := s_codeIndex st + 1 in
  let st1 :=
    if code <? TEXT_COMPACTION_MODE_LATCH then
      mkByte6State codeIndex (s_count st + 1)
        (base900_add (s_value st) code) (s_end st) (s_decodedBytes st)
    else if byte_stop code then
      mkByte6State (codeIndex - 1) (s_count st) (s_value st) true
        (s_decodedBytes st)
    else
      mkByte6State codeIndex (s_count st) (s_value st) (s_end st)
        (s_decodedBytes st) in
  if group_full (s_count st1) then
    ret (mkByte6State (s_codeIndex st1) 0 0 (s_end st1)
           (s_decodedBytes st1 ++ sextet (s_value st1)))
  else ret st1.

Definition ByteCompaction_924 (codewords : list Z) (codeIndex : Z)
    : M (Z * list Z) :=
  st <- while (fuel_from codewords codeIndex)
          (ByteCompaction6_cond codewords) (ByteCompaction6_body codewords)
          (mkByte6State codeIndex 0 0 false []) ;;
  ret (s_codeIndex st, s_decodedBytes st).

(** The cursor returned and the content of [decodedBytes] at the end. *)
Definition ByteCompaction_bytes (mode : Z) (codewords : list Z) (codeIndex : Z)
    : M (Z * list Z) :=
  if mode =? BYTE_COMPACTION_MODE_LATCH then
    ByteCompaction_901 codewords codeIndex
  else if mode =? BYTE_COMPACTION_MODE_LATCH_6 then
    ByteCompaction_924 codewords codeIndex
  else ret (codeIndex, []).

(** ** Numeric Compaction ([DecodeBase900toBase10], [NumericCompaction]) *)

(** [result = result + (EXP900()[count - i - 1] * codewords[i]);] *)
Definition base900_step (codewords : vec) (count : Z) (i : Z)
    (result : BigInteger) : M BigInteger :=
  e <- vget EXP900 (count - i - 1) ;;
  c <- vget codewords i ;;
  ret (result + e * c).

(** The status and the content of [resultString] at the end. *)
Definition DecodeBase900toBase10 (codewords : vec) (count : Z)
    : M (ErrorStatus * string) :=
  result <- for_range (Z.to_nat count) 0 (base900_step codewords count) 0 ;;
  let resultString := toString result in
  match resultString with
  | String.String c rest =>
      if Ascii.eqb c "1"%char then ret (NoError, rest)
      else ret (FormatError, resultString)
  | EmptyString => ret (FormatError, resultString)
  end.

Definition numeric_stop (code : Z) : bool :=
  (code =? TEXT_COMPACTION_MODE_LATCH)
  || (code =? BYTE_COMPACTION_MODE_LATCH)
  || (code =? BYTE_COMPACTION_MODE_LATCH_6)
  || (code =? BEGIN_MACRO_PDF417_CONTROL_BLOCK)
  || (code =? BEGIN_MACRO_PDF417_OPTIONAL_FIELD)
  || (code =? MACRO_PDF417_TERMINATOR).

(** [n_status] becomes an error when the loop body executes
    [return status;]: the loop is then left without evaluating its
    condition again. *)
Record NumericState : Type := mkNumericState {
  n_codeIndex : Z;
  n_count : Z;
  n_end : bool;
  numericCodewords : vec;
  n_result : String;
  n_status : ErrorStatus
}.

Definition NumericCompaction_cond (codewords : list Z) (st : NumericState)
    : M bool :=
  if StatusIsError (n_status st) then ret false
  else
    count <- rd codewords 0 ;;
    ret ((n_codeIndex st <? count) && negb (n_end st)).

(** The block under
    [if (count % MAX_NUMERIC_CODEWORDS == 0 || code == 902 || end)]:
    a group with [count > 0] codewords is converted and appended. *)
Definition NumericCompaction_flush (st : NumericState) : M NumericState :=
  if n_count st >? 0 then
    ' (status, tmp) <- DecodeBase900toBase10 (numericCodewords st) (n_count st) ;;
    if StatusIsError status then
      ret (mkNumericState (n_codeIndex st) (n_count st) (n_end st)
             (numericCodewords st) (n_result st) status)
    else
      ret (mkNumericState (n_codeIndex st) 0 (n_end st)
             (numericCodewords st) (appendUtf8_str (n_result st) tmp)
             (n_status st))
  else ret st.

Definition NumericCompaction_body (codewords : list Z) (st : NumericState)
    : M NumericState :=
  code <- rd codewords (n_codeIndex st) ;;
  let codeIndex := n_codeIndex st + 1 in
  count0 <- rd codewords 0 ;;
  let end_ := if codeIndex =? count0 then true else n_end st in
  st1 <-
    (if code <? TEXT_COMPACTION_MODE_LATCH then
       nc <- vset (numericCodewords st) (n_count st) code ;;
       ret (mkNumericState codeIndex (n_count st + 1) end_ nc (n_result st)
              (n_status st))
     else if numeric_stop code then
       ret (mkNumericState (codeIndex - 1) (n_count st) true
              (numericCodewords st) (n_result st) (n_status st))
     else
       ret (mkNumericState codeIndex (n_count st) end_
              (numericCodewords st) (n_result st) (n_status st))) ;;
  if (Z.rem (n_count st1) MAX_NUMERIC_CODEWORDS =? 0)
     || (code =? NUMERIC_COMPACTION_MODE_LATCH) || n_end st1
  then NumericCompaction_flush st1
  else ret st1.

(** What [NumericCompaction] hands back from the state its loop ends in:
    the status, the text and the content of [next], which is assigned only
    on success. *)
Definition NumericCompaction_return (st : NumericState) (next : Z)
    : ErrorStatus * String * Z :=
  if StatusIsError (n_status st) then (n_status st, n_result st, next)
  else (NoError, n_result st, n_codeIndex st).

Definition NumericCompaction (codewords : list Z) (codeIndex : Z)
    (result : String) (next : Z) : M (ErrorStatus * String * Z) :=
  nc <- vnew MAX_NUMERIC_CODEWORDS ;;
  st <- while (fuel_from codewords codeIndex)
          (NumericCompaction_cond codewords) (NumericCompaction_body codewords)
          (mkNumericState codeIndex 0 false nc result NoError) ;;
  ret (NumericCompaction_return st next).

(** ** Macro PDF417 control block ([DecodeMacroBlock]) *)

(** The fields of [DecoderResultExtra] that the decoder sets. *)
Record DecoderResultExtra : Type := mkExtra {
  segmentIndex : Z;
  fileId : String;
  lastSegment : bool;
  optionalData : list Z
}.

Definition setSegmentIndex (m : DecoderResultExtra) (n : Z) :=
  mkExtra n (fileId m) (lastSegment m) (optionalData m).
Definition setFileId (m : DecoderResultExtra) (s : String) :=
  mkExtra (segmentIndex m) s (lastSegment m) (optionalData m).
Definition setLastSegment (m : DecoderResultExtra) (b : bool) :=
  mkExtra (segmentIndex m) (fileId m) b (optionalData m).
Definition setOptionalData (m : DecoderResultExtra) (d : list Z) :=
  mkExtra (segmentIndex m) (fileId m) (lastSegment m) d.

(** [segmentIndexArray[i] = codewords[codeIndex]], with [codeIndex++]. *)
Definition copy_segment_index (codewords : list Z) (i : Z) (acc : vec * Z)
    : M (vec * Z) :=
  let (segmentIndexArray, codeIndex) := acc in
  c <- rd codewords codeIndex ;;
  v <- vset segmentIndexArray i c ;;
  ret (v, codeIndex + 1).

(** [o_status] becomes an error when the loop body executes
    [return ErrorStatus::FormatError;]. *)
Record OptionalState : Type := mkOptionalState {
  o_codeIndex : Z;
  o_end : bool;
  additionalOptionCodeWords : list Z;
  o_metadata : DecoderResultExtra;
  o_status : ErrorStatus
}.

Definition Optional_cond (codewords : list Z) (st : OptionalState) : M bool :=
  if StatusIsError (o_status st) then ret false
  else
    count <- rd codewords 0 ;;
    ret ((o_codeIndex st <? count) && negb (o_end st)).

Definition Optional_body (codewords : list Z) (st : OptionalState)
    : M OptionalState :=
  code <- rd codewords (o_codeIndex st) ;;
  let codeIndex := o_codeIndex st + 1 in
  if code <? TEXT_COMPACTION_MODE_LATCH then
    ret (mkOptionalState codeIndex (o_end st)
           (additionalOptionCodeWords st ++ [code]) (o_metadata st)
           (o_status st))
  else if code =? MACRO_PDF417_TERMINATOR then
    ret (mkOptionalState (codeIndex + 1) true (additionalOptionCodeWords st)
           (setLastSegment (o_metadata st) true) (o_status st))
  else
    ret (mkOptionalState codeIndex (o_end st) (additionalOptionCodeWords st)
           (o_metadata st) FormatError).

(** The status, the metadata and the content of [next] at the end; [next]
    is assigned only on success. *)
Definition DecodeMacroBlock (codewords : list Z) (codeIndex : Z)
    (resultMetadata : DecoderResultExtra) (next : Z)
    : M (ErrorStatus * DecoderResultExtra * Z) :=
  count <- rd codewords 0 ;;
  if codeIndex + NUMBER_OF_SEQUENCE_CODEWORDS >? count then
    (* we must have at least two bytes left for the segment index *)
    ret (FormatError, resultMetadata, next)
  else
    segmentIndexArray <- vnew NUMBER_OF_SEQUENCE_CODEWORDS ;;
    ' (segmentIndexArray, codeIndex) <-
      for_range (Z.to_nat NUMBER_OF_SEQUENCE_CODEWORDS) 0
        (copy_segment_index codewords) (segmentIndexArray, codeIndex) ;;
    ' (status, strBuf) <-
      DecodeBase900toBase10 segmentIndexArray NUMBER_OF_SEQUENCE_CODEWORDS ;;
    if StatusIsError status then ret (status, resultMetadata, next)
    else
      n <- stoi strBuf ;;
      let resultMetadata := setSegmentIndex resultMetadata n in
      ' (codeIndex, fileId) <- TextCompaction codewords codeIndex [] ;;
      let resultMetadata := setFileId resultMetadata fileId in
      c <- rd codewords codeIndex ;;
      if c =? BEGIN_MACRO_PDF417_OPTIONAL_FIELD then
        let codeIndex := codeIndex + 1 in
        count <- rd codewords 0 ;;
        if count - codeIndex <? 0 then stuck LengthError
        else
          st <- while (fuel_from codewords codeIndex)
                  (Optional_cond codewords) (Optional_body codewords)
                  (mkOptionalState codeIndex false [] resultMetadata NoError) ;;
          if StatusIsError (o_status st) then
            ret (o_status st, o_metadata st, next)
          else
            ret (NoError,
                 setOptionalData (o_metadata st) (additionalOptionCodeWords st),
                 o_codeIndex st)
      else
        c <- rd codewords codeIndex ;;
        if c =? MACRO_PDF417_TERMINATOR then
          ret (NoError, setLastSegment resultMetadata true, codeIndex + 1)
        else ret (NoError, resultMetadata, codeIndex).

(** ** The dispatcher ([DecodedBitStreamParser::Decode]) *)

Section Dispatcher.

(** The collaborators of the decoder, declared in headers that are not
    part of the sources at hand: the enumeration [CharacterSet] with its
    member [ISO8859_1], [CharacterSetECI::CharsetFromValue], the
    transcoder [StringCodecs::toUnicode] and the value of a
    default-constructed [DecoderResultExtra]. *)
Variable CharacterSet : Type.
Variable ISO8859_1 : CharacterSet.
Variable CharsetFromValue : Z -> CharacterSet.
Variable toUnicode : list Z -> CharacterSet -> String.
Variable newExtra : DecoderResultExtra.

Definition DEFAULT_ENCODING : CharacterSet := ISO8859_1.

Definition ByteCompaction (mode : Z) (codewords : list Z)
    (encoding : CharacterSet) (codeIndex : Z) (result : String)
    : M (Z * String) :=
  ' (codeIndex, decodedBytes) <- ByteCompaction_bytes mode codewords codeIndex ;;
  ret (codeIndex, result ++ toUnicode decodedBytes encoding).

Record DecoderResult : Type := mkDecoderResult {
  text : String;
  ecLevel : string;
  extra : DecoderResultExtra
}.

Record DecodeState : Type := mkDecodeState {
  codeIndex : Z;
  code : Z;
  status : ErrorStatus;
  encoding : CharacterSet;
  resultString : String;
  resultMetadata : DecoderResultExtra
}.

Definition Decode_cond (codewords : list Z) (st : DecodeState) : M bool :=
  count <- rd codewords 0 ;;
  ret ((codeIndex st <? count) && negb (StatusIsError (status st))).

(** The [switch (code)] of the loop body. *)
Definition Decode_switch (codewords : list Z) (st : DecodeState)
    : M DecodeState :=
  let c := code st in
  if c =? TEXT_COMPACTION_MODE_LATCH then
    ' (ci, r) <- TextCompaction codewords (codeIndex st) (resultString st) ;;
    ret (mkDecodeState ci c (status st) (encoding st) r (resultMetadata st))
  else if (c =? BYTE_COMPACTION_MODE_LATCH)
          || (c =? BYTE_COMPACTION_MODE_LATCH_6) then
    ' (ci, r) <- ByteCompaction c codewords (encoding st) (codeIndex st)
                   (resultString st) ;;
    ret (mkDecodeState ci c (status st) (encoding st) r (resultMetadata st))
  else if c =? MODE_SHIFT_TO_BYTE_COMPACTION_MODE then
    b <- rd codewords (codeIndex st) ;;
    ret (mkDecodeState (codeIndex st + 1) c (status st) (encoding st)
           (appendUtf8 (resultString st) (to_byte b)) (resultMetadata st))
  else if c =? NUMERIC_COMPACTION_MODE_LATCH then
    ' (s, r, ci) <- NumericCompaction codewords (codeIndex st)
                      (resultString st) (codeIndex st) ;;
    ret (mkDecodeState ci c s (encoding st) r (resultMetadata st))
  else if c =? ECI_CHARSET then
    v <- rd codewords (codeIndex st) ;;
    ret (mkDecodeState (codeIndex st + 1) c (status st)
           (CharsetFromValue v) (resultString st) (resultMetadata st))
  else if c =? ECI_GENERAL_PURPOSE then
    (* Can't do anything with generic ECI; skip its 2 characters *)
    ret (mkDecodeState (codeIndex st + 2) c (status st) (encoding st)
           (resultString st) (resultMetadata st))
  else if c =? ECI_USER_DEFINED then
    (* Can't do anything with user ECI; skip its 1 character *)
    ret (mkDecodeState (codeIndex st + 1) c (status st) (encoding st)
           (resultString st) (resultMetadata st))
  else if c =? BEGIN_MACRO_PDF417_CONTROL_BLOCK then
    ' (s, m, ci) <- DecodeMacroBlock codewords (codeIndex st)
                      (resultMetadata st) (codeIndex st) ;;
    ret (mkDecodeState ci c s (encoding st) (resultString st) m)
  else if (c =? BEGIN_MACRO_PDF417_OPTIONAL_FIELD)
          || (c =? MACRO_PDF417_TERMINATOR) then
    (* Should not see these outside a macro block *)
    ret (mkDecodeState (codeIndex st) c FormatError (encoding st)
           (resultString st) (resultMetadata st))
  else
    (* Default to text compaction *)
    ' (ci, r) <- TextCompaction codewords (codeIndex st - 1)
                   (resultString st) ;;
    ret (mkDecodeState ci c (status st) (encoding st) r (resultMetadata st)).

(** [if (codeIndex < (int)codewords.size()) code = codewords[codeIndex++];
    else status = ErrorStatus::FormatError;] *)
Definition Decode_fetch (codewords : list Z) (st : DecodeState)
    : M DecodeState :=
  if codeIndex st <? Z.of_nat (List.length codewords) then
    c <- rd codewords (codeIndex st) ;;
    ret (mkDecodeState (codeIndex st + 1) c (status st) (encoding st)
           (resultString st) (resultMetadata st))
  else
    ret (mkDecodeState (codeIndex st) (code st) FormatError (encoding st)
           (resultString st) (resultMetadata st)).

Definition Decode_body (codewords : list Z) (st : DecodeState)
    : M DecodeState :=
  st' <- Decode_switch codewords st ;;
  Decode_fetch codewords st'.

(** The statements after the loop: the status returned and the content
    of [result], which is assigned only on success. *)
Definition Decode_finish (ecLevel : Z) (result : DecoderResult)
    (st : DecodeState) : ErrorStatus * DecoderResult :=
  let status := if empty (resultString st) then FormatError else status st in
  if StatusIsOK status then
    (status,
     mkDecoderResult (resultString st) (to_string ecLevel)
       (resultMetadata st))
  else (status, result).

(** The rest of a decode from a state at the head of the loop: the
    remaining iterations and the statements after the loop. *)
Definition Decode_from (fuel : nat) (codewords : list Z) (ecLevel : Z)
    (result : DecoderResult) (st : DecodeState)
    : M (ErrorStatus * DecoderResult) :=
  st' <- while fuel (Decode_cond codewords) (Decode_body codewords) st ;;
  ret (Decode_finish ecLevel result st').

Definition Decode (codewords : list Z) (ecLevel : Z) (result : DecoderResult)
    : M (ErrorStatus * DecoderResult) :=
  c <- rd codewords 1 ;;
  Decode_from (fuel_from codewords 2) codewords ecLevel result
    (mkDecodeState 2 c NoError DEFAULT_ENCODING [] newExtra).

(** The control code is the codeword before the cursor, unless the status
    is an error. *)
Definition code_before_cursor (cw : list Z) (st : DecodeState) : Prop :=
  status st = FormatError \/ code st = item cw (codeIndex st - 1).

End Dispatcher.

(** A sample of collaborators: a character set is its ECI number, the
    transcoder is the identity on bytes. *)
Module Sample.
Definition CharacterSet : Type := Z.
Definition ISO8859_1 : CharacterSet := 3.
Definition CharsetFromValue (v : Z) : CharacterSet := v.
Definition toUnicode (bytes : list Z) (_ : CharacterSet) : String := bytes.
Definition newExtra : DecoderResultExtra := mkExtra (-1) [] false [].
Definition noResult : DecoderResult := mkDecoderResult [] EmptyString newExtra.
Definition run (codewords : list Z) (ecLevel : Z)
    : M (ErrorStatus * DecoderResult) :=
  Decode ISO8859_1 CharsetFromValue toUnicode newExtra codewords ecLevel
    noResult.
End Sample.

(** ** Definitions used in the statements *)

(** The codewords [ds] are in the stream from index [i] on. *)
Definition codewords_at (cw : list Z) (i : Z) (ds : list Z) : Prop :=
  0 <= i /\ firstn (List.length ds) (skipn (Z.to_nat i) cw) = ds.

(** A run of codewords ends at index [q]: that is the declared count, or
    the codeword there is one at which Byte Compaction stops. *)
Definition run_ends (cw : list Z) (q : Z) : Prop :=
  q = item cw 0 \/
  (q < item cw 0 /\ 0 <= q < Z.of_nat (List.length cw)
   /\ byte_stop (item cw q) = true).

(** The bytes of a run of data codewords under the latch 901: five
    codewords that are followed by another codeword of the run give the six
    bytes of their base 900 value; the last one to five codewords give one
    byte each. *)
Fixpoint bytes901 (ds : list Z) : list Z :=
  match ds with
  | c1 :: c2 :: c3 :: c4 :: c5 :: ((_ :: _) as rest) =>
      sextet (fold_left base900_add [c1; c2; c3; c4; c5] 0) ++ bytes901 rest
  | _ => map to_byte ds
  end.

(** The sum of [digits[i] * 900 ^ (count - i - 1)] over a group of [count]
    codewords. *)
Fixpoint sum900 (digits : list Z) : Z :=
  match digits with
  | [] => 0
  | d :: ds => d * 900 ^ Z.of_nat (List.length ds) + sum900 ds
  end.

(** The sentinel check on a decimal string: the string without its leading
    [1], or nothing when it does not begin with [1]. *)
Definition strip_sentinel (s : string) : option string :=
  match s with
  | String.String c rest => if Ascii.eqb c "1"%char then Some rest else None
  | EmptyString => None
  end.

(** A run of numeric codewords ends at index [q]: that is the declared
    count, or the codeword there is one at which Numeric Compaction stops. *)
Definition numeric_run_ends (cw : list Z) (q : Z) : Prop :=
  q = item cw 0 \/
  (q < item cw 0 /\ 0 <= q < Z.of_nat (List.length cw)
   /\ numeric_stop (item cw q) = true).

(** The sub-mode that is in force once a shift is over. *)
Definition persistent_mode (st : TextDecodeState) : Mode :=
  match subMode st with
  | ALPHA_SHIFT | PUNCT_SHIFT => priorToShiftMode st
  | m => m
  end.

(** A transcoder under which no byte is its own code point: it tells a
    transcoded byte from a byte appended as it is. *)
Module Shifted.
Definition toUnicode (bytes : list Z) (_ : Sample.CharacterSet) : String :=
  map (Z.add 1000) bytes.
End Shifted.

(** The measure of the loops that run up to the declared count. *)
Definition remaining (cw : list Z) (codeIndex : Z) (stop : bool) : nat :=
  if stop then 0%nat else Z.to_nat (item cw 0 - codeIndex).
(** ** Definitions used in the statements on text *)

(** The character of a value of the Alpha sub-mode: a capital letter, or
    the space for 26. *)
Definition alpha_char (v : Z) : Z := if v =? 26 then 32 else 65 + v.

(** The characters that the comment on [DecodeTextCompaction] lists: the
    printable ASCII characters (32 to 126), HT (9), LF (10) and CR (13). *)
Definition text_char (c : Z) : Prop :=
  32 <= c <= 126 \/ c = 9 \/ c = 10 \/ c = 13.

(** The two entries that [TextCompaction] stores for a data codeword. *)
Definition text_pair (code : Z) : list Z := [Z.quot code 30; Z.rem code 30].

(** A run of text codewords ends at index [q]: that is the declared count,
    or the codeword there is one at which Text Compaction stops. *)
Definition text_run_ends (cw : list Z) (q : Z) : Prop :=
  q = item cw 0 \/
  (q < item cw 0 /\ 0 <= q < Z.of_nat (List.length cw)
   /\ text_stop (item cw q) = true).

(** The codeword that holds two values of a sub-mode, and the two capital
    letters (or spaces) of a pair of values of the Alpha sub-mode. *)
Definition pair_codeword (p : Z * Z) : Z := 30 * fst p + snd p.

Definition alpha_pair (p : Z * Z) : list Z :=
  [alpha_char (fst p); alpha_char (snd p)].

(** The bytes of a run of data codewords under the latch 924: every five
    codewords give the six bytes of their base 900 value, and the
    codewords left over at the end, fewer than five, give nothing. *)
Fixpoint bytes924 (ds : list Z) : list Z :=
  match ds with
  | c1 :: c2 :: c3 :: c4 :: c5 :: rest =>
      sextet (fold_left base900_add [c1; c2; c3; c4; c5] 0) ++ bytes924 rest
  | _ => []
  end.

(** The five base 900 digits and the six base 256 digits of a number, the
    most significant first. *)
Definition digits900 (n : Z) : list Z :=
  [n / 900 ^ 4 mod 900; n / 900 ^ 3 mod 900; n / 900 ^ 2 mod 900;
   n / 900 mod 900; n mod 900].

Definition bytes256 (n : Z) : list Z :=
  [n / 256 ^ 5 mod 256; n / 256 ^ 4 mod 256; n / 256 ^ 3 mod 256;
   n / 256 ^ 2 mod 256; n / 256 mod 256; n mod 256].

(** The ASCII codes of the decimal digits. *)
Definition ascii_digit (c : Z) : Prop := 48 <= c <= 57.

(** The text of a group of numeric codewords: the decimal string of its
    base 900 value without the leading [1], or nothing when the string
    does not begin with [1]. *)
Definition numeric_text (g : list Z) : option string :=
  strip_sentinel (toString (sum900 g)).

(** The text of groups of numeric codewords one after the other, up to the
    first group that has no text. *)
Fixpoint groups_text (gs : list (list Z)) (r : String)
    : ErrorStatus * String :=
  match gs with
  | [] => (NoError, r)
  | g :: gs' =>
      match numeric_text g with
      | Some t => groups_text gs' (appendUtf8_str r t)
      | None => (FormatError, r)
      end
  end.

(** What [NumericCompaction] hands back for such groups: on an error the
    text so far, and [next] as it was. *)
Definition groups_return (gs : list (list Z)) (r : String) (next last : Z)
    : ErrorStatus * String * Z :=
  match groups_text gs r with
  | (NoError, r') => (NoError, r', last)
  | (FormatError, r') => (FormatError, r', next)
  end.

(** Groups with the Numeric latch 902 between them. *)
Fixpoint join_latched (gs : list (list Z)) : list Z :=
  match gs with
  | [] => []
  | g :: gs' =>
      match gs' with
      | [] => g
      | _ :: _ => g ++ NUMERIC_COMPACTION_MODE_LATCH :: join_latched gs'
      end
  end.

(** A transcoder that puts the number of the character set in front of the
    bytes: it shows which character set a run of bytes was read in. *)
Module Tagged.
Definition toUnicode (bytes : list Z) (enc : Sample.CharacterSet) : String :=
  enc :: bytes.
End Tagged.


(** One more codeword is within reach of an iteration on the control
    codeword 928 than of the others. *)
Definition macro_reach (c : Z) : Z :=
  if c =? BEGIN_MACRO_PDF417_CONTROL_BLOCK then 1 else 0.

(** What the loop of the dispatcher keeps: the cursor is after the first
    control codeword while the status is fine, and the reach of the control
    codeword is within [k]. *)
Definition reach_inv (CharacterSet : Type) (k : Z)
    (st : DecodeState CharacterSet) : Prop :=
  1 <= codeIndex st /\
  (status st = NoError -> 2 <= codeIndex st) /\
  macro_reach (code st) <= k.

(** * Properties *)

Arguments wrap64 : simpl never.
Arguments base900_add : simpl never.
Arguments sextet : simpl never.
Arguments to_byte : simpl never.

(** ** The monad *)

Lemma bind_ret (A B : Type) (a : A) (k : A -> M B) : bind (ret a) k = k a.
Proof. unfold bind, ret. destruct (k a). reflexivity. Qed.

Lemma bind_stuck (A B : Type) (f : fault) (k : A -> M B) :
  bind (stuck f) k = stuck f.
Proof. reflexivity. Qed.

Lemma result_bind (A B : Type) (m : M A) (k : A -> M B) :
  result_of (bind m k) =
  match result_of m with
  | Ret a => result_of (k a)
  | Stuck f => Stuck f
  end.
Proof.
  destruct m as [t [a | f]]; simpl; [destruct (k a) |]; reflexivity.
Qed.

Lemma reads_bind (A B : Type) (m : M A) (k : A -> M B) :
  reads (bind m k) =
  match result_of m with
  | Ret a => reads m ++ reads (k a)
  | Stuck _ => reads m
  end.
Proof.
  destruct m as [t [a | f]]; simpl; [destruct (k a) |]; reflexivity.
Qed.

Lemma bind_Ret (A B : Type) (m : M A) (k : A -> M B) (t : trace) (a : A) :
  m = (t, Ret a) -> bind m k = (t ++ reads (k a), result_of (k a)).
Proof. intros ->. simpl. destruct (k a). reflexivity. Qed.

Lemma in_range_spec (v : list Z) (i : Z) :
  in_range v i = true <-> 0 <= i < Z.of_nat (List.length v).
Proof. unfold in_range. rewrite andb_true_iff, Z.leb_le, Z.ltb_lt. tauto. Qed.

Lemma rd_in (cw : list Z) (i : Z) :
  0 <= i < Z.of_nat (List.length cw) ->
  rd cw i = ([i], Ret (item cw i)).
Proof. intros H. unfold rd. apply in_range_spec in H. rewrite H. reflexivity. Qed.

Lemma rd_out (cw : list Z) (i : Z) :
  ~ 0 <= i < Z.of_nat (List.length cw) -> rd cw i = ([i], Stuck OutOfBounds).
Proof.
  intros H. unfold rd. destruct (in_range cw i) eqn:E; [| reflexivity].
  apply in_range_spec in E. contradiction.
Qed.

Lemma rd_reads (cw : list Z) (i : Z) : reads (rd cw i) = [i].
Proof. unfold rd. destruct (in_range cw i); reflexivity. Qed.

Lemma rd_not_fuel (cw : list Z) (i : Z) :
  result_of (rd cw i) <> Stuck OutOfFuel.
Proof. unfold rd. destruct (in_range cw i); simpl; discriminate. Qed.

Lemma rd_Ret (cw : list Z) (i v : Z) :
  result_of (rd cw i) = Ret v ->
  0 <= i < Z.of_nat (List.length cw) /\ v = item cw i.
Proof.
  unfold rd. destruct (in_range cw i) eqn:E; simpl; [| discriminate].
  intros [= <-]. apply in_range_spec in E. auto.
Qed.

(** ** Loops *)

Lemma while_unfold (S : Type) (fuel : nat) (cond : S -> M bool)
    (body : S -> M S) (s : S) :
  while (Datatypes.S fuel) cond body s =
  (b <- cond s ;; if b then s' <- body s ;; while fuel cond body s' else ret s).
Proof. reflexivity. Qed.

Lemma while_step_result (S : Type) (fuel : nat) (cond : S -> M bool)
    (body : S -> M S) (s s' : S) :
  result_of (cond s) = Ret true -> result_of (body s) = Ret s' ->
  result_of (while (Datatypes.S fuel) cond body s)
  = result_of (while fuel cond body s').
Proof.
  intros Hc Hb. rewrite while_unfold, result_bind, Hc, result_bind, Hb.
  reflexivity.
Qed.

Lemma while_exit_result (S : Type) (fuel : nat) (cond : S -> M bool)
    (body : S -> M S) (s : S) :
  result_of (cond s) = Ret false ->
  result_of (while (Datatypes.S fuel) cond body s) = Ret s.
Proof.
  intros Hc. rewrite while_unfold, result_bind, Hc. reflexivity.
Qed.

(** A loop whose body decreases a measure while an invariant holds does not
    run out of fuel when it starts with more fuel than the measure. *)
Lemma while_fuel (S : Type) (cond : S -> M bool) (body : S -> M S)
    (inv : S -> Prop) (measure : S -> nat) :
  (forall s, result_of (cond s) <> Stuck OutOfFuel) ->
  (forall s, inv s -> result_of (body s) <> Stuck OutOfFuel) ->
  (forall s s', inv s -> result_of (cond s) = Ret true ->
     result_of (body s) = Ret s' -> inv s' /\ (measure s' < measure s)%nat) ->
  forall fuel s, inv s -> (measure s < fuel)%nat ->
    result_of (while fuel cond body s) <> Stuck OutOfFuel.
Proof.
  intros Hc Hb Hstep fuel.
  induction fuel as [| fuel IH]; intros s Hinv Hlt; [lia |].
  rewrite while_unfold, result_bind.
  destruct (result_of (cond s)) as [[|] | f] eqn:Ec.
  - rewrite result_bind. destruct (result_of (body s)) as [s' | f] eqn:Eb.
    + destruct (Hstep s s' Hinv Ec Eb) as [Hinv' Hm]. apply IH; [assumption | lia].
    + intros [= ->]. apply (Hb s Hinv). assumption.
  - simpl. discriminate.
  - intros [= ->]. apply (Hc s). assumption.
Qed.

(** A loop invariant holds of the state a loop returns. *)
Lemma while_inv (S : Type) (cond : S -> M bool) (body : S -> M S)
    (inv : S -> Prop) :
  (forall s s', inv s -> result_of (cond s) = Ret true ->
     result_of (body s) = Ret s' -> inv s') ->
  forall fuel s s', inv s ->
    result_of (while fuel cond body s) = Ret s' ->
    inv s' /\ result_of (cond s') = Ret false.
Proof.
  intros Hstep fuel.
  induction fuel as [| fuel IH]; intros s s' Hinv; [discriminate |].
  rewrite while_unfold, result_bind.
  destruct (result_of (cond s)) as [[|] | f] eqn:Ec; [| | discriminate].
  - rewrite result_bind. destruct (result_of (body s)) as [s1 | f] eqn:Eb;
      [| discriminate].
    apply IH. eapply Hstep; eassumption.
  - simpl. intros [= <-]. auto.
Qed.

Lemma for_range_inv (S : Type) (body : Z -> S -> M S) (inv : Z -> S -> Prop) :
  (forall i s s', inv i s -> result_of (body i s) = Ret s' -> inv (i + 1) s') ->
  forall n i s s', inv i s ->
    result_of (for_range n i body s) = Ret s' -> inv (i + Z.of_nat n) s'.
Proof.
  intros Hstep n. induction n as [| n IH]; intros i s s' Hinv.
  - intros [= <-]. replace (i + Z.of_nat 0) with i by lia. assumption.
  - cbn [for_range]. rewrite result_bind.
    destruct (result_of (body i s)) as [s1 | f] eqn:Eb; [| discriminate].
    intros H. apply IH in H; [| eapply Hstep; eassumption].
    replace (i + Z.of_nat (Datatypes.S n)) with (i + 1 + Z.of_nat n) by lia.
    assumption.
Qed.

Lemma for_range_not_fuel (S : Type) (body : Z -> S -> M S) :
  (forall i s, result_of (body i s) <> Stuck OutOfFuel) ->
  forall n i s, result_of (for_range n i body s) <> Stuck OutOfFuel.
Proof.
  intros Hb n. induction n as [| n IH]; intros i s; [simpl; discriminate |].
  cbn [for_range]. rewrite result_bind.
  destruct (result_of (body i s)) as [s1 | f] eqn:Eb; [apply IH |].
  intros [= ->]. apply (Hb i s). assumption.
Qed.

(** ** Byte Compaction *)

Lemma skipn_cons_nth (l : list Z) (n : nat) (x : Z) (r : list Z) :
  skipn n l = x :: r ->
  nth n l 0 = x /\ skipn (Datatypes.S n) l = r /\ (n < List.length l)%nat.
Proof.
  revert l. induction n as [| n IH]; intros l H.
  - destruct l as [| y l]; [discriminate |]. simpl in H. injection H as -> ->.
    simpl. repeat split. lia.
  - destruct l as [| y l]; [discriminate |]. simpl in H.
    destruct (IH l H) as (H1 & H2 & H3). simpl. repeat split; try assumption. lia.
Qed.

Lemma codewords_at_cons (cw : list Z) (i d : Z) (ds : list Z) :
  codewords_at cw i (d :: ds) ->
  rd cw i = ([i], Ret d) /\ codewords_at cw (i + 1) ds.
Proof.
  intros [Hi H]. simpl in H.
  destruct (skipn (Z.to_nat i) cw) as [| x r] eqn:E; [discriminate |].
  injection H as -> H.
  destruct (skipn_cons_nth _ _ E) as (H1 & H2 & H3).
  split.
  - rewrite rd_in by lia. unfold item. rewrite H1. reflexivity.
  - split; [lia |]. replace (Z.to_nat (i + 1)) with (Datatypes.S (Z.to_nat i)) by lia.
    rewrite H2. assumption.
Qed.

Lemma wrap64_small (x : Z) : - 2 ^ 63 <= x < 2 ^ 63 -> wrap64 x = x.
Proof.
  intros H. unfold wrap64. rewrite Z.mod_small; lia.
Qed.

Lemma base900_add_exact (value code : Z) :
  0 <= value < 900 ^ 4 -> 0 <= code < 900 ->
  base900_add value code = 900 * value + code.
Proof.
  intros Hv Hc. unfold base900_add. apply wrap64_small. lia.
Qed.

(** From here on the accumulator update is used through
    [base900_add_exact] only. *)
Opaque base900_add.

Lemma to_byte_range (x : Z) : 0 <= to_byte x < 256.
Proof. unfold to_byte. apply Z.mod_pos_bound. lia. Qed.

(** The six bytes are the base-256 digits of the low 48 bits, the most
    significant first. *)
Lemma sextet_big_endian (value : Z) :
  exists b0 b1 b2 b3 b4 b5,
    sextet value = [b0; b1; b2; b3; b4; b5] /\
    Forall (fun b => 0 <= b < 256) [b0; b1; b2; b3; b4; b5] /\
    b0 * 256 ^ 5 + b1 * 256 ^ 4 + b2 * 256 ^ 3 + b3 * 256 ^ 2 + b4 * 256 + b5
    = value mod 2 ^ 48.
Proof.
  unfold sextet. cbn [map].
  do 6 eexists. split; [reflexivity |]. split.
  - repeat constructor; apply to_byte_range.
  - unfold to_byte. rewrite !Z.shiftr_div_pow2 by lia.
    change (8 * (5 - 0)) with 40. change (8 * (5 - 1)) with 32.
    change (8 * (5 - 2)) with 24. change (8 * (5 - 3)) with 16.
    change (8 * (5 - 4)) with 8. change (8 * (5 - 5)) with 0.
    change (2 ^ 0) with 1. rewrite Z.div_1_r.
    change (2 ^ 48) with (256 * (256 * (256 * (256 * (256 * 256))))).
    rewrite !Z.rem_mul_r by lia.
    rewrite !Z.div_div by lia.
    change (2 ^ 40) with (256 * 256 * 256 * 256 * 256).
    change (2 ^ 32) with (256 * 256 * 256 * 256).
    change (2 ^ 24) with (256 * 256 * 256).
    change (2 ^ 16) with (256 * 256).
    change (2 ^ 8) with 256.
    generalize ((value / (256 * 256 * 256 * 256 * 256)) mod 256),
      ((value / (256 * 256 * 256 * 256)) mod 256),
      ((value / (256 * 256 * 256)) mod 256), ((value / (256 * 256)) mod 256),
      ((value / 256) mod 256), (value mod 256).
    intros. change (256 ^ 5) with 1099511627776.
    change (256 ^ 4) with 4294967296. change (256 ^ 3) with 16777216.
    change (256 ^ 2) with 65536. lia.
Qed.

Lemma ByteCompaction6_body_data (cw : list Z) (st : Byte6State) (d : Z) :
  rd cw (s_codeIndex st) = ([s_codeIndex st], Ret d) -> d < 900 ->
  ByteCompaction6_body cw st =
  ([s_codeIndex st],
   Ret (if group_full (s_count st + 1) then
          mkByte6State (s_codeIndex st + 1) 0 0 (s_end st)
            (s_decodedBytes st ++ sextet (base900_add (s_value st) d))
        else
          mkByte6State (s_codeIndex st + 1) (s_count st + 1)
            (base900_add (s_value st) d) (s_end st) (s_decodedBytes st))).
Proof.
  intros Hrd Hd. unfold ByteCompaction6_body. rewrite Hrd. cbn [bind].
  unfold TEXT_COMPACTION_MODE_LATCH.
  destruct (Z.ltb_spec d 900); [| lia].
  cbn [s_count s_codeIndex s_value s_end s_decodedBytes].
  destruct (group_full (s_count st + 1)); reflexivity.
Qed.

Lemma ByteCompaction_body_data (cw : list Z) (st : ByteState) (d : Z) :
  rd cw (b_codeIndex st) = ([b_codeIndex st], Ret d) -> byte_stop d = false ->
  in_range (byteCompactedCodewords st) (b_count st) = true ->
  ByteCompaction_body cw st =
  ([b_codeIndex st],
   Ret (let bcc := upd (byteCompactedCodewords st) (Z.to_nat (b_count st))
                     (nextCode st) in
        let value := base900_add (b_value st) (nextCode st) in
        if group_full (b_count st + 1) then
          mkByteState (b_codeIndex st + 1) 0 0 bcc (b_end st) d
            (decodedBytes st ++ sextet value)
        else
          mkByteState (b_codeIndex st + 1) (b_count st + 1) value bcc
            (b_end st) d (decodedBytes st))).
Proof.
  intros Hrd Hd Hin. unfold ByteCompaction_body, vset. rewrite Hin, bind_ret.
  rewrite Hrd. cbn [bind]. rewrite Hd.
  destruct (group_full (b_count st + 1)); reflexivity.
Qed.

Lemma ByteCompaction_body_stop (cw : list Z) (st : ByteState) (d : Z) :
  rd cw (b_codeIndex st) = ([b_codeIndex st], Ret d) -> byte_stop d = true ->
  in_range (byteCompactedCodewords st) (b_count st) = true ->
  ByteCompaction_body cw st =
  ([b_codeIndex st],
   Ret (mkByteState (b_codeIndex st) (b_count st + 1)
          (base900_add (b_value st) (nextCode st))
          (upd (byteCompactedCodewords st) (Z.to_nat (b_count st)) (nextCode st))
          true d (decodedBytes st))).
Proof.
  intros Hrd Hd Hin. unfold ByteCompaction_body, vset. rewrite Hin, bind_ret.
  rewrite Hrd. cbn [bind]. rewrite Hd. cbn [ret].
  replace (b_codeIndex st + 1 - 1) with (b_codeIndex st) by lia. reflexivity.
Qed.

Lemma byte_stop_data (d : Z) : d < 900 -> byte_stop d = false.
Proof.
  intros H. unfold byte_stop.
  cbv [TEXT_COMPACTION_MODE_LATCH BYTE_COMPACTION_MODE_LATCH
       NUMERIC_COMPACTION_MODE_LATCH BYTE_COMPACTION_MODE_LATCH_6
       BEGIN_MACRO_PDF417_CONTROL_BLOCK BEGIN_MACRO_PDF417_OPTIONAL_FIELD
       MACRO_PDF417_TERMINATOR].
  repeat (rewrite (proj2 (Z.eqb_neq _ _)) by lia). reflexivity.
Qed.

Lemma base900_group (d1 d2 d3 d4 d5 : Z) :
  Forall (fun d => 0 <= d < 900) [d1; d2; d3; d4; d5] ->
  fold_left base900_add [d1; d2; d3; d4; d5] 0
  = d1 * 900 ^ 4 + d2 * 900 ^ 3 + d3 * 900 ^ 2 + d4 * 900 + d5.
Proof.
  intros H.
  repeat match goal with
         | H : Forall _ (_ :: _) |- _ => inversion H; subst; clear H
         end.
  cbn [fold_left].
  rewrite (@base900_add_exact 0 d1) by lia.
  rewrite (@base900_add_exact _ d2) by lia.
  rewrite (@base900_add_exact _ d3) by lia.
  rewrite (@base900_add_exact _ d4) by lia.
  rewrite (@base900_add_exact _ d5) by lia.
  lia.
Qed.

(** C6 (amended): the five codewords of a group that the decoder converts
    are accumulated by [value = 900 * value + code] in the 64-bit
    accumulator without wrap-around (the value is below [900 ^ 5], which
    is below [2 ^ 63] but above [2 ^ 48]), and the group is emitted as the
    six bytes of the low 48 bits of the accumulator, the most significant
    byte first.  Under the latch 924 the loop body converts every five
    data codewords.  Under the latch 901 it converts five codewords when
    the codeword read after them does not end Byte Compaction; when that
    codeword ends Byte Compaction the five are not converted, and the
    statements after the loop emit them as one byte each. *)
Theorem byte_group_conversion (cw : list Z) (ci d1 d2 d3 d4 d5 : Z) :
  Forall (fun d => 0 <= d < 900) [d1; d2; d3; d4; d5] ->
  let value := fold_left base900_add [d1; d2; d3; d4; d5] 0 in
  (value = d1 * 900 ^ 4 + d2 * 900 ^ 3 + d3 * 900 ^ 2 + d4 * 900 + d5 /\
   0 <= value < 900 ^ 5 /\ 2 ^ 48 < 900 ^ 5 < 2 ^ 63) /\
  (forall e bytes,
     codewords_at cw ci [d1; d2; d3; d4; d5] ->
     result_of (for_range 5 0 (fun _ => ByteCompaction6_body cw)
                  (mkByte6State ci 0 0 e bytes))
     = Ret (mkByte6State (ci + 5) 0 0 e (bytes ++ sextet value))) /\
  (forall d6 x0 x1 x2 x3 x4 x5 bytes,
     codewords_at cw ci [d2; d3; d4; d5; d6] -> byte_stop d6 = false ->
     result_of (for_range 5 0 (fun _ => ByteCompaction_body cw)
                  (mkByteState ci 0 0 [x0; x1; x2; x3; x4; x5] false d1 bytes))
     = Ret (mkByteState (ci + 5) 0 0 [d1; d2; d3; d4; d5; x5] false d6
              (bytes ++ sextet value))) /\
  (forall d6 x0 x1 x2 x3 x4 x5 bytes,
     codewords_at cw ci [d2; d3; d4; d5; d6] -> byte_stop d6 = true ->
     result_of (for_range 5 0 (fun _ => ByteCompaction_body cw)
                  (mkByteState ci 0 0 [x0; x1; x2; x3; x4; x5] false d1 bytes))
     = Ret (mkByteState (ci + 4) 5 value [d1; d2; d3; d4; d5; x5] true d6
              bytes) /\
     result_of (ByteCompaction_tail cw
                  (mkByteState (ci + 4) 5 value [d1; d2; d3; d4; d5; x5] true
                     d6 bytes))
     = Ret (ci + 4, bytes ++ map to_byte [d1; d2; d3; d4; d5])) /\
  exists b0 b1 b2 b3 b4 b5,
    sextet value = [b0; b1; b2; b3; b4; b5] /\
    Forall (fun b => 0 <= b < 256) [b0; b1; b2; b3; b4; b5] /\
    b0 * 256 ^ 5 + b1 * 256 ^ 4 + b2 * 256 ^ 3 + b3 * 256 ^ 2 + b4 * 256 + b5
    = value mod 2 ^ 48.
Proof.
  intros HF value.
  assert (Hv : value = d1 * 900 ^ 4 + d2 * 900 ^ 3 + d3 * 900 ^ 2 + d4 * 900 + d5)
    by (apply base900_group; assumption).
  assert (HF' := HF).
  repeat match goal with
         | H : Forall _ (_ :: _) |- _ => inversion H; subst; clear H
         end.
  split; [| split; [| split; [| split]]].
  - split; [assumption |]. split; [lia | lia].
  - intros e bytes Hat.
    apply codewords_at_cons in Hat. destruct Hat as [R1 Hat].
    apply codewords_at_cons in Hat. destruct Hat as [R2 Hat].
    apply codewords_at_cons in Hat. destruct Hat as [R3 Hat].
    apply codewords_at_cons in Hat. destruct Hat as [R4 Hat].
    apply codewords_at_cons in Hat. destruct Hat as [R5 _].
    cbn [for_range].
    rewrite result_bind, (@ByteCompaction6_body_data cw _ d1) by (cbn [s_codeIndex]; first [exact R1 | lia]).
    cbn [result_of snd s_count s_codeIndex s_value s_end s_decodedBytes].
    change (group_full (0 + 1)) with false. cbv iota.
    rewrite result_bind, (@ByteCompaction6_body_data cw _ d2) by (cbn [s_codeIndex]; first [exact R2 | lia]).
    cbn [result_of snd s_count s_codeIndex s_value s_end s_decodedBytes].
    change (group_full (0 + 1 + 1)) with false. cbv iota.
    rewrite result_bind, (@ByteCompaction6_body_data cw _ d3) by (cbn [s_codeIndex]; first [exact R3 | lia]).
    cbn [result_of snd s_count s_codeIndex s_value s_end s_decodedBytes].
    change (group_full (0 + 1 + 1 + 1)) with false. cbv iota.
    rewrite result_bind, (@ByteCompaction6_body_data cw _ d4) by (cbn [s_codeIndex]; first [exact R4 | lia]).
    cbn [result_of snd s_count s_codeIndex s_value s_end s_decodedBytes].
    change (group_full (0 + 1 + 1 + 1 + 1)) with false. cbv iota.
    rewrite result_bind, (@ByteCompaction6_body_data cw _ d5) by (cbn [s_codeIndex]; first [exact R5 | lia]).
    cbn [result_of snd s_count s_codeIndex s_value s_end s_decodedBytes].
    change (group_full (0 + 1 + 1 + 1 + 1 + 1)) with true. cbv iota.
    cbn [ret result_of snd].
    replace (ci + 1 + 1 + 1 + 1 + 1) with (ci + 5) by lia.
    unfold value. cbn [fold_left]. reflexivity.
  - intros d6 x0 x1 x2 x3 x4 x5 bytes Hat Hstop.
    apply codewords_at_cons in Hat. destruct Hat as [R2 Hat].
    apply codewords_at_cons in Hat. destruct Hat as [R3 Hat].
    apply codewords_at_cons in Hat. destruct Hat as [R4 Hat].
    apply codewords_at_cons in Hat. destruct Hat as [R5 Hat].
    apply codewords_at_cons in Hat. destruct Hat as [R6 _].
    cbn [for_range].
    rewrite result_bind, (@ByteCompaction_body_data cw _ d2)
      by (cbn [b_codeIndex byteCompactedCodewords b_count]; first [exact R2 | apply byte_stop_data; lia | reflexivity]).
    cbn [result_of snd b_count b_codeIndex b_value b_end decodedBytes nextCode
         byteCompactedCodewords].
    change (group_full (0 + 1)) with false. cbv iota zeta.
    rewrite result_bind, (@ByteCompaction_body_data cw _ d3)
      by (cbn [b_codeIndex byteCompactedCodewords b_count]; first [exact R3 | apply byte_stop_data; lia | reflexivity]).
    cbn [result_of snd b_count b_codeIndex b_value b_end decodedBytes nextCode
         byteCompactedCodewords].
    change (group_full (0 + 1 + 1)) with false. cbv iota zeta.
    rewrite result_bind, (@ByteCompaction_body_data cw _ d4)
      by (cbn [b_codeIndex byteCompactedCodewords b_count]; first [exact R4 | apply byte_stop_data; lia | reflexivity]).
    cbn [result_of snd b_count b_codeIndex b_value b_end decodedBytes nextCode
         byteCompactedCodewords].
    change (group_full (0 + 1 + 1 + 1)) with false. cbv iota zeta.
    rewrite result_bind, (@ByteCompaction_body_data cw _ d5)
      by (cbn [b_codeIndex byteCompactedCodewords b_count]; first [exact R5 | apply byte_stop_data; lia | reflexivity]).
    cbn [result_of snd b_count b_codeIndex b_value b_end decodedBytes nextCode
         byteCompactedCodewords].
    change (group_full (0 + 1 + 1 + 1 + 1)) with false. cbv iota zeta.
    rewrite result_bind, (@ByteCompaction_body_data cw _ d6)
      by (cbn [b_codeIndex byteCompactedCodewords b_count]; first [exact R6 | assumption | reflexivity]).
    cbn [result_of snd b_count b_codeIndex b_value b_end decodedBytes nextCode
         byteCompactedCodewords].
    change (group_full (0 + 1 + 1 + 1 + 1 + 1)) with true. cbv iota zeta.
    cbn [ret result_of snd].
    replace (ci + 1 + 1 + 1 + 1 + 1) with (ci + 5) by lia.
    unfold value. cbn [fold_left]. reflexivity.
  - intros d6 x0 x1 x2 x3 x4 x5 bytes Hat Hstop.
    assert (Hci : 0 <= ci) by apply Hat.
    apply codewords_at_cons in Hat. destruct Hat as [R2 Hat].
    assert (Hlen : (0 < List.length cw)%nat).
    { apply (f_equal result_of) in R2. apply rd_Ret in R2. lia. }
    apply codewords_at_cons in Hat. destruct Hat as [R3 Hat].
    apply codewords_at_cons in Hat. destruct Hat as [R4 Hat].
    apply codewords_at_cons in Hat. destruct Hat as [R5 Hat].
    apply codewords_at_cons in Hat. destruct Hat as [R6 _].
    split.
    + cbn [for_range].
      rewrite result_bind, (@ByteCompaction_body_data cw _ d2)
        by (cbn [b_codeIndex byteCompactedCodewords b_count];
            first [exact R2 | apply byte_stop_data; lia | reflexivity]).
      cbn [result_of snd b_count b_codeIndex b_value b_end decodedBytes
           nextCode byteCompactedCodewords].
      change (group_full (0 + 1)) with false. cbv iota zeta.
      rewrite result_bind, (@ByteCompaction_body_data cw _ d3)
        by (cbn [b_codeIndex byteCompactedCodewords b_count];
            first [exact R3 | apply byte_stop_data; lia | reflexivity]).
      cbn [result_of snd b_count b_codeIndex b_value b_end decodedBytes
           nextCode byteCompactedCodewords].
      change (group_full (0 + 1 + 1)) with false. cbv iota zeta.
      rewrite result_bind, (@ByteCompaction_body_data cw _ d4)
        by (cbn [b_codeIndex byteCompactedCodewords b_count];
            first [exact R4 | apply byte_stop_data; lia | reflexivity]).
      cbn [result_of snd b_count b_codeIndex b_value b_end decodedBytes
           nextCode byteCompactedCodewords].
      change (group_full (0 + 1 + 1 + 1)) with false. cbv iota zeta.
      rewrite result_bind, (@ByteCompaction_body_data cw _ d5)
        by (cbn [b_codeIndex byteCompactedCodewords b_count];
            first [exact R5 | apply byte_stop_data; lia | reflexivity]).
      cbn [result_of snd b_count b_codeIndex b_value b_end decodedBytes
           nextCode byteCompactedCodewords].
      change (group_full (0 + 1 + 1 + 1 + 1)) with false. cbv iota zeta.
      rewrite result_bind, (@ByteCompaction_body_stop cw _ d6)
        by (cbn [b_codeIndex byteCompactedCodewords b_count];
            first [exact R6 | assumption | reflexivity]).
      cbn [result_of snd b_count b_codeIndex b_value b_end decodedBytes
           nextCode byteCompactedCodewords].
      cbn [ret result_of snd].
      replace (ci + 1 + 1 + 1 + 1) with (ci + 4) by lia.
      unfold value. cbn [fold_left]. reflexivity.
    + unfold ByteCompaction_tail.
      rewrite result_bind, rd_in by lia. cbn [result_of snd].
      cbn [b_codeIndex nextCode byteCompactedCodewords b_count decodedBytes].
      destruct (Z.ltb_spec d6 TEXT_COMPACTION_MODE_LATCH) as [Hd6 | Hd6].
      { unfold TEXT_COMPACTION_MODE_LATCH in Hd6.
        rewrite byte_stop_data in Hstop by lia. discriminate Hstop. }
      rewrite andb_false_r. rewrite bind_ret.
      change (Z.to_nat 5) with 5%nat. cbn [for_range].
      unfold push_raw, vget.
      change (in_range [d1; d2; d3; d4; d5; x5] 0) with true.
      change (in_range [d1; d2; d3; d4; d5; x5] (0 + 1)) with true.
      change (in_range [d1; d2; d3; d4; d5; x5] (0 + 1 + 1)) with true.
      change (in_range [d1; d2; d3; d4; d5; x5] (0 + 1 + 1 + 1)) with true.
      change (in_range [d1; d2; d3; d4; d5; x5] (0 + 1 + 1 + 1 + 1)) with true.
      cbv iota. rewrite !bind_ret. cbn [result_of snd ret map].
      rewrite <- !app_assoc. reflexivity.
  - apply sextet_big_endian.
Qed.

(** Evaluate the left-hand side, keeping bytes, appends and sums folded. *)
Ltac compute_lhs :=
  match goal with
  | |- ?L = ?R =>
      let L' := eval cbv - [to_byte app sextet base900_add] in L in
      change (L' = R)
  end.

Lemma ByteCompaction_cond_eq (cw : list Z) (st : ByteState) :
  (0 < List.length cw)%nat ->
  ByteCompaction_cond cw st =
  ([0], Ret ((b_codeIndex st <? item cw 0) && negb (b_end st))).
Proof.
  intros H. unfold ByteCompaction_cond. rewrite rd_in by lia. reflexivity.
Qed.

(** The loop of the branch 901 and the statements after it, from a state
    that holds [pending] codewords of the current group and the codeword
    [d] in [nextCode], with the codewords [rest] ahead of the cursor. *)
Lemma byte901_loop (cw : list Z) (rest : list Z) :
  forall (pending : list Z) (d p count value : Z) (out bcc : list Z)
         (fuel : nat),
  (List.length pending <= 4)%nat ->
  count = Z.of_nat (List.length pending) ->
  value = fold_left base900_add pending 0 ->
  List.length bcc = 6%nat ->
  firstn (List.length pending) bcc = pending ->
  Forall (fun c => c < 900) (d :: rest) ->
  codewords_at cw (p + 1) rest ->
  (0 < List.length cw)%nat ->
  run_ends cw (p + 1 + Z.of_nat (List.length rest)) ->
  (Z.to_nat (item cw 0 - (p + 1)) < fuel)%nat ->
  result_of
    (st <- while fuel (ByteCompaction_cond cw) (ByteCompaction_body cw)
             (mkByteState (p + 1) count value bcc false d out) ;;
     ByteCompaction_tail cw st)
  = Ret (p + 1 + Z.of_nat (List.length rest),
         out ++ bytes901 (pending ++ d :: rest)).
Proof.
  induction rest as [| d' rest IH];
    intros pending d p count value out bcc fuel
           Hlen Hcount Hvalue Hsize Hbcc Hdata Hat Hcw Hend Hfuel.
  - (* no codeword ahead: the run ends at the cursor *)
    destruct fuel as [| fuel]; [lia |].
    inversion Hdata as [| ? ? Hd _]; subst.
    cbn [List.length Z.of_nat] in Hend. rewrite Z.add_0_r in Hend.
    cbn [List.length Z.of_nat]. rewrite Z.add_0_r.
    rewrite result_bind.
    destruct bcc as [| x0 [| x1 [| x2 [| x3 [| x4 [| x5 [| x6 l]]]]]]];
      try discriminate Hsize.
    destruct Hend as [Hend | (Hlt & Hrange & Hstop)].
    + (* at the declared count *)
      rewrite while_exit_result.
      2:{ rewrite ByteCompaction_cond_eq by assumption.
          cbn [result_of snd b_codeIndex b_end]. rewrite <- Hend, Z.ltb_irrefl.
          reflexivity. }
      unfold ByteCompaction_tail. rewrite rd_in by lia.
      cbn [bind b_codeIndex nextCode byteCompactedCodewords b_count decodedBytes].
      rewrite <- Hend, Z.eqb_refl. unfold TEXT_COMPACTION_MODE_LATCH.
      destruct (Z.ltb_spec d 900); [| lia]. cbn [andb].
      destruct pending as [| a1 [| a2 [| a3 [| a4 [| a5 l]]]]];
        [| | | | | simpl in Hlen; lia]; cbn in Hbcc;
        inversion Hbcc; subst; cbn [app bytes901 map]; compute_lhs;
        rewrite <- ?app_assoc; reflexivity.
    + (* at a codeword that ends Byte Compaction *)
      destruct fuel as [| fuel]; [lia |].
      rewrite (@while_step_result _ _ _ _ _
                 (mkByteState (p + 1) (Z.of_nat (List.length pending) + 1)
                    (base900_add (fold_left base900_add pending 0) d)
                    (upd [x0; x1; x2; x3; x4; x5]
                       (Z.to_nat (Z.of_nat (List.length pending))) d)
                    true (item cw (p + 1)) out)).
      2:{ rewrite ByteCompaction_cond_eq by assumption.
          cbn [result_of snd b_codeIndex b_end].
          destruct (Z.ltb_spec (p + 1) (item cw 0)); [reflexivity | lia]. }
      2:{ rewrite (@ByteCompaction_body_stop cw _ (item cw (p + 1))).
          - reflexivity.
          - cbn [b_codeIndex]. apply rd_in. lia.
          - assumption.
          - cbn [byteCompactedCodewords b_count]. apply in_range_spec.
            cbn [List.length]. lia. }
      rewrite while_exit_result.
      2:{ rewrite ByteCompaction_cond_eq by assumption.
          cbn [result_of snd b_codeIndex b_end]. apply f_equal, andb_false_r. }
      unfold ByteCompaction_tail. rewrite rd_in by lia.
      cbn [bind b_codeIndex nextCode byteCompactedCodewords b_count decodedBytes].
      destruct (Z.eqb_spec (p + 1) (item cw 0)); [lia |]. cbn [andb].
      destruct pending as [| a1 [| a2 [| a3 [| a4 [| a5 l]]]]];
        [| | | | | simpl in Hlen; lia]; cbn in Hbcc;
        inversion Hbcc; subst; cbn [app bytes901 map]; compute_lhs;
        rewrite <- ?app_assoc; reflexivity.
  - (* a codeword of the run ahead *)
    destruct fuel as [| fuel]; [lia |].
    apply codewords_at_cons in Hat. destruct Hat as [Hrd Hat].
    inversion Hdata as [| ? ? Hd Hdata']; subst.
    assert (Hd' : d' < 900) by (inversion Hdata'; assumption).
    assert (Hlt : p + 1 < item cw 0).
    { cbn [List.length] in Hend. destruct Hend as [Hend | [Hend _]]; lia. }
    rewrite result_bind.
    erewrite while_step_result.
    2:{ rewrite ByteCompaction_cond_eq by assumption.
        cbn [result_of snd b_codeIndex b_end].
        destruct (Z.ltb_spec (p + 1) (item cw 0)); [reflexivity | lia]. }
    2:{ rewrite (@ByteCompaction_body_data cw _ d').
        - reflexivity.
        - exact Hrd.
        - apply byte_stop_data. assumption.
        - cbn [byteCompactedCodewords b_count]. apply in_range_spec. lia. }
    rewrite <- result_bind.
    cbn [b_count b_codeIndex b_value b_end decodedBytes nextCode
         byteCompactedCodewords].
    replace (p + 1 + Z.of_nat (List.length (d' :: rest)))
      with (p + 1 + 1 + Z.of_nat (List.length rest))
      by (cbn [List.length]; lia).
    replace (p + 1 + Z.of_nat (List.length (d' :: rest)))
      with (p + 1 + 1 + Z.of_nat (List.length rest)) in Hend
      by (cbn [List.length]; lia).
    destruct bcc as [| x0 [| x1 [| x2 [| x3 [| x4 [| x5 [| x6 l]]]]]]];
      try discriminate Hsize.
    destruct pending as [| a1 [| a2 [| a3 [| a4 [| a5 l]]]]];
      [| | | | | simpl in Hlen; lia]; cbn in Hbcc; inversion Hbcc; subst;
      cbn [List.length Z.of_nat Pos.of_succ_nat Pos.succ Z.add Pos.add];
      cbv zeta;
      match goal with
      | |- context [group_full ?c] =>
          let b := eval vm_compute in (group_full c) in
          change (group_full c) with b
      end; cbv iota.
    + apply (IH [d] d' (p + 1)); try assumption; try reflexivity; simpl; lia.
    + apply (IH [a1; d] d' (p + 1)); try assumption; try reflexivity;
        simpl; lia.
    + apply (IH [a1; a2; d] d' (p + 1)); try assumption; try reflexivity;
        simpl; lia.
    + apply (IH [a1; a2; a3; d] d' (p + 1)); try assumption; try reflexivity;
        simpl; lia.
    + etransitivity.
      { apply (IH [] d' (p + 1)); try assumption; try reflexivity;
          simpl; lia. }
      destruct rest; cbn [app bytes901 fold_left]; rewrite <- app_assoc;
        reflexivity.
Qed.

Lemma bytes901_raw (ds : list Z) :
  (List.length ds <= 5)%nat -> bytes901 ds = map to_byte ds.
Proof.
  intros H.
  destruct ds as [| a1 [| a2 [| a3 [| a4 [| a5 [| a6 l]]]]]];
    try reflexivity. simpl in H. lia.
Qed.

Lemma bytes901_group (c1 c2 c3 c4 c5 : Z) (rest : list Z) :
  rest <> [] ->
  bytes901 (c1 :: c2 :: c3 :: c4 :: c5 :: rest)
  = sextet (fold_left base900_add [c1; c2; c3; c4; c5] 0) ++ bytes901 rest.
Proof. intros H. destruct rest; [contradiction | reflexivity]. Qed.

Section ByteCompactionRun.

Variable CharacterSet : Type.
Variable toUnicode : list Z -> CharacterSet -> String.

(** C2 (amended): under the latch 901, a run of data codewords that ends
    at the declared count or at a codeword that ends Byte Compaction is
    consumed whole; five codewords that are followed by another codeword
    of the run are emitted as the six bytes of their base 900 value, and
    the last one to five codewords of the run, five included, are emitted
    as one byte each. *)
Theorem byte_compaction_901_run (cw ds : list Z) (ci : Z)
    (enc : CharacterSet) (result : String) :
  ds <> [] ->
  Forall (fun c => c < 900) ds ->
  codewords_at cw ci ds ->
  run_ends cw (ci + Z.of_nat (List.length ds)) ->
  result_of (ByteCompaction toUnicode BYTE_COMPACTION_MODE_LATCH cw enc ci
               result)
  = Ret (ci + Z.of_nat (List.length ds),
         result ++ toUnicode (bytes901 ds) enc) /\
  (forall c1 c2 c3 c4 c5 rest, rest <> [] ->
     bytes901 (c1 :: c2 :: c3 :: c4 :: c5 :: rest)
     = sextet (fold_left base900_add [c1; c2; c3; c4; c5] 0)
       ++ bytes901 rest) /\
  (forall tl, (List.length tl <= 5)%nat -> bytes901 tl = map to_byte tl).
Proof.
  intros Hne Hdata Hat Hend.
  split; [| split; [apply bytes901_group | apply bytes901_raw]].
  destruct ds as [| d rest]; [contradiction |].
  assert (Hat' := Hat). apply codewords_at_cons in Hat'.
  destruct Hat' as [Hrd Hat'].
  assert (Hcw : (0 < List.length cw)%nat).
  { apply (f_equal result_of) in Hrd. apply rd_Ret in Hrd. lia. }
  assert (Hq : ci + 1 + Z.of_nat (List.length rest)
               = ci + Z.of_nat (List.length (d :: rest)))
    by (cbn [List.length]; lia).
  unfold ByteCompaction, ByteCompaction_bytes.
  rewrite Z.eqb_refl. unfold ByteCompaction_901.
  rewrite result_bind, result_bind, Hrd. cbn [result_of snd].
  rewrite (@byte901_loop cw rest [] d ci 0 0 [] [0; 0; 0; 0; 0; 0]).
  - cbn [app]. rewrite Hq. reflexivity.
  - simpl. lia.
  - reflexivity.
  - reflexivity.
  - reflexivity.
  - reflexivity.
  - assumption.
  - assumption.
  - assumption.
  - rewrite Hq. assumption.
  - unfold fuel_from. lia.
Qed.

End ByteCompactionRun.

Lemma byte_group_conversion_witness :
  result_of (for_range 5 0 (fun _ => ByteCompaction6_body [8; 924; 1; 2; 3; 4; 5; 0])
               (mkByte6State 2 0 0 false []))
  = Ret (mkByte6State 7 0 0 false
           ([] ++ sextet (fold_left base900_add [1; 2; 3; 4; 5] 0))).
Proof.
  assert (H : Forall (fun d => 0 <= d < 900) [1; 2; 3; 4; 5])
    by (repeat constructor; lia).
  apply (proj1 (proj2 (byte_group_conversion [8; 924; 1; 2; 3; 4; 5; 0] 2 H))
           false []).
  split; [lia | reflexivity].
Defined.

(** The accumulator of a group does not stay below [2 ^ 48], and [900 ^ 5]
    is not below [2 ^ 48]: two groups can have the same six bytes. *)
Lemma byte_group_above_48_bits :
  ~ fold_left base900_add [899; 899; 899; 899; 899] 0 < 2 ^ 48 /\
  ~ 900 ^ 5 < 2 ^ 48 /\
  sextet (fold_left base900_add [899; 899; 899; 899; 899] 0)
  = sextet (fold_left base900_add [41; 877; 757; 454; 87] 0).
Proof.
  split; [| split].
  - vm_compute. discriminate.
  - vm_compute. discriminate.
  - vm_compute. reflexivity.
Qed.

Lemma byte_compaction_901_run_witness :
  result_of (ByteCompaction Sample.toUnicode BYTE_COMPACTION_MODE_LATCH
               [10; 901; 1; 2; 3; 4; 5; 6; 900; 1; 0] Sample.ISO8859_1 2 [])
  = Ret (2 + 6, [] ++ Sample.toUnicode (bytes901 [1; 2; 3; 4; 5; 6])
                        Sample.ISO8859_1).
Proof.
  apply (proj1 (byte_compaction_901_run Sample.toUnicode
                  (cw := [10; 901; 1; 2; 3; 4; 5; 6; 900; 1; 0])
                  (ds := [1; 2; 3; 4; 5; 6]) (ci := 2) Sample.ISO8859_1 []
                  ltac:(discriminate)
                  ltac:(repeat constructor; lia)
                  ltac:(split; [lia | reflexivity])
                  ltac:(right; split; [| split];
                        [vm_compute; reflexivity | simpl; lia | reflexivity]))).
Defined.

(** A run of exactly five data codewords under the latch 901 is emitted as
    five bytes, one per codeword, and not as the six bytes of its value. *)
Lemma byte_compaction_901_five_raw :
  result_of (ByteCompaction_bytes BYTE_COMPACTION_MODE_LATCH
               [7; 901; 1; 2; 3; 4; 5; 0] 2)
  = Ret (7, [1; 2; 3; 4; 5]) /\
  [1; 2; 3; 4; 5] <> sextet (fold_left base900_add [1; 2; 3; 4; 5] 0).
Proof.
  split; [vm_compute; reflexivity | vm_compute; discriminate].
Qed.

(** ** Numeric Compaction *)

Lemma vget_in (v : vec) (i : Z) :
  0 <= i < Z.of_nat (List.length v) -> vget v i = ret (item v i).
Proof. intros H. unfold vget. apply in_range_spec in H. rewrite H. reflexivity. Qed.

Lemma vset_in (v : vec) (i x : Z) :
  0 <= i < Z.of_nat (List.length v) -> vset v i x = ret (upd v (Z.to_nat i) x).
Proof. intros H. unfold vset. apply in_range_spec in H. rewrite H. reflexivity. Qed.

Lemma upd_length (v : vec) (n : nat) (x : Z) :
  List.length (upd v n x) = List.length v.
Proof.
  revert n. induction v as [| y v IH]; intros [| n]; simpl; auto.
Qed.

Lemma firstn_upd_snoc (v : vec) (n : nat) (x : Z) :
  (n < List.length v)%nat ->
  firstn (Datatypes.S n) (upd v n x) = firstn n v ++ [x].
Proof.
  revert n. induction v as [| y v IH]; intros [| n] H; simpl in *; try lia.
  - reflexivity.
  - f_equal. apply IH. lia.
Qed.

(** The table holds the powers of 900. *)
Lemma EXP900_spec (k : Z) : 0 <= k < 16 -> vget EXP900 k = ret (900 ^ k).
Proof.
  intros H.
  assert (Hk : exists n, (n < 16)%nat /\ k = Z.of_nat n)
    by (exists (Z.to_nat k); lia).
  destruct Hk as (n & Hn & ->).
  do 16 (destruct n as [| n]; [vm_compute; reflexivity |]). lia.
Qed.

Lemma skipn_item (v : vec) (i : Z) :
  0 <= i < Z.of_nat (List.length v) ->
  skipn (Z.to_nat i) v = item v i :: skipn (Datatypes.S (Z.to_nat i)) v.
Proof.
  intros H. unfold item.
  assert (Hn : (Z.to_nat i < List.length v)%nat) by lia.
  generalize dependent (Z.to_nat i). clear H. intros n.
  revert n. induction v as [| y v IH]; intros [| n] H; simpl in *; try lia.
  - reflexivity.
  - apply IH. lia.
Qed.

(** The loop of [DecodeBase900toBase10] adds up the remaining terms. *)
Lemma base900_loop (codewords : vec) (count : Z) (n : nat) :
  forall (i acc : Z),
  0 <= i -> i + Z.of_nat n = count -> count <= 16 ->
  count <= Z.of_nat (List.length codewords) ->
  for_range n i (base900_step codewords count) acc
  = ret (acc + sum900 (firstn n (skipn (Z.to_nat i) codewords))).
Proof.
  induction n as [| n IH]; intros i acc Hi Hc H16 Hlen.
  - simpl. rewrite Z.add_0_r. reflexivity.
  - cbn [for_range]. unfold base900_step at 1.
    rewrite EXP900_spec by lia. rewrite bind_ret.
    rewrite vget_in by lia. rewrite bind_ret, bind_ret.
    rewrite IH by lia.
    rewrite (@skipn_item codewords i) by lia.
    replace (Z.to_nat (i + 1)) with (Datatypes.S (Z.to_nat i)) by lia.
    cbn [firstn sum900].
    rewrite length_firstn, length_skipn.
    replace (Z.of_nat (Nat.min n (List.length codewords - Datatypes.S (Z.to_nat i))))
      with (count - i - 1) by lia.
    unfold ret. f_equal. f_equal.
    generalize (900 ^ (count - i - 1)), (item codewords i),
      (sum900 (firstn n (skipn (Datatypes.S (Z.to_nat i)) codewords))).
    intros. lia.
Qed.

(** The conversion of a group: the decimal string of the sum, checked for
    its sentinel. *)
Lemma DecodeBase900toBase10_spec (codewords : vec) (count : nat) :
  (count <= 16)%nat -> (count <= List.length codewords)%nat ->
  DecodeBase900toBase10 codewords (Z.of_nat count) =
  ret (match strip_sentinel (toString (sum900 (firstn count codewords))) with
       | Some rest => (NoError, rest)
       | None => (FormatError, toString (sum900 (firstn count codewords)))
       end).
Proof.
  intros H16 Hlen. unfold DecodeBase900toBase10.
  rewrite Nat2Z.id.
  rewrite (@base900_loop codewords (Z.of_nat count) count 0 0) by lia.
  rewrite bind_ret. cbn [Z.to_nat skipn Z.add]. unfold strip_sentinel.
  destruct (toString (sum900 (firstn count codewords))) as [| c rest];
    [reflexivity |].
  destruct (Ascii.eqb c "1"); reflexivity.
Qed.

Lemma numeric_stop_data (d : Z) : d < 900 -> numeric_stop d = false.
Proof.
  intros H. unfold numeric_stop.
  cbv [TEXT_COMPACTION_MODE_LATCH BYTE_COMPACTION_MODE_LATCH
       BYTE_COMPACTION_MODE_LATCH_6 BEGIN_MACRO_PDF417_CONTROL_BLOCK
       BEGIN_MACRO_PDF417_OPTIONAL_FIELD MACRO_PDF417_TERMINATOR].
  repeat (rewrite (proj2 (Z.eqb_neq _ _)) by lia). reflexivity.
Qed.

Lemma numeric_stop_control (c : Z) :
  numeric_stop c = true -> 900 <= c /\ c <> NUMERIC_COMPACTION_MODE_LATCH.
Proof.
  unfold numeric_stop.
  cbv [TEXT_COMPACTION_MODE_LATCH BYTE_COMPACTION_MODE_LATCH
       BYTE_COMPACTION_MODE_LATCH_6 BEGIN_MACRO_PDF417_CONTROL_BLOCK
       BEGIN_MACRO_PDF417_OPTIONAL_FIELD MACRO_PDF417_TERMINATOR
       NUMERIC_COMPACTION_MODE_LATCH].
  rewrite !orb_true_iff, !Z.eqb_eq. lia.
Qed.

Lemma NumericCompaction_cond_ok (cw : list Z) (st : NumericState) :
  (0 < List.length cw)%nat -> n_status st = NoError ->
  result_of (NumericCompaction_cond cw st)
  = Ret ((n_codeIndex st <? item cw 0) && negb (n_end st)).
Proof.
  intros Hcw Hs. unfold NumericCompaction_cond. rewrite Hs. cbn [StatusIsError].
  rewrite rd_in by lia. reflexivity.
Qed.

Lemma NumericCompaction_cond_error (cw : list Z) (st : NumericState) :
  n_status st = FormatError -> NumericCompaction_cond cw st = ret false.
Proof. intros Hs. unfold NumericCompaction_cond. rewrite Hs. reflexivity. Qed.

(** Closing a group of [count > 0] codewords: its decimal text without the
    sentinel is appended, or the status becomes [FormatError]. *)
Lemma NumericCompaction_flush_group (st : NumericState) (digits : list Z) :
  digits <> [] -> (List.length digits <= 15)%nat ->
  (List.length digits <= List.length (numericCodewords st))%nat ->
  n_count st = Z.of_nat (List.length digits) ->
  firstn (List.length digits) (numericCodewords st) = digits ->
  NumericCompaction_flush st =
  ret (match strip_sentinel (toString (sum900 digits)) with
       | Some rest =>
           mkNumericState (n_codeIndex st) 0 (n_end st) (numericCodewords st)
             (appendUtf8_str (n_result st) rest) (n_status st)
       | None =>
           mkNumericState (n_codeIndex st) (n_count st) (n_end st)
             (numericCodewords st) (n_result st) FormatError
       end).
Proof.
  intros Hne H15 Hlen Hcount Hfirst. unfold NumericCompaction_flush.
  assert (Hpos : (n_count st >? 0) = true).
  { apply Z.gtb_lt. destruct digits; [contradiction | simpl in Hcount; lia]. }
  rewrite Hpos, Hcount, DecodeBase900toBase10_spec by lia.
  rewrite bind_ret, Hfirst.
  destruct (strip_sentinel (toString (sum900 digits))); reflexivity.
Qed.

Lemma NumericCompaction_flush_none (st : NumericState) :
  n_count st = 0 -> NumericCompaction_flush st = ret st.
Proof. intros H. unfold NumericCompaction_flush. rewrite H. reflexivity. Qed.

(** The loop body on a data codeword. *)
Lemma NumericCompaction_body_data (cw : list Z) (st : NumericState) (d : Z) :
  rd cw (n_codeIndex st) = ([n_codeIndex st], Ret d) -> d < 900 ->
  (0 < List.length cw)%nat ->
  0 <= n_count st < Z.of_nat (List.length (numericCodewords st)) ->
  result_of (NumericCompaction_body cw st) =
  result_of
    (let st1 :=
       mkNumericState (n_codeIndex st + 1) (n_count st + 1)
         (if n_codeIndex st + 1 =? item cw 0 then true else n_end st)
         (upd (numericCodewords st) (Z.to_nat (n_count st)) d)
         (n_result st) (n_status st) in
     if (Z.rem (n_count st1) MAX_NUMERIC_CODEWORDS =? 0) || n_end st1
     then NumericCompaction_flush st1 else ret st1).
Proof.
  intros Hrd Hd Hcw Hcount. unfold NumericCompaction_body.
  rewrite result_bind, Hrd. cbn [result_of snd].
  rewrite result_bind, rd_in by lia. cbn [result_of snd].
  unfold TEXT_COMPACTION_MODE_LATCH at 1.
  destruct (Z.ltb_spec d 900); [| lia].
  rewrite vset_in by assumption. rewrite !bind_ret.
  unfold NUMERIC_COMPACTION_MODE_LATCH.
  rewrite (proj2 (Z.eqb_neq d 902)) by lia. rewrite orb_false_r.
  reflexivity.
Qed.

(** The loop body on a codeword that ends Numeric Compaction. *)
Lemma NumericCompaction_body_stop (cw : list Z) (st : NumericState) (c : Z) :
  rd cw (n_codeIndex st) = ([n_codeIndex st], Ret c) ->
  numeric_stop c = true -> (0 < List.length cw)%nat ->
  result_of (NumericCompaction_body cw st) =
  result_of
    (NumericCompaction_flush
       (mkNumericState (n_codeIndex st) (n_count st) true
          (numericCodewords st) (n_result st) (n_status st))).
Proof.
  intros Hrd Hc Hcw. unfold NumericCompaction_body.
  destruct (numeric_stop_control _ Hc) as [H900 H902].
  rewrite result_bind, Hrd. cbn [result_of snd].
  rewrite result_bind, rd_in by lia. cbn [result_of snd].
  unfold TEXT_COMPACTION_MODE_LATCH at 1.
  destruct (Z.ltb_spec c 900); [lia |].
  rewrite Hc, bind_ret. cbn [n_end n_count].
  rewrite orb_true_r.
  replace (n_codeIndex st + 1 - 1) with (n_codeIndex st) by lia.
  reflexivity.
Qed.

Lemma rem_15 (c : Z) : 1 <= c <= 15 -> (Z.rem c 15 =? 0) = (c =? 15).
Proof.
  intros H. destruct (Z.eqb_spec c 15) as [-> | Hne]; [reflexivity |].
  rewrite Z.rem_small by lia. apply Z.eqb_neq. lia.
Qed.

(** What the loop hands back once a group is closed: the cursor stays, the
    text is the group's text or the status is an error. *)
Lemma numeric_closed (cw : list Z) (fuel : nat) (st : NumericState)
    (next : Z) :
  (0 < List.length cw)%nat ->
  n_status st = FormatError
  \/ (n_status st = NoError /\ (item cw 0 <= n_codeIndex st \/ n_end st = true)) ->
  result_of
    (s <- while (Datatypes.S fuel) (NumericCompaction_cond cw)
            (NumericCompaction_body cw) st ;;
     ret (NumericCompaction_return s next))
  = Ret (NumericCompaction_return st next).
Proof.
  intros Hcw H. rewrite result_bind, while_exit_result; [reflexivity |].
  destruct H as [H | [H H']].
  - rewrite NumericCompaction_cond_error by assumption. reflexivity.
  - rewrite NumericCompaction_cond_ok by assumption. f_equal.
    destruct H' as [H' | H'].
    + destruct (Z.ltb_spec (n_codeIndex st) (item cw 0)); [lia | reflexivity].
    + rewrite H'. apply andb_false_r.
Qed.

(** One iteration of the loop of [NumericCompaction]. *)
Lemma numeric_step (cw : list Z) (fuel : nat) (st st' : NumericState)
    (next : Z) :
  (0 < List.length cw)%nat -> n_status st = NoError ->
  n_codeIndex st < item cw 0 -> n_end st = false ->
  result_of (NumericCompaction_body cw st) = Ret st' ->
  result_of
    (s <- while (Datatypes.S fuel) (NumericCompaction_cond cw)
            (NumericCompaction_body cw) st ;;
     ret (NumericCompaction_return s next))
  = result_of
      (s <- while fuel (NumericCompaction_cond cw)
              (NumericCompaction_body cw) st' ;;
       ret (NumericCompaction_return s next)).
Proof.
  intros Hcw Hs Hlt He Hb. rewrite !result_bind.
  rewrite (@while_step_result _ fuel _ _ st st'); [reflexivity | | assumption].
  rewrite NumericCompaction_cond_ok by assumption. rewrite He.
  destruct (Z.ltb_spec (n_codeIndex st) (item cw 0)); [reflexivity | lia].
Qed.

(** The loop of [NumericCompaction] on a run of data codewords that makes
    one group with the [pending] codewords already collected. *)
Lemma numeric_loop (cw : list Z) (rest : list Z) :
  forall (pending : list Z) (d p : Z) (nc : vec) (result : String)
         (next : Z) (fuel : nat),
  (List.length pending + 1 + List.length rest <= 15)%nat ->
  List.length nc = 15%nat ->
  firstn (List.length pending) nc = pending ->
  Forall (fun c => c < 900) (d :: rest) ->
  codewords_at cw p (d :: rest) ->
  (0 < List.length cw)%nat ->
  numeric_run_ends cw (p + 1 + Z.of_nat (List.length rest)) ->
  (Z.to_nat (item cw 0 - p) < fuel)%nat ->
  result_of
    (st <- while fuel (NumericCompaction_cond cw) (NumericCompaction_body cw)
             (mkNumericState p (Z.of_nat (List.length pending)) false nc
                result NoError) ;;
     ret (NumericCompaction_return st next))
  = Ret (match strip_sentinel (toString (sum900 (pending ++ d :: rest))) with
         | Some tl =>
             (NoError, appendUtf8_str result tl,
              p + 1 + Z.of_nat (List.length rest))
         | None => (FormatError, result, next)
         end).
Proof.
  induction rest as [| d' rest IH];
    intros pending d p nc result next fuel
           H15 Hsize Hfirst Hdata Hat Hcw Hend Hfuel.
  - (* the last codeword of the run *)
    apply codewords_at_cons in Hat. destruct Hat as [Hrd _].
    inversion Hdata as [| ? ? Hd _]; subst.
    cbn [List.length Z.of_nat] in *. rewrite Z.add_0_r in *.
    assert (Hlt : p < item cw 0) by (destruct Hend as [? | [? _]]; lia).
    destruct fuel as [| fuel]; [lia |].
    destruct fuel as [| fuel]; [lia |].
    set (nc' := upd nc (Z.to_nat (Z.of_nat (List.length pending))) d).
    assert (Hfirst' : firstn (List.length (pending ++ [d])) nc' = pending ++ [d]).
    { subst nc'. rewrite length_app. cbn [List.length]. rewrite Nat2Z.id.
      replace (List.length pending + 1)%nat
        with (Datatypes.S (List.length pending)) by lia.
      rewrite firstn_upd_snoc by lia. rewrite Hfirst. reflexivity. }
    assert (Hlen' : List.length (pending ++ [d]) = Datatypes.S (List.length pending)).
    { rewrite length_app. cbn [List.length]. lia. }
    assert (Hbody :
      result_of (NumericCompaction_body cw
                   (mkNumericState p (Z.of_nat (List.length pending)) false nc
                      result NoError))
      = result_of
          (let st1 := mkNumericState (p + 1) (Z.of_nat (List.length pending) + 1)
                        (if p + 1 =? item cw 0 then true else false) nc' result
                        NoError in
           if (Z.rem (n_count st1) MAX_NUMERIC_CODEWORDS =? 0) || n_end st1
           then NumericCompaction_flush st1 else ret st1)).
    { rewrite (@NumericCompaction_body_data cw _ d); try assumption;
        [reflexivity | cbn [n_count numericCodewords]; lia]. }
    cbv zeta in Hbody. cbn [n_count n_end] in Hbody.
    unfold MAX_NUMERIC_CODEWORDS in Hbody. rewrite rem_15 in Hbody by lia.
    assert (Hflush : forall e,
      NumericCompaction_flush
        (mkNumericState (p + 1) (Z.of_nat (List.length pending) + 1) e nc'
           result NoError)
      = ret (match strip_sentinel (toString (sum900 (pending ++ [d]))) with
             | Some tl => mkNumericState (p + 1) 0 e nc'
                            (appendUtf8_str result tl) NoError
             | None => mkNumericState (p + 1)
                         (Z.of_nat (List.length pending) + 1) e nc' result
                         FormatError
             end)).
    { intros e.
      rewrite (@NumericCompaction_flush_group _ (pending ++ [d])).
      - reflexivity.
      - destruct pending; discriminate.
      - lia.
      - cbn [numericCodewords]. subst nc'. rewrite upd_length. lia.
      - cbn [n_count]. lia.
      - exact Hfirst'. }
    destruct Hend as [Hend | (Hlt' & Hrange & Hstop)].
    + (* the run ends at the declared count *)
      rewrite <- Hend, Z.eqb_refl in Hbody. rewrite orb_true_r in Hbody.
      rewrite Hflush in Hbody. change (result_of (ret ?x)) with (Ret x) in Hbody.
      eapply eq_trans;
        [eapply numeric_step;
           [exact Hcw | reflexivity | exact Hlt | reflexivity | exact Hbody] |].
      rewrite numeric_closed by
        (first [assumption |
         destruct (strip_sentinel (toString (sum900 (pending ++ [d]))));
         [right; split; [reflexivity | right; reflexivity] | left; reflexivity]]).
      unfold NumericCompaction_return.
      destruct (strip_sentinel (toString (sum900 (pending ++ [d]))));
        reflexivity.
    + (* the run ends at a codeword that ends Numeric Compaction *)
      destruct (Z.eqb_spec (p + 1) (item cw 0)) as [E | _]; [lia |].
      rewrite orb_false_r in Hbody.
      assert (Hrd' : rd cw (p + 1) = ([p + 1], Ret (item cw (p + 1))))
        by (apply rd_in; lia).
      destruct fuel as [| fuel]; [lia |].
      destruct (Z.eqb_spec (Z.of_nat (List.length pending) + 1) 15) as [E15 | N15].
      * (* the group is full: it is closed at once *)
        rewrite Hflush in Hbody. change (result_of (ret ?x)) with (Ret x) in Hbody.
        eapply eq_trans;
          [eapply numeric_step;
             [exact Hcw | reflexivity | exact Hlt | reflexivity | exact Hbody] |].
        destruct (strip_sentinel (toString (sum900 (pending ++ [d])))) as [tl |].
        -- erewrite numeric_step; try assumption; try reflexivity.
           2:{ rewrite (@NumericCompaction_body_stop cw _ (item cw (p + 1)))
                 by assumption.
               rewrite NumericCompaction_flush_none by reflexivity.
               reflexivity. }
           rewrite numeric_closed by
             (first [assumption | right; split; [reflexivity | right; reflexivity]]).
           reflexivity.
        -- rewrite numeric_closed by (first [assumption | left; reflexivity]).
           reflexivity.
      * (* the group is closed by the codeword that follows *)
        change (result_of (ret ?x)) with (Ret x) in Hbody.
        eapply eq_trans;
          [eapply numeric_step;
             [exact Hcw | reflexivity | exact Hlt | reflexivity | exact Hbody] |].
        erewrite numeric_step; try assumption; try reflexivity.
        2:{ rewrite (@NumericCompaction_body_stop cw _ (item cw (p + 1)))
              by assumption.
            cbn [n_codeIndex n_count numericCodewords n_result n_status].
            rewrite Hflush. reflexivity. }
        rewrite numeric_closed by
          (first [assumption |
           destruct (strip_sentinel (toString (sum900 (pending ++ [d]))));
           [right; split; [reflexivity | right; reflexivity] | left; reflexivity]]).
        unfold NumericCompaction_return.
        destruct (strip_sentinel (toString (sum900 (pending ++ [d]))));
          reflexivity.
  - (* more codewords of the run ahead *)
    assert (Hat' := Hat).
    apply codewords_at_cons in Hat'. destruct Hat' as [Hrd Hat'].
    inversion Hdata as [| ? ? Hd Hdata']; subst.
    assert (Hrd2 := Hat'). apply codewords_at_cons in Hrd2.
    destruct Hrd2 as [Hrd2 _].
    apply (f_equal result_of) in Hrd2. apply rd_Ret in Hrd2.
    cbn [List.length] in H15, Hend.
    assert (Hlt : p + 1 < item cw 0) by (destruct Hend as [? | [? _]]; lia).
    destruct fuel as [| fuel]; [lia |].
    set (nc' := upd nc (Z.to_nat (Z.of_nat (List.length pending))) d).
    erewrite numeric_step; try assumption; try reflexivity; [| cbn [n_codeIndex]; lia |].
    2:{ rewrite (@NumericCompaction_body_data cw _ d); try assumption;
          [| cbn [n_count numericCodewords]; lia].
        cbv zeta. cbn [n_count n_end n_codeIndex numericCodewords n_result n_status].
        unfold MAX_NUMERIC_CODEWORDS. rewrite rem_15 by lia.
        destruct (Z.eqb_spec (Z.of_nat (List.length pending) + 1) 15); [lia |].
        destruct (Z.eqb_spec (p + 1) (item cw 0)); [lia |].
        reflexivity. }
    fold nc'.
    replace (Z.of_nat (List.length pending) + 1)
      with (Z.of_nat (List.length (pending ++ [d])))
      by (rewrite length_app; cbn [List.length]; lia).
    rewrite (IH (pending ++ [d]) d' (p + 1) nc').
    + rewrite <- app_assoc. cbn [app List.length].
      replace (p + 1 + 1 + Z.of_nat (List.length rest))
        with (p + 1 + Z.of_nat (Datatypes.S (List.length rest))) by lia.
      reflexivity.
    + rewrite length_app. cbn [List.length]. lia.
    + subst nc'. rewrite upd_length. assumption.
    + subst nc'. rewrite length_app. cbn [List.length]. rewrite Nat2Z.id.
      replace (List.length pending + 1)%nat
        with (Datatypes.S (List.length pending)) by lia.
      rewrite firstn_upd_snoc by lia. rewrite Hfirst. reflexivity.
    + assumption.
    + assumption.
    + assumption.
    + replace (p + 1 + 1 + Z.of_nat (List.length rest))
        with (p + 1 + Z.of_nat (Datatypes.S (List.length rest))) by lia.
      assumption.
    + lia.
Qed.

(** ** Text Compaction *)

(** C3 (amended): in Text Compaction the codeword 913 takes exactly one
    following codeword as a byte; from the sub-modes Alpha, Lower, Mixed,
    Punct and PunctShift that byte is appended to the text as it is, with
    no use of the active character encoding, and the sub-mode afterwards is
    the persistent one: unchanged, or the one that PunctShift was entered
    from. *)
Theorem byte_escape_in_text (cw : list Z) (ts : TextState)
    (tcd bcd : vec) (i b : Z) (st : TextDecodeState) :
  (rd cw (t_codeIndex ts)
   = ([t_codeIndex ts], Ret MODE_SHIFT_TO_BYTE_COMPACTION_MODE) ->
   rd cw (t_codeIndex ts + 1) = ([t_codeIndex ts + 1], Ret b) ->
   in_range (textCompactionData ts) (t_index ts) = true ->
   in_range (byteCompactionData ts) (t_index ts) = true ->
   TextCompaction_body cw ts =
   ([t_codeIndex ts; t_codeIndex ts + 1],
    Ret (mkTextState (t_codeIndex ts + 2) (t_index ts + 1) (t_end ts)
           (upd (textCompactionData ts) (Z.to_nat (t_index ts))
              MODE_SHIFT_TO_BYTE_COMPACTION_MODE)
           (upd (byteCompactionData ts) (Z.to_nat (t_index ts)) b)))) /\
  (vget tcd i = ret MODE_SHIFT_TO_BYTE_COMPACTION_MODE ->
   vget bcd i = ret b ->
   subMode st <> ALPHA_SHIFT ->
   DecodeTextCompaction_step tcd bcd i st =
   ret (mkTextDecodeState (persistent_mode st) (priorToShiftMode st)
          (appendUtf8 (decoded st) (to_byte b)))).
Proof.
  split.
  - intros Hrd Hrd' Ht Hb. unfold TextCompaction_body.
    rewrite Hrd. cbn [bind].
    change (MODE_SHIFT_TO_BYTE_COMPACTION_MODE <? TEXT_COMPACTION_MODE_LATCH)
      with false.
    change (MODE_SHIFT_TO_BYTE_COMPACTION_MODE =? TEXT_COMPACTION_MODE_LATCH)
      with false.
    change (text_stop MODE_SHIFT_TO_BYTE_COMPACTION_MODE) with false.
    rewrite Z.eqb_refl. cbv iota.
    unfold vset. rewrite Ht, Hb, bind_ret, Hrd'. cbn [bind ret app].
    replace (t_codeIndex ts + 1 + 1) with (t_codeIndex ts + 2) by lia.
    reflexivity.
  - intros Ht Hb Hmode. unfold DecodeTextCompaction_step.
    rewrite Ht, bind_ret. unfold DecodeTextCompaction_switch, persistent_mode.
    destruct st as [m prior text]. cbn [subMode priorToShiftMode decoded] in *.
    destruct m; try contradiction;
      cbn - [vget to_byte]; unfold append_escaped; rewrite Hb;
      reflexivity.
Qed.

Lemma byte_escape_in_text_witness :
  TextCompaction_body [6; 900; 1; 913; 200; 62; 0]
    (mkTextState 3 2 false [0; 1; 0; 0; 0; 0; 0; 0] [0; 0; 0; 0; 0; 0; 0; 0])
  = ([3; 3 + 1],
     Ret (mkTextState (3 + 2) (2 + 1) false
            (upd [0; 1; 0; 0; 0; 0; 0; 0] (Z.to_nat 2) 913)
            (upd [0; 0; 0; 0; 0; 0; 0; 0] (Z.to_nat 2) 200))) /\
  DecodeTextCompaction_step [27; 29; 913; 2; 2] [0; 0; 200; 0; 0] 2
    (mkTextDecodeState PUNCT_SHIFT LOWER [65])
  = ret (mkTextDecodeState LOWER LOWER (appendUtf8 [65] (to_byte 200))).
Proof.
  split.
  - apply (proj1 (@byte_escape_in_text [6; 900; 1; 913; 200; 62; 0]
       (mkTextState 3 2 false [0; 1; 0; 0; 0; 0; 0; 0] [0; 0; 0; 0; 0; 0; 0; 0])
       [] [] 0 200 (mkTextDecodeState ALPHA ALPHA [])));
      reflexivity.
  - apply (proj2 (@byte_escape_in_text []
       (mkTextState 0 0 false [] [])
       [27; 29; 913; 2; 2] [0; 0; 200; 0; 0] 2 200
       (mkTextDecodeState PUNCT_SHIFT LOWER [65])));
      [reflexivity | reflexivity | discriminate].
Defined.

(** After an Alpha shift the codeword 913 takes its following codeword, 65
    here, and appends nothing; and the byte that 913 brings is appended as
    it is under a transcoder that changes every byte. *)
Lemma byte_escape_after_alpha_shift :
  result_of (TextCompaction [6; 900; 837; 913; 65; 62; 0] 2 [])
  = Ret (6, [99; 99]) /\
  result_of (Decode Sample.ISO8859_1 Sample.CharsetFromValue Shifted.toUnicode
               Sample.newExtra [4; 900; 913; 200; 0] 0 Sample.noResult)
  = Ret (NoError, mkDecoderResult [200] "0" Sample.newExtra) /\
  Shifted.toUnicode [200] Sample.ISO8859_1 = [1200].
Proof.
  split; [| split]; vm_compute; reflexivity.
Qed.

(** ** Macro PDF417 control block *)

Lemma Optional_cond_ok (cw : list Z) (st : OptionalState) :
  (0 < List.length cw)%nat -> o_status st = NoError ->
  result_of (Optional_cond cw st)
  = Ret ((o_codeIndex st <? item cw 0) && negb (o_end st)).
Proof.
  intros Hcw Hs. unfold Optional_cond. rewrite Hs. cbn [StatusIsError].
  rewrite rd_in by lia. reflexivity.
Qed.

Lemma Optional_cond_error (cw : list Z) (st : OptionalState) :
  o_status st = FormatError -> Optional_cond cw st = ret false.
Proof. intros Hs. unfold Optional_cond. rewrite Hs. reflexivity. Qed.

(** The loop body on a control codeword: the terminator sets the
    last-segment flag and ends the loop, any other one is an error. *)
Lemma Optional_body_control (cw : list Z) (st : OptionalState) (c : Z) :
  rd cw (o_codeIndex st) = ([o_codeIndex st], Ret c) -> 900 <= c ->
  Optional_body cw st =
  ([o_codeIndex st],
   Ret (if c =? MACRO_PDF417_TERMINATOR then
          mkOptionalState (o_codeIndex st + 1 + 1) true
            (additionalOptionCodeWords st)
            (setLastSegment (o_metadata st) true) (o_status st)
        else
          mkOptionalState (o_codeIndex st + 1) (o_end st)
            (additionalOptionCodeWords st) (o_metadata st) FormatError)).
Proof.
  intros Hrd Hc. unfold Optional_body. rewrite Hrd. cbn [bind].
  unfold TEXT_COMPACTION_MODE_LATCH.
  destruct (Z.ltb_spec c 900); [lia |].
  destruct (c =? MACRO_PDF417_TERMINATOR); reflexivity.
Qed.

Lemma Optional_body_data (cw : list Z) (st : OptionalState) (c : Z) :
  rd cw (o_codeIndex st) = ([o_codeIndex st], Ret c) -> c < 900 ->
  Optional_body cw st =
  ([o_codeIndex st],
   Ret (mkOptionalState (o_codeIndex st + 1) (o_end st)
          (additionalOptionCodeWords st ++ [c]) (o_metadata st)
          (o_status st))).
Proof.
  intros Hrd Hc. unfold Optional_body. rewrite Hrd. cbn [bind].
  unfold TEXT_COMPACTION_MODE_LATCH.
  destruct (Z.ltb_spec c 900); [reflexivity | lia].
Qed.

(** The optional-field loop on data codewords [opts] followed by a control
    codeword [c] before the declared count. *)
Lemma optional_loop (cw : list Z) (opts : list Z) :
  forall (p : Z) (acc : list Z) (meta : DecoderResultExtra) (fuel : nat)
         (c : Z),
  Forall (fun d => d < 900) opts ->
  codewords_at cw p (opts ++ [c]) -> 900 <= c ->
  p + Z.of_nat (List.length opts) < item cw 0 ->
  (0 < List.length cw)%nat ->
  (List.length opts + 1 < fuel)%nat ->
  result_of (while fuel (Optional_cond cw) (Optional_body cw)
               (mkOptionalState p false acc meta NoError))
  = Ret (if c =? MACRO_PDF417_TERMINATOR then
           mkOptionalState (p + Z.of_nat (List.length opts) + 1 + 1) true
             (acc ++ opts) (setLastSegment meta true) NoError
         else
           mkOptionalState (p + Z.of_nat (List.length opts) + 1) false
             (acc ++ opts) meta FormatError).
Proof.
  induction opts as [| d opts IH]; intros p acc meta fuel c Hdata Hat Hc Hlt Hcw Hfuel.
  - cbn [app] in Hat. apply codewords_at_cons in Hat. destruct Hat as [Hrd _].
    cbn [List.length Z.of_nat] in *. rewrite Z.add_0_r in *.
    destruct fuel as [| fuel]; [lia |]. destruct fuel as [| fuel]; [lia |].
    erewrite while_step_result.
    2:{ rewrite Optional_cond_ok by (assumption || reflexivity).
        cbn [o_codeIndex o_end].
        destruct (Z.ltb_spec p (item cw 0)); [reflexivity | lia]. }
    2:{ rewrite (@Optional_body_control cw _ c) by assumption. reflexivity. }
    cbn [o_codeIndex o_end additionalOptionCodeWords o_metadata o_status].
    rewrite List.app_nil_r.
    rewrite while_exit_result; [reflexivity |].
    destruct (c =? MACRO_PDF417_TERMINATOR).
    + rewrite Optional_cond_ok by (assumption || reflexivity).
      cbn [o_end]. rewrite andb_false_r. reflexivity.
    + rewrite Optional_cond_error by reflexivity. reflexivity.
  - cbn [app] in Hat. apply codewords_at_cons in Hat. destruct Hat as [Hrd Hat].
    inversion Hdata as [| ? ? Hd Hdata']; subst.
    cbn [List.length] in *.
    destruct fuel as [| fuel]; [lia |].
    erewrite while_step_result.
    2:{ rewrite Optional_cond_ok by (assumption || reflexivity).
        cbn [o_codeIndex o_end].
        destruct (Z.ltb_spec p (item cw 0)); [reflexivity | lia]. }
    2:{ rewrite (@Optional_body_data cw _ d) by assumption. reflexivity. }
    cbn [o_codeIndex o_end additionalOptionCodeWords o_metadata o_status].
    rewrite (IH (p + 1) (acc ++ [d]) meta fuel c); try assumption; try lia.
    rewrite <- app_assoc. cbn [app].
    replace (p + 1 + Z.of_nat (List.length opts))
      with (p + Z.of_nat (Datatypes.S (List.length opts))) by lia.
    reflexivity.
Qed.

Lemma copy_segment_index_both (cw : list Z) (ci : Z) :
  0 <= ci -> ci + 1 < Z.of_nat (List.length cw) ->
  for_range 2 0 (copy_segment_index cw) ([0; 0], ci)
  = ([ci; ci + 1], Ret ([item cw ci; item cw (ci + 1)], ci + 1 + 1)).
Proof.
  intros H0 Hlen. cbn [for_range]. unfold copy_segment_index.
  rewrite (@rd_in cw ci) by lia. cbn [bind].
  rewrite vset_in by (cbn [List.length]; lia). cbn [bind ret Z.to_nat upd].
  rewrite (@rd_in cw (ci + 1)) by lia. cbn [bind].
  rewrite vset_in by (cbn [List.length]; lia).
  change (Z.to_nat (0 + 1)) with 1%nat. cbn [bind ret upd app].
  reflexivity.
Qed.

(** The block up to the file id: the segment index and the file id are
    stored, and the codeword after the file id is looked at. *)
Lemma DecodeMacroBlock_prefix (cw : list Z) (ci : Z)
    (meta : DecoderResultExtra) (next : Z) (strBuf : string) (n ci' : Z)
    (fileId : String) :
  0 <= ci -> ci + 1 < Z.of_nat (List.length cw) -> ci + 2 <= item cw 0 ->
  strip_sentinel (toString (sum900 [item cw ci; item cw (ci + 1)]))
  = Some strBuf ->
  result_of (stoi strBuf) = Ret n ->
  result_of (TextCompaction cw (ci + 2) []) = Ret (ci', fileId) ->
  result_of (DecodeMacroBlock cw ci meta next) =
  result_of
    (let resultMetadata := setFileId (setSegmentIndex meta n) fileId in
     c <- rd cw ci' ;;
     if c =? BEGIN_MACRO_PDF417_OPTIONAL_FIELD then
       let codeIndex := ci' + 1 in
       count <- rd cw 0 ;;
       if count - codeIndex <? 0 then stuck LengthError
       else
         st <- while (fuel_from cw codeIndex) (Optional_cond cw)
                 (Optional_body cw)
                 (mkOptionalState codeIndex false [] resultMetadata NoError) ;;
         if StatusIsError (o_status st) then
           ret (o_status st, o_metadata st, next)
         else
           ret (NoError,
                setOptionalData (o_metadata st) (additionalOptionCodeWords st),
                o_codeIndex st)
     else
       c <- rd cw ci' ;;
       if c =? MACRO_PDF417_TERMINATOR then
         ret (NoError, setLastSegment resultMetadata true, ci' + 1)
       else ret (NoError, resultMetadata, ci')).
Proof.
  intros H0 Hlen Hcount Hseg Hstoi Htext.
  unfold DecodeMacroBlock.
  rewrite result_bind, rd_in by lia. cbn [result_of snd].
  unfold NUMBER_OF_SEQUENCE_CODEWORDS.
  destruct (Z.gtb_spec (ci + 2) (item cw 0)); [lia |].
  unfold vnew. change (2 <? 0) with false. cbv iota.
  change (repeat 0 (Z.to_nat 2)) with [0; 0]. rewrite bind_ret.
  change (Z.to_nat 2) with 2%nat.
  rewrite result_bind, copy_segment_index_both by lia. cbn [result_of snd].
  change 2 with (Z.of_nat 2) at 1.
  rewrite result_bind, DecodeBase900toBase10_spec by (cbn [List.length]; lia).
  cbn [firstn]. rewrite Hseg. cbn [result_of snd ret StatusIsError].
  rewrite result_bind, Hstoi, result_bind.
  replace (ci + 1 + 1) with (ci + 2) by lia. rewrite Htext.
  reflexivity.
Qed.

(** C7: [DecodeMacroBlock] returns [FormatError] when fewer than two
    codewords are left before the declared count; in the optional-field
    loop a control codeword other than the terminator 922 makes it return
    [FormatError]; the terminator, met in that loop or right after the file
    id, sets the last-segment flag. *)
Theorem macro_block_errors (cw : list Z) (ci : Z) (meta : DecoderResultExtra)
    (next : Z) :
  (0 < List.length cw)%nat ->
  (item cw 0 < ci + 2 ->
   DecodeMacroBlock cw ci meta next = ([0], Ret (FormatError, meta, next))) /\
  (forall strBuf n ci' fileId,
     0 <= ci -> ci + 1 < Z.of_nat (List.length cw) -> ci + 2 <= item cw 0 ->
     strip_sentinel (toString (sum900 [item cw ci; item cw (ci + 1)]))
     = Some strBuf ->
     result_of (stoi strBuf) = Ret n ->
     result_of (TextCompaction cw (ci + 2) []) = Ret (ci', fileId) ->
     0 <= ci' < Z.of_nat (List.length cw) ->
     let meta' := setFileId (setSegmentIndex meta n) fileId in
     (item cw ci' = MACRO_PDF417_TERMINATOR ->
      result_of (DecodeMacroBlock cw ci meta next)
      = Ret (NoError, setLastSegment meta' true, ci' + 1)) /\
     (item cw ci' = BEGIN_MACRO_PDF417_OPTIONAL_FIELD ->
      forall opts c,
        Forall (fun d => d < 900) opts ->
        codewords_at cw (ci' + 1) (opts ++ [c]) -> 900 <= c ->
        ci' + 1 + Z.of_nat (List.length opts) < item cw 0 ->
        result_of (DecodeMacroBlock cw ci meta next)
        = Ret (if c =? MACRO_PDF417_TERMINATOR then
                 (NoError, setOptionalData (setLastSegment meta' true) opts,
                  ci' + 1 + Z.of_nat (List.length opts) + 1 + 1)
               else (FormatError, meta', next)))).
Proof.
  intros Hcw. split.
  - intros Hfew. unfold DecodeMacroBlock. rewrite rd_in by lia.
    cbn [bind]. unfold NUMBER_OF_SEQUENCE_CODEWORDS.
    destruct (Z.gtb_spec (ci + 2) (item cw 0)); [reflexivity | lia].
  - intros strBuf n ci' fileId H0 Hlen Hcount Hseg Hstoi Htext Hci' meta'.
    assert (Hpre := @DecodeMacroBlock_prefix cw ci meta next strBuf n ci'
                      fileId H0 Hlen Hcount Hseg Hstoi Htext).
    cbv zeta in Hpre. fold meta' in Hpre.
    rewrite result_bind, rd_in in Hpre by lia. cbn [result_of snd] in Hpre.
    split.
    + intros Hterm. rewrite Hpre, Hterm.
      change (MACRO_PDF417_TERMINATOR =? BEGIN_MACRO_PDF417_OPTIONAL_FIELD)
        with false. cbv iota. reflexivity.
    + intros Hopt opts c Hdata Hat Hc Hlt.
      rewrite Hpre, Hopt. rewrite Z.eqb_refl.
      rewrite result_bind, rd_in by lia. cbn [result_of snd].
      destruct (Z.ltb_spec (item cw 0 - (ci' + 1)) 0); [lia |].
      rewrite result_bind.
      rewrite (@optional_loop cw opts (ci' + 1) [] meta' _ c);
        try assumption; [| unfold fuel_from; lia].
      destruct (c =? MACRO_PDF417_TERMINATOR); reflexivity.
Qed.

Lemma macro_block_errors_witness :
  DecodeMacroBlock [3; 928; 111] 2 Sample.newExtra 2
  = ([0], Ret (FormatError, Sample.newExtra, 2)) /\
  result_of (DecodeMacroBlock [10; 928; 111; 107; 1; 89; 922; 0; 0; 0; 0] 2
               Sample.newExtra 2)
  = Ret (NoError, mkExtra 7 [65; 66; 67] true [], 7) /\
  result_of (DecodeMacroBlock [10; 928; 111; 107; 1; 89; 923; 5; 6; 922; 0; 0]
               2 Sample.newExtra 2)
  = Ret (NoError, mkExtra 7 [65; 66; 67] true [5; 6], 11) /\
  result_of (DecodeMacroBlock [10; 928; 111; 107; 1; 89; 923; 5; 6; 900; 0; 0]
               2 Sample.newExtra 2)
  = Ret (FormatError, mkExtra 7 [65; 66; 67] false [], 2).
Proof.
  split; [| split; [| split]].
  - apply (proj1 (@macro_block_errors [3; 928; 111] 2 Sample.newExtra 2
                    ltac:(simpl; lia))).
    vm_compute. reflexivity.
  - apply (proj1 (proj2 (@macro_block_errors
             [10; 928; 111; 107; 1; 89; 922; 0; 0; 0; 0] 2 Sample.newExtra 2
             ltac:(simpl; lia))
             "00007"%string 7 6 [65; 66; 67]
             ltac:(lia) ltac:(simpl; lia) ltac:(vm_compute; discriminate)
             ltac:(reflexivity) ltac:(reflexivity) ltac:(reflexivity)
             ltac:(simpl; lia))).
    reflexivity.
  - apply (proj2 (proj2 (@macro_block_errors
             [10; 928; 111; 107; 1; 89; 923; 5; 6; 922; 0; 0] 2 Sample.newExtra 2
             ltac:(simpl; lia))
             "00007"%string 7 6 [65; 66; 67]
             ltac:(lia) ltac:(simpl; lia) ltac:(vm_compute; discriminate)
             ltac:(reflexivity) ltac:(reflexivity) ltac:(reflexivity)
             ltac:(simpl; lia))
           ltac:(reflexivity) [5; 6] 922).
    + repeat constructor; lia.
    + split; [lia | reflexivity].
    + lia.
    + vm_compute. reflexivity.
  - apply (proj2 (proj2 (@macro_block_errors
             [10; 928; 111; 107; 1; 89; 923; 5; 6; 900; 0; 0] 2 Sample.newExtra 2
             ltac:(simpl; lia))
             "00007"%string 7 6 [65; 66; 67]
             ltac:(lia) ltac:(simpl; lia) ltac:(vm_compute; discriminate)
             ltac:(reflexivity) ltac:(reflexivity) ltac:(reflexivity)
             ltac:(simpl; lia))
           ltac:(reflexivity) [5; 6] 900).
    + repeat constructor; lia.
    + split; [lia | reflexivity].
    + lia.
    + vm_compute. reflexivity.
Defined.

(** ** The cursor moves forward, and the loops end *)

(** Take apart a hypothesis on the result of a sequence of steps. *)
Ltac take_apart H :=
  repeat first
    [ rewrite result_bind in H
    | match type of H with
      | context [match result_of ?m with _ => _ end] =>
          let E := fresh "E" in
          destruct (result_of m) eqn:E; [| discriminate H]
      | context [if ?b then _ else _] =>
          let E := fresh "E" in destruct b eqn:E
      | context [match ?x with (_, _) => _ end] => destruct x
      end
    | progress cbn [result_of snd ret stuck] in H ].

Lemma vset_not_fuel (v : vec) (i x : Z) :
  result_of (vset v i x) <> Stuck OutOfFuel.
Proof. unfold vset. destruct (in_range v i); discriminate. Qed.

Lemma vget_not_fuel (v : vec) (i : Z) :
  result_of (vget v i) <> Stuck OutOfFuel.
Proof. unfold vget. destruct (in_range v i); discriminate. Qed.

Lemma vnew_not_fuel (n : Z) : result_of (vnew n) <> Stuck OutOfFuel.
Proof. unfold vnew. destruct (n <? 0); discriminate. Qed.

Lemma bind_not_fuel (A B : Type) (m : M A) (k : A -> M B) :
  result_of m <> Stuck OutOfFuel ->
  (forall a, result_of m = Ret a -> result_of (k a) <> Stuck OutOfFuel) ->
  result_of (bind m k) <> Stuck OutOfFuel.
Proof.
  rewrite result_bind.
  destruct (result_of m) as [a | f]; intros Hm Hk;
    [apply Hk; reflexivity |].
  intros [= E]. apply Hm. rewrite E. reflexivity.
Qed.

(** Solve a goal that says that a sequence of steps does not run out of
    fuel, when no step of it is a loop. *)
Ltac no_fuel :=
  repeat first
    [ apply rd_not_fuel | apply vset_not_fuel | apply vget_not_fuel
    | apply vnew_not_fuel
    | discriminate
    | apply bind_not_fuel; [| intros ? ?]
    | match goal with
      | |- context [if ?b then _ else _] => destruct b
      | |- context [match ?x with (_, _) => _ end] => destruct x
      | |- context [match subMode ?s with _ => _ end] => destruct (subMode s)
      end
    | progress cbv zeta ].

(** *** Text Compaction *)

Lemma TextCompaction_body_progress (cw : list Z) (s s' : TextState) :
  result_of (TextCompaction_body cw s) = Ret s' ->
  t_codeIndex s <= t_codeIndex s' /\
  (t_end s' = true \/ t_codeIndex s + 1 <= t_codeIndex s') /\
  (t_end s = false -> text_stop (item cw (t_codeIndex s)) = false ->
   t_end s' = false /\ t_codeIndex s + 1 <= t_codeIndex s').
Proof.
  intros H. unfold TextCompaction_body in H.
  rewrite result_bind in H.
  destruct (result_of (rd cw (t_codeIndex s))) as [c |] eqn:Ec;
    [| discriminate H].
  apply rd_Ret in Ec. destruct Ec as [_ ->].
  take_apart H; injection H as <-; cbn [t_codeIndex t_end];
    repeat split; try (right; lia); try (left; reflexivity); try lia;
    try congruence; intros; try congruence; try lia.
Qed.

Lemma TextCompaction_body_not_fuel (cw : list Z) (s : TextState) :
  result_of (TextCompaction_body cw s) <> Stuck OutOfFuel.
Proof. unfold TextCompaction_body. no_fuel. Qed.

Lemma TextCompaction_cond_true (cw : list Z) (s : TextState) :
  result_of (TextCompaction_cond cw s) = Ret true ->
  t_codeIndex s < item cw 0 /\ t_end s = false.
Proof.
  unfold TextCompaction_cond. rewrite result_bind.
  destruct (result_of (rd cw 0)) as [c |] eqn:E; [| discriminate].
  apply rd_Ret in E. destruct E as [_ ->]. cbn [result_of snd ret].
  intros [= H]. apply andb_true_iff in H. destruct H as [H1 H2].
  apply Z.ltb_lt in H1. apply negb_true_iff in H2. auto.
Qed.

Lemma TextCompaction_cond_not_fuel (cw : list Z) (s : TextState) :
  result_of (TextCompaction_cond cw s) <> Stuck OutOfFuel.
Proof. unfold TextCompaction_cond. no_fuel. Qed.

Lemma Text_loop_not_fuel (cw : list Z) (s : TextState) (fuel : nat) :
  (remaining cw (t_codeIndex s) (t_end s) < fuel)%nat ->
  result_of (while fuel (TextCompaction_cond cw) (TextCompaction_body cw) s)
  <> Stuck OutOfFuel.
Proof.
  apply (@while_fuel _ _ _ (fun _ => True)
           (fun s => remaining cw (t_codeIndex s) (t_end s))).
  - apply TextCompaction_cond_not_fuel.
  - intros; apply TextCompaction_body_not_fuel.
  - intros s0 s1 _ Hc Hb. split; [exact I |].
    apply TextCompaction_cond_true in Hc. destruct Hc as [Hlt He].
    apply TextCompaction_body_progress in Hb. destruct Hb as (_ & Hb & _).
    unfold remaining. rewrite He.
    destruct (t_end s1); [lia |]. destruct Hb as [Hb | Hb]; [discriminate | lia].
  - exact I.
Qed.

Lemma Text_loop_cursor (cw : list Z) (fuel : nat) (s s' : TextState) (lo : Z) :
  lo <= t_codeIndex s ->
  result_of (while fuel (TextCompaction_cond cw) (TextCompaction_body cw) s)
  = Ret s' ->
  lo <= t_codeIndex s'.
Proof.
  intros Hlo H.
  apply (@while_inv _ _ _ (fun s => lo <= t_codeIndex s)) in H.
  - apply H.
  - intros s0 s1 H0 _ Hb. apply TextCompaction_body_progress in Hb. lia.
  - assumption.
Qed.

Lemma DecodeTextCompaction_not_fuel (tcd bcd : vec) (length : Z)
    (result : String) :
  result_of (DecodeTextCompaction tcd bcd length result) <> Stuck OutOfFuel.
Proof.
  unfold DecodeTextCompaction. apply bind_not_fuel; [| discriminate].
  apply for_range_not_fuel. intros i s.
  unfold DecodeTextCompaction_step, DecodeTextCompaction_switch, append_escaped.
  no_fuel.
Qed.

Lemma TextCompaction_not_fuel (cw : list Z) (ci : Z) (result : String) :
  result_of (TextCompaction cw ci result) <> Stuck OutOfFuel.
Proof.
  unfold TextCompaction.
  repeat (apply bind_not_fuel; [first [apply rd_not_fuel | apply vnew_not_fuel] | intros ? ?]).
  apply bind_not_fuel.
  - apply Text_loop_not_fuel. unfold remaining, fuel_from. cbn [t_end t_codeIndex]. lia.
  - intros st _. apply bind_not_fuel; [apply DecodeTextCompaction_not_fuel |].
    discriminate.
Qed.

(** [TextCompaction] hands back a cursor that is not before the one it
    got, and that is past it when the first codeword is not one it hands
    back. *)
Lemma TextCompaction_cursor (cw : list Z) (ci : Z) (result : String)
    (ci' : Z) (result' : String) :
  result_of (TextCompaction cw ci result) = Ret (ci', result') ->
  ci <= ci' /\
  (ci < item cw 0 -> text_stop (item cw ci) = false -> ci + 1 <= ci').
Proof.
  intros H. unfold TextCompaction in H.
  rewrite result_bind in H.
  destruct (result_of (rd cw 0)) as [c0 |] eqn:E0; [| discriminate H].
  apply rd_Ret in E0. destruct E0 as [Hcw ->].
  rewrite result_bind in H.
  destruct (result_of (vnew ((item cw 0 - ci) * 2))) as [tcd |]; [| discriminate H].
  rewrite result_bind in H.
  destruct (result_of (rd cw 0)) as [c0 |]; [| discriminate H].
  rewrite result_bind in H.
  destruct (result_of (vnew ((c0 - ci) * 2))) as [bcd |]; [| discriminate H].
  rewrite result_bind in H.
  destruct (result_of (while (fuel_from cw ci) (TextCompaction_cond cw)
                         (TextCompaction_body cw)
                         (mkTextState ci 0 false tcd bcd))) as [st |] eqn:Ew;
    [| discriminate H].
  rewrite result_bind in H.
  destruct (result_of (DecodeTextCompaction (textCompactionData st)
                         (byteCompactionData st) (t_index st) result));
    [| discriminate H].
  cbn [result_of snd ret] in H. injection H as <- _.
  split.
  - eapply Text_loop_cursor; [| exact Ew]. cbn [t_codeIndex]. lia.
  - intros Hlt Hstop. unfold fuel_from in Ew.
    destruct (Z.to_nat (item cw 0 - ci)) as [| n] eqn:En; [lia |].
    rewrite while_unfold, result_bind in Ew.
    unfold TextCompaction_cond at 1 in Ew.
    rewrite result_bind, rd_in in Ew by lia.
    cbn [result_of snd ret t_codeIndex t_end] in Ew.
    destruct (Z.ltb_spec ci (item cw 0)); [| lia]. cbn [andb negb] in Ew.
    rewrite result_bind in Ew.
    destruct (result_of (TextCompaction_body cw (mkTextState ci 0 false tcd bcd)))
      as [s1 |] eqn:Eb; [| discriminate Ew].
    apply TextCompaction_body_progress in Eb. destruct Eb as (_ & _ & Eb).
    specialize (Eb eq_refl Hstop). cbn [t_codeIndex] in Eb.
    eapply Text_loop_cursor; [| exact Ew]. lia.
Qed.

(** *** Byte Compaction *)

Lemma ByteCompaction_body_progress (cw : list Z) (s s' : ByteState) :
  result_of (ByteCompaction_body cw s) = Ret s' ->
  b_codeIndex s <= b_codeIndex s' /\
  (b_end s' = true \/ b_codeIndex s + 1 <= b_codeIndex s').
Proof.
  intros H. unfold ByteCompaction_body in H.
  take_apart H; injection H as <-; cbn [b_codeIndex b_end];
    split; try lia; try (left; reflexivity); right; lia.
Qed.

Lemma ByteCompaction_cond_true (cw : list Z) (s : ByteState) :
  result_of (ByteCompaction_cond cw s) = Ret true ->
  b_codeIndex s < item cw 0 /\ b_end s = false.
Proof.
  unfold ByteCompaction_cond. rewrite result_bind.
  destruct (result_of (rd cw 0)) as [c |] eqn:E; [| discriminate].
  apply rd_Ret in E. destruct E as [_ ->]. cbn [result_of snd ret].
  intros [= H]. apply andb_true_iff in H. destruct H as [H1 H2].
  apply Z.ltb_lt in H1. apply negb_true_iff in H2. auto.
Qed.

Lemma Byte_loop_not_fuel (cw : list Z) (s : ByteState) (fuel : nat) :
  (remaining cw (b_codeIndex s) (b_end s) < fuel)%nat ->
  result_of (while fuel (ByteCompaction_cond cw) (ByteCompaction_body cw) s)
  <> Stuck OutOfFuel.
Proof.
  apply (@while_fuel _ _ _ (fun _ => True)
           (fun s => remaining cw (b_codeIndex s) (b_end s))).
  - intros s0. unfold ByteCompaction_cond. no_fuel.
  - intros s0 _. unfold ByteCompaction_body. no_fuel.
  - intros s0 s1 _ Hc Hb. split; [exact I |].
    apply ByteCompaction_cond_true in Hc. destruct Hc as [Hlt He].
    apply ByteCompaction_body_progress in Hb. destruct Hb as (_ & Hb).
    unfold remaining. rewrite He.
    destruct (b_end s1); [lia |]. destruct Hb as [Hb | Hb]; [discriminate | lia].
  - exact I.
Qed.

Lemma Byte_loop_cursor (cw : list Z) (fuel : nat) (s s' : ByteState) (lo : Z) :
  lo <= b_codeIndex s ->
  result_of (while fuel (ByteCompaction_cond cw) (ByteCompaction_body cw) s)
  = Ret s' ->
  lo <= b_codeIndex s'.
Proof.
  intros Hlo H.
  apply (@while_inv _ _ _ (fun s => lo <= b_codeIndex s)) in H.
  - apply H.
  - intros s0 s1 H0 _ Hb. apply ByteCompaction_body_progress in Hb. lia.
  - assumption.
Qed.

Lemma ByteCompaction6_body_progress (cw : list Z) (s s' : Byte6State) :
  result_of (ByteCompaction6_body cw s) = Ret s' ->
  s_codeIndex s <= s_codeIndex s' /\
  (s_end s' = true \/ s_codeIndex s + 1 <= s_codeIndex s').
Proof.
  intros H. unfold ByteCompaction6_body in H.
  take_apart H; injection H as <-; cbn [s_codeIndex s_end];
    split; try lia; try (left; reflexivity); right; lia.
Qed.

Lemma ByteCompaction6_cond_true (cw : list Z) (s : Byte6State) :
  result_of (ByteCompaction6_cond cw s) = Ret true ->
  s_codeIndex s < item cw 0 /\ s_end s = false.
Proof.
  unfold ByteCompaction6_cond. rewrite result_bind.
  destruct (result_of (rd cw 0)) as [c |] eqn:E; [| discriminate].
  apply rd_Ret in E. destruct E as [_ ->]. cbn [result_of snd ret].
  intros [= H]. apply andb_true_iff in H. destruct H as [H1 H2].
  apply Z.ltb_lt in H1. apply negb_true_iff in H2. auto.
Qed.

Lemma Byte6_loop_not_fuel (cw : list Z) (s : Byte6State) (fuel : nat) :
  (remaining cw (s_codeIndex s) (s_end s) < fuel)%nat ->
  result_of (while fuel (ByteCompaction6_cond cw) (ByteCompaction6_body cw) s)
  <> Stuck OutOfFuel.
Proof.
  apply (@while_fuel _ _ _ (fun _ => True)
           (fun s => remaining cw (s_codeIndex s) (s_end s))).
  - intros s0. unfold ByteCompaction6_cond. no_fuel.
  - intros s0 _. unfold ByteCompaction6_body. no_fuel.
  - intros s0 s1 _ Hc Hb. split; [exact I |].
    apply ByteCompaction6_cond_true in Hc. destruct Hc as [Hlt He].
    apply ByteCompaction6_body_progress in Hb. destruct Hb as (_ & Hb).
    unfold remaining. rewrite He.
    destruct (s_end s1); [lia |]. destruct Hb as [Hb | Hb]; [discriminate | lia].
  - exact I.
Qed.

Lemma Byte6_loop_cursor (cw : list Z) (fuel : nat) (s s' : Byte6State)
    (lo : Z) :
  lo <= s_codeIndex s ->
  result_of (while fuel (ByteCompaction6_cond cw) (ByteCompaction6_body cw) s)
  = Ret s' ->
  lo <= s_codeIndex s'.
Proof.
  intros Hlo H.
  apply (@while_inv _ _ _ (fun s => lo <= s_codeIndex s)) in H.
  - apply H.
  - intros s0 s1 H0 _ Hb. apply ByteCompaction6_body_progress in Hb. lia.
  - assumption.
Qed.

Lemma ByteCompaction_bytes_not_fuel (mode : Z) (cw : list Z) (ci : Z) :
  result_of (ByteCompaction_bytes mode cw ci) <> Stuck OutOfFuel.
Proof.
  unfold ByteCompaction_bytes.
  destruct (mode =? BYTE_COMPACTION_MODE_LATCH);
    [| destruct (mode =? BYTE_COMPACTION_MODE_LATCH_6); [| discriminate]].
  - unfold ByteCompaction_901.
    apply bind_not_fuel; [apply rd_not_fuel | intros next _].
    apply bind_not_fuel.
    + apply Byte_loop_not_fuel. unfold remaining, fuel_from.
      cbn [b_end b_codeIndex]. lia.
    + intros st _. unfold ByteCompaction_tail.
      apply bind_not_fuel; [apply rd_not_fuel | intros c _].
      apply bind_not_fuel; [no_fuel | intros [bcc cnt] _].
      apply bind_not_fuel; [| discriminate].
      apply for_range_not_fuel. intros i s. unfold push_raw. no_fuel.
  - unfold ByteCompaction_924. apply bind_not_fuel; [| discriminate].
    apply Byte6_loop_not_fuel. unfold remaining, fuel_from.
    cbn [s_end s_codeIndex]. lia.
Qed.

(** [ByteCompaction] hands back a cursor that is not before the one it
    got. *)
Lemma ByteCompaction_bytes_cursor (mode : Z) (cw : list Z) (ci ci' : Z)
    (bytes : list Z) :
  result_of (ByteCompaction_bytes mode cw ci) = Ret (ci', bytes) -> ci <= ci'.
Proof.
  unfold ByteCompaction_bytes.
  destruct (mode =? BYTE_COMPACTION_MODE_LATCH);
    [| destruct (mode =? BYTE_COMPACTION_MODE_LATCH_6)].
  - unfold ByteCompaction_901. intros H.
    rewrite result_bind in H.
    destruct (result_of (rd cw ci)) as [next |]; [| discriminate H].
    rewrite result_bind in H.
    destruct (result_of (while (fuel_from cw (ci + 1)) (ByteCompaction_cond cw)
                (ByteCompaction_body cw)
                (mkByteState (ci + 1) 0 0 [0; 0; 0; 0; 0; 0] false next [])))
      as [st |] eqn:Ew; [| discriminate H].
    apply (@Byte_loop_cursor _ _ _ _ ci) in Ew; [| cbn [b_codeIndex]; lia].
    unfold ByteCompaction_tail in H.
    take_apart H; injection H as <- _; assumption.
  - unfold ByteCompaction_924. intros H.
    rewrite result_bind in H.
    destruct (result_of (while (fuel_from cw ci) (ByteCompaction6_cond cw)
                (ByteCompaction6_body cw) (mkByte6State ci 0 0 false [])))
      as [st |] eqn:Ew; [| discriminate H].
    apply (@Byte6_loop_cursor _ _ _ _ ci) in Ew; [| cbn [s_codeIndex]; lia].
    cbn [result_of snd ret] in H. injection H as <- _. assumption.
  - intros [= <- _]. lia.
Qed.

(** *** Numeric Compaction *)

Lemma DecodeBase900toBase10_not_fuel (codewords : vec) (count : Z) :
  result_of (DecodeBase900toBase10 codewords count) <> Stuck OutOfFuel.
Proof.
  unfold DecodeBase900toBase10. apply bind_not_fuel.
  - apply for_range_not_fuel. intros i s. unfold base900_step. no_fuel.
  - intros r _. destruct (toString r) as [| c rest]; [discriminate |].
    destruct (Ascii.eqb c "1"); discriminate.
Qed.

Lemma NumericCompaction_flush_frame (s s' : NumericState) :
  result_of (NumericCompaction_flush s) = Ret s' ->
  n_codeIndex s' = n_codeIndex s /\ n_end s' = n_end s /\
  (n_status s = NoError -> n_status s' = FormatError \/ n_status s' = NoError).
Proof.
  unfold NumericCompaction_flush. intros H.
  take_apart H; injection H as <-; cbn [n_codeIndex n_end n_status];
    repeat split; intros; try (right; assumption).
  destruct e; [discriminate | left; reflexivity].
Qed.

Lemma NumericCompaction_flush_not_fuel (s : NumericState) :
  result_of (NumericCompaction_flush s) <> Stuck OutOfFuel.
Proof.
  unfold NumericCompaction_flush. destruct (n_count s >? 0); [| discriminate].
  apply bind_not_fuel; [apply DecodeBase900toBase10_not_fuel |].
  intros [st tmp] _. destruct (StatusIsError st); discriminate.
Qed.

Lemma NumericCompaction_body_progress (cw : list Z) (s s' : NumericState) :
  result_of (NumericCompaction_body cw s) = Ret s' ->
  n_codeIndex s <= n_codeIndex s' /\
  (n_end s' = true \/ n_codeIndex s + 1 <= n_codeIndex s').
Proof.
  intros H. unfold NumericCompaction_body in H.
  rewrite result_bind in H.
  destruct (result_of (rd cw (n_codeIndex s))) as [c |]; [| discriminate H].
  rewrite result_bind in H.
  destruct (result_of (rd cw 0)) as [c0 |]; [| discriminate H].
  rewrite result_bind in H.
  match type of H with
  | match result_of ?m with _ => _ end = _ =>
      destruct (result_of m) as [s1 |] eqn:E1; [| discriminate H]
  end.
  assert (H1 : n_codeIndex s <= n_codeIndex s1 /\
               (n_end s1 = true \/ n_codeIndex s + 1 <= n_codeIndex s1)).
  { take_apart E1; injection E1 as <-; cbn [n_codeIndex n_end];
      split; try lia; try (left; reflexivity); right; lia. }
  destruct ((Z.rem (n_count s1) MAX_NUMERIC_CODEWORDS =? 0)
            || (c =? NUMERIC_COMPACTION_MODE_LATCH) || n_end s1).
  - apply NumericCompaction_flush_frame in H. destruct H as (-> & -> & _).
    exact H1.
  - cbn [result_of snd ret] in H. injection H as <-. exact H1.
Qed.

Lemma NumericCompaction_body_not_fuel (cw : list Z) (s : NumericState) :
  result_of (NumericCompaction_body cw s) <> Stuck OutOfFuel.
Proof.
  unfold NumericCompaction_body.
  apply bind_not_fuel; [apply rd_not_fuel | intros c _].
  apply bind_not_fuel; [apply rd_not_fuel | intros c0 _].
  apply bind_not_fuel; [no_fuel | intros s1 _].
  destruct ((Z.rem (n_count s1) MAX_NUMERIC_CODEWORDS =? 0)
            || (c =? NUMERIC_COMPACTION_MODE_LATCH) || n_end s1);
    [apply NumericCompaction_flush_not_fuel | discriminate].
Qed.

Lemma NumericCompaction_cond_true (cw : list Z) (s : NumericState) :
  result_of (NumericCompaction_cond cw s) = Ret true ->
  n_codeIndex s < item cw 0 /\ n_end s = false /\ n_status s = NoError.
Proof.
  unfold NumericCompaction_cond. destruct (n_status s); cbn [StatusIsError];
    [| discriminate].
  rewrite result_bind.
  destruct (result_of (rd cw 0)) as [c |] eqn:E; [| discriminate].
  apply rd_Ret in E. destruct E as [_ ->]. cbn [result_of snd ret].
  intros [= H]. apply andb_true_iff in H. destruct H as [H1 H2].
  apply Z.ltb_lt in H1. apply negb_true_iff in H2. auto.
Qed.

Lemma Numeric_loop_not_fuel (cw : list Z) (s : NumericState) (fuel : nat) :
  (remaining cw (n_codeIndex s) (n_end s) < fuel)%nat ->
  result_of (while fuel (NumericCompaction_cond cw) (NumericCompaction_body cw) s)
  <> Stuck OutOfFuel.
Proof.
  apply (@while_fuel _ _ _ (fun _ => True)
           (fun s => remaining cw (n_codeIndex s) (n_end s))).
  - intros s0. unfold NumericCompaction_cond. no_fuel.
  - intros s0 _. apply NumericCompaction_body_not_fuel.
  - intros s0 s1 _ Hc Hb. split; [exact I |].
    apply NumericCompaction_cond_true in Hc. destruct Hc as (Hlt & He & _).
    apply NumericCompaction_body_progress in Hb. destruct Hb as (_ & Hb).
    unfold remaining. rewrite He.
    destruct (n_end s1); [lia |]. destruct Hb as [Hb | Hb]; [discriminate | lia].
  - exact I.
Qed.

Lemma Numeric_loop_cursor (cw : list Z) (fuel : nat) (s s' : NumericState)
    (lo : Z) :
  lo <= n_codeIndex s ->
  result_of (while fuel (NumericCompaction_cond cw) (NumericCompaction_body cw) s)
  = Ret s' ->
  lo <= n_codeIndex s'.
Proof.
  intros Hlo H.
  apply (@while_inv _ _ _ (fun s => lo <= n_codeIndex s)) in H.
  - apply H.
  - intros s0 s1 H0 _ Hb. apply NumericCompaction_body_progress in Hb. lia.
  - assumption.
Qed.

Lemma NumericCompaction_not_fuel (cw : list Z) (ci : Z) (result : String)
    (next : Z) :
  result_of (NumericCompaction cw ci result next) <> Stuck OutOfFuel.
Proof.
  unfold NumericCompaction.
  apply bind_not_fuel; [apply vnew_not_fuel | intros nc _].
  apply bind_not_fuel; [| discriminate].
  apply Numeric_loop_not_fuel. unfold remaining, fuel_from.
  cbn [n_end n_codeIndex]. lia.
Qed.

(** [NumericCompaction] hands back a cursor that is not before the one it
    got: on an error that is [next], which the caller sets to its cursor. *)
Lemma NumericCompaction_cursor (cw : list Z) (ci : Z) (result : String)
    (s : ErrorStatus) (result' : String) (ci' : Z) :
  result_of (NumericCompaction cw ci result ci) = Ret (s, result', ci') ->
  ci <= ci'.
Proof.
  unfold NumericCompaction. intros H.
  rewrite result_bind in H.
  destruct (result_of (vnew MAX_NUMERIC_CODEWORDS)) as [nc |]; [| discriminate H].
  rewrite result_bind in H.
  destruct (result_of (while (fuel_from cw ci) (NumericCompaction_cond cw)
              (NumericCompaction_body cw)
              (mkNumericState ci 0 false nc result NoError)))
    as [st |] eqn:Ew; [| discriminate H].
  apply (@Numeric_loop_cursor _ _ _ _ ci) in Ew; [| cbn [n_codeIndex]; lia].
  cbn [result_of snd ret] in H. unfold NumericCompaction_return in H.
  destruct (StatusIsError (n_status st)); injection H as _ _ <-; lia.
Qed.

(** *** Macro block *)

Lemma Optional_body_progress (cw : list Z) (s s' : OptionalState) :
  result_of (Optional_body cw s) = Ret s' ->
  o_codeIndex s + 1 <= o_codeIndex s'.
Proof.
  intros H. unfold Optional_body in H.
  take_apart H; injection H as <-; cbn [o_codeIndex]; lia.
Qed.

Lemma Optional_cond_true (cw : list Z) (s : OptionalState) :
  result_of (Optional_cond cw s) = Ret true ->
  o_codeIndex s < item cw 0 /\ o_end s = false.
Proof.
  unfold Optional_cond. destruct (StatusIsError (o_status s)); [discriminate |].
  rewrite result_bind.
  destruct (result_of (rd cw 0)) as [c |] eqn:E; [| discriminate].
  apply rd_Ret in E. destruct E as [_ ->]. cbn [result_of snd ret].
  intros [= H]. apply andb_true_iff in H. destruct H as [H1 H2].
  apply Z.ltb_lt in H1. apply negb_true_iff in H2. auto.
Qed.

Lemma Optional_loop_not_fuel (cw : list Z) (s : OptionalState) (fuel : nat) :
  (remaining cw (o_codeIndex s) (o_end s) < fuel)%nat ->
  result_of (while fuel (Optional_cond cw) (Optional_body cw) s)
  <> Stuck OutOfFuel.
Proof.
  apply (@while_fuel _ _ _ (fun _ => True)
           (fun s => remaining cw (o_codeIndex s) (o_end s))).
  - intros s0. unfold Optional_cond. no_fuel.
  - intros s0 _. unfold Optional_body. no_fuel.
  - intros s0 s1 _ Hc Hb. split; [exact I |].
    apply Optional_cond_true in Hc. destruct Hc as [Hlt He].
    apply Optional_body_progress in Hb.
    unfold remaining. rewrite He. destruct (o_end s1); lia.
  - exact I.
Qed.

Lemma Optional_loop_cursor (cw : list Z) (fuel : nat) (s s' : OptionalState)
    (lo : Z) :
  lo <= o_codeIndex s ->
  result_of (while fuel (Optional_cond cw) (Optional_body cw) s) = Ret s' ->
  lo <= o_codeIndex s'.
Proof.
  intros Hlo H.
  apply (@while_inv _ _ _ (fun s => lo <= o_codeIndex s)) in H.
  - apply H.
  - intros s0 s1 H0 _ Hb. apply Optional_body_progress in Hb. lia.
  - assumption.
Qed.

Lemma stoi_not_fuel (s : string) : result_of (stoi s) <> Stuck OutOfFuel.
Proof.
  unfold stoi. destruct (NilZero.uint_of_string s) as [u |]; [| discriminate].
  destruct (Z.of_uint u <=? INT_MAX); discriminate.
Qed.

Lemma copy_segment_index_cursor (cw : list Z) (n : nat) :
  forall (i : Z) (acc acc' : vec * Z),
  result_of (for_range n i (copy_segment_index cw) acc) = Ret acc' ->
  snd acc <= snd acc'.
Proof.
  induction n as [| n IH]; intros i acc acc' H.
  - cbn [for_range result_of snd ret] in H. injection H as <-. lia.
  - cbn [for_range] in H. rewrite result_bind in H.
    destruct (result_of (copy_segment_index cw i acc)) as [a1 |] eqn:E;
      [| discriminate H].
    apply IH in H. destruct acc as [v ci]. unfold copy_segment_index in E.
    take_apart E. injection E as <-. cbn [snd] in *. lia.
Qed.

Lemma DecodeMacroBlock_not_fuel (cw : list Z) (ci : Z)
    (meta : DecoderResultExtra) (next : Z) :
  result_of (DecodeMacroBlock cw ci meta next) <> Stuck OutOfFuel.
Proof.
  unfold DecodeMacroBlock.
  apply bind_not_fuel; [apply rd_not_fuel | intros c0 _].
  destruct (ci + NUMBER_OF_SEQUENCE_CODEWORDS >? c0); [discriminate |].
  apply bind_not_fuel; [apply vnew_not_fuel | intros v _].
  apply bind_not_fuel.
  { apply for_range_not_fuel. intros i [a b]. unfold copy_segment_index.
    no_fuel. }
  intros [seg ci1] _.
  apply bind_not_fuel; [apply DecodeBase900toBase10_not_fuel |].
  intros [st strBuf] _. destruct (StatusIsError st); [discriminate |].
  apply bind_not_fuel; [apply stoi_not_fuel | intros n _].
  apply bind_not_fuel; [apply TextCompaction_not_fuel |].
  intros [ci2 fileId] _.
  apply bind_not_fuel; [apply rd_not_fuel | intros c _].
  destruct (c =? BEGIN_MACRO_PDF417_OPTIONAL_FIELD).
  - apply bind_not_fuel; [apply rd_not_fuel | intros c1 _].
    destruct (c1 - (ci2 + 1) <? 0); [discriminate |].
    apply bind_not_fuel.
    + apply Optional_loop_not_fuel. unfold remaining, fuel_from.
      cbn [o_end o_codeIndex]. lia.
    + intros s _. destruct (StatusIsError (o_status s)); discriminate.
  - apply bind_not_fuel; [apply rd_not_fuel | intros c1 _].
    destruct (c1 =? MACRO_PDF417_TERMINATOR); discriminate.
Qed.

(** [DecodeMacroBlock] hands back a cursor that is not before the one it
    got: on an error that is [next], which the caller sets to its cursor. *)
Lemma DecodeMacroBlock_cursor (cw : list Z) (ci : Z)
    (meta : DecoderResultExtra) (s : ErrorStatus)
    (meta' : DecoderResultExtra) (ci' : Z) :
  result_of (DecodeMacroBlock cw ci meta ci) = Ret (s, meta', ci') ->
  ci <= ci'.
Proof.
  unfold DecodeMacroBlock. intros H.
  rewrite result_bind in H.
  destruct (result_of (rd cw 0)) as [c0 |]; [| discriminate H].
  destruct (ci + NUMBER_OF_SEQUENCE_CODEWORDS >? c0).
  { cbn [result_of snd ret] in H. injection H as _ _ <-. lia. }
  rewrite result_bind in H.
  destruct (result_of (vnew NUMBER_OF_SEQUENCE_CODEWORDS)) as [v |];
    [| discriminate H].
  rewrite result_bind in H.
  match type of H with
  | match result_of ?m with _ => _ end = _ =>
      destruct (result_of m) as [[seg ci1] |] eqn:Eseg; [| discriminate H]
  end.
  apply copy_segment_index_cursor in Eseg. cbn [snd] in Eseg.
  rewrite result_bind in H.
  destruct (result_of (DecodeBase900toBase10 seg NUMBER_OF_SEQUENCE_CODEWORDS))
    as [[st strBuf] |]; [| discriminate H].
  destruct (StatusIsError st).
  { cbn [result_of snd ret] in H. injection H as _ _ <-. lia. }
  rewrite result_bind in H.
  destruct (result_of (stoi strBuf)) as [n |]; [| discriminate H].
  rewrite result_bind in H.
  destruct (result_of (TextCompaction cw ci1 [])) as [[ci2 fileId] |] eqn:Et;
    [| discriminate H].
  apply TextCompaction_cursor in Et. destruct Et as [Et _].
  rewrite result_bind in H.
  destruct (result_of (rd cw ci2)) as [c |]; [| discriminate H].
  destruct (c =? BEGIN_MACRO_PDF417_OPTIONAL_FIELD).
  - rewrite result_bind in H.
    destruct (result_of (rd cw 0)) as [c1 |]; [| discriminate H].
    destruct (c1 - (ci2 + 1) <? 0); [discriminate H |].
    rewrite result_bind in H.
    match type of H with
    | match result_of ?m with _ => _ end = _ =>
        destruct (result_of m) as [os |] eqn:Ew; [| discriminate H]
    end.
    apply (@Optional_loop_cursor _ _ _ _ ci) in Ew; [| cbn [o_codeIndex]; lia].
    destruct (StatusIsError (o_status os));
      cbn [result_of snd ret] in H; injection H as _ _ <-; lia.
  - rewrite result_bind in H.
    destruct (result_of (rd cw ci2)) as [c1 |]; [| discriminate H].
    destruct (c1 =? MACRO_PDF417_TERMINATOR);
      cbn [result_of snd ret] in H; injection H as _ _ <-; lia.
Qed.

(** ** The dispatcher *)

Section DispatcherProperties.

Variable CharacterSet : Type.
Variable ISO8859_1 : CharacterSet.
Variable CharsetFromValue : Z -> CharacterSet.
Variable toUnicode : list Z -> CharacterSet -> String.
Variable newExtra : DecoderResultExtra.

Local Abbreviation Decode_switch := (Decode_switch CharsetFromValue toUnicode).
Local Abbreviation Decode_body := (Decode_body CharsetFromValue toUnicode).
Local Abbreviation Decode_from := (Decode_from CharsetFromValue toUnicode).
Local Abbreviation Decode := (Decode ISO8859_1 CharsetFromValue toUnicode newExtra).
Local Abbreviation DecodeState := (DecodeState CharacterSet).

Lemma Decode_fetch_in (cw : list Z) (st : DecodeState) :
  0 <= codeIndex st < Z.of_nat (List.length cw) ->
  Decode_fetch cw st =
  ([codeIndex st],
   Ret (mkDecodeState (codeIndex st + 1) (item cw (codeIndex st)) (status st)
          (encoding st) (resultString st) (resultMetadata st))).
Proof.
  intros H. unfold Decode_fetch.
  destruct (Z.ltb_spec (codeIndex st) (Z.of_nat (List.length cw))); [| lia].
  rewrite (rd_in cw H). reflexivity.
Qed.

(** The read of the next control codeword is guarded by the size of the
    vector: it never faults, and it sets the status when the cursor is at
    or past the size. *)
Lemma Decode_fetch_guard (cw : list Z) (st : DecodeState) :
  0 <= codeIndex st ->
  Decode_fetch cw st =
  if codeIndex st <? Z.of_nat (List.length cw) then
    ([codeIndex st],
     Ret (mkDecodeState (codeIndex st + 1) (item cw (codeIndex st)) (status st)
            (encoding st) (resultString st) (resultMetadata st)))
  else
    ([], Ret (mkDecodeState (codeIndex st) (code st) FormatError (encoding st)
                (resultString st) (resultMetadata st))).
Proof.
  intros H. unfold Decode_fetch.
  destruct (Z.ltb_spec (codeIndex st) (Z.of_nat (List.length cw))); [| reflexivity].
  rewrite rd_in by lia. reflexivity.
Qed.

(** C8: the dispatcher on the ECI codewords.  On [ECI_CHARSET] (927) the
    iteration consumes one codeword and the active encoding becomes the
    character set that codeword identifies; on [ECI_GENERAL_PURPOSE] (926)
    it skips two codewords and on [ECI_USER_DEFINED] (925) one, without
    reading them, and the encoding, the text, the status and the metadata
    stay as they were.  In each case the next control codeword is the one
    after the codewords consumed. *)
Theorem eci_codewords_consumed (cw : list Z) (st : DecodeState) :
  let ci := codeIndex st in
  (code st = ECI_CHARSET ->
   0 <= ci -> ci + 1 < Z.of_nat (List.length cw) ->
   Decode_switch cw st =
     ([ci], Ret (mkDecodeState (ci + 1) ECI_CHARSET (status st)
                   (CharsetFromValue (item cw ci)) (resultString st)
                   (resultMetadata st))) /\
   Decode_body cw st =
     ([ci; ci + 1],
      Ret (mkDecodeState (ci + 2) (item cw (ci + 1)) (status st)
             (CharsetFromValue (item cw ci)) (resultString st)
             (resultMetadata st)))) /\
  (code st = ECI_GENERAL_PURPOSE ->
   0 <= ci + 2 < Z.of_nat (List.length cw) ->
   Decode_switch cw st =
     ([], Ret (mkDecodeState (ci + 2) ECI_GENERAL_PURPOSE (status st)
                 (encoding st) (resultString st) (resultMetadata st))) /\
   Decode_body cw st =
     ([ci + 2],
      Ret (mkDecodeState (ci + 3) (item cw (ci + 2)) (status st)
             (encoding st) (resultString st) (resultMetadata st)))) /\
  (code st = ECI_USER_DEFINED ->
   0 <= ci + 1 < Z.of_nat (List.length cw) ->
   Decode_switch cw st =
     ([], Ret (mkDecodeState (ci + 1) ECI_USER_DEFINED (status st)
                 (encoding st) (resultString st) (resultMetadata st))) /\
   Decode_body cw st =
     ([ci + 1],
      Ret (mkDecodeState (ci + 2) (item cw (ci + 1)) (status st)
             (encoding st) (resultString st) (resultMetadata st)))).
Proof.
  intros ci. subst ci. repeat split.
  - unfold Decode_switch. rewrite H. cbn.
    rewrite rd_in by lia. reflexivity.
  - unfold Decode_body, Decode_switch.
    rewrite H. cbn. rewrite rd_in by lia. cbn.
    rewrite Decode_fetch_in by (cbn; lia). cbn.
    replace (codeIndex st + 1 + 1) with (codeIndex st + 2) by lia. reflexivity.
  - unfold Decode_switch. rewrite H. reflexivity.
  - unfold Decode_body, Decode_switch.
    rewrite H. cbn. rewrite Decode_fetch_in by (cbn; lia). cbn.
    replace (codeIndex st + 2 + 1) with (codeIndex st + 3) by lia. reflexivity.
  - unfold Decode_switch. rewrite H. reflexivity.
  - unfold Decode_body, Decode_switch.
    rewrite H. cbn. rewrite Decode_fetch_in by (cbn; lia). cbn.
    replace (codeIndex st + 1 + 1) with (codeIndex st + 2) by lia. reflexivity.
Qed.


Lemma Decode_cond_true (cw : list Z) (st : DecodeState) :
  result_of (Decode_cond cw st) = Ret true ->
  (0 < List.length cw)%nat /\ codeIndex st < item cw 0 /\ status st = NoError.
Proof.
  unfold Decode_cond. rewrite result_bind.
  destruct (result_of (rd cw 0)) as [n | f] eqn:E; [| discriminate].
  apply rd_Ret in E. destruct E as [Hlen ->]. simpl.
  intros [= H]. apply andb_true_iff in H. destruct H as [H1 H2].
  apply Z.ltb_lt in H1. destruct (status st); [| discriminate].
  repeat split; [lia | assumption].
Qed.

Lemma Decode_cond_error (cw : list Z) (st : DecodeState) :
  (0 < List.length cw)%nat -> status st = FormatError ->
  Decode_cond cw st = ([0], Ret false).
Proof.
  intros Hlen Hs. unfold Decode_cond. rewrite rd_in by lia. cbn.
  rewrite Hs. rewrite andb_false_r. reflexivity.
Qed.

Lemma Decode_finish_error (ecLevel : Z) (result : DecoderResult)
    (st : DecodeState) :
  status st = FormatError ->
  Decode_finish ecLevel result st = (FormatError, result).
Proof.
  intros H. unfold Decode_finish. rewrite H.
  destruct (empty (resultString st)); reflexivity.
Qed.

(** Once an iteration leaves the switch with an error status, the decode
    returns [FormatError] and leaves [result] alone. *)
Lemma Decode_from_error (cw : list Z) (ecLevel : Z) (result : DecoderResult)
    (st st1 : DecodeState) (fuel : nat) :
  result_of (Decode_cond cw st) = Ret true ->
  result_of (Decode_switch cw st) = Ret st1 ->
  status st1 = FormatError -> 0 <= codeIndex st1 ->
  result_of (Decode_from (Datatypes.S (Datatypes.S fuel)) cw ecLevel result st)
  = Ret (FormatError, result).
Proof.
  intros Hc Hsw Hst Hci. destruct (Decode_cond_true _ _ Hc) as (Hlen & _ & _).
  unfold Decode_from. rewrite result_bind, while_unfold, result_bind, Hc.
  rewrite result_bind. unfold Decode_body. rewrite result_bind, Hsw.
  rewrite (Decode_fetch_guard cw st1 Hci).
  destruct (codeIndex st1 <? Z.of_nat (List.length cw)); cbn [result_of snd];
    rewrite while_unfold, result_bind, Decode_cond_error by (assumption || reflexivity);
    cbn [result_of snd ret]; rewrite Decode_finish_error by (assumption || reflexivity);
    reflexivity.
Qed.

(** C1: for a group of 1 to 15 numeric codewords, each in [0, 899], the
    conversion computes the sum of [digits[i] * 900 ^ (count - i - 1)] and
    renders it in decimal; closing the group appends the string without its
    leading [1] to the text, or sets the status to [FormatError] when the
    string does not begin with [1].  When the group is a run that ends at
    the declared count or at a codeword that ends Numeric Compaction,
    [NumericCompaction] returns that text and the cursor after the group,
    or [FormatError]; and then the decode returns [FormatError]. *)
Theorem numeric_group_decoded (cw digits : list Z) (ci : Z) (result : String)
    (next : Z) :
  digits <> [] -> (List.length digits <= 15)%nat ->
  Forall (fun c => 0 <= c <= 899) digits ->
  codewords_at cw ci digits ->
  numeric_run_ends cw (ci + Z.of_nat (List.length digits)) ->
  let s := toString (sum900 digits) in
  (forall nc, List.length nc = 15%nat ->
     firstn (List.length digits) nc = digits ->
     DecodeBase900toBase10 nc (Z.of_nat (List.length digits))
     = ret (match strip_sentinel s with
            | Some rest => (NoError, rest)
            | None => (FormatError, s)
            end)) /\
  (forall st, List.length (numericCodewords st) = 15%nat ->
     firstn (List.length digits) (numericCodewords st) = digits ->
     n_count st = Z.of_nat (List.length digits) ->
     NumericCompaction_flush st
     = ret (match strip_sentinel s with
            | Some rest =>
                mkNumericState (n_codeIndex st) 0 (n_end st)
                  (numericCodewords st) (appendUtf8_str (n_result st) rest)
                  (n_status st)
            | None =>
                mkNumericState (n_codeIndex st) (n_count st) (n_end st)
                  (numericCodewords st) (n_result st) FormatError
            end)) /\
  result_of (NumericCompaction cw ci result next)
  = Ret (match strip_sentinel s with
         | Some rest =>
             (NoError, appendUtf8_str result rest,
              ci + Z.of_nat (List.length digits))
         | None => (FormatError, result, next)
         end) /\
  (strip_sentinel s = None ->
   forall ecLevel res (st : DecodeState) fuel,
     code st = NUMERIC_COMPACTION_MODE_LATCH -> codeIndex st = ci ->
     result_of (Decode_cond cw st) = Ret true ->
     result_of (Decode_from (Datatypes.S (Datatypes.S fuel)) cw ecLevel res st)
     = Ret (FormatError, res)).
Proof.
  intros Hne H15 Hdata Hat Hend s.
  assert (Hnum : forall r n,
    result_of (NumericCompaction cw ci r n)
    = Ret (match strip_sentinel s with
           | Some rest =>
               (NoError, appendUtf8_str r rest,
                ci + Z.of_nat (List.length digits))
           | None => (FormatError, r, n)
           end)).
  { intros r n. destruct digits as [| d rest]; [contradiction |].
    assert (Hat' := Hat). apply codewords_at_cons in Hat'.
    destruct Hat' as [Hrd _].
    assert (Hcw : (0 < List.length cw)%nat).
    { apply (f_equal result_of) in Hrd. apply rd_Ret in Hrd. lia. }
    unfold NumericCompaction. unfold vnew, MAX_NUMERIC_CODEWORDS.
    cbn [Z.ltb Z.compare]. rewrite bind_ret.
    rewrite (@numeric_loop cw rest [] d ci (repeat 0 (Z.to_nat 15)) r n).
    - cbn [app List.length].
      replace (ci + 1 + Z.of_nat (List.length rest))
        with (ci + Z.of_nat (Datatypes.S (List.length rest))) by lia.
      reflexivity.
    - cbn [List.length] in *. lia.
    - apply repeat_length.
    - reflexivity.
    - eapply Forall_impl; [| exact Hdata]. cbv beta. intros; lia.
    - assumption.
    - assumption.
    - replace (ci + 1 + Z.of_nat (List.length rest))
        with (ci + Z.of_nat (List.length (d :: rest)))
        by (cbn [List.length]; lia).
      assumption.
    - unfold fuel_from. lia. }
  split; [| split; [| split]].
  - intros nc Hlen Hfirst.
    rewrite DecodeBase900toBase10_spec by lia. rewrite Hfirst. reflexivity.
  - intros st Hlen Hfirst Hcount.
    apply NumericCompaction_flush_group; try assumption; lia.
  - apply Hnum.
  - intros Hnone ecLevel res st fuel Hcode Hci Hcond.
    eapply Decode_from_error with
      (st1 := mkDecodeState ci (code st) FormatError (encoding st)
                (resultString st) (resultMetadata st)).
    + assumption.
    + unfold Decode_switch. rewrite Hcode. cbn - [NumericCompaction].
      rewrite result_bind, Hci, Hnum, Hnone. reflexivity.
    + reflexivity.
    + destruct Hat as [H0 _]. exact H0.
Qed.


(** C10 (amended): when the loop of the dispatcher reaches its switch with
    a Macro optional-field codeword (923) or a Macro terminator (922) as
    control code, that is when the loop condition holds in a state with
    that code (the cursor, which is after the codeword, is before the
    declared count and no error is set), the switch sets the status to
    [FormatError], and the decode then returns [FormatError] and leaves
    the result as it was. *)
Theorem macro_codeword_outside_block (cw : list Z) (ecLevel : Z)
    (result : DecoderResult) (st : DecodeState) (fuel : nat) :
  code st = BEGIN_MACRO_PDF417_OPTIONAL_FIELD
  \/ code st = MACRO_PDF417_TERMINATOR ->
  result_of (Decode_cond cw st) = Ret true ->
  0 <= codeIndex st ->
  Decode_switch cw st =
    ret (mkDecodeState (codeIndex st) (code st) FormatError (encoding st)
           (resultString st) (resultMetadata st)) /\
  result_of (Decode_from (Datatypes.S (Datatypes.S fuel)) cw ecLevel result st)
  = Ret (FormatError, result).
Proof.
  intros Hcode Hc Hci.
  assert (Hsw : Decode_switch cw st =
    ret (mkDecodeState (codeIndex st) (code st) FormatError (encoding st)
           (resultString st) (resultMetadata st))).
  { unfold Decode_switch. destruct Hcode as [-> | ->]; reflexivity. }
  split; [assumption |].
  eapply Decode_from_error; [eassumption | rewrite Hsw; reflexivity | reflexivity | assumption].
Qed.

(** [to_string] renders a number in decimal: parsing it gives the number
    back. *)
Lemma to_string_decimal (n : Z) :
  option_map Z.of_int (NilZero.int_of_string (to_string n)) = Some n.
Proof.
  unfold to_string. rewrite NilZero.isi.
  - simpl. f_equal. apply DecimalZ.of_to.
  - destruct n; simpl; try discriminate.
    intros [= H]. revert H. apply Unsigned.to_uint_nonnil.
  - destruct n; simpl; try discriminate.
    intros [= H]. revert H. apply Unsigned.to_uint_nonnil.
Qed.

(** C5: at the end of the loop, the decode returns [FormatError], and
    leaves [result] alone, when the accumulated text is empty (or the
    status is an error); otherwise it returns [NoError] and [result] holds
    the accumulated text, the decimal rendering of the level and the macro
    metadata.  So a decode that returns [NoError] has a text that is not
    empty. *)
Theorem Decode_completion (cw : list Z) (ec : Z) (result : DecoderResult)
    (st final : DecodeState) (fuel : nat) (t : trace) :
  while fuel (Decode_cond cw) (Decode_body cw) st = (t, Ret final) ->
  Decode_from fuel cw ec result st =
    (t, Ret (if empty (resultString final) then (FormatError, result)
             else match status final with
                  | NoError =>
                      (NoError,
                       mkDecoderResult (resultString final)
                         (to_string ec) (resultMetadata final))
                  | FormatError => (FormatError, result)
                  end)) /\
  option_map Z.of_int (NilZero.int_of_string (to_string ec)) = Some ec /\
  (forall s r,
     result_of (Decode cw ec result) = Ret (s, r) ->
     (s = FormatError /\ r = result) \/
     (s = NoError /\ empty (text r) = false /\ ecLevel r = to_string ec)).
Proof.
  intros H. split; [| split; [apply to_string_decimal |]].
  - unfold Decode_from. rewrite H. cbn. rewrite List.app_nil_r.
    unfold Decode_finish.
    destruct (empty (resultString final)); [reflexivity |].
    destruct (status final); reflexivity.
  - intros s r Hd. unfold Decode in Hd. rewrite result_bind in Hd.
    destruct (result_of (rd cw 1)) as [c |]; [| discriminate Hd].
    unfold Decode_from in Hd. rewrite result_bind in Hd.
    match type of Hd with
    | match result_of ?m with _ => _ end = _ =>
        destruct (result_of m) as [fin |]; [| discriminate Hd]
    end.
    cbn [result_of snd ret] in Hd. unfold Decode_finish in Hd.
    destruct (empty (resultString fin)) eqn:Ee.
    + injection Hd as <- <-. left. split; reflexivity.
    + destruct (status fin); injection Hd as <- <-.
      * right. cbn [text ecLevel]. repeat split. assumption.
      * left. split; reflexivity.
Qed.

End DispatcherProperties.

Lemma eci_codewords_consumed_witness :
  Decode_body Sample.CharsetFromValue Sample.toUnicode [9; 927; 26; 926; 0; 0; 925; 0; 900; 1]
    (mkDecodeState 2 927 NoError Sample.ISO8859_1 [] Sample.newExtra)
  = ([2; 3], Ret (mkDecodeState 4 926 NoError 26 [] Sample.newExtra)) /\
  Decode_body Sample.CharsetFromValue Sample.toUnicode [9; 927; 26; 926; 0; 0; 925; 0; 900; 1]
    (mkDecodeState 4 926 NoError 26 [] Sample.newExtra)
  = ([6], Ret (mkDecodeState 7 925 NoError 26 [] Sample.newExtra)) /\
  Decode_body Sample.CharsetFromValue Sample.toUnicode [9; 927; 26; 926; 0; 0; 925; 0; 900; 1]
    (mkDecodeState 7 925 NoError 26 [] Sample.newExtra)
  = ([8], Ret (mkDecodeState 9 900 NoError 26 [] Sample.newExtra)).
Proof.
  pose (cw := [9; 927; 26; 926; 0; 0; 925; 0; 900; 1]).
  split; [| split].
  - apply (proj1 (eci_codewords_consumed Sample.CharsetFromValue Sample.toUnicode cw
       (mkDecodeState 2 927 NoError Sample.ISO8859_1 [] Sample.newExtra)));
      [reflexivity | simpl; lia | simpl; lia].
  - apply (proj1 (proj2 (eci_codewords_consumed Sample.CharsetFromValue Sample.toUnicode cw
       (mkDecodeState 4 926 NoError 26 [] Sample.newExtra))));
      [reflexivity | simpl; lia].
  - apply (proj2 (proj2 (eci_codewords_consumed Sample.CharsetFromValue Sample.toUnicode cw
       (mkDecodeState 7 925 NoError 26 [] Sample.newExtra))));
      [reflexivity | simpl; lia].
Defined.

Lemma macro_codeword_outside_block_witness :
  result_of (Decode_from Sample.CharsetFromValue Sample.toUnicode 2
               [5; 900; 1; 922; 1; 0] 0 Sample.noResult
               (mkDecodeState 4 922 NoError Sample.ISO8859_1 [65; 66]
                  Sample.newExtra))
  = Ret (FormatError, Sample.noResult).
Proof.
  apply (macro_codeword_outside_block Sample.CharsetFromValue Sample.toUnicode
           [5; 900; 1; 922; 1; 0] 0 Sample.noResult
           (mkDecodeState 4 922 NoError Sample.ISO8859_1 [65; 66] Sample.newExtra)
           0).
  - right. reflexivity.
  - reflexivity.
  - simpl. lia.
Defined.

(** A Macro terminator as the last declared codeword, outside a macro
    block: the iteration on 900 fetches it as the next control code, the
    cursor is then at the declared count, the loop ends without a
    dispatch on it, and the decode returns the text without an error. *)
Lemma macro_terminator_not_dispatched :
  result_of (Decode_body Sample.CharsetFromValue Sample.toUnicode
               [4; 900; 1; 922; 0]
               (mkDecodeState 2 900 NoError Sample.ISO8859_1 []
                  Sample.newExtra))
  = Ret (mkDecodeState 4 922 NoError Sample.ISO8859_1 [65; 66]
           Sample.newExtra) /\
  result_of (Decode_cond [4; 900; 1; 922; 0]
               (mkDecodeState 4 922 NoError Sample.ISO8859_1 [65; 66]
                  Sample.newExtra))
  = Ret false /\
  result_of (Sample.run [4; 900; 1; 922; 0] 0)
  = Ret (NoError, mkDecoderResult [65; 66] "0" Sample.newExtra).
Proof.
  split; [| split].
  - vm_compute. reflexivity.
  - vm_compute. reflexivity.
  - vm_compute. reflexivity.
Qed.

Lemma Decode_completion_witness :
  Decode_from Sample.CharsetFromValue Sample.toUnicode 3
    [3; 900; 1; 5] 4 Sample.noResult
    (mkDecodeState 2 900 NoError Sample.ISO8859_1 [] Sample.newExtra)
  = ([0; 0; 0; 0; 2; 0; 3; 0],
     Ret (NoError, mkDecoderResult [65; 66] "4" Sample.newExtra)).
Proof.
  refine (proj1 (@Decode_completion Sample.CharacterSet Sample.ISO8859_1
           Sample.CharsetFromValue Sample.toUnicode Sample.newExtra
           [3; 900; 1; 5] 4 Sample.noResult
           (mkDecodeState 2 900 NoError Sample.ISO8859_1 [] Sample.newExtra)
           (mkDecodeState 4 5 NoError Sample.ISO8859_1 [65; 66]
              Sample.newExtra)
           3 [0; 0; 0; 0; 2; 0; 3; 0] _)).
  reflexivity.
Defined.

Lemma numeric_group_decoded_witness :
  result_of (NumericCompaction [8; 902; 1; 624; 434; 632; 282; 200; 0] 2 [] 2)
  = Ret (NoError, chars "000213298174000", 8).
Proof.
  exact (proj1 (proj2 (proj2 (@numeric_group_decoded Sample.CharacterSet
           Sample.CharsetFromValue Sample.toUnicode
           [8; 902; 1; 624; 434; 632; 282; 200; 0]
           [1; 624; 434; 632; 282; 200] 2 [] 2
           ltac:(discriminate) ltac:(simpl; lia)
           ltac:(repeat constructor; lia)
           ltac:(split; [lia | reflexivity])
           ltac:(left; reflexivity))))).
Defined.

(** *** The dispatcher *)

Section DispatcherProgress.

Variable CharacterSet : Type.
Variable ISO8859_1 : CharacterSet.
Variable CharsetFromValue : Z -> CharacterSet.
Variable toUnicode : list Z -> CharacterSet -> String.
Variable newExtra : DecoderResultExtra.

Local Abbreviation Decode_switch := (Decode_switch CharsetFromValue toUnicode).
Local Abbreviation Decode_body := (Decode_body CharsetFromValue toUnicode).
Local Abbreviation Decode_from := (Decode_from CharsetFromValue toUnicode).
Local Abbreviation Decode :=
  (Decode ISO8859_1 CharsetFromValue toUnicode newExtra).
Local Abbreviation DecodeState := (DecodeState CharacterSet).

Lemma Decode_switch_not_fuel (cw : list Z) (st : DecodeState) :
  result_of (Decode_switch cw st) <> Stuck OutOfFuel.
Proof.
  unfold Decode_switch.
  repeat match goal with
         | |- context [if ?b then _ else _] => destruct b
         end;
    try discriminate;
    try (apply bind_not_fuel;
         [first [apply TextCompaction_not_fuel | apply rd_not_fuel
                | apply NumericCompaction_not_fuel
                | apply DecodeMacroBlock_not_fuel]
         | intros [? ?] _ || intros ? _; try destruct p; discriminate]).
  all: unfold ByteCompaction; apply bind_not_fuel;
    [apply bind_not_fuel; [apply ByteCompaction_bytes_not_fuel |];
     intros [? ?] _; discriminate
    | intros [? ?] _; discriminate].
Qed.

Lemma Decode_fetch_not_fuel (cw : list Z) (st : DecodeState) :
  result_of (Decode_fetch cw st) <> Stuck OutOfFuel.
Proof. unfold Decode_fetch. no_fuel. Qed.

(** The codes that the switch of the dispatcher does not hand to Text
    Compaction by default are the ones at which Text Compaction stops, the
    Text latch and the byte escape, and the ECI codewords. *)
Lemma default_code_not_stop (c : Z) :
  (c =? TEXT_COMPACTION_MODE_LATCH) = false ->
  ((c =? BYTE_COMPACTION_MODE_LATCH) || (c =? BYTE_COMPACTION_MODE_LATCH_6))
  = false ->
  (c =? NUMERIC_COMPACTION_MODE_LATCH) = false ->
  (c =? BEGIN_MACRO_PDF417_CONTROL_BLOCK) = false ->
  ((c =? BEGIN_MACRO_PDF417_OPTIONAL_FIELD) || (c =? MACRO_PDF417_TERMINATOR))
  = false ->
  text_stop c = false.
Proof.
  intros _ H1 H2 H3 H4. unfold text_stop.
  apply orb_false_iff in H1. destruct H1 as [-> ->].
  apply orb_false_iff in H4. destruct H4 as [-> ->].
  rewrite H2, H3. reflexivity.
Qed.

(** The switch does not move the cursor back, when the control code is the
    codeword before the cursor. *)
Lemma Decode_switch_cursor (cw : list Z) (st st1 : DecodeState) :
  codeIndex st < item cw 0 ->
  code st = item cw (codeIndex st - 1) ->
  result_of (Decode_switch cw st) = Ret st1 ->
  codeIndex st <= codeIndex st1.
Proof.
  intros Hlt Hcode H. unfold Decode_switch in H.
  destruct (code st =? TEXT_COMPACTION_MODE_LATCH) eqn:E900.
  { rewrite result_bind in H.
    destruct (result_of (TextCompaction cw (codeIndex st) (resultString st)))
      as [[ci r] |] eqn:Et; [| discriminate H].
    apply TextCompaction_cursor in Et.
    cbn [result_of snd ret] in H. injection H as <-. cbn [codeIndex]. lia. }
  destruct ((code st =? BYTE_COMPACTION_MODE_LATCH)
            || (code st =? BYTE_COMPACTION_MODE_LATCH_6)) eqn:Ebyte.
  { rewrite result_bind in H. unfold ByteCompaction in H.
    rewrite result_bind in H.
    destruct (result_of (ByteCompaction_bytes (code st) cw (codeIndex st)))
      as [[ci bytes] |] eqn:Eb; [| discriminate H].
    apply ByteCompaction_bytes_cursor in Eb.
    cbn [result_of snd ret] in H. injection H as <-. cbn [codeIndex]. lia. }
  destruct (code st =? MODE_SHIFT_TO_BYTE_COMPACTION_MODE).
  { take_apart H. injection H as <-. cbn [codeIndex]. lia. }
  destruct (code st =? NUMERIC_COMPACTION_MODE_LATCH) eqn:E902.
  { rewrite result_bind in H.
    destruct (result_of (NumericCompaction cw (codeIndex st) (resultString st)
                           (codeIndex st))) as [[[s r] ci] |] eqn:En;
      [| discriminate H].
    apply NumericCompaction_cursor in En.
    cbn [result_of snd ret] in H. injection H as <-. cbn [codeIndex]. lia. }
  destruct (code st =? ECI_CHARSET).
  { take_apart H. injection H as <-. cbn [codeIndex]. lia. }
  destruct (code st =? ECI_GENERAL_PURPOSE).
  { injection H as <-. cbn [codeIndex]. lia. }
  destruct (code st =? ECI_USER_DEFINED).
  { injection H as <-. cbn [codeIndex]. lia. }
  destruct (code st =? BEGIN_MACRO_PDF417_CONTROL_BLOCK) eqn:E928.
  { rewrite result_bind in H.
    destruct (result_of (DecodeMacroBlock cw (codeIndex st) (resultMetadata st)
                           (codeIndex st))) as [[[s m] ci] |] eqn:Em;
      [| discriminate H].
    apply DecodeMacroBlock_cursor in Em.
    cbn [result_of snd ret] in H. injection H as <-. cbn [codeIndex]. lia. }
  destruct ((code st =? BEGIN_MACRO_PDF417_OPTIONAL_FIELD)
            || (code st =? MACRO_PDF417_TERMINATOR)) eqn:Emacro.
  { injection H as <-. cbn [codeIndex]. lia. }
  rewrite result_bind in H.
  destruct (result_of (TextCompaction cw (codeIndex st - 1) (resultString st)))
    as [[ci r] |] eqn:Et; [| discriminate H].
  apply TextCompaction_cursor in Et. destruct Et as [_ Et].
  cbn [result_of snd ret] in H. injection H as <-. cbn [codeIndex].
  assert (codeIndex st - 1 + 1 <= ci); [| lia].
  apply Et; [lia |]. rewrite <- Hcode.
  apply default_code_not_stop; assumption.
Qed.

(** An iteration of the loop of the dispatcher moves the cursor forward by
    one at least, through the read of the next control code, or ends with
    an error status. *)
Lemma Decode_body_progress (cw : list Z) (st st' : DecodeState) :
  code_before_cursor cw st ->
  result_of (Decode_cond cw st) = Ret true ->
  result_of (Decode_body cw st) = Ret st' ->
  code_before_cursor cw st' /\
  (status st' = FormatError \/ codeIndex st + 1 <= codeIndex st').
Proof.
  intros Hinv Hc Hb.
  apply Decode_cond_true in Hc. destruct Hc as (Hcw & Hlt & Hs).
  destruct Hinv as [Hinv | Hinv]; [congruence |].
  unfold Decode_body in Hb. rewrite result_bind in Hb.
  destruct (result_of (Decode_switch cw st)) as [st1 |] eqn:Esw;
    [| discriminate Hb].
  apply Decode_switch_cursor in Esw; try assumption.
  unfold Decode_fetch in Hb.
  destruct (codeIndex st1 <? Z.of_nat (List.length cw)).
  - rewrite result_bind in Hb.
    destruct (result_of (rd cw (codeIndex st1))) as [c |] eqn:Erd;
      [| discriminate Hb].
    apply rd_Ret in Erd. destruct Erd as [_ ->].
    cbn [result_of snd ret] in Hb. injection Hb as <-.
    unfold code_before_cursor. cbn [status code codeIndex]. split.
    + right. f_equal. lia.
    + right. lia.
  - cbn [result_of snd ret] in Hb. injection Hb as <-.
    unfold code_before_cursor. cbn [status]. split; left; reflexivity.
Qed.

Lemma Decode_loop_not_fuel (cw : list Z) (st : DecodeState) (fuel : nat) :
  code_before_cursor cw st ->
  (remaining cw (codeIndex st) (StatusIsError (status st)) < fuel)%nat ->
  result_of (while fuel (Decode_cond cw) (Decode_body cw) st)
  <> Stuck OutOfFuel.
Proof.
  apply (@while_fuel _ _ _ (code_before_cursor cw)
           (fun s => remaining cw (codeIndex s) (StatusIsError (status s)))).
  - intros s0. unfold Decode_cond. no_fuel.
  - intros s0 _. unfold Decode_body.
    apply bind_not_fuel; [apply Decode_switch_not_fuel |].
    intros s1 _. apply Decode_fetch_not_fuel.
  - intros s0 s1 Hinv Hc Hb.
    destruct (Decode_body_progress Hinv Hc Hb) as [Hinv' Hp].
    split; [assumption |].
    apply Decode_cond_true in Hc. destruct Hc as (_ & Hlt & Hs).
    unfold remaining. rewrite Hs. cbn [StatusIsError].
    destruct Hp as [-> | Hp]; [cbn [StatusIsError]; lia |].
    destruct (StatusIsError (status s1)); lia.
Qed.

(** C9: the decode ends.  The sub-decoders hand back a cursor that is not
    before the one they got; an iteration of the loop of the dispatcher
    moves the cursor forward by one at least or leaves an error status;
    and the loops, which run while the cursor is before the declared
    count, end within the fuel that [Decode] gives them. *)
Theorem Decode_terminates (cw : list Z) :
  (forall ci result ci' result',
     result_of (TextCompaction cw ci result) = Ret (ci', result') ->
     ci <= ci') /\
  (forall mode enc ci result ci' result',
     result_of (ByteCompaction toUnicode mode cw enc ci result)
     = Ret (ci', result') ->
     ci <= ci') /\
  (forall ci result s result' ci',
     result_of (NumericCompaction cw ci result ci) = Ret (s, result', ci') ->
     ci <= ci') /\
  (forall ci meta s meta' ci',
     result_of (DecodeMacroBlock cw ci meta ci) = Ret (s, meta', ci') ->
     ci <= ci') /\
  (forall st st' : DecodeState,
     code_before_cursor cw st ->
     result_of (Decode_cond cw st) = Ret true ->
     result_of (Decode_body cw st) = Ret st' ->
     code_before_cursor cw st' /\
     (status st' = FormatError \/ codeIndex st + 1 <= codeIndex st')) /\
  (forall ecLevel result,
     result_of (Decode cw ecLevel result) <> Stuck OutOfFuel).
Proof.
  repeat split.
  - intros ci result ci' result' H. apply TextCompaction_cursor in H. lia.
  - intros mode enc ci result ci' result' H. unfold ByteCompaction in H.
    rewrite result_bind in H.
    destruct (result_of (ByteCompaction_bytes mode cw ci)) as [[c b] |] eqn:E;
      [| discriminate H].
    apply ByteCompaction_bytes_cursor in E.
    cbn [result_of snd ret] in H. injection H as <- _. assumption.
  - intros ci result s result' ci' H. eapply NumericCompaction_cursor; eassumption.
  - intros ci meta s meta' ci' H. eapply DecodeMacroBlock_cursor; eassumption.
  - eapply Decode_body_progress; eassumption.
  - eapply Decode_body_progress; eassumption.
  - intros ecLevel result. unfold Decode.
    apply bind_not_fuel; [apply rd_not_fuel | intros c Hc].
    apply rd_Ret in Hc. destruct Hc as [_ ->].
    unfold Decode_from.
    apply bind_not_fuel; [| discriminate].
    apply Decode_loop_not_fuel.
    + right. reflexivity.
    + unfold remaining, fuel_from. cbn [status StatusIsError codeIndex]. lia.
Qed.

End DispatcherProgress.

Lemma Decode_terminates_witness :
  2 <= 3 /\
  (status (mkDecodeState 4 5 NoError Sample.ISO8859_1 [65; 66] Sample.newExtra)
   = FormatError
   \/ 2 + 1 <= 4).
Proof.
  pose (T := @Decode_terminates Sample.CharacterSet Sample.ISO8859_1
               Sample.CharsetFromValue Sample.toUnicode Sample.newExtra
               [3; 900; 1; 5]).
  split.
  - apply (proj1 T 2 [] 3 [65; 66]). reflexivity.
  - apply (proj1 (proj2 (proj2 (proj2 (proj2 T))))
             (mkDecodeState 2 900 NoError Sample.ISO8859_1 [] Sample.newExtra)
             (mkDecodeState 4 5 NoError Sample.ISO8859_1 [65; 66]
                Sample.newExtra)).
    + right. reflexivity.
    + reflexivity.
    + reflexivity.
Defined.

(** ** The indices at which the codewords are read *)

Lemma reads_bind_Forall (A B : Type) (P : Z -> Prop) (m : M A) (k : A -> M B) :
  Forall P (reads m) ->
  (forall a, result_of m = Ret a -> Forall P (reads (k a))) ->
  Forall P (reads (bind m k)).
Proof.
  intros Hm Hk. rewrite reads_bind.
  destruct (result_of m) as [a | f] eqn:E; [| assumption].
  apply Forall_app. split; [assumption | apply Hk; reflexivity].
Qed.

Lemma reads_vget (v : vec) (i : Z) : reads (vget v i) = [].
Proof. unfold vget. destruct (in_range v i); reflexivity. Qed.

Lemma reads_vset (v : vec) (i x : Z) : reads (vset v i x) = [].
Proof. unfold vset. destruct (in_range v i); reflexivity. Qed.

Lemma reads_vnew (n : Z) : reads (vnew n) = [].
Proof. unfold vnew. destruct (n <? 0); reflexivity. Qed.

Lemma reads_for_range (S : Type) (P : Z -> Prop) (body : Z -> S -> M S) :
  (forall i s, Forall P (reads (body i s))) ->
  forall n i s, Forall P (reads (for_range n i body s)).
Proof.
  intros Hb n. induction n as [| n IH]; intros i s; [constructor |].
  cbn [for_range]. apply reads_bind_Forall; [apply Hb | intros; apply IH].
Qed.

(** The reads of a loop are where the reads of its condition and of its
    body are. *)
Lemma while_reads (S : Type) (cond : S -> M bool) (body : S -> M S)
    (inv : S -> Prop) (P : Z -> Prop) :
  (forall s, inv s -> Forall P (reads (cond s))) ->
  (forall s, inv s -> result_of (cond s) = Ret true ->
     Forall P (reads (body s))) ->
  (forall s s', inv s -> result_of (cond s) = Ret true ->
     result_of (body s) = Ret s' -> inv s') ->
  forall fuel s, inv s -> Forall P (reads (while fuel cond body s)).
Proof.
  intros Hc Hb Hstep fuel. induction fuel as [| fuel IH]; intros s Hinv;
    [constructor |].
  rewrite while_unfold. apply reads_bind_Forall; [apply Hc; assumption |].
  intros [|] Hcond; [| constructor].
  apply reads_bind_Forall; [apply Hb; assumption |].
  intros s' Hbody. apply IH. eapply Hstep; eassumption.
Qed.

(** Show that the reads of a sequence of steps without a loop satisfy a
    property that the hypotheses give for each read. *)
Ltac reads_ok :=
  repeat first
    [ rewrite reads_vget | rewrite reads_vset | rewrite reads_vnew
    | rewrite rd_reads
    | apply Forall_nil
    | apply reads_bind_Forall; [| intros ? ?]
    | match goal with
      | |- Forall _ (reads (if ?b then _ else _)) => destruct b
      | |- Forall _ (reads (match ?x with (_, _) => _ end)) => destruct x
      | |- Forall _ (reads (ret _)) => apply Forall_nil
      | |- Forall _ (reads (stuck _)) => apply Forall_nil
      | |- Forall _ [_] => apply Forall_cons; [| apply Forall_nil]
      end
    | progress cbv zeta ].

Lemma reads_DecodeBase900toBase10 (P : Z -> Prop) (codewords : vec)
    (count : Z) :
  Forall P (reads (DecodeBase900toBase10 codewords count)).
Proof.
  unfold DecodeBase900toBase10. apply reads_bind_Forall.
  - apply reads_for_range. intros i s. unfold base900_step. reads_ok.
  - intros r _. destruct (toString r) as [| c rest]; [constructor |].
    destruct (Ascii.eqb c "1"); constructor.
Qed.

Lemma reads_NumericCompaction_flush (P : Z -> Prop) (s : NumericState) :
  Forall P (reads (NumericCompaction_flush s)).
Proof.
  unfold NumericCompaction_flush. destruct (n_count s >? 0); [| constructor].
  apply reads_bind_Forall; [apply reads_DecodeBase900toBase10 |].
  intros [st tmp] _. destruct (StatusIsError st); constructor.
Qed.

(** Every codeword that Numeric Compaction reads is before the declared
    count. *)
Lemma NumericCompaction_reads (cw : list Z) (ci : Z) (result : String)
    (next : Z) :
  Forall (fun i => i = 0 \/ ci <= i < item cw 0)
    (reads (NumericCompaction cw ci result next)).
Proof.
  unfold NumericCompaction.
  apply reads_bind_Forall; [reads_ok | intros nc _].
  apply reads_bind_Forall; [| intros; constructor].
  apply (@while_reads _ _ _ (fun s => ci <= n_codeIndex s)).
  - intros s _. unfold NumericCompaction_cond.
    destruct (StatusIsError (n_status s)); reads_ok. left; reflexivity.
  - intros s Hinv Hc. apply NumericCompaction_cond_true in Hc.
    destruct Hc as (Hlt & _ & _). unfold NumericCompaction_body.
    apply reads_bind_Forall; [reads_ok; right; lia | intros c _].
    apply reads_bind_Forall; [reads_ok; left; reflexivity | intros c0 _].
    apply reads_bind_Forall; [reads_ok | intros s1 _].
    destruct ((Z.rem (n_count s1) MAX_NUMERIC_CODEWORDS =? 0)
              || (c =? NUMERIC_COMPACTION_MODE_LATCH) || n_end s1);
      [apply reads_NumericCompaction_flush | constructor].
  - intros s s' Hinv _ Hb. apply NumericCompaction_body_progress in Hb. lia.
  - cbn [n_codeIndex]. lia.
Qed.

(** Every codeword that Byte Compaction reads under the latch 924 is before
    the declared count. *)
Lemma ByteCompaction_924_reads (cw : list Z) (ci : Z) :
  Forall (fun i => i = 0 \/ ci <= i < item cw 0)
    (reads (ByteCompaction_924 cw ci)).
Proof.
  unfold ByteCompaction_924.
  apply reads_bind_Forall; [| intros; constructor].
  apply (@while_reads _ _ _ (fun s => ci <= s_codeIndex s)).
  - intros s _. unfold ByteCompaction6_cond. reads_ok. left; reflexivity.
  - intros s Hinv Hc. apply ByteCompaction6_cond_true in Hc.
    destruct Hc as (Hlt & _). unfold ByteCompaction6_body.
    apply reads_bind_Forall; [reads_ok; right; lia | intros c _].
    reads_ok.
  - intros s s' Hinv _ Hb. apply ByteCompaction6_body_progress in Hb. lia.
  - cbn [s_codeIndex]. lia.
Qed.

(** Under the latch 901 the first codeword is read at the cursor that the
    caller passes, and every other one before the declared count. *)
Lemma ByteCompaction_901_reads (cw : list Z) (ci : Z) :
  Forall (fun i => i = 0 \/ i = ci \/ ci < i < item cw 0)
    (reads (ByteCompaction_901 cw ci)).
Proof.
  unfold ByteCompaction_901.
  apply reads_bind_Forall; [reads_ok; right; left; reflexivity | intros c _].
  apply reads_bind_Forall.
  - apply (@while_reads _ _ _ (fun s => ci < b_codeIndex s)).
    + intros s _. unfold ByteCompaction_cond. reads_ok. left; reflexivity.
    + intros s Hinv Hc. apply ByteCompaction_cond_true in Hc.
      destruct Hc as (Hlt & _). unfold ByteCompaction_body.
      apply reads_bind_Forall; [reads_ok | intros bcc _].
      apply reads_bind_Forall; [reads_ok; right; right; lia | intros d _].
      reads_ok.
    + intros s s' Hinv _ Hb. apply ByteCompaction_body_progress in Hb. lia.
    + cbn [b_codeIndex]. lia.
  - intros st _. unfold ByteCompaction_tail.
    apply reads_bind_Forall; [reads_ok; left; reflexivity | intros c0 _].
    apply reads_bind_Forall; [reads_ok | intros [bcc cnt] _].
    apply reads_bind_Forall; [| intros; constructor].
    apply reads_for_range. intros i s. unfold push_raw. reads_ok.
Qed.

Section GuardedReads.

Variable CharacterSet : Type.

Local Abbreviation DecodeState := (DecodeState CharacterSet).

(** C4 (amended): the read of the next control codeword by the dispatcher
    is guarded by the size of the vector, not by the declared count: it
    happens when the cursor is before the size, and otherwise the status
    becomes [FormatError] and nothing is read.  Numeric Compaction and Byte
    Compaction under the latch 924 read the declared count and codewords
    from their cursor up to the declared count only; Byte Compaction under
    the latch 901 reads its first codeword at the cursor it is given and
    the others before the declared count. *)
Theorem codeword_reads_guarded (cw : list Z) :
  (forall st : DecodeState,
     0 <= codeIndex st ->
     Decode_fetch cw st =
     if codeIndex st <? Z.of_nat (List.length cw) then
       ([codeIndex st],
        Ret (mkDecodeState (codeIndex st + 1) (item cw (codeIndex st))
               (status st) (encoding st) (resultString st)
               (resultMetadata st)))
     else
       ([], Ret (mkDecodeState (codeIndex st) (code st) FormatError
                   (encoding st) (resultString st) (resultMetadata st)))) /\
  (forall ci result next,
     Forall (fun i => i = 0 \/ ci <= i < item cw 0)
       (reads (NumericCompaction cw ci result next))) /\
  (forall ci,
     Forall (fun i => i = 0 \/ ci <= i < item cw 0)
       (reads (ByteCompaction_bytes BYTE_COMPACTION_MODE_LATCH_6 cw ci))) /\
  (forall ci,
     Forall (fun i => i = 0 \/ i = ci \/ ci < i < item cw 0)
       (reads (ByteCompaction_bytes BYTE_COMPACTION_MODE_LATCH cw ci))).
Proof.
  split; [| split; [| split]].
  - intros st H. apply Decode_fetch_guard. assumption.
  - intros. apply NumericCompaction_reads.
  - intros. apply ByteCompaction_924_reads.
  - intros. apply ByteCompaction_901_reads.
Qed.

End GuardedReads.

Lemma codeword_reads_guarded_witness :
  Decode_fetch [3; 900; 1; 5]
    (mkDecodeState 3 900 NoError Sample.ISO8859_1 [65; 66] Sample.newExtra)
  = ([3],
     Ret (mkDecodeState (3 + 1) (item [3; 900; 1; 5] 3) NoError
            Sample.ISO8859_1 [65; 66] Sample.newExtra)) /\
  Decode_fetch [3; 900; 1]
    (mkDecodeState 3 900 NoError Sample.ISO8859_1 [65; 66] Sample.newExtra)
  = ([],
     Ret (mkDecodeState 3 900 FormatError Sample.ISO8859_1 [65; 66]
            Sample.newExtra)).
Proof.
  split.
  - apply (proj1 (@codeword_reads_guarded Sample.CharacterSet [3; 900; 1; 5])
             (mkDecodeState 3 900 NoError Sample.ISO8859_1 [65; 66]
                Sample.newExtra)).
    simpl. lia.
  - apply (proj1 (@codeword_reads_guarded Sample.CharacterSet [3; 900; 1])
             (mkDecodeState 3 900 NoError Sample.ISO8859_1 [65; 66]
                Sample.newExtra)).
    simpl. lia.
Defined.

(** With three codewords declared and a fourth in the vector, the decode
    reads the codeword at index 3, the declared count, and succeeds. *)
Lemma read_at_declared_count :
  In 3 (reads (Sample.run [3; 900; 1; 5] 0)) /\
  ~ 3 < item [3; 900; 1; 5] 0 /\
  result_of (Sample.run [3; 900; 1; 5] 0)
  = Ret (NoError, mkDecoderResult [65; 66] "0" Sample.newExtra).
Proof.
  split; [| split].
  - vm_compute. tauto.
  - vm_compute. discriminate.
  - vm_compute. reflexivity.
Qed.
(** ** Text Compaction: the sub-mode machine and the runs *)

Lemma for_range_ret (S : Type) (body : Z -> S -> M S) (inv : Z -> S -> Prop)
    (hi : Z) :
  (forall i s, i < hi -> inv i s ->
     exists s', body i s = ret s' /\ inv (i + 1) s') ->
  forall n i s, i + Z.of_nat n <= hi -> inv i s ->
    exists s', for_range n i body s = ret s' /\ inv (i + Z.of_nat n) s'.
Proof.
  intros Hstep n. induction n as [| n IH]; intros i s Hhi Hinv.
  - exists s. split; [reflexivity |].
    replace (i + Z.of_nat 0) with i by lia. assumption.
  - destruct (Hstep i s) as (s1 & Hb & Hinv1); [lia | assumption |].
    destruct (IH (i + 1) s1) as (s' & Hr & Hinv'); [lia | assumption |].
    exists s'. split.
    + cbn [for_range]. rewrite Hb, bind_ret. assumption.
    + replace (i + Z.of_nat (Datatypes.S n)) with (i + 1 + Z.of_nat n) by lia.
      assumption.
Qed.

Lemma table_char (t : vec) (v : Z) :
  Forall (fun c => text_char c /\ c <> 0) t ->
  0 <= v < Z.of_nat (List.length t) ->
  exists c, vget t v = ret c /\ text_char c /\ c <> 0.
Proof.
  intros Ht Hv. exists (item t v). split; [apply vget_in; assumption |].
  unfold item. rewrite Forall_forall in Ht. apply Ht. apply nth_In. lia.
Qed.

Lemma PUNCT_CHARS_text : Forall (fun c => text_char c /\ c <> 0) PUNCT_CHARS.
Proof.
  unfold PUNCT_CHARS, text_char.
  repeat (apply Forall_cons; [split; lia |]). apply Forall_nil.
Qed.

Lemma MIXED_CHARS_text : Forall (fun c => text_char c /\ c <> 0) MIXED_CHARS.
Proof.
  unfold MIXED_CHARS, text_char.
  repeat (apply Forall_cons; [split; lia |]). apply Forall_nil.
Qed.

Lemma to_byte_small (x : Z) : 0 <= x < 256 -> to_byte x = x.
Proof. intros H. unfold to_byte. apply Z.mod_small. assumption. Qed.

(** The switch on a value that is not negative: it returns, the character
    it hands back is a text character or none, and it appends to the text
    only the byte of an escape. *)
Lemma DecodeTextCompaction_switch_ret (bcd : vec) (i v : Z)
    (st : TextDecodeState) :
  0 <= v ->
  (v = MODE_SHIFT_TO_BYTE_COMPACTION_MODE -> in_range bcd i = true) ->
  exists st' ch,
    DecodeTextCompaction_switch bcd i v st = ret (st', ch) /\
    (ch = 0 \/ text_char ch) /\
    (decoded st' = decoded st \/
     (v = MODE_SHIFT_TO_BYTE_COMPACTION_MODE /\ ch = 0 /\
      exists c, decoded st' = decoded st ++ [c])).
Proof.
  intros Hv Hb. unfold DecodeTextCompaction_switch, append_escaped.
  unfold LL, ML, PS, AS, AL, PL, PAL, MODE_SHIFT_TO_BYTE_COMPACTION_MODE,
    TEXT_COMPACTION_MODE_LATCH in *.
  assert (Hletter : forall a, 65 <= a <= 97 -> v < 26 ->
            to_byte (a + v) = a + v /\ text_char (a + v)).
  { intros a Ha Hlt. split; [apply to_byte_small; lia | unfold text_char; lia]. }
  assert (Hspace : text_char 32) by (unfold text_char; lia).
  destruct (subMode st);
    repeat match goal with
           | |- context [if ?a <? ?x then _ else _] =>
               destruct (Z.ltb_spec a x)
           | |- context [if ?a =? ?x then _ else _] =>
               destruct (Z.eqb_spec a x)
           end;
    try (do 2 eexists; split; [reflexivity |];
         cbn [decoded set_subMode shift_to];
         split; [first [left; reflexivity | right; assumption
                       | right; apply Hletter; lia] | left; reflexivity]).
  all: try (unfold vget; rewrite Hb by assumption; rewrite !bind_ret;
            do 2 eexists; split; [reflexivity |];
            split; [left; reflexivity |];
            right; split; [assumption |]; split; [reflexivity |];
            eexists; reflexivity).
  all: try match goal with
            | |- context [to_byte (?a + _)] =>
                let E := fresh "E" in
                let T := fresh "T" in
                destruct (Hletter a) as [E T]; [lia | assumption |];
                  rewrite E; do 2 eexists; split; [reflexivity |];
                  cbn [decoded set_subMode];
                  split; [right; assumption | left; reflexivity]
            end.
  all: match goal with
       | |- context [vget ?t ?a] =>
           let c := fresh "c" in
           destruct (@table_char t a) as (c & -> & Hc & _);
             [first [apply MIXED_CHARS_text | apply PUNCT_CHARS_text]
             | let n := eval vm_compute in (Z.of_nat (List.length t)) in
               change (Z.of_nat (List.length t)) with n; lia |];
             rewrite bind_ret; do 2 eexists; split; [reflexivity |];
             cbn [decoded set_subMode];
             split; [right; assumption | left; reflexivity]
       end.
Qed.

Lemma Forall_item (P : Z -> Prop) (l : list Z) (i : Z) :
  Forall P l -> 0 <= i < Z.of_nat (List.length l) -> P (item l i).
Proof.
  intros H Hi. unfold item. rewrite Forall_forall in H. apply H.
  apply nth_In. lia.
Qed.

Lemma Forall_firstn_item (P : Z -> Prop) (l : list Z) (n : nat) (i : Z) :
  Forall P (firstn n l) -> 0 <= i < Z.of_nat n ->
  i < Z.of_nat (List.length l) -> P (item l i).
Proof.
  intros H Hi Hl. unfold item.
  assert (Hn : (Z.to_nat i < n)%nat) by lia.
  assert (Hm : (Z.to_nat i < List.length l)%nat) by lia.
  generalize dependent (Z.to_nat i). clear Hi Hl. intros k.
  revert l k H. induction n as [| n IH]; intros l k H Hn Hm; [lia |].
  destruct l as [| x l]; [simpl in Hm; lia |].
  cbn [firstn] in H. inversion H as [| ? ? Hx Hrest]; subst.
  destruct k as [| k]; [exact Hx |].
  cbn [nth]. apply IH; [assumption | lia | simpl in Hm; lia].
Qed.

(** One entry of the text data: the step returns and appends at most one
    character, which is a text character unless the entry is an escape. *)
Lemma DecodeTextCompaction_step_ret (tcd bcd : vec) (i : Z)
    (st : TextDecodeState) :
  Forall (fun v => 0 <= v) tcd ->
  0 <= i < Z.of_nat (List.length tcd) -> i < Z.of_nat (List.length bcd) ->
  exists st',
    DecodeTextCompaction_step tcd bcd i st = ret st' /\
    (decoded st' = decoded st \/
     exists c, decoded st' = decoded st ++ [c] /\
               (item tcd i <> MODE_SHIFT_TO_BYTE_COMPACTION_MODE ->
                text_char c)).
Proof.
  intros Hpos Hi Hb. unfold DecodeTextCompaction_step.
  rewrite vget_in, bind_ret by assumption.
  destruct (@DecodeTextCompaction_switch_ret bcd i (item tcd i) st)
    as (st1 & ch & -> & Hch & Hdec).
  - apply (Forall_item Hpos Hi).
  - intros _. apply in_range_spec. lia.
  - rewrite bind_ret. eexists. split; [reflexivity |].
    destruct Hdec as [Hdec | (H913 & -> & c & Hdec)].
    + destruct (Z.eqb_spec ch 0); [left; assumption |].
      right. exists ch. cbn [append_char decoded appendUtf8]. rewrite Hdec.
      split; [reflexivity |]. intros _. destruct Hch; [contradiction | assumption].
    + cbn [Z.eqb]. right. exists c. split; [assumption |].
      intros Hne. contradiction.
Qed.

(** The loop of the sub-mode machine on entries that are not negative:
    it returns, and the text grows by at most one character per entry. *)
Lemma DecodeTextCompaction_loop_total (tcd bcd : vec) (len : Z)
    (result : String) :
  Forall (fun v => 0 <= v) tcd ->
  len <= Z.of_nat (List.length tcd) -> len <= Z.of_nat (List.length bcd) ->
  exists st suffix,
    for_range (Z.to_nat len) 0 (DecodeTextCompaction_step tcd bcd)
      (mkTextDecodeState ALPHA ALPHA result) = ret st /\
    decoded st = result ++ suffix /\
    (List.length suffix <= Z.to_nat len)%nat /\
    (Forall (fun v => v <> MODE_SHIFT_TO_BYTE_COMPACTION_MODE)
       (firstn (Z.to_nat len) tcd) ->
     Forall text_char suffix).
Proof.
  intros Hpos Ht Hb.
  pose (inv := fun (i : Z) (st : TextDecodeState) =>
    0 <= i /\
    exists suffix,
      decoded st = result ++ suffix /\
      Z.of_nat (List.length suffix) <= i /\
      (Forall (fun v => v <> MODE_SHIFT_TO_BYTE_COMPACTION_MODE)
         (firstn (Z.to_nat len) tcd) -> Forall text_char suffix)).
  destruct (@for_range_ret _
              (DecodeTextCompaction_step tcd bcd) inv (Z.of_nat (Z.to_nat len)))
    with (n := Z.to_nat len) (i := 0)
         (s := mkTextDecodeState ALPHA ALPHA result)
    as (st & Hrun & _ & suffix & Hdec & Hlen & Hchars).
  - intros i s Hi (H0 & suffix & Hdec & Hlen & Hchars).
    destruct (@DecodeTextCompaction_step_ret tcd bcd i s Hpos)
      as (s' & Hs & Hd); [lia | lia |].
    exists s'. split; [assumption |]. split; [lia |].
    destruct Hd as [Hd | (c & Hd & Hc)].
    + exists suffix. rewrite Hd. split; [assumption |].
      split; [lia | assumption].
    + exists (suffix ++ [c]). rewrite Hd, Hdec, app_assoc.
      split; [reflexivity |]. split.
      * rewrite length_app. cbn [List.length]. lia.
      * intros Hno. apply Forall_app. split; [apply Hchars; assumption |].
        constructor; [| constructor]. apply Hc.
        apply (@Forall_firstn_item _ tcd (Z.to_nat len) i Hno); lia.
  - lia.
  - split; [lia |]. exists []. rewrite List.app_nil_r.
    split; [reflexivity |]. split; [simpl; lia |]. intros _. constructor.
  - exists st, suffix. repeat split; try assumption. lia.
Qed.

(** The sub-mode machine on entries that are not negative, with [length]
    within both vectors: it returns, the text it is given is kept and
    extended by at most one character per entry, and when no entry is the
    escape 913 the characters appended are the printable ASCII characters,
    HT, LF and CR only. *)
Theorem text_decode_total (tcd bcd : vec) (len : Z) (result : String) :
  Forall (fun v => 0 <= v) tcd ->
  len <= Z.of_nat (List.length tcd) -> len <= Z.of_nat (List.length bcd) ->
  exists suffix,
    DecodeTextCompaction tcd bcd len result = ret (result ++ suffix) /\
    (List.length suffix <= Z.to_nat len)%nat /\
    (Forall (fun v => v <> MODE_SHIFT_TO_BYTE_COMPACTION_MODE)
       (firstn (Z.to_nat len) tcd) ->
     Forall text_char suffix).
Proof.
  intros Hpos Ht Hb.
  destruct (@DecodeTextCompaction_loop_total tcd bcd len result Hpos Ht Hb)
    as (st & suffix & Hrun & Hdec & Hlen & Hchars).
  exists suffix. unfold DecodeTextCompaction.
  rewrite Hrun, bind_ret, Hdec.
  split; [reflexivity |]. split; assumption.
Qed.

Lemma text_decode_total_witness :
  exists suffix,
    DecodeTextCompaction [7; 4; 11; 11; 14; 26; 28; 1; 913; 0] (repeat 0 10%nat)
      9 [62] = ret ([62] ++ suffix) /\
    (List.length suffix <= Z.to_nat 9)%nat /\
    (Forall (fun v => v <> MODE_SHIFT_TO_BYTE_COMPACTION_MODE)
       (firstn (Z.to_nat 9) [7; 4; 11; 11; 14; 26; 28; 1; 913; 0]) ->
     Forall text_char suffix).
Proof.
  apply (@text_decode_total [7; 4; 11; 11; 14; 26; 28; 1; 913; 0]
           (repeat 0 10%nat) 9 [62]).
  - repeat (apply Forall_cons; [lia |]). apply Forall_nil.
  - simpl. lia.
  - simpl. lia.
Defined.

Lemma text_stop_control (c : Z) :
  text_stop c = true -> 900 < c /\ c <> MODE_SHIFT_TO_BYTE_COMPACTION_MODE.
Proof.
  unfold text_stop.
  cbv [BYTE_COMPACTION_MODE_LATCH BYTE_COMPACTION_MODE_LATCH_6
       NUMERIC_COMPACTION_MODE_LATCH BEGIN_MACRO_PDF417_CONTROL_BLOCK
       BEGIN_MACRO_PDF417_OPTIONAL_FIELD MACRO_PDF417_TERMINATOR
       MODE_SHIFT_TO_BYTE_COMPACTION_MODE].
  rewrite !orb_true_iff, !Z.eqb_eq. lia.
Qed.

Lemma TextCompaction_cond_eq (cw : list Z) (st : TextState) :
  (0 < List.length cw)%nat ->
  TextCompaction_cond cw st =
  ([0], Ret ((t_codeIndex st <? item cw 0) && negb (t_end st))).
Proof.
  intros H. unfold TextCompaction_cond. rewrite rd_in by lia. reflexivity.
Qed.

(** The loop body on a data codeword: its two values are stored. *)
Lemma TextCompaction_body_data (cw : list Z) (st : TextState) (d : Z) :
  rd cw (t_codeIndex st) = ([t_codeIndex st], Ret d) -> d < 900 ->
  0 <= t_index st ->
  t_index st + 1 < Z.of_nat (List.length (textCompactionData st)) ->
  TextCompaction_body cw st =
  ([t_codeIndex st],
   Ret (mkTextState (t_codeIndex st + 1) (t_index st + 2) (t_end st)
          (upd (upd (textCompactionData st) (Z.to_nat (t_index st))
                  (Z.quot d 30))
             (Datatypes.S (Z.to_nat (t_index st))) (Z.rem d 30))
          (byteCompactionData st))).
Proof.
  intros Hrd Hd H0 Hlen. unfold TextCompaction_body. rewrite Hrd. cbn [bind].
  unfold TEXT_COMPACTION_MODE_LATCH.
  destruct (Z.ltb_spec d 900); [| lia].
  rewrite vset_in, bind_ret by lia.
  rewrite vset_in, bind_ret by (rewrite upd_length; lia).
  replace (Z.to_nat (t_index st + 1)) with (Datatypes.S (Z.to_nat (t_index st)))
    by lia.
  reflexivity.
Qed.

(** The loop body on a codeword at which Text Compaction stops: the cursor
    is left on it. *)
Lemma TextCompaction_body_stop (cw : list Z) (st : TextState) (c : Z) :
  rd cw (t_codeIndex st) = ([t_codeIndex st], Ret c) -> text_stop c = true ->
  TextCompaction_body cw st =
  ([t_codeIndex st],
   Ret (mkTextState (t_codeIndex st) (t_index st) true
          (textCompactionData st) (byteCompactionData st))).
Proof.
  intros Hrd Hc. unfold TextCompaction_body. rewrite Hrd. cbn [bind].
  destruct (text_stop_control _ Hc) as [H900 _].
  unfold TEXT_COMPACTION_MODE_LATCH.
  destruct (Z.ltb_spec c 900); [lia |].
  destruct (Z.eqb_spec c 900); [lia |].
  rewrite Hc. cbn [ret].
  replace (t_codeIndex st + 1 - 1) with (t_codeIndex st) by lia. reflexivity.
Qed.

Lemma firstn_upd_pair (v : vec) (n : nat) (a b : Z) :
  (Datatypes.S n < List.length v)%nat ->
  firstn (Datatypes.S (Datatypes.S n)) (upd (upd v n a) (Datatypes.S n) b)
  = firstn n v ++ [a; b].
Proof.
  intros H. rewrite firstn_upd_snoc by (rewrite upd_length; lia).
  rewrite firstn_upd_snoc by lia. rewrite <- app_assoc. reflexivity.
Qed.

(** The loop of [TextCompaction] on a run of data codewords: the cursor
    ends at the end of the run and the values of the codewords are stored
    in order. *)
Lemma text_loop (cw : list Z) (rest : list Z) :
  forall (p index : Z) (tcd bcd : vec) (fuel : nat),
  Forall (fun c => c < 900) rest ->
  codewords_at cw p rest ->
  (0 < List.length cw)%nat ->
  text_run_ends cw (p + Z.of_nat (List.length rest)) ->
  0 <= index ->
  index + 2 * Z.of_nat (List.length rest) <= Z.of_nat (List.length tcd) ->
  (Z.to_nat (item cw 0 - p) < fuel)%nat ->
  exists e tcd',
    result_of (while fuel (TextCompaction_cond cw) (TextCompaction_body cw)
                 (mkTextState p index false tcd bcd))
    = Ret (mkTextState (p + Z.of_nat (List.length rest))
             (index + 2 * Z.of_nat (List.length rest)) e tcd' bcd) /\
    List.length tcd' = List.length tcd /\
    firstn (Z.to_nat (index + 2 * Z.of_nat (List.length rest))) tcd'
    = firstn (Z.to_nat index) tcd ++ flat_map text_pair rest.
Proof.
  induction rest as [| d rest IH];
    intros p index tcd bcd fuel Hdata Hat Hcw Hend H0 Hlen Hfuel.
  - cbn [List.length Z.of_nat] in *. rewrite Z.add_0_r in Hend.
    rewrite Z.mul_0_r, !Z.add_0_r. cbn [flat_map]. rewrite List.app_nil_r.
    destruct fuel as [| fuel]; [lia |].
    destruct Hend as [Hend | (Hlt & Hrange & Hstop)].
    + exists false, tcd. split; [| split; reflexivity].
      apply while_exit_result. rewrite TextCompaction_cond_eq by assumption.
      cbn [result_of snd t_codeIndex t_end]. rewrite <- Hend, Z.ltb_irrefl.
      reflexivity.
    + exists true, tcd. split; [| split; reflexivity].
      destruct fuel as [| fuel]; [lia |].
      rewrite (@while_step_result _ _ _ _ _ (mkTextState p index true tcd bcd)).
      * apply while_exit_result. rewrite TextCompaction_cond_eq by assumption.
        cbn [result_of snd t_codeIndex t_end]. rewrite andb_false_r.
        reflexivity.
      * rewrite TextCompaction_cond_eq by assumption.
        cbn [result_of snd t_codeIndex t_end].
        destruct (Z.ltb_spec p (item cw 0)); [reflexivity | lia].
      * rewrite (@TextCompaction_body_stop cw _ (item cw p));
          [reflexivity | cbn [t_codeIndex]; apply rd_in; lia | assumption].
  - apply codewords_at_cons in Hat. destruct Hat as [Hrd Hat].
    inversion Hdata as [| ? ? Hd Hdata']; subst.
    cbn [List.length] in Hend, Hlen.
    assert (Hlt : p < item cw 0) by (destruct Hend as [? | [? _]]; lia).
    destruct fuel as [| fuel]; [lia |].
    set (tcd1 := upd (upd tcd (Z.to_nat index) (Z.quot d 30))
                   (Datatypes.S (Z.to_nat index)) (Z.rem d 30)).
    destruct (IH (p + 1) (index + 2) tcd1 bcd fuel) as (e & tcd' & Hw & Hl & Hf);
      try assumption.
    + replace (p + 1 + Z.of_nat (List.length rest))
        with (p + Z.of_nat (Datatypes.S (List.length rest))) by lia.
      assumption.
    + lia.
    + subst tcd1. rewrite !upd_length. lia.
    + lia.
    + exists e, tcd'.
      replace (p + Z.of_nat (List.length (d :: rest)))
        with (p + 1 + Z.of_nat (List.length rest))
        by (cbn [List.length]; lia).
      replace (index + 2 * Z.of_nat (List.length (d :: rest)))
        with (index + 2 + 2 * Z.of_nat (List.length rest))
        by (cbn [List.length]; lia).
      split; [| split].
      * rewrite <- Hw. apply while_step_result.
        -- rewrite TextCompaction_cond_eq by assumption.
           cbn [result_of snd t_codeIndex t_end].
           destruct (Z.ltb_spec p (item cw 0)); [reflexivity | lia].
        -- rewrite (@TextCompaction_body_data cw _ d);
             [reflexivity | exact Hrd | assumption | assumption
             | cbn [t_index textCompactionData]; lia].
      * rewrite Hl. subst tcd1. rewrite !upd_length. reflexivity.
      * rewrite Hf. subst tcd1.
        replace (Z.to_nat (index + 2))
          with (Datatypes.S (Datatypes.S (Z.to_nat index))) by lia.
        rewrite firstn_upd_pair by lia.
        rewrite <- app_assoc. reflexivity.
Qed.

Lemma bind_ext (A B : Type) (m : M A) (k k' : A -> M B) :
  (forall a, k a = k' a) -> bind m k = bind m k'.
Proof.
  intros H. destruct m as [t [a | f]]; [| reflexivity].
  cbn [bind]. rewrite H. reflexivity.
Qed.

Lemma for_range_ext (S : Type) (body body' : Z -> S -> M S) (hi : Z) :
  (forall i s, 0 <= i < hi -> body i s = body' i s) ->
  forall n i s, 0 <= i -> i + Z.of_nat n <= hi ->
    for_range n i body s = for_range n i body' s.
Proof.
  intros H n. induction n as [| n IH]; intros i s H0 Hhi; [reflexivity |].
  cbn [for_range]. rewrite H by lia. apply bind_ext.
  intros s1. apply IH; lia.
Qed.

Lemma vget_firstn (v v' : vec) (n : nat) (i : Z) :
  firstn n v = firstn n v' ->
  (n <= List.length v)%nat -> (n <= List.length v')%nat ->
  0 <= i < Z.of_nat n -> vget v i = vget v' i.
Proof.
  intros H Hv Hv' Hi. rewrite !vget_in by lia. f_equal. unfold item.
  assert (Hk : (Z.to_nat i < n)%nat) by lia.
  generalize dependent (Z.to_nat i). clear Hi. intros k Hk.
  revert v v' k H Hv Hv' Hk.
  induction n as [| n IH]; intros v v' k H Hv Hv' Hk; [lia |].
  destruct v as [| x v]; [simpl in Hv; lia |].
  destruct v' as [| x' v']; [simpl in Hv'; lia |].
  cbn [firstn] in H. injection H as -> H.
  destruct k as [| k]; [reflexivity |].
  cbn [nth]. apply IH; simpl in *; try assumption; lia.
Qed.

(** The sub-mode machine looks at the first [length] entries of its two
    vectors only. *)
Lemma DecodeTextCompaction_ext (tcd tcd' bcd bcd' : vec) (n : nat)
    (result : String) :
  firstn n tcd = firstn n tcd' -> firstn n bcd = firstn n bcd' ->
  (n <= List.length tcd)%nat -> (n <= List.length tcd')%nat ->
  (n <= List.length bcd)%nat -> (n <= List.length bcd')%nat ->
  DecodeTextCompaction tcd bcd (Z.of_nat n) result
  = DecodeTextCompaction tcd' bcd' (Z.of_nat n) result.
Proof.
  intros Ht Hb H1 H2 H3 H4. unfold DecodeTextCompaction. f_equal.
  rewrite Nat2Z.id.
  apply (@for_range_ext _ _ _ (Z.of_nat n)); [| lia | lia].
  intros i s Hi. unfold DecodeTextCompaction_step.
  rewrite (@vget_firstn tcd tcd' n i) by assumption.
  apply bind_ext. intros v.
  unfold DecodeTextCompaction_switch, append_escaped.
  rewrite (@vget_firstn bcd bcd' n i) by assumption.
  reflexivity.
Qed.

Lemma firstn_repeat (x : Z) (n m : nat) :
  (n <= m)%nat -> firstn n (repeat x m) = repeat x n.
Proof.
  revert m. induction n as [| n IH]; intros m H; [reflexivity |].
  destruct m as [| m]; [lia |]. cbn [repeat firstn]. f_equal. apply IH. lia.
Qed.

Lemma length_flat_map_text_pair (ds : list Z) :
  List.length (flat_map text_pair ds) = (2 * List.length ds)%nat.
Proof. induction ds as [| d ds IH]; simpl; lia. Qed.

Lemma run_within_count (cw ds : list Z) (ci : Z) :
  text_run_ends cw (ci + Z.of_nat (List.length ds)) ->
  ci + Z.of_nat (List.length ds) <= item cw 0.
Proof. intros [H | [H _]]; lia. Qed.

(** [TextCompaction] on a run of data codewords: the cursor handed back
    is the end of the run and the text is what the sub-mode machine makes
    of the two values of each codeword. *)
Lemma TextCompaction_data_run (cw ds : list Z) (ci : Z) (result : String) :
  Forall (fun c => c < 900) ds ->
  codewords_at cw ci ds ->
  (0 < List.length cw)%nat ->
  text_run_ends cw (ci + Z.of_nat (List.length ds)) ->
  result_of (TextCompaction cw ci result)
  = result_of
      (r <- DecodeTextCompaction (flat_map text_pair ds)
              (repeat 0 (2 * List.length ds))
              (Z.of_nat (2 * List.length ds)) result ;;
       ret (ci + Z.of_nat (List.length ds), r)).
Proof.
  intros Hdata Hat Hcw Hend.
  assert (Hle := run_within_count _ _ Hend).
  unfold TextCompaction.
  rewrite result_bind, rd_in by lia. cbn [result_of snd].
  unfold vnew.
  destruct (Z.ltb_spec ((item cw 0 - ci) * 2) 0); [lia |].
  rewrite bind_ret. rewrite result_bind. cbn [result_of snd].
  destruct (Z.ltb_spec ((item cw 0 - ci) * 2) 0); [lia |].
  rewrite bind_ret.
  set (zeros := repeat 0 (Z.to_nat ((item cw 0 - ci) * 2))).
  assert (Hz : List.length zeros = Z.to_nat ((item cw 0 - ci) * 2))
    by apply repeat_length.
  destruct (@text_loop cw ds ci 0 zeros zeros (fuel_from cw ci))
    as (e & tcd' & Hw & Hl & Hf); try assumption.
  - lia.
  - lia.
  - unfold fuel_from. lia.
  - rewrite result_bind, Hw. cbn [t_index textCompactionData
      byteCompactionData t_codeIndex].
    rewrite !result_bind.
    replace (0 + 2 * Z.of_nat (List.length ds))
      with (Z.of_nat (2 * List.length ds)) in * by lia.
    rewrite Nat2Z.id in Hf. cbn [Z.to_nat firstn app] in Hf.
    rewrite (@DecodeTextCompaction_ext tcd' (flat_map text_pair ds)
               zeros (repeat 0 (2 * List.length ds))).
    + reflexivity.
    + rewrite Hf. symmetry. apply firstn_all2.
      rewrite length_flat_map_text_pair. lia.
    + subst zeros. rewrite !firstn_repeat by lia. reflexivity.
    + lia.
    + rewrite length_flat_map_text_pair. lia.
    + lia.
    + rewrite repeat_length. lia.
Qed.

Lemma vget_at (v : vec) (i x : Z) (xs : list Z) :
  codewords_at v i (x :: xs) ->
  vget v i = ret x /\ codewords_at v (i + 1) xs.
Proof.
  intros H. apply codewords_at_cons in H. destruct H as [Hrd Hat].
  split; [| assumption].
  apply (f_equal result_of) in Hrd. apply rd_Ret in Hrd.
  destruct Hrd as [Hi ->]. apply vget_in. assumption.
Qed.

(** The sub-mode machine on values of the Alpha sub-mode, from that
    sub-mode: a capital letter or a space for each. *)
Lemma alpha_run (tcd bcd : vec) (vs : list Z) :
  forall (i : Z) (prior : Mode) (r : String),
  Forall (fun v => 0 <= v <= 26) vs ->
  codewords_at tcd i vs ->
  for_range (List.length vs) i (DecodeTextCompaction_step tcd bcd)
    (mkTextDecodeState ALPHA prior r)
  = ret (mkTextDecodeState ALPHA prior (r ++ map alpha_char vs)).
Proof.
  induction vs as [| v vs IH]; intros i prior r Hv Hat.
  - cbn [List.length for_range map]. rewrite List.app_nil_r. reflexivity.
  - apply vget_at in Hat. destruct Hat as [Hget Hat].
    inversion Hv as [| ? ? Hv0 Hv']; subst.
    cbn [List.length for_range]. unfold DecodeTextCompaction_step at 1.
    rewrite Hget, bind_ret. unfold DecodeTextCompaction_switch.
    cbn [subMode map]. unfold alpha_char at 1.
    destruct (Z.ltb_spec v 26).
    + rewrite bind_ret. destruct (Z.eqb_spec v 26); [lia |].
      rewrite to_byte_small by lia.
      destruct (Z.eqb_spec (65 + v) 0); [lia |].
      rewrite bind_ret. unfold append_char.
      cbn [subMode priorToShiftMode decoded].
      rewrite IH by assumption. unfold appendUtf8.
      rewrite <- app_assoc. reflexivity.
    + destruct (Z.eqb_spec v 26); [| lia].
      rewrite bind_ret. cbn [Z.eqb]. rewrite bind_ret. unfold append_char.
      cbn [subMode priorToShiftMode decoded].
      rewrite IH by assumption. unfold appendUtf8.
      rewrite <- app_assoc. reflexivity.
Qed.

Lemma text_pair_codeword (p : Z * Z) :
  0 <= fst p -> 0 <= snd p < 30 -> text_pair (pair_codeword p) = [fst p; snd p].
Proof.
  intros Hh Hl. unfold text_pair, pair_codeword.
  assert (Hq : Z.quot (30 * fst p + snd p) 30 = fst p).
  { rewrite Z.quot_div_nonneg by lia.
    symmetry. apply (Z.div_unique_pos _ _ _ (snd p)); lia. }
  assert (Hr : Z.rem (30 * fst p + snd p) 30 = snd p).
  { rewrite Z.rem_mod_nonneg by lia.
    symmetry. apply (Z.mod_unique_pos _ _ (fst p)); lia. }
  rewrite Hq, Hr. reflexivity.
Qed.

Lemma flat_map_pairs (pairs : list (Z * Z)) :
  Forall (fun p => 0 <= fst p <= 26 /\ 0 <= snd p <= 26) pairs ->
  flat_map text_pair (map pair_codeword pairs)
  = flat_map (fun p => [fst p; snd p]) pairs /\
  Forall (fun c => c < 900) (map pair_codeword pairs) /\
  Forall (fun v => 0 <= v <= 26) (flat_map (fun p => [fst p; snd p]) pairs) /\
  map alpha_char (flat_map (fun p => [fst p; snd p]) pairs)
  = flat_map alpha_pair pairs.
Proof.
  induction 1 as [| p pairs [Hh Hl] _ (IH1 & IH2 & IH3 & IH4)].
  - repeat split; constructor.
  - cbn [map flat_map]. rewrite text_pair_codeword by lia.
    rewrite IH1. repeat split.
    + constructor; [unfold pair_codeword; lia | assumption].
    + cbn [app]. repeat (constructor; [lia |]). assumption.
    + cbn [app map]. rewrite IH4. reflexivity.
Qed.

Lemma TextCompaction_capitals (cw : list Z) (pairs : list (Z * Z)) (ci : Z)
    (result : String) :
  Forall (fun p => 0 <= fst p <= 26 /\ 0 <= snd p <= 26) pairs ->
  codewords_at cw ci (map pair_codeword pairs) ->
  (0 < List.length cw)%nat ->
  text_run_ends cw (ci + Z.of_nat (List.length pairs)) ->
  result_of (TextCompaction cw ci result)
  = Ret (ci + Z.of_nat (List.length pairs), result ++ flat_map alpha_pair pairs).
Proof.
  intros Hp Hat Hcw Hend.
  destruct (flat_map_pairs Hp) as (H1 & H2 & H3 & H4).
  rewrite (@TextCompaction_data_run cw (map pair_codeword pairs));
    try assumption; [| rewrite length_map; assumption].
  rewrite length_map, H1. unfold DecodeTextCompaction.
  rewrite Nat2Z.id.
  replace (2 * List.length pairs)%nat
    with (List.length (flat_map (fun p : Z * Z => [fst p; snd p]) pairs)).
  - rewrite alpha_run; [| assumption |].
    + rewrite !bind_ret. cbn [decoded result_of snd ret]. rewrite H4.
      reflexivity.
    + split; [lia |]. cbn [Z.to_nat skipn]. apply firstn_all.
  - clear. induction pairs as [| p pairs IH]; simpl; lia.
Qed.

(** The Text latch inside Text Compaction.  [TextCompaction] stores the
    codeword 900 as one entry, and on that entry the sub-mode machine goes
    to the Alpha sub-mode from every sub-mode, the two shifts included, and
    appends nothing. *)
Theorem text_latch_resets (cw : list Z) (ts : TextState) (tcd bcd : vec)
    (i : Z) (st : TextDecodeState) :
  (rd cw (t_codeIndex ts) = ([t_codeIndex ts], Ret TEXT_COMPACTION_MODE_LATCH) ->
   in_range (textCompactionData ts) (t_index ts) = true ->
   TextCompaction_body cw ts =
   ([t_codeIndex ts],
    Ret (mkTextState (t_codeIndex ts + 1) (t_index ts + 1) (t_end ts)
           (upd (textCompactionData ts) (Z.to_nat (t_index ts))
              TEXT_COMPACTION_MODE_LATCH)
           (byteCompactionData ts)))) /\
  (vget tcd i = ret TEXT_COMPACTION_MODE_LATCH ->
   DecodeTextCompaction_step tcd bcd i st =
   ret (mkTextDecodeState ALPHA (priorToShiftMode st) (decoded st))).
Proof.
  split.
  - intros Hrd Hin. unfold TextCompaction_body. rewrite Hrd. cbn [bind].
    change (TEXT_COMPACTION_MODE_LATCH <? TEXT_COMPACTION_MODE_LATCH)
      with false.
    rewrite Z.eqb_refl. cbv iota. unfold vset. rewrite Hin, bind_ret.
    reflexivity.
  - intros Hget. unfold DecodeTextCompaction_step. rewrite Hget, bind_ret.
    unfold DecodeTextCompaction_switch.
    destruct st as [m prior text]. cbn [subMode priorToShiftMode decoded].
    destruct m; reflexivity.
Qed.

Lemma text_latch_resets_witness :
  TextCompaction_body [6; 900; 1; 900; 200; 62; 0]
    (mkTextState 3 2 false [0; 1; 0; 0; 0; 0; 0; 0] [0; 0; 0; 0; 0; 0; 0; 0])
  = ([3],
     Ret (mkTextState (3 + 1) (2 + 1) false
            (upd [0; 1; 0; 0; 0; 0; 0; 0] (Z.to_nat 2) 900)
            [0; 0; 0; 0; 0; 0; 0; 0])) /\
  DecodeTextCompaction_step [27; 29; 900; 2; 2] [0; 0; 0; 0; 0] 2
    (mkTextDecodeState PUNCT_SHIFT LOWER [65])
  = ret (mkTextDecodeState ALPHA LOWER [65]).
Proof.
  split.
  - apply (proj1 (@text_latch_resets [6; 900; 1; 900; 200; 62; 0]
       (mkTextState 3 2 false [0; 1; 0; 0; 0; 0; 0; 0] [0; 0; 0; 0; 0; 0; 0; 0])
       [] [] 0 (mkTextDecodeState ALPHA ALPHA [])));
      reflexivity.
  - apply (proj2 (@text_latch_resets []
       (mkTextState 0 0 false [] [])
       [27; 29; 900; 2; 2] [0; 0; 0; 0; 0] 2
       (mkTextDecodeState PUNCT_SHIFT LOWER [65])));
      reflexivity.
Defined.

(** A shift holds for one value.  After the punctuation shift (29) from
    the Alpha, Lower or Mixed sub-mode, a value below 29 gives its
    punctuation character and the sub-mode is the one before the shift
    again; after the Alpha shift (27) from the Lower sub-mode, a value
    below 26 gives its capital letter and the sub-mode is Lower again. *)
Theorem text_shift_single_value (tcd bcd : vec) (i v : Z)
    (st : TextDecodeState) :
  (subMode st = ALPHA \/ subMode st = LOWER \/ subMode st = MIXED ->
   vget tcd i = ret PS -> vget tcd (i + 1) = ret v -> 0 <= v < 29 ->
   for_range 2 i (DecodeTextCompaction_step tcd bcd) st =
   ret (mkTextDecodeState (subMode st) (subMode st)
          (decoded st ++ [item PUNCT_CHARS v]))) /\
  (subMode st = LOWER ->
   vget tcd i = ret AS -> vget tcd (i + 1) = ret v -> 0 <= v < 26 ->
   for_range 2 i (DecodeTextCompaction_step tcd bcd) st =
   ret (mkTextDecodeState LOWER LOWER (decoded st ++ [65 + v]))).
Proof.
  split.
  - intros Hm H1 H2 Hv.
    destruct (@table_char PUNCT_CHARS v PUNCT_CHARS_text) as (c & Hc & _ & Hc0);
      [cbn [List.length PUNCT_CHARS]; lia |].
    assert (Hitem : c = item PUNCT_CHARS v).
    { rewrite vget_in in Hc by (cbn [List.length PUNCT_CHARS]; lia).
      injection Hc as Hc. symmetry. exact Hc. }
    assert (S1 : DecodeTextCompaction_step tcd bcd i st
                 = ret (mkTextDecodeState PUNCT_SHIFT (subMode st) (decoded st))).
    { unfold DecodeTextCompaction_step. rewrite H1, bind_ret.
      unfold DecodeTextCompaction_switch.
      destruct st as [m prior text]. cbn [subMode decoded] in *.
      destruct Hm as [-> | [-> | ->]]; reflexivity. }
    cbn [for_range]. rewrite S1, bind_ret.
    unfold DecodeTextCompaction_step. rewrite H2, bind_ret.
    unfold DecodeTextCompaction_switch.
    cbn [subMode priorToShiftMode decoded set_subMode]. unfold PAL.
    destruct (Z.ltb_spec v 29); [| lia].
    rewrite Hc, !bind_ret. subst c.
    destruct (Z.eqb_spec (item PUNCT_CHARS v) 0); [contradiction |].
    reflexivity.
  - intros Hm H1 H2 Hv.
    assert (S1 : DecodeTextCompaction_step tcd bcd i st
                 = ret (mkTextDecodeState ALPHA_SHIFT LOWER (decoded st))).
    { unfold DecodeTextCompaction_step. rewrite H1, bind_ret.
      unfold DecodeTextCompaction_switch.
      destruct st as [m prior text]. cbn [subMode decoded] in *.
      subst m. reflexivity. }
    cbn [for_range]. rewrite S1, bind_ret.
    unfold DecodeTextCompaction_step. rewrite H2, bind_ret.
    unfold DecodeTextCompaction_switch.
    cbn [subMode priorToShiftMode decoded set_subMode].
    destruct (Z.ltb_spec v 26); [| lia].
    rewrite to_byte_small by lia. rewrite !bind_ret.
    destruct (Z.eqb_spec (65 + v) 0); [lia |]. reflexivity.
Qed.

Lemma text_shift_single_value_witness :
  for_range 2 1 (DecodeTextCompaction_step [27; 29; 10; 0] [0; 0; 0; 0])
    (mkTextDecodeState LOWER ALPHA [97])
  = ret (mkTextDecodeState LOWER LOWER ([97] ++ [item PUNCT_CHARS 10])) /\
  for_range 2 1 (DecodeTextCompaction_step [27; 27; 10; 0] [0; 0; 0; 0])
    (mkTextDecodeState LOWER ALPHA [97])
  = ret (mkTextDecodeState LOWER LOWER ([97] ++ [65 + 10])).
Proof.
  split.
  - apply (proj1 (@text_shift_single_value [27; 29; 10; 0] [0; 0; 0; 0] 1 10
                    (mkTextDecodeState LOWER ALPHA [97])));
      [right; left; reflexivity | reflexivity | reflexivity | lia].
  - apply (proj2 (@text_shift_single_value [27; 27; 10; 0] [0; 0; 0; 0] 1 10
                    (mkTextDecodeState LOWER ALPHA [97])));
      [reflexivity | reflexivity | reflexivity | lia].
Defined.

(** [TextCompaction] on a run of data codewords that ends at the declared
    count or at a codeword at which Text Compaction stops: the cursor
    handed back is the end of the run, so that the stop codeword is not
    consumed, and the text is what the sub-mode machine makes of the two
    values [code / 30] and [code % 30] of each codeword, in order.  On an
    empty run nothing is consumed and nothing is appended.  The size of
    the two buffers, twice the number of codewords from the cursor to the
    declared count, is within [int]: the source computes it in [int], and
    a declared count beyond that overflows it. *)
Theorem text_compaction_run (cw ds : list Z) (ci : Z) (result : String) :
  Forall (fun c => c < 900) ds ->
  codewords_at cw ci ds ->
  (0 < List.length cw)%nat ->
  text_run_ends cw (ci + Z.of_nat (List.length ds)) ->
  (item cw 0 - ci) * 2 <= INT_MAX ->
  result_of (TextCompaction cw ci result)
  = result_of
      (r <- DecodeTextCompaction (flat_map text_pair ds)
              (repeat 0 (2 * List.length ds))
              (Z.of_nat (2 * List.length ds)) result ;;
       ret (ci + Z.of_nat (List.length ds), r)) /\
  (ds = [] -> result_of (TextCompaction cw ci result) = Ret (ci, result)).
Proof.
  intros Hdata Hat Hcw Hend _.
  assert (H := TextCompaction_data_run result Hdata Hat Hcw Hend).
  split; [exact H |].
  intros ->. rewrite H. cbn [List.length Z.of_nat]. rewrite Z.add_0_r.
  reflexivity.
Qed.

Lemma text_compaction_run_witness :
  result_of (TextCompaction [5; 900; 214; 341; 901; 65; 0] 2 [62])
  = result_of
      (r <- DecodeTextCompaction (flat_map text_pair [214; 341])
              (repeat 0 (2 * List.length [214; 341]))
              (Z.of_nat (2 * List.length [214; 341])) [62] ;;
       ret (2 + Z.of_nat (List.length [214; 341]), r)) /\
  result_of (TextCompaction [5; 900; 901; 65; 0] 2 [62]) = Ret (2, [62]).
Proof.
  split.
  - apply (proj1 (@text_compaction_run [5; 900; 214; 341; 901; 65; 0]
                    [214; 341] 2 [62]
                    ltac:(repeat (apply Forall_cons; [lia |]); apply Forall_nil)
                    ltac:(split; [lia | reflexivity])
                    ltac:(simpl; lia)
                    ltac:(right; split; [| split];
                          [vm_compute; reflexivity | simpl; lia
                          | reflexivity])
                    ltac:(vm_compute; discriminate))).
  - apply (proj2 (@text_compaction_run [5; 900; 901; 65; 0] [] 2 [62]
                    ltac:(apply Forall_nil)
                    ltac:(split; [lia | reflexivity])
                    ltac:(simpl; lia)
                    ltac:(right; split; [| split];
                          [vm_compute; reflexivity | simpl; lia
                          | reflexivity])
                    ltac:(vm_compute; discriminate))).
    reflexivity.
Defined.

(** ** Byte Compaction under the latch 924 *)

Lemma ByteCompaction6_cond_eq (cw : list Z) (st : Byte6State) :
  (0 < List.length cw)%nat ->
  ByteCompaction6_cond cw st =
  ([0], Ret ((s_codeIndex st <? item cw 0) && negb (s_end st))).
Proof.
  intros H. unfold ByteCompaction6_cond. rewrite rd_in by lia. reflexivity.
Qed.

Lemma byte_stop_control (c : Z) : byte_stop c = true -> 900 <= c.
Proof.
  unfold byte_stop.
  cbv [TEXT_COMPACTION_MODE_LATCH BYTE_COMPACTION_MODE_LATCH
       NUMERIC_COMPACTION_MODE_LATCH BYTE_COMPACTION_MODE_LATCH_6
       BEGIN_MACRO_PDF417_CONTROL_BLOCK BEGIN_MACRO_PDF417_OPTIONAL_FIELD
       MACRO_PDF417_TERMINATOR].
  rewrite !orb_true_iff, !Z.eqb_eq. lia.
Qed.

(** The loop body of the branch 924 on a codeword that ends Byte
    Compaction, with fewer than five codewords pending: the cursor is left
    on the codeword and the pending codewords stay pending. *)
Lemma ByteCompaction6_body_stop (cw : list Z) (st : Byte6State) (c : Z) :
  rd cw (s_codeIndex st) = ([s_codeIndex st], Ret c) -> byte_stop c = true ->
  0 <= s_count st < 5 ->
  ByteCompaction6_body cw st =
  ([s_codeIndex st],
   Ret (mkByte6State (s_codeIndex st) (s_count st) (s_value st) true
          (s_decodedBytes st))).
Proof.
  intros Hrd Hc Hcount. unfold ByteCompaction6_body. rewrite Hrd. cbn [bind].
  assert (H900 := byte_stop_control _ Hc).
  unfold TEXT_COMPACTION_MODE_LATCH.
  destruct (Z.ltb_spec c 900); [lia |]. rewrite Hc.
  cbn [s_count s_codeIndex s_value s_end s_decodedBytes].
  assert (Hg : group_full (s_count st) = false).
  { unfold group_full.
    destruct (Z.eqb_spec (s_count st) 0) as [-> | Hne]; [reflexivity |].
    rewrite Z.rem_small by lia.
    destruct (Z.eqb_spec (s_count st) 0); [contradiction | reflexivity]. }
  rewrite Hg. replace (s_codeIndex st + 1 - 1) with (s_codeIndex st) by lia.
  reflexivity.
Qed.

(** The loop of the branch 924 from a state that holds [pending]
    codewords of the current group, with the data codewords [rest] ahead
    of the cursor. *)
Lemma byte924_loop (cw : list Z) (rest : list Z) :
  forall (pending : list Z) (p count value : Z) (out : list Z) (fuel : nat),
  (List.length pending <= 4)%nat ->
  count = Z.of_nat (List.length pending) ->
  value = fold_left base900_add pending 0 ->
  Forall (fun c => c < 900) rest ->
  codewords_at cw p rest ->
  (0 < List.length cw)%nat ->
  run_ends cw (p + Z.of_nat (List.length rest)) ->
  (Z.to_nat (item cw 0 - p) < fuel)%nat ->
  exists st,
    result_of (while fuel (ByteCompaction6_cond cw) (ByteCompaction6_body cw)
                 (mkByte6State p count value false out)) = Ret st /\
    s_codeIndex st = p + Z.of_nat (List.length rest) /\
    s_decodedBytes st = out ++ bytes924 (pending ++ rest).
Proof.
  induction rest as [| d rest IH];
    intros pending p count value out fuel
           Hlen Hcount Hvalue Hdata Hat Hcw Hend Hfuel.
  - cbn [List.length Z.of_nat] in *. rewrite Z.add_0_r in *.
    rewrite List.app_nil_r.
    assert (Hnone : bytes924 pending = []).
    { destruct pending as [| a1 [| a2 [| a3 [| a4 [| a5 l]]]]];
        try reflexivity. simpl in Hlen. lia. }
    rewrite Hnone, List.app_nil_r.
    destruct fuel as [| fuel]; [lia |].
    destruct Hend as [Hend | (Hlt & Hrange & Hstop)].
    + exists (mkByte6State p count value false out).
      split; [| split; reflexivity].
      apply while_exit_result. rewrite ByteCompaction6_cond_eq by assumption.
      cbn [result_of snd s_codeIndex s_end]. rewrite <- Hend, Z.ltb_irrefl.
      reflexivity.
    + destruct fuel as [| fuel]; [lia |].
      exists (mkByte6State p count value true out). split; [| split].
      * erewrite while_step_result.
        -- apply while_exit_result.
           rewrite ByteCompaction6_cond_eq by assumption.
           cbn [result_of snd s_codeIndex s_end]. rewrite andb_false_r.
           reflexivity.
        -- rewrite ByteCompaction6_cond_eq by assumption.
           cbn [result_of snd s_codeIndex s_end].
           destruct (Z.ltb_spec p (item cw 0)); [reflexivity | lia].
        -- rewrite (@ByteCompaction6_body_stop cw _ (item cw p));
             [reflexivity | cbn [s_codeIndex]; apply rd_in; lia | assumption
             | cbn [s_count]; lia].
      * reflexivity.
      * reflexivity.
  - apply codewords_at_cons in Hat. destruct Hat as [Hrd Hat].
    inversion Hdata as [| ? ? Hd Hdata']; subst.
    cbn [List.length] in Hend.
    assert (Hlt : p < item cw 0) by (destruct Hend as [? | [? _]]; lia).
    destruct fuel as [| fuel]; [lia |].
    replace (p + Z.of_nat (List.length (d :: rest)))
      with (p + 1 + Z.of_nat (List.length rest))
      by (cbn [List.length]; lia).
    replace (p + Z.of_nat (Datatypes.S (List.length rest)))
      with (p + 1 + Z.of_nat (List.length rest)) in Hend by lia.
    assert (Hstep : forall st',
      result_of (ByteCompaction6_body cw
                   (mkByte6State p (Z.of_nat (List.length pending))
                      (fold_left base900_add pending 0) false out)) = Ret st' ->
      result_of (while (Datatypes.S fuel) (ByteCompaction6_cond cw)
                   (ByteCompaction6_body cw)
                   (mkByte6State p (Z.of_nat (List.length pending))
                      (fold_left base900_add pending 0) false out))
      = result_of (while fuel (ByteCompaction6_cond cw)
                     (ByteCompaction6_body cw) st')).
    { intros st' Hb. apply while_step_result; [| assumption].
      rewrite ByteCompaction6_cond_eq by assumption.
      cbn [result_of snd s_codeIndex s_end].
      destruct (Z.ltb_spec p (item cw 0)); [reflexivity | lia]. }
    assert (Hbody := @ByteCompaction6_body_data cw
              (mkByte6State p (Z.of_nat (List.length pending))
                 (fold_left base900_add pending 0) false out) d Hrd Hd).
    cbn [s_codeIndex s_count s_value s_end s_decodedBytes] in Hbody.
    destruct pending as [| a1 [| a2 [| a3 [| a4 [| a5 l]]]]];
      [| | | | | simpl in Hlen; lia];
      cbn [List.length Z.of_nat Pos.of_succ_nat Pos.succ Z.add Pos.add]
        in Hbody, Hstep |- *;
      match type of Hbody with
      | context [group_full ?c] =>
          let b := eval vm_compute in (group_full c) in
          change (group_full c) with b in Hbody
      end; cbv iota in Hbody;
      erewrite Hstep by (rewrite Hbody; reflexivity).
    + destruct (IH [d] (p + 1) 1 (base900_add 0 d) out fuel)
        as (st & Hw & Hc & Hb);
        [first [assumption | reflexivity | simpl; lia | lia] .. |].
      exists st. auto.
    + destruct (IH [a1; d] (p + 1) 2 (base900_add (base900_add 0 a1) d) out fuel)
        as (st & Hw & Hc & Hb);
        [first [assumption | reflexivity | simpl; lia | lia] .. |].
      exists st. auto.
    + destruct (IH [a1; a2; d] (p + 1) 3
                  (base900_add (base900_add (base900_add 0 a1) a2) d) out fuel)
        as (st & Hw & Hc & Hb);
        [first [assumption | reflexivity | simpl; lia | lia] .. |].
      exists st. auto.
    + destruct (IH [a1; a2; a3; d] (p + 1) 4
                  (base900_add
                     (base900_add (base900_add (base900_add 0 a1) a2) a3) d)
                  out fuel)
        as (st & Hw & Hc & Hb);
        [first [assumption | reflexivity | simpl; lia | lia] .. |].
      exists st. auto.
    + destruct (IH [] (p + 1) 0 0
                  (out ++ sextet (fold_left base900_add [a1; a2; a3; a4; d] 0))
                  fuel)
        as (st & Hw & Hc & Hb);
        [first [assumption | reflexivity | simpl; lia | lia] .. |].
      exists st. split; [exact Hw |]. split; [exact Hc |].
      rewrite Hb. cbn [app bytes924]. rewrite <- app_assoc. reflexivity.
Qed.

Lemma digits900_range (n : Z) :
  Forall (fun d => 0 <= d < 900) (digits900 n).
Proof.
  unfold digits900.
  repeat (apply Forall_cons; [apply Z.mod_pos_bound; lia |]). apply Forall_nil.
Qed.

Lemma digits900_sum (n : Z) :
  0 <= n < 900 ^ 5 ->
  (n / 900 ^ 4 mod 900) * 900 ^ 4 + (n / 900 ^ 3 mod 900) * 900 ^ 3
  + (n / 900 ^ 2 mod 900) * 900 ^ 2 + (n / 900 mod 900) * 900 + n mod 900 = n.
Proof.
  intros Hn.
  change (900 ^ 4) with (900 * 900 * 900 * 900).
  change (900 ^ 3) with (900 * 900 * 900).
  change (900 ^ 2) with (900 * 900).
  change (900 ^ 5) with (900 * 900 * 900 * 900 * 900) in Hn.
  rewrite <- !Z.div_div by lia.
  set (q1 := n / 900). set (q2 := q1 / 900). set (q3 := q2 / 900).
  set (q4 := q3 / 900).
  assert (H1 : 0 <= q1 < 900 * 900 * 900 * 900).
  { subst q1. split; [apply Z.div_pos; lia |].
    apply Z.div_lt_upper_bound; lia. }
  assert (H2 : 0 <= q2 < 900 * 900 * 900).
  { subst q2. split; [apply Z.div_pos; lia |].
    apply Z.div_lt_upper_bound; lia. }
  assert (H3 : 0 <= q3 < 900 * 900).
  { subst q3. split; [apply Z.div_pos; lia |].
    apply Z.div_lt_upper_bound; lia. }
  assert (H4 : 0 <= q4 < 900).
  { subst q4. split; [apply Z.div_pos; lia |].
    apply Z.div_lt_upper_bound; lia. }
  rewrite (Z.mod_small q4) by lia.
  rewrite (Z.mod_eq n 900), (Z.mod_eq q1 900), (Z.mod_eq q2 900),
    (Z.mod_eq q3 900) by lia.
  fold q1 q2 q3 q4. lia.
Qed.

Lemma sextet_bytes256 (n : Z) : sextet n = bytes256 n.
Proof.
  unfold sextet, bytes256, to_byte. cbn [map].
  rewrite !Z.shiftr_div_pow2 by lia.
  change (8 * (5 - 0)) with 40. change (8 * (5 - 1)) with 32.
  change (8 * (5 - 2)) with 24. change (8 * (5 - 3)) with 16.
  change (8 * (5 - 4)) with 8. change (8 * (5 - 5)) with 0.
  change (2 ^ 40) with (256 ^ 5). change (2 ^ 32) with (256 ^ 4).
  change (2 ^ 24) with (256 ^ 3). change (2 ^ 16) with (256 ^ 2).
  change (2 ^ 8) with 256. change (2 ^ 0) with 1. rewrite Z.div_1_r.
  reflexivity.
Qed.

Lemma digits900_value (n : Z) :
  0 <= n < 900 ^ 5 -> fold_left base900_add (digits900 n) 0 = n.
Proof.
  intros Hn. unfold digits900. rewrite base900_group.
  - apply digits900_sum. assumption.
  - apply digits900_range.
Qed.

Lemma ByteCompaction_924_run (cw ds : list Z) (ci : Z) :
  Forall (fun c => c < 900) ds ->
  codewords_at cw ci ds ->
  (0 < List.length cw)%nat ->
  run_ends cw (ci + Z.of_nat (List.length ds)) ->
  result_of (ByteCompaction_bytes BYTE_COMPACTION_MODE_LATCH_6 cw ci)
  = Ret (ci + Z.of_nat (List.length ds), bytes924 ds).
Proof.
  intros Hdata Hat Hcw Hend. unfold ByteCompaction_bytes.
  change (BYTE_COMPACTION_MODE_LATCH_6 =? BYTE_COMPACTION_MODE_LATCH)
    with false.
  rewrite Z.eqb_refl. cbv iota. unfold ByteCompaction_924.
  destruct (@byte924_loop cw ds [] ci 0 0 [] (fuel_from cw ci))
    as (st & Hw & Hc & Hb);
    [first [assumption | reflexivity | simpl; lia | unfold fuel_from; lia] .. |].
  rewrite result_bind, Hw. cbn [result_of snd ret]. rewrite Hc, Hb.
  reflexivity.
Qed.

Section ByteCompaction6Run.

Variable CharacterSet : Type.
Variable toUnicode : list Z -> CharacterSet -> String.

(** Under the latch 924, a run of data codewords that ends at the
    declared count or at a codeword that ends Byte Compaction is consumed
    whole; every five codewords give the six bytes of their base 900
    value, and the codewords left over at the end of the run, fewer than
    five, give no byte at all. *)
Theorem byte_compaction_924_run (cw ds : list Z) (ci : Z)
    (enc : CharacterSet) (result : String) :
  Forall (fun c => c < 900) ds ->
  codewords_at cw ci ds ->
  (0 < List.length cw)%nat ->
  run_ends cw (ci + Z.of_nat (List.length ds)) ->
  result_of (ByteCompaction toUnicode BYTE_COMPACTION_MODE_LATCH_6 cw enc ci
               result)
  = Ret (ci + Z.of_nat (List.length ds),
         result ++ toUnicode (bytes924 ds) enc) /\
  (forall c1 c2 c3 c4 c5 rest,
     bytes924 (c1 :: c2 :: c3 :: c4 :: c5 :: rest)
     = sextet (fold_left base900_add [c1; c2; c3; c4; c5] 0)
       ++ bytes924 rest) /\
  (forall tl, (List.length tl < 5)%nat -> bytes924 tl = []).
Proof.
  intros Hdata Hat Hcw Hend. split; [| split].
  - unfold ByteCompaction.
    rewrite result_bind, (@ByteCompaction_924_run cw ds) by assumption.
    reflexivity.
  - reflexivity.
  - intros tl H.
    destruct tl as [| a1 [| a2 [| a3 [| a4 [| a5 l]]]]]; try reflexivity.
    simpl in H. lia.
Qed.

(** Six bytes come back from the five base 900 digits of their value:
    for a number below [2 ^ 48], Byte Compaction under the latch 924 on
    the five digits gives the six base 256 digits of the number, the most
    significant first. *)
Theorem byte_compaction_round_trip (cw : list Z) (n ci : Z)
    (enc : CharacterSet) (result : String) :
  0 <= n < 2 ^ 48 ->
  codewords_at cw ci (digits900 n) ->
  (0 < List.length cw)%nat ->
  run_ends cw (ci + 5) ->
  result_of (ByteCompaction toUnicode BYTE_COMPACTION_MODE_LATCH_6 cw enc ci
               result)
  = Ret (ci + 5, result ++ toUnicode (bytes256 n) enc) /\
  Forall (fun d => 0 <= d < 900) (digits900 n) /\
  Forall (fun b => 0 <= b < 256) (bytes256 n).
Proof.
  intros Hn Hat Hcw Hend. split; [| split].
  - unfold ByteCompaction.
    rewrite result_bind, (@ByteCompaction_924_run cw (digits900 n));
      try assumption.
    + cbn [result_of snd ret List.length digits900 Z.of_nat].
      unfold digits900 at 1. cbn [bytes924]. rewrite List.app_nil_r.
      fold (digits900 n). rewrite digits900_value, sextet_bytes256.
      * reflexivity.
      * change (900 ^ 5) with 590490000000000.
        change (2 ^ 48) with 281474976710656 in Hn. lia.
    + eapply Forall_impl; [| apply digits900_range]. cbv beta. intros; lia.
  - apply digits900_range.
  - unfold bytes256.
    repeat (apply Forall_cons; [apply Z.mod_pos_bound; lia |]).
    apply Forall_nil.
Qed.

End ByteCompaction6Run.

Lemma byte_compaction_924_run_witness :
  result_of (ByteCompaction Sample.toUnicode BYTE_COMPACTION_MODE_LATCH_6
               [10; 924; 1; 2; 3; 4; 5; 6; 7; 900; 1; 0] Sample.ISO8859_1 2 [])
  = Ret (2 + 7, [] ++ Sample.toUnicode (bytes924 [1; 2; 3; 4; 5; 6; 7])
                        Sample.ISO8859_1).
Proof.
  apply (proj1 (byte_compaction_924_run Sample.toUnicode
                  (cw := [10; 924; 1; 2; 3; 4; 5; 6; 7; 900; 1; 0])
                  (ds := [1; 2; 3; 4; 5; 6; 7]) (ci := 2) Sample.ISO8859_1 []
                  ltac:(repeat constructor; lia)
                  ltac:(split; [lia | reflexivity])
                  ltac:(simpl; lia)
                  ltac:(right; split; [| split];
                        [vm_compute; reflexivity | simpl; lia | reflexivity]))).
Defined.

Lemma byte_compaction_round_trip_witness :
  result_of (ByteCompaction Sample.toUnicode BYTE_COMPACTION_MODE_LATCH_6
               (7 :: 924 :: digits900 (2 ^ 47 + 5) ++ [0]) Sample.ISO8859_1 2
               [])
  = Ret (2 + 5, [] ++ Sample.toUnicode (bytes256 (2 ^ 47 + 5))
                        Sample.ISO8859_1).
Proof.
  apply (proj1 (byte_compaction_round_trip Sample.toUnicode
                  (cw := 7 :: 924 :: digits900 (2 ^ 47 + 5) ++ [0])
                  (n := 2 ^ 47 + 5) (ci := 2) Sample.ISO8859_1 []
                  ltac:(vm_compute; split; [discriminate | reflexivity])
                  ltac:(split; [lia | reflexivity])
                  ltac:(simpl; lia)
                  ltac:(left; reflexivity))).
Defined.

(** ** Numeric Compaction: digits and groups *)

Lemma chars_cons (a : ascii) (s : string) :
  chars (String.String a s) = Z.of_N (N_of_ascii a) :: chars s.
Proof. reflexivity. Qed.

Lemma string_of_uint_digits (u : Decimal.uint) :
  Forall ascii_digit (chars (NilEmpty.string_of_uint u)).
Proof.
  induction u; cbn [NilEmpty.string_of_uint]; try rewrite chars_cons;
    constructor; try assumption; unfold ascii_digit; cbn; lia.
Qed.

(** In the decimal string of a number every character after the first is
    a digit. *)
Lemma toString_tail_digits (n : Z) (c : ascii) (rest : string) :
  toString n = String.String c rest -> Forall ascii_digit (chars rest).
Proof.
  unfold toString, NilZero.string_of_int. intros H.
  assert (Hu : forall u, u <> Decimal.Nil ->
            forall c' rest', NilZero.string_of_uint u = String.String c' rest' ->
            Forall ascii_digit (chars rest')).
  { intros u Hne c' rest' Hs.
    assert (Hall := string_of_uint_digits u).
    destruct u; try contradiction; cbn in Hs; injection Hs as _ <-;
      cbn [NilEmpty.string_of_uint] in Hall; rewrite chars_cons in Hall;
      inversion Hall; assumption. }
  destruct n as [| p | p]; cbn [Z.to_int] in H.
  - injection H as _ <-. constructor.
  - eapply Hu; [| exact H]. apply Unsigned.to_uint_nonnil.
  - injection H as _ <-.
    assert (Hne := Unsigned.to_uint_nonnil p).
    unfold NilZero.string_of_uint.
    destruct (Pos.to_uint p) eqn:E; try contradiction;
      rewrite <- E; apply string_of_uint_digits.
Qed.

Lemma DecodeBase900toBase10_digits (codewords : vec) (count : Z)
    (tmp : string) :
  result_of (DecodeBase900toBase10 codewords count) = Ret (NoError, tmp) ->
  Forall ascii_digit (chars tmp).
Proof.
  unfold DecodeBase900toBase10. rewrite result_bind.
  destruct (result_of (for_range (Z.to_nat count) 0
                         (base900_step codewords count) 0)) as [n |];
    [| discriminate].
  destruct (toString n) as [| c rest] eqn:E; [discriminate |].
  destruct (Ascii.eqb c "1"); [| discriminate].
  intros [= <-]. eapply toString_tail_digits. exact E.
Qed.

Lemma NumericCompaction_flush_digits (result : String) (s s' : NumericState) :
  result_of (NumericCompaction_flush s) = Ret s' ->
  (exists suffix, n_result s = result ++ suffix /\ Forall ascii_digit suffix) ->
  exists suffix, n_result s' = result ++ suffix /\ Forall ascii_digit suffix.
Proof.
  unfold NumericCompaction_flush. intros H (suffix & Hr & Hd).
  destruct (n_count s >? 0); [| injection H as <-; eauto].
  rewrite result_bind in H.
  destruct (result_of (DecodeBase900toBase10 (numericCodewords s) (n_count s)))
    as [[st tmp] |] eqn:E; [| discriminate H].
  destruct st; cbn [StatusIsError result_of snd ret] in H; injection H as <-;
    cbn [n_result]; [| eauto].
  exists (suffix ++ chars tmp). unfold appendUtf8_str.
  rewrite Hr, app_assoc. split; [reflexivity |].
  apply Forall_app. split; [assumption |].
  eapply DecodeBase900toBase10_digits. exact E.
Qed.

Lemma NumericCompaction_body_digits (cw : list Z) (result : String)
    (s s' : NumericState) :
  result_of (NumericCompaction_body cw s) = Ret s' ->
  (exists suffix, n_result s = result ++ suffix /\ Forall ascii_digit suffix) ->
  exists suffix, n_result s' = result ++ suffix /\ Forall ascii_digit suffix.
Proof.
  intros H Hinv. unfold NumericCompaction_body in H.
  rewrite result_bind in H.
  destruct (result_of (rd cw (n_codeIndex s))) as [c |]; [| discriminate H].
  rewrite result_bind in H.
  destruct (result_of (rd cw 0)) as [c0 |]; [| discriminate H].
  rewrite result_bind in H.
  match type of H with
  | match result_of ?m with _ => _ end = _ =>
      destruct (result_of m) as [s1 |] eqn:E1; [| discriminate H]
  end.
  assert (H1 : n_result s1 = n_result s).
  { take_apart E1; injection E1 as <-; reflexivity. }
  rewrite <- H1 in Hinv.
  destruct ((Z.rem (n_count s1) MAX_NUMERIC_CODEWORDS =? 0)
            || (c =? NUMERIC_COMPACTION_MODE_LATCH) || n_end s1).
  - eapply NumericCompaction_flush_digits; eassumption.
  - cbn [result_of snd ret] in H. injection H as <-. assumption.
Qed.

(** Numeric Compaction appends decimal digits only: whatever the
    codewords are, the text that [NumericCompaction] hands back, with or
    without an error, is the text it was given followed by ASCII digits. *)
Theorem numeric_compaction_digits_only (cw : list Z) (ci : Z)
    (result : String) (next : Z) (s : ErrorStatus) (r : String) (ci' : Z) :
  result_of (NumericCompaction cw ci result next) = Ret (s, r, ci') ->
  exists suffix, r = result ++ suffix /\ Forall ascii_digit suffix.
Proof.
  unfold NumericCompaction. intros H. rewrite result_bind in H.
  destruct (result_of (vnew MAX_NUMERIC_CODEWORDS)) as [nc |];
    [| discriminate H].
  rewrite result_bind in H.
  destruct (result_of (while (fuel_from cw ci) (NumericCompaction_cond cw)
              (NumericCompaction_body cw)
              (mkNumericState ci 0 false nc result NoError)))
    as [st |] eqn:Ew; [| discriminate H].
  apply (@while_inv _ _ _
           (fun st => exists suffix,
              n_result st = result ++ suffix /\ Forall ascii_digit suffix))
    in Ew.
  - destruct Ew as [Hinv _].
    cbn [result_of snd ret] in H. unfold NumericCompaction_return in H.
    destruct (StatusIsError (n_status st)); injection H as _ <- _;
      assumption.
  - intros s0 s1 Hinv _ Hb. eapply NumericCompaction_body_digits; eassumption.
  - exists []. cbn [n_result]. rewrite List.app_nil_r. split; constructor.
Qed.

Lemma numeric_compaction_digits_only_witness :
  exists suffix,
    chars "000213298174000" = [] ++ suffix /\ Forall ascii_digit suffix.
Proof.
  apply (@numeric_compaction_digits_only
           [8; 902; 1; 624; 434; 632; 282; 200; 0] 2 [] 2 NoError
           (chars "000213298174000") 8).
  vm_compute. reflexivity.
Defined.

Lemma toString_sentinel (u : Decimal.uint) :
  toString (Z.of_uint (Decimal.D1 u))
  = String.String "1" (NilEmpty.string_of_uint u).
Proof.
  unfold toString.
  change (Z.of_uint (Decimal.D1 u)) with (Z.of_int (Decimal.Pos (Decimal.D1 u))).
  rewrite DecimalZ.to_of. reflexivity.
Qed.

(** A string of decimal digits, leading zeros included, comes back from
    codewords whose base 900 value is the number written as [1] followed
    by the string: for a run of 1 to 15 such codewords [NumericCompaction]
    appends exactly the string. *)
Theorem numeric_compaction_round_trip (cw digits : list Z) (ci : Z)
    (result : String) (next : Z) (u : Decimal.uint) :
  digits <> [] -> (List.length digits <= 15)%nat ->
  Forall (fun c => c < 900) digits ->
  codewords_at cw ci digits ->
  numeric_run_ends cw (ci + Z.of_nat (List.length digits)) ->
  sum900 digits = Z.of_uint (Decimal.D1 u) ->
  result_of (NumericCompaction cw ci result next)
  = Ret (NoError, result ++ chars (NilEmpty.string_of_uint u),
         ci + Z.of_nat (List.length digits)).
Proof.
  intros Hne H15 Hdata Hat Hend Hsum.
  destruct digits as [| d rest]; [contradiction |].
  assert (Hat' := Hat). apply codewords_at_cons in Hat'.
  destruct Hat' as [Hrd _].
  assert (Hcw : (0 < List.length cw)%nat).
  { apply (f_equal result_of) in Hrd. apply rd_Ret in Hrd. lia. }
  unfold NumericCompaction. unfold vnew, MAX_NUMERIC_CODEWORDS.
  cbn [Z.ltb Z.compare]. rewrite bind_ret.
  rewrite (@numeric_loop cw rest [] d ci (repeat 0 (Z.to_nat 15)) result next).
  - cbn [app]. rewrite Hsum, toString_sentinel. cbn [strip_sentinel].
    rewrite Ascii.eqb_refl. unfold appendUtf8_str.
    replace (ci + 1 + Z.of_nat (List.length rest))
      with (ci + Z.of_nat (List.length (d :: rest)))
      by (cbn [List.length]; lia).
    reflexivity.
  - cbn [List.length] in *. lia.
  - apply repeat_length.
  - reflexivity.
  - assumption.
  - assumption.
  - assumption.
  - replace (ci + 1 + Z.of_nat (List.length rest))
      with (ci + Z.of_nat (List.length (d :: rest)))
      by (cbn [List.length]; lia).
    assumption.
  - unfold fuel_from. lia.
Qed.

Lemma numeric_compaction_round_trip_witness :
  result_of (NumericCompaction [8; 902; 1; 624; 434; 632; 282; 200; 0] 2 [] 2)
  = Ret (NoError, [] ++ chars "000213298174000", 2 + 6).
Proof.
  apply (@numeric_compaction_round_trip
           [8; 902; 1; 624; 434; 632; 282; 200; 0]
           [1; 624; 434; 632; 282; 200] 2 [] 2
           (Decimal.D0 (Decimal.D0 (Decimal.D0 (Decimal.D2 (Decimal.D1
            (Decimal.D3 (Decimal.D2 (Decimal.D9 (Decimal.D8 (Decimal.D1
            (Decimal.D7 (Decimal.D4 (Decimal.D0 (Decimal.D0 (Decimal.D0
             Decimal.Nil)))))))))))))))
           ltac:(discriminate) ltac:(simpl; lia)
           ltac:(repeat constructor; lia)
           ltac:(split; [lia | reflexivity])
           ltac:(left; reflexivity)
           ltac:(vm_compute; reflexivity)).
Defined.

(** The loop body on the Numeric latch 902: the cursor moves on and the
    group collected so far is closed. *)
Lemma NumericCompaction_body_latch (cw : list Z) (st : NumericState) :
  rd cw (n_codeIndex st)
  = ([n_codeIndex st], Ret NUMERIC_COMPACTION_MODE_LATCH) ->
  (0 < List.length cw)%nat ->
  result_of (NumericCompaction_body cw st) =
  result_of
    (NumericCompaction_flush
       (mkNumericState (n_codeIndex st + 1) (n_count st)
          (if n_codeIndex st + 1 =? item cw 0 then true else n_end st)
          (numericCodewords st) (n_result st) (n_status st))).
Proof.
  intros Hrd Hcw. unfold NumericCompaction_body.
  rewrite result_bind, Hrd. cbn [result_of snd].
  rewrite result_bind, rd_in by lia. cbn [result_of snd].
  change (NUMERIC_COMPACTION_MODE_LATCH <? TEXT_COMPACTION_MODE_LATCH)
    with false.
  change (numeric_stop NUMERIC_COMPACTION_MODE_LATCH) with false.
  cbv iota. rewrite bind_ret. rewrite Z.eqb_refl, orb_true_r. reflexivity.
Qed.

(** The loop of [NumericCompaction] while it collects data codewords of a
    group that stays below 15 codewords, before the declared count. *)
Lemma numeric_collect (cw : list Z) (rest : list Z) :
  forall (pending : list Z) (p : Z) (nc : vec) (r : String),
  (List.length pending + List.length rest <= 14)%nat ->
  List.length nc = 15%nat ->
  firstn (List.length pending) nc = pending ->
  Forall (fun c => c < 900) rest ->
  codewords_at cw p rest ->
  (0 < List.length cw)%nat ->
  p + Z.of_nat (List.length rest) < item cw 0 ->
  exists nc' : vec,
    List.length nc' = 15%nat /\
    firstn (List.length pending + List.length rest) nc' = pending ++ rest /\
    forall fuel : nat,
    result_of (while (List.length rest + fuel) (NumericCompaction_cond cw)
                 (NumericCompaction_body cw)
                 (mkNumericState p (Z.of_nat (List.length pending)) false nc
                    r NoError))
    = result_of (while fuel (NumericCompaction_cond cw)
                   (NumericCompaction_body cw)
                   (mkNumericState (p + Z.of_nat (List.length rest))
                      (Z.of_nat (List.length pending + List.length rest))
                      false nc' r NoError)).
Proof.
  induction rest as [| d rest IH];
    intros pending p nc r H14 Hsize Hfirst Hdata Hat Hcw Hlt.
  - exists nc. cbn [List.length Z.of_nat Nat.add].
    rewrite Nat.add_0_r, Z.add_0_r, List.app_nil_r. auto.
  - apply codewords_at_cons in Hat. destruct Hat as [Hrd Hat].
    inversion Hdata as [| ? ? Hd Hdata']; subst.
    cbn [List.length] in H14, Hlt.
    set (nc1 := upd nc (Z.to_nat (Z.of_nat (List.length pending))) d).
    destruct (IH (pending ++ [d]) (p + 1) nc1 r)
      as (nc' & Hl & Hf & Hw).
    + rewrite length_app. cbn [List.length]. lia.
    + subst nc1. rewrite upd_length. assumption.
    + subst nc1. rewrite length_app. cbn [List.length]. rewrite Nat2Z.id.
      replace (List.length pending + 1)%nat
        with (Datatypes.S (List.length pending)) by lia.
      rewrite firstn_upd_snoc by lia. rewrite Hfirst. reflexivity.
    + assumption.
    + assumption.
    + assumption.
    + lia.
    + exists nc'. split; [assumption |].
      rewrite length_app in Hf, Hw. cbn [List.length] in Hf, Hw |- *.
      replace (List.length pending + Datatypes.S (List.length rest))%nat
        with (List.length pending + 1 + List.length rest)%nat by lia.
      split; [rewrite Hf, <- app_assoc; reflexivity |].
      intros fuel. specialize (Hw fuel).
      replace (p + Z.of_nat (Datatypes.S (List.length rest)))
        with (p + 1 + Z.of_nat (List.length rest)) by lia.
      rewrite <- Hw. cbn [Nat.add].
      apply while_step_result.
      * rewrite NumericCompaction_cond_ok by (assumption || reflexivity).
        cbn [n_codeIndex n_end].
        destruct (Z.ltb_spec p (item cw 0)); [reflexivity | lia].
      * rewrite (@NumericCompaction_body_data cw _ d); try assumption;
          [| cbn [n_count numericCodewords]; lia].
        cbv zeta.
        cbn [n_count n_end n_codeIndex numericCodewords n_result n_status].
        unfold MAX_NUMERIC_CODEWORDS. rewrite rem_15 by lia.
        destruct (Z.eqb_spec (Z.of_nat (List.length pending) + 1) 15); [lia |].
        destruct (Z.eqb_spec (p + 1) (item cw 0)); [lia |].
        cbn [orb result_of snd ret]. fold nc1.
        replace (Z.of_nat (List.length pending + 1))
          with (Z.of_nat (List.length pending) + 1) by lia.
        reflexivity.
Qed.

(** The fifteenth codeword of a group, before the last codeword of the
    stream: the group is closed at once. *)
Lemma numeric_full_step (cw : list Z) (pending : list Z) (d p : Z) (nc : vec)
    (r : String) :
  List.length pending = 14%nat ->
  List.length nc = 15%nat ->
  firstn 14 nc = pending ->
  rd cw p = ([p], Ret d) -> d < 900 ->
  (0 < List.length cw)%nat ->
  p + 1 < item cw 0 ->
  exists nc' : vec,
    List.length nc' = 15%nat /\
    result_of (NumericCompaction_body cw
                 (mkNumericState p 14 false nc r NoError))
    = Ret (match numeric_text (pending ++ [d]) with
           | Some t =>
               mkNumericState (p + 1) 0 false nc' (appendUtf8_str r t) NoError
           | None => mkNumericState (p + 1) 15 false nc' r FormatError
           end).
Proof.
  intros Hp Hsize Hfirst Hrd Hd Hcw Hlt.
  exists (upd nc 14 d). split; [rewrite upd_length; assumption |].
  rewrite (@NumericCompaction_body_data cw _ d); try assumption;
    [| cbn [n_count numericCodewords]; lia].
  cbv zeta. cbn [n_count n_end n_codeIndex numericCodewords n_result n_status].
  change (Z.rem (14 + 1) MAX_NUMERIC_CODEWORDS =? 0) with true.
  cbn [orb]. destruct (Z.eqb_spec (p + 1) (item cw 0)); [lia |].
  change (Z.to_nat 14) with 14%nat.
  rewrite (@NumericCompaction_flush_group _ (pending ++ [d])).
  - unfold numeric_text.
    destruct (strip_sentinel (toString (sum900 (pending ++ [d]))));
      reflexivity.
  - destruct pending; discriminate.
  - rewrite length_app. cbn [List.length]. lia.
  - cbn [numericCodewords]. rewrite upd_length, length_app.
    cbn [List.length]. lia.
  - cbn [n_count]. rewrite length_app. cbn [List.length]. lia.
  - cbn [numericCodewords]. rewrite length_app, Hp.
    change (14 + List.length [d])%nat with 15%nat.
    rewrite firstn_upd_snoc by lia. rewrite Hfirst. reflexivity.
Qed.

(** A group of fifteen codewords that is followed by more codewords of
    the stream: the loop goes on after it with an empty group, or the
    call returns an error. *)
Lemma numeric_group_full (cw : list Z) (g : list Z) (p : Z) (nc : vec)
    (r : String) :
  List.length g = 15%nat ->
  List.length nc = 15%nat ->
  Forall (fun c => c < 900) g ->
  codewords_at cw p g ->
  (0 < List.length cw)%nat ->
  p + 15 < item cw 0 ->
  exists nc' : vec,
    List.length nc' = 15%nat /\
    forall (fuel : nat) (next : Z),
    result_of
      (s <- while (15 + Datatypes.S fuel) (NumericCompaction_cond cw)
              (NumericCompaction_body cw)
              (mkNumericState p 0 false nc r NoError) ;;
       ret (NumericCompaction_return s next))
    = match numeric_text g with
      | Some t =>
          result_of
            (s <- while (Datatypes.S fuel) (NumericCompaction_cond cw)
                    (NumericCompaction_body cw)
                    (mkNumericState (p + 15) 0 false nc'
                       (appendUtf8_str r t) NoError) ;;
             ret (NumericCompaction_return s next))
      | None => Ret (FormatError, r, next)
      end.
Proof.
  intros Hlen Hsize Hdata Hat Hcw Hlt.
  assert (Hsplit : g = firstn 14 g ++ [nth 14 g 0]).
  { do 15 (destruct g as [| ? g]; [discriminate Hlen |]).
    destruct g; [reflexivity | discriminate Hlen]. }
  set (g14 := firstn 14 g) in *. set (d := nth 14 g 0) in *.
  assert (H14 : List.length g14 = 14%nat)
    by (subst g14; rewrite length_firstn; lia).
  rewrite Hsplit in Hdata, Hat. apply Forall_app in Hdata.
  destruct Hdata as [Hdata Hd]. inversion Hd as [| ? ? Hd' _]; subst x l.
  assert (Hat14 : codewords_at cw p g14).
  { destruct Hat as [H0 Hat]. split; [assumption |].
    rewrite length_app in Hat. apply (f_equal (firstn (List.length g14))) in Hat.
    rewrite firstn_firstn in Hat.
    replace (Nat.min (List.length g14) (List.length g14 + List.length [d]))
      with (List.length g14) in Hat by lia.
    rewrite Hat, firstn_app, firstn_all, Nat.sub_diag. cbn [firstn].
    apply List.app_nil_r. }
  assert (Hrd : rd cw (p + 14) = ([p + 14], Ret d)).
  { destruct Hat as [H0 Hat]. rewrite length_app, H14 in Hat.
    cbn [List.length Nat.add] in Hat.
    assert (Hn : nth 14 (firstn 15 (skipn (Z.to_nat p) cw)) 0 = d).
    { rewrite Hat. rewrite app_nth2 by lia. rewrite H14. reflexivity. }
    assert (Hl : (15 <= List.length (skipn (Z.to_nat p) cw))%nat).
    { apply (f_equal (@List.length Z)) in Hat.
      rewrite length_firstn, length_app, H14 in Hat. cbn [List.length] in Hat.
      lia. }
    rewrite length_skipn in Hl.
    rewrite rd_in by lia. f_equal. f_equal. rewrite <- Hn. unfold item.
    rewrite nth_firstn. cbn [Nat.ltb Nat.leb].
    rewrite nth_skipn. f_equal. lia. }
  destruct (@numeric_collect cw g14 [] p nc r)
    as (nc1 & Hl1 & Hf1 & Hw); try assumption; try reflexivity;
    [cbn [List.length]; lia | lia |].
  destruct (@numeric_full_step cw g14 d (p + 14) nc1 r)
    as (nc' & Hl' & Hbody); try assumption; [| lia |].
  { cbn [app List.length Nat.add] in Hf1. rewrite H14 in Hf1. exact Hf1. }
  exists nc'. split; [assumption |]. intros fuel next.
  specialize (Hw (Datatypes.S (Datatypes.S fuel))).
  rewrite H14 in Hw. cbn [List.length Nat.add Z.of_nat] in Hw.
  change (Z.of_nat 14) with 14 in Hw.
  rewrite result_bind.
  cbn [Nat.add]. rewrite Hw. rewrite <- result_bind.
  erewrite numeric_step; try assumption; try reflexivity;
    [| cbn [n_codeIndex]; lia | exact Hbody].
  replace (p + 14 + 1) with (p + 15) by lia.
  unfold numeric_text in *. rewrite <- Hsplit.
  destruct (strip_sentinel (toString (sum900 g))); [reflexivity |].
  rewrite numeric_closed by (first [assumption | left; reflexivity]).
  reflexivity.
Qed.

Lemma codewords_at_split (cw : list Z) (p : Z) (a b : list Z) :
  codewords_at cw p (a ++ b) ->
  codewords_at cw p a /\ codewords_at cw (p + Z.of_nat (List.length a)) b.
Proof.
  intros [H0 H]. rewrite length_app in H. split; (split; [lia |]).
  - apply (f_equal (firstn (List.length a))) in H.
    rewrite firstn_firstn in H.
    replace (Nat.min (List.length a) (List.length a + List.length b))
      with (List.length a) in H by lia.
    rewrite H, firstn_app, firstn_all, Nat.sub_diag. cbn [firstn].
    apply List.app_nil_r.
  - apply (f_equal (skipn (List.length a))) in H.
    rewrite skipn_app, skipn_all, Nat.sub_diag in H. cbn [skipn app] in H.
    rewrite skipn_firstn_comm, skipn_skipn in H.
    replace (List.length a + List.length b - List.length a)%nat
      with (List.length b) in H by lia.
    replace (Z.to_nat (p + Z.of_nat (List.length a)))
      with (List.length a + Z.to_nat p)%nat by lia.
    exact H.
Qed.

(** A group that is followed by the Numeric latch 902 and by more
    codewords of the stream: the loop goes on after the latch with an empty
    group, or the call returns an error. *)
Lemma numeric_group_latched (cw : list Z) (g : list Z) (p : Z) (nc : vec)
    (r : String) :
  g <> [] -> (List.length g <= 15)%nat ->
  List.length nc = 15%nat ->
  Forall (fun c => c < 900) g ->
  codewords_at cw p (g ++ [NUMERIC_COMPACTION_MODE_LATCH]) ->
  (0 < List.length cw)%nat ->
  p + Z.of_nat (List.length g) + 1 < item cw 0 ->
  exists nc' : vec,
    List.length nc' = 15%nat /\
    forall (fuel : nat) (next : Z),
    result_of
      (s <- while (List.length g + 1 + Datatypes.S fuel)
              (NumericCompaction_cond cw) (NumericCompaction_body cw)
              (mkNumericState p 0 false nc r NoError) ;;
       ret (NumericCompaction_return s next))
    = match numeric_text g with
      | Some t =>
          result_of
            (s <- while (Datatypes.S fuel) (NumericCompaction_cond cw)
                    (NumericCompaction_body cw)
                    (mkNumericState (p + Z.of_nat (List.length g) + 1) 0 false
                       nc' (appendUtf8_str r t) NoError) ;;
             ret (NumericCompaction_return s next))
      | None => Ret (FormatError, r, next)
      end.
Proof.
  intros Hne H15 Hsize Hdata Hat Hcw Hlt.
  apply codewords_at_split in Hat. destruct Hat as [Hat Hlatch].
  apply codewords_at_cons in Hlatch. destruct Hlatch as [Hrd _].
  set (q := p + Z.of_nat (List.length g)) in *.
  assert (Hflag : (q + 1 =? item cw 0) = false) by (apply Z.eqb_neq; lia).
  destruct (Nat.eq_dec (List.length g) 15) as [E15 | N15].
  - destruct (@numeric_group_full cw g p nc r) as (nc' & Hl' & Hfull);
      try assumption; [lia |].
    exists nc'. split; [assumption |]. intros fuel next.
    rewrite E15. change (15 + 1 + Datatypes.S fuel)%nat
      with (15 + Datatypes.S (Datatypes.S fuel))%nat.
    rewrite Hfull. destruct (numeric_text g) as [t |]; [| reflexivity].
    replace (p + 15) with q by lia.
    apply numeric_step; try assumption; try reflexivity;
      [cbn [n_codeIndex]; lia |].
    rewrite NumericCompaction_body_latch by assumption.
    cbn [n_codeIndex n_count n_end numericCodewords n_result n_status].
    rewrite Hflag. rewrite NumericCompaction_flush_none by reflexivity.
    reflexivity.
  - destruct (@numeric_collect cw g [] p nc r)
      as (nc' & Hl' & Hf & Hw); try assumption; try reflexivity;
      [cbn [List.length]; lia | lia |].
    cbn [app List.length Nat.add] in Hf, Hw. fold q in Hw.
    exists nc'. split; [assumption |]. intros fuel next.
    rewrite result_bind.
    replace (List.length g + 1 + Datatypes.S fuel)%nat
      with (List.length g + Datatypes.S (Datatypes.S fuel))%nat by lia.
    rewrite Hw. rewrite <- result_bind.
    assert (Hbody :
      result_of (NumericCompaction_body cw
                   (mkNumericState q (Z.of_nat (List.length g)) false nc' r
                      NoError))
      = Ret (match numeric_text g with
             | Some t =>
                 mkNumericState (q + 1) 0 false nc' (appendUtf8_str r t)
                   NoError
             | None =>
                 mkNumericState (q + 1) (Z.of_nat (List.length g)) false nc'
                   r FormatError
             end)).
    { rewrite NumericCompaction_body_latch by assumption.
      cbn [n_codeIndex n_count n_end numericCodewords n_result n_status].
      rewrite Hflag.
      rewrite (@NumericCompaction_flush_group _ g);
        [| first [assumption | reflexivity | cbn [numericCodewords]; lia] ..].
      unfold numeric_text.
      destruct (strip_sentinel (toString (sum900 g))); reflexivity. }
    erewrite numeric_step; try assumption; try reflexivity;
      [| cbn [n_codeIndex]; lia | exact Hbody].
    destruct (numeric_text g); [reflexivity |].
    rewrite numeric_closed by (first [assumption | left; reflexivity]).
    reflexivity.
Qed.

Lemma join_latched_cons (g g' : list Z) (gs : list (list Z)) :
  join_latched (g :: g' :: gs)
  = (g ++ [NUMERIC_COMPACTION_MODE_LATCH]) ++ join_latched (g' :: gs).
Proof. cbn [join_latched]. rewrite <- app_assoc. reflexivity. Qed.

Lemma join_latched_nonempty (g : list Z) (gs : list (list Z)) :
  g <> [] -> (0 < List.length (join_latched (g :: gs)))%nat.
Proof.
  intros H. destruct gs; cbn [join_latched].
  - destruct g; [contradiction | simpl; lia].
  - rewrite length_app. destruct g; [contradiction | simpl; lia].
Qed.

Lemma numeric_run_within (cw : list Z) (q : Z) :
  numeric_run_ends cw q -> q <= item cw 0.
Proof. intros [H | [H _]]; lia. Qed.

(** The loop of [NumericCompaction] on groups with the latch 902 between
    them. *)
Lemma numeric_groups_latched_loop (cw : list Z) (gs : list (list Z)) :
  forall (p : Z) (nc : vec) (r : String) (fuel : nat) (next : Z),
  gs <> [] ->
  Forall (fun g => g <> [] /\ (List.length g <= 15)%nat
                   /\ Forall (fun c => c < 900) g) gs ->
  List.length nc = 15%nat ->
  codewords_at cw p (join_latched gs) ->
  (0 < List.length cw)%nat ->
  numeric_run_ends cw (p + Z.of_nat (List.length (join_latched gs))) ->
  (Z.to_nat (item cw 0 - p) < fuel)%nat ->
  result_of
    (s <- while fuel (NumericCompaction_cond cw) (NumericCompaction_body cw)
            (mkNumericState p 0 false nc r NoError) ;;
     ret (NumericCompaction_return s next))
  = Ret (groups_return gs r next
           (p + Z.of_nat (List.length (join_latched gs)))).
Proof.
  induction gs as [| g gs IH]; intros p nc r fuel next Hne Hgs Hsize Hat Hcw
    Hend Hfuel; [contradiction |].
  inversion Hgs as [| ? ? (Hg & H15 & Hdata) Hgs']; subst.
  destruct gs as [| g' gs].
  - cbn [join_latched] in *.
    destruct g as [| d rest]; [contradiction |].
    assert (Hq : p + 1 + Z.of_nat (List.length rest)
                 = p + Z.of_nat (List.length (d :: rest)))
      by (cbn [List.length]; lia).
    assert (Hloop := @numeric_loop cw rest [] d p nc r next fuel).
    cbn [List.length Z.of_nat app Nat.add] in Hloop.
    rewrite Hloop; try assumption; try reflexivity.
    + unfold groups_return, groups_text, numeric_text. rewrite Hq.
      destruct (strip_sentinel (toString (sum900 (d :: rest)))); reflexivity.
    + rewrite Hq. assumption.
  - rewrite join_latched_cons in *.
    assert (Hg' : g' <> []) by (inversion Hgs' as [| ? ? (H & _) _]; exact H).
    assert (Hpos := @join_latched_nonempty g' gs Hg').
    assert (Hle := numeric_run_within Hend).
    rewrite !length_app in Hle, Hend. cbn [List.length] in Hle, Hend.
    apply codewords_at_split in Hat. destruct Hat as [Hat Hat'].
    rewrite length_app in Hat'. cbn [List.length] in Hat'.
    destruct (@numeric_group_latched cw g p nc r) as (nc' & Hl' & Hstep);
      try assumption; [lia |].
    replace fuel
      with (List.length g + 1
            + Datatypes.S (fuel - List.length g - 2))%nat by lia.
    rewrite Hstep.
    rewrite !length_app. cbn [List.length].
    unfold groups_return. cbn [groups_text].
    destruct (numeric_text g) as [t |]; [| reflexivity].
    rewrite (IH (p + Z.of_nat (List.length g) + 1) nc' (appendUtf8_str r t)).
    + unfold groups_return.
      replace (p + Z.of_nat (List.length g) + 1
               + Z.of_nat (List.length (join_latched (g' :: gs))))
        with (p + Z.of_nat (List.length g + 1
                              + List.length (join_latched (g' :: gs))))
        by lia.
      reflexivity.
    + discriminate.
    + assumption.
    + assumption.
    + replace (p + Z.of_nat (List.length g) + 1)
        with (p + Z.of_nat (List.length g + 1)) by lia.
      assumption.
    + assumption.
    + replace (p + Z.of_nat (List.length g) + 1
               + Z.of_nat (List.length (join_latched (g' :: gs))))
        with (p + Z.of_nat (List.length g + 1
                              + List.length (join_latched (g' :: gs))))
        by lia.
      assumption.
    + lia.
Qed.

(** The loop of [NumericCompaction] on a run of data codewords: groups of
    fifteen, and a last group of one to fifteen codewords. *)
Lemma numeric_groups_full_loop (cw : list Z) (full : list (list Z))
    (last : list Z) :
  forall (p : Z) (nc : vec) (r : String) (fuel : nat) (next : Z),
  Forall (fun g => List.length g = 15%nat /\ Forall (fun c => c < 900) g)
    full ->
  last <> [] -> (List.length last <= 15)%nat ->
  Forall (fun c => c < 900) last ->
  List.length nc = 15%nat ->
  codewords_at cw p (List.concat full ++ last) ->
  (0 < List.length cw)%nat ->
  numeric_run_ends cw (p + Z.of_nat (List.length (List.concat full ++ last))) ->
  (Z.to_nat (item cw 0 - p) < fuel)%nat ->
  result_of
    (s <- while fuel (NumericCompaction_cond cw) (NumericCompaction_body cw)
            (mkNumericState p 0 false nc r NoError) ;;
     ret (NumericCompaction_return s next))
  = Ret (groups_return (full ++ [last]) r next
           (p + Z.of_nat (List.length (List.concat full ++ last)))).
Proof.
  induction full as [| g full IH]; intros p nc r fuel next Hfull Hne H15
    Hdata Hsize Hat Hcw Hend Hfuel.
  - cbn [List.concat app] in *.
    destruct last as [| d rest]; [contradiction |].
    assert (Hq : p + 1 + Z.of_nat (List.length rest)
                 = p + Z.of_nat (List.length (d :: rest)))
      by (cbn [List.length]; lia).
    assert (Hloop := @numeric_loop cw rest [] d p nc r next fuel).
    cbn [List.length Z.of_nat app Nat.add] in Hloop.
    rewrite Hloop; try assumption; try reflexivity.
    + unfold groups_return, groups_text, numeric_text. rewrite Hq.
      destruct (strip_sentinel (toString (sum900 (d :: rest)))); reflexivity.
    + rewrite Hq. assumption.
  - inversion Hfull as [| ? ? (Hg & Hgd) Hfull']; subst.
    cbn [List.concat] in *. rewrite <- app_assoc in *.
    assert (Hpos : (0 < List.length last)%nat)
      by (destruct last; [contradiction | simpl; lia]).
    assert (Hle := numeric_run_within Hend).
    rewrite !length_app in Hle, Hend.
    apply codewords_at_split in Hat. destruct Hat as [Hat Hat'].
    rewrite Hg in *.
    destruct (@numeric_group_full cw g p nc r) as (nc' & Hl' & Hstep);
      try assumption; [lia |].
    replace fuel with (15 + Datatypes.S (fuel - 16))%nat by lia.
    rewrite Hstep.
    rewrite !length_app, Hg.
    unfold groups_return. cbn [groups_text app].
    destruct (numeric_text g) as [t |]; [| reflexivity].
    change (Z.of_nat 15) with 15 in *.
    rewrite (IH (p + 15) nc' (appendUtf8_str r t)); try assumption.
    + unfold groups_return. rewrite length_app.
      replace (p + 15
               + Z.of_nat (List.length (List.concat full) + List.length last))
        with (p + Z.of_nat (15 + (List.length (List.concat full)
                                    + List.length last))) by lia.
      reflexivity.
    + rewrite length_app.
      replace (p + 15
               + Z.of_nat (List.length (List.concat full) + List.length last))
        with (p + Z.of_nat (15 + (List.length (List.concat full)
                                    + List.length last))) by lia.
      assumption.
    + lia.
Qed.

(** The Numeric latch 902 inside Numeric Compaction closes the group
    collected so far and starts a new one.  For groups of 1 to 15 data
    codewords with the latch between them, the last of which ends at the
    declared count or at a codeword that ends Numeric Compaction, the text
    is the texts of the groups one after the other; at the first group
    that has no text the call returns [FormatError], with the text of the
    groups before it appended and [next] left alone. *)
Theorem numeric_latch_restarts (cw : list Z) (gs : list (list Z)) (ci : Z)
    (result : String) (next : Z) :
  gs <> [] ->
  Forall (fun g => g <> [] /\ (List.length g <= 15)%nat
                   /\ Forall (fun c => c < 900) g) gs ->
  codewords_at cw ci (join_latched gs) ->
  (0 < List.length cw)%nat ->
  numeric_run_ends cw (ci + Z.of_nat (List.length (join_latched gs))) ->
  result_of (NumericCompaction cw ci result next)
  = Ret (groups_return gs result next
           (ci + Z.of_nat (List.length (join_latched gs)))).
Proof.
  intros Hne Hgs Hat Hcw Hend.
  unfold NumericCompaction. unfold vnew, MAX_NUMERIC_CODEWORDS.
  cbn [Z.ltb Z.compare]. rewrite bind_ret.
  apply numeric_groups_latched_loop; try assumption.
  - apply repeat_length.
  - unfold fuel_from. lia.
Qed.

(** A run of data codewords longer than fifteen is cut into groups of
    fifteen.  For a run made of groups of exactly 15 data codewords and a
    last group of 1 to 15, which ends at the declared count or at a
    codeword that ends Numeric Compaction, the text is the texts of the
    groups one after the other; at the first group that has no text the
    call returns [FormatError]. *)
Theorem numeric_groups_of_fifteen (cw : list Z) (full : list (list Z))
    (last : list Z) (ci : Z) (result : String) (next : Z) :
  Forall (fun g => List.length g = 15%nat /\ Forall (fun c => c < 900) g)
    full ->
  last <> [] -> (List.length last <= 15)%nat ->
  Forall (fun c => c < 900) last ->
  codewords_at cw ci (List.concat full ++ last) ->
  (0 < List.length cw)%nat ->
  numeric_run_ends cw (ci + Z.of_nat (List.length (List.concat full ++ last))) ->
  result_of (NumericCompaction cw ci result next)
  = Ret (groups_return (full ++ [last]) result next
           (ci + Z.of_nat (List.length (List.concat full ++ last)))).
Proof.
  intros Hfull Hne H15 Hdata Hat Hcw Hend.
  unfold NumericCompaction. unfold vnew, MAX_NUMERIC_CODEWORDS.
  cbn [Z.ltb Z.compare]. rewrite bind_ret.
  apply numeric_groups_full_loop; try assumption.
  - apply repeat_length.
  - unfold fuel_from. lia.
Qed.

Lemma numeric_latch_restarts_witness :
  result_of (NumericCompaction [6; 902; 1; 111; 902; 11; 0] 2 [] 2)
  = Ret (groups_return [[1; 111]; [11]] [] 2
           (2 + Z.of_nat (List.length (join_latched [[1; 111]; [11]])))).
Proof.
  apply (@numeric_latch_restarts [6; 902; 1; 111; 902; 11; 0]
           [[1; 111]; [11]] 2 [] 2).
  - discriminate.
  - repeat (apply Forall_cons;
            [split; [discriminate | split; [simpl; lia |]];
             repeat (apply Forall_cons; [lia |]); apply Forall_nil |]).
    apply Forall_nil.
  - split; [lia | reflexivity].
  - simpl. lia.
  - left. reflexivity.
Defined.

Lemma numeric_groups_of_fifteen_witness :
  result_of (NumericCompaction
               ([18; 902] ++ (5 :: repeat 0 14) ++ [11; 0]) 2 [] 2)
  = Ret (groups_return ([5 :: repeat 0 14%nat] ++ [[11]]) [] 2
           (2 + Z.of_nat (List.length (List.concat [5 :: repeat 0 14%nat] ++ [11])))).
Proof.
  apply (@numeric_groups_of_fifteen ([18; 902] ++ (5 :: repeat 0 14) ++ [11; 0])
           [5 :: repeat 0 14%nat] [11] 2 [] 2).
  - apply Forall_cons; [| apply Forall_nil].
    split; [reflexivity |].
    repeat (apply Forall_cons; [lia |]). apply Forall_nil.
  - discriminate.
  - simpl. lia.
  - apply Forall_cons; [lia | apply Forall_nil].
  - split; [lia | reflexivity].
  - simpl. lia.
  - left. reflexivity.
Defined.

(** ** Macro block: the segment index and the end of the block *)

(** The optional-field loop on data codewords that run up to the declared
    count: all of them are collected and there is no error. *)
Lemma optional_loop_data (cw : list Z) (opts : list Z) :
  forall (p : Z) (acc : list Z) (meta : DecoderResultExtra) (fuel : nat),
  Forall (fun d => d < 900) opts ->
  codewords_at cw p opts ->
  p + Z.of_nat (List.length opts) = item cw 0 ->
  (0 < List.length cw)%nat ->
  (List.length opts < fuel)%nat ->
  result_of (while fuel (Optional_cond cw) (Optional_body cw)
               (mkOptionalState p false acc meta NoError))
  = Ret (mkOptionalState (p + Z.of_nat (List.length opts)) false
           (acc ++ opts) meta NoError).
Proof.
  induction opts as [| d opts IH]; intros p acc meta fuel Hdata Hat Hend Hcw
    Hfuel.
  - cbn [List.length Z.of_nat] in *. rewrite Z.add_0_r in *.
    rewrite List.app_nil_r.
    destruct fuel as [| fuel]; [lia |].
    apply while_exit_result.
    rewrite Optional_cond_ok by (assumption || reflexivity).
    cbn [o_codeIndex o_end]. rewrite Hend, Z.ltb_irrefl. reflexivity.
  - apply codewords_at_cons in Hat. destruct Hat as [Hrd Hat].
    inversion Hdata as [| ? ? Hd Hdata']; subst.
    cbn [List.length] in *.
    destruct fuel as [| fuel]; [lia |].
    erewrite while_step_result.
    2:{ rewrite Optional_cond_ok by (assumption || reflexivity).
        cbn [o_codeIndex o_end].
        destruct (Z.ltb_spec p (item cw 0)); [reflexivity | lia]. }
    2:{ rewrite (@Optional_body_data cw _ d) by assumption. reflexivity. }
    cbn [o_codeIndex o_end additionalOptionCodeWords o_metadata o_status].
    rewrite (IH (p + 1) (acc ++ [d]) meta fuel); try assumption; try lia.
    rewrite <- app_assoc. cbn [app].
    replace (p + 1 + Z.of_nat (List.length opts))
      with (p + Z.of_nat (Datatypes.S (List.length opts))) by lia.
    reflexivity.
Qed.

Lemma sum900_pair (a b : Z) : sum900 [a; b] = 900 * a + b.
Proof. cbn [sum900 List.length Z.of_nat]. change (900 ^ 1) with 900. lia. Qed.

Lemma stoi_empty : stoi EmptyString = stuck InvalidArgument.
Proof. reflexivity. Qed.

Lemma stoi_digits (u : Decimal.uint) :
  u <> Decimal.Nil -> Z.of_uint u <= INT_MAX ->
  stoi (NilEmpty.string_of_uint u) = ret (Z.of_uint u).
Proof.
  intros Hne Hmax. unfold stoi.
  replace (NilEmpty.string_of_uint u) with (NilZero.string_of_uint u)
    by (destruct u; try reflexivity; contradiction).
  rewrite NilZero.usu by assumption.
  destruct (Z.leb_spec (Z.of_uint u) INT_MAX); [reflexivity | lia].
Qed.

(** The start of a macro block whose two sequence codewords have the base
    900 value 1: the segment index string is empty and [std::stoi]
    throws. *)
Lemma DecodeMacroBlock_empty_index (cw : list Z) (ci : Z)
    (meta : DecoderResultExtra) (next : Z) :
  0 <= ci -> ci + 1 < Z.of_nat (List.length cw) -> ci + 2 <= item cw 0 ->
  900 * item cw ci + item cw (ci + 1) = 1 ->
  result_of (DecodeMacroBlock cw ci meta next) = Stuck InvalidArgument.
Proof.
  intros H0 Hlen Hcount Hone. unfold DecodeMacroBlock.
  rewrite result_bind, rd_in by lia. cbn [result_of snd].
  unfold NUMBER_OF_SEQUENCE_CODEWORDS.
  destruct (Z.gtb_spec (ci + 2) (item cw 0)); [lia |].
  unfold vnew. change (2 <? 0) with false. cbv iota.
  change (repeat 0 (Z.to_nat 2)) with [0; 0]. rewrite bind_ret.
  change (Z.to_nat 2) with 2%nat.
  rewrite result_bind, copy_segment_index_both by lia. cbn [result_of snd].
  change 2 with (Z.of_nat 2) at 1.
  rewrite result_bind, DecodeBase900toBase10_spec by (cbn [List.length]; lia).
  cbn [firstn]. rewrite sum900_pair, Hone.
  reflexivity.
Qed.

(** The segment index of a macro block.  When the base 900 value of the
    two sequence codewords is the number written as [1] followed by the
    digits [u], at least one digit, the segment index stored is the number
    that [u] writes; with the terminator 922 right after the file id the
    block is the last segment. *)
Theorem macro_segment_index_value (cw : list Z) (ci : Z)
    (meta : DecoderResultExtra) (next : Z) (u : Decimal.uint) (ci' : Z)
    (fileId : String) :
  0 <= ci -> ci + 1 < Z.of_nat (List.length cw) -> ci + 2 <= item cw 0 ->
  900 * item cw ci + item cw (ci + 1) = Z.of_uint (Decimal.D1 u) ->
  u <> Decimal.Nil -> Z.of_uint u <= INT_MAX ->
  result_of (TextCompaction cw (ci + 2) []) = Ret (ci', fileId) ->
  0 <= ci' < Z.of_nat (List.length cw) ->
  item cw ci' = MACRO_PDF417_TERMINATOR ->
  result_of (DecodeMacroBlock cw ci meta next)
  = Ret (NoError,
         mkExtra (Z.of_uint u) fileId true (optionalData meta), ci' + 1).
Proof.
  intros H0 Hlen Hcount Hval Hne Hmax Htext Hci' Hterm.
  rewrite (@DecodeMacroBlock_prefix cw ci meta next
             (NilEmpty.string_of_uint u) (Z.of_uint u) ci' fileId);
    try assumption.
  - cbv zeta. rewrite result_bind, rd_in by lia. cbn [result_of snd].
    rewrite Hterm.
    change (MACRO_PDF417_TERMINATOR =? BEGIN_MACRO_PDF417_OPTIONAL_FIELD)
      with false.
    cbv iota. reflexivity.
  - rewrite sum900_pair, Hval, toString_sentinel. cbn [strip_sentinel].
    rewrite Ascii.eqb_refl. reflexivity.
  - rewrite stoi_digits by assumption. reflexivity.
Qed.

Lemma macro_segment_index_value_witness :
  result_of (DecodeMacroBlock [10; 928; 111; 107; 1; 89; 922; 0; 0; 0; 0] 2
               Sample.newExtra 2)
  = Ret (NoError, mkExtra 7 [65; 66; 67] true [], 6 + 1).
Proof.
  apply (@macro_segment_index_value
           [10; 928; 111; 107; 1; 89; 922; 0; 0; 0; 0] 2 Sample.newExtra 2
           (Decimal.D0 (Decimal.D0 (Decimal.D0 (Decimal.D0 (Decimal.D7
             Decimal.Nil))))) 6 [65; 66; 67]).
  - lia.
  - simpl. lia.
  - vm_compute. discriminate.
  - reflexivity.
  - discriminate.
  - vm_compute. discriminate.
  - reflexivity.
  - simpl. lia.
  - reflexivity.
Defined.

(** An optional field that runs up to the declared count without the
    terminator 922 is no error: its data codewords are stored as the
    optional data, the last-segment flag is left alone and the cursor
    handed back is the declared count. *)
Theorem macro_optional_field_unterminated (cw : list Z) (ci : Z)
    (meta : DecoderResultExtra) (next : Z) (strBuf : string) (n ci' : Z)
    (fileId : String) (opts : list Z) :
  0 <= ci -> ci + 1 < Z.of_nat (List.length cw) -> ci + 2 <= item cw 0 ->
  strip_sentinel (toString (sum900 [item cw ci; item cw (ci + 1)]))
  = Some strBuf ->
  result_of (stoi strBuf) = Ret n ->
  result_of (TextCompaction cw (ci + 2) []) = Ret (ci', fileId) ->
  0 <= ci' < Z.of_nat (List.length cw) ->
  item cw ci' = BEGIN_MACRO_PDF417_OPTIONAL_FIELD ->
  Forall (fun d => d < 900) opts ->
  codewords_at cw (ci' + 1) opts ->
  ci' + 1 + Z.of_nat (List.length opts) = item cw 0 ->
  result_of (DecodeMacroBlock cw ci meta next)
  = Ret (NoError,
         setOptionalData (setFileId (setSegmentIndex meta n) fileId) opts,
         item cw 0).
Proof.
  intros H0 Hlen Hcount Hseg Hstoi Htext Hci' Hopt Hdata Hat Hend.
  rewrite (@DecodeMacroBlock_prefix cw ci meta next strBuf n ci' fileId)
    by assumption.
  cbv zeta. rewrite result_bind, rd_in by lia. cbn [result_of snd].
  rewrite Hopt, Z.eqb_refl.
  rewrite result_bind, rd_in by lia. cbn [result_of snd].
  destruct (Z.ltb_spec (item cw 0 - (ci' + 1)) 0); [lia |].
  rewrite result_bind.
  rewrite (@optional_loop_data cw opts (ci' + 1) []); try assumption;
    [| lia | unfold fuel_from; lia].
  cbn [o_status StatusIsError result_of snd ret o_metadata
       additionalOptionCodeWords o_codeIndex app].
  rewrite Hend. reflexivity.
Qed.

Lemma macro_optional_field_unterminated_witness :
  result_of (DecodeMacroBlock [9; 928; 111; 107; 1; 89; 923; 5; 6; 0; 0]
               2 Sample.newExtra 2)
  = Ret (NoError, mkExtra 7 [65; 66; 67] false [5; 6], 9).
Proof.
  apply (@macro_optional_field_unterminated
           [9; 928; 111; 107; 1; 89; 923; 5; 6; 0; 0] 2 Sample.newExtra 2
           "00007"%string 7 6 [65; 66; 67] [5; 6]).
  - lia.
  - simpl. lia.
  - vm_compute. discriminate.
  - reflexivity.
  - reflexivity.
  - reflexivity.
  - simpl. lia.
  - reflexivity.
  - repeat (apply Forall_cons; [lia |]). apply Forall_nil.
  - split; [lia | reflexivity].
  - reflexivity.
Defined.

(** A macro block whose file id runs up to the declared count still looks
    at the codeword at the declared count, the first one after the data:
    the terminator 922 there makes the block the last segment and puts the
    cursor after it, and the optional-field codeword 923 there makes the
    reservation of the optional data fail with a negative size. *)
Theorem macro_block_at_declared_count (cw : list Z) (ci : Z)
    (meta : DecoderResultExtra) (next : Z) (strBuf : string) (n : Z)
    (fileId : String) :
  0 <= ci -> ci + 1 < Z.of_nat (List.length cw) -> ci + 2 <= item cw 0 ->
  strip_sentinel (toString (sum900 [item cw ci; item cw (ci + 1)]))
  = Some strBuf ->
  result_of (stoi strBuf) = Ret n ->
  result_of (TextCompaction cw (ci + 2) []) = Ret (item cw 0, fileId) ->
  item cw 0 < Z.of_nat (List.length cw) ->
  (item cw (item cw 0) = MACRO_PDF417_TERMINATOR ->
   result_of (DecodeMacroBlock cw ci meta next)
   = Ret (NoError,
          setLastSegment (setFileId (setSegmentIndex meta n) fileId) true,
          item cw 0 + 1)) /\
  (item cw (item cw 0) = BEGIN_MACRO_PDF417_OPTIONAL_FIELD ->
   result_of (DecodeMacroBlock cw ci meta next) = Stuck LengthError).
Proof.
  intros H0 Hlen Hcount Hseg Hstoi Htext Hsize.
  assert (Hpre := @DecodeMacroBlock_prefix cw ci meta next strBuf n
                    (item cw 0) fileId H0 Hlen Hcount Hseg Hstoi Htext).
  cbv zeta in Hpre.
  rewrite result_bind, rd_in in Hpre by lia. cbn [result_of snd] in Hpre.
  split; intros Hc; rewrite Hpre, Hc.
  - change (MACRO_PDF417_TERMINATOR =? BEGIN_MACRO_PDF417_OPTIONAL_FIELD)
      with false.
    cbv iota. reflexivity.
  - rewrite Z.eqb_refl. rewrite result_bind, rd_in by lia.
    cbn [result_of snd].
    destruct (Z.ltb_spec (item cw 0 - (item cw 0 + 1)) 0); [reflexivity | lia].
Qed.

Lemma macro_block_at_declared_count_witness :
  result_of (DecodeMacroBlock [6; 928; 111; 107; 1; 89; 922; 0] 2
               Sample.newExtra 2)
  = Ret (NoError,
         setLastSegment (setFileId (setSegmentIndex Sample.newExtra 7)
                           [65; 66; 67]) true,
         item [6; 928; 111; 107; 1; 89; 922; 0] 0 + 1) /\
  result_of (DecodeMacroBlock [6; 928; 111; 107; 1; 89; 923; 0] 2
               Sample.newExtra 2)
  = Stuck LengthError.
Proof.
  split.
  - apply (proj1 (@macro_block_at_declared_count
             [6; 928; 111; 107; 1; 89; 922; 0] 2 Sample.newExtra 2
             "00007"%string 7 [65; 66; 67]
             ltac:(lia) ltac:(simpl; lia) ltac:(vm_compute; discriminate)
             ltac:(reflexivity) ltac:(reflexivity) ltac:(reflexivity)
             ltac:(vm_compute; reflexivity))).
    reflexivity.
  - apply (proj2 (@macro_block_at_declared_count
             [6; 928; 111; 107; 1; 89; 923; 0] 2 Sample.newExtra 2
             "00007"%string 7 [65; 66; 67]
             ltac:(lia) ltac:(simpl; lia) ltac:(vm_compute; discriminate)
             ltac:(reflexivity) ltac:(reflexivity) ltac:(reflexivity)
             ltac:(vm_compute; reflexivity))).
    reflexivity.
Defined.

Section MacroInDecode.

Variable CharacterSet : Type.
Variable ISO8859_1 : CharacterSet.
Variable CharsetFromValue : Z -> CharacterSet.
Variable toUnicode : list Z -> CharacterSet -> String.
Variable newExtra : DecoderResultExtra.

Local Abbreviation Decode :=
  (Decode ISO8859_1 CharsetFromValue toUnicode newExtra).

Lemma Decode_switch_macro (cw : list Z) (st : DecodeState CharacterSet) :
  code st = BEGIN_MACRO_PDF417_CONTROL_BLOCK ->
  Decode_switch CharsetFromValue toUnicode cw st =
  (' (s, m, ci) <- DecodeMacroBlock cw (codeIndex st) (resultMetadata st)
                     (codeIndex st) ;;
   ret (mkDecodeState ci (code st) s (encoding st) (resultString st) m)).
Proof. intros H. unfold Decode_switch. rewrite H. reflexivity. Qed.

(** Sequence codewords with the base 900 value 1 (the codewords 0 and 1):
    the decimal string is [1], the segment index string that is left
    without the leading [1] is empty, and [std::stoi] throws on it.  The
    exception leaves [DecodeMacroBlock], and [Decode] when the block is the
    first thing in the symbol. *)
Theorem macro_empty_segment_index (cw : list Z) (ec : Z)
    (result : DecoderResult) :
  (forall ci meta next,
     0 <= ci -> ci + 1 < Z.of_nat (List.length cw) -> ci + 2 <= item cw 0 ->
     900 * item cw ci + item cw (ci + 1) = 1 ->
     result_of (DecodeMacroBlock cw ci meta next) = Stuck InvalidArgument) /\
  (item cw 1 = BEGIN_MACRO_PDF417_CONTROL_BLOCK ->
   900 * item cw 2 + item cw 3 = 1 ->
   4 <= item cw 0 -> (4 <= List.length cw)%nat ->
   result_of (Decode cw ec result) = Stuck InvalidArgument).
Proof.
  split.
  - intros ci meta next. apply DecodeMacroBlock_empty_index.
  - intros Hcode Hone Hcount Hlen.
    unfold Decode.
    rewrite result_bind, rd_in by lia. cbn [result_of snd].
    unfold Decode_from. rewrite result_bind. unfold fuel_from.
    destruct (Z.to_nat (item cw 0 - 2)) as [| k] eqn:Ek; [lia |].
    rewrite while_unfold, result_bind.
    unfold Decode_cond at 1. rewrite result_bind, rd_in by lia.
    cbn [result_of snd ret codeIndex status StatusIsError negb].
    destruct (Z.ltb_spec 2 (item cw 0)); [| lia]. cbn [andb].
    rewrite result_bind. unfold Decode_body at 1. rewrite result_bind.
    rewrite Decode_switch_macro by exact Hcode.
    cbn [codeIndex resultMetadata]. rewrite result_bind.
    rewrite DecodeMacroBlock_empty_index by (assumption || lia).
    reflexivity.
Qed.

End MacroInDecode.

Lemma macro_empty_segment_index_witness :
  result_of (DecodeMacroBlock [6; 928; 0; 1; 1; 922; 0] 2 Sample.newExtra 2)
  = Stuck InvalidArgument /\
  result_of (Sample.run [6; 928; 0; 1; 1; 922; 0] 0) = Stuck InvalidArgument.
Proof.
  split.
  - apply (proj1 (@macro_empty_segment_index Sample.CharacterSet
                    Sample.ISO8859_1 Sample.CharsetFromValue Sample.toUnicode
                    Sample.newExtra [6; 928; 0; 1; 1; 922; 0] 0
                    Sample.noResult)).
    + lia.
    + simpl. lia.
    + vm_compute. discriminate.
    + reflexivity.
  - apply (proj2 (@macro_empty_segment_index Sample.CharacterSet
                    Sample.ISO8859_1 Sample.CharsetFromValue Sample.toUnicode
                    Sample.newExtra [6; 928; 0; 1; 1; 922; 0] 0
                    Sample.noResult)).
    + reflexivity.
    + reflexivity.
    + vm_compute. discriminate.
    + simpl. lia.
Defined.

(** ** Whole symbols *)

Lemma codewords_at_app (pre ds tl : list Z) :
  codewords_at (pre ++ ds ++ tl) (Z.of_nat (List.length pre)) ds.
Proof.
  split; [lia |]. rewrite Nat2Z.id.
  rewrite skipn_app, skipn_all, Nat.sub_diag. cbn [skipn app].
  rewrite firstn_app, firstn_all, Nat.sub_diag. cbn [firstn].
  apply List.app_nil_r.
Qed.

Lemma item_app_tail (pre tl : list Z) :
  tl <> [] -> item (pre ++ tl) (Z.of_nat (List.length pre)) = hd 0 tl.
Proof.
  intros H. unfold item. rewrite Nat2Z.id, app_nth2, Nat.sub_diag by lia.
  destruct tl; [contradiction | reflexivity].
Qed.

Section WholeSymbols.

Variable CharacterSet : Type.
Variable ISO8859_1 : CharacterSet.
Variable CharsetFromValue : Z -> CharacterSet.
Variable toUnicode : list Z -> CharacterSet -> String.
Variable newExtra : DecoderResultExtra.

Local Abbreviation Decode_switch := (Decode_switch CharsetFromValue toUnicode).
Local Abbreviation Decode_body := (Decode_body CharsetFromValue toUnicode).
Local Abbreviation Decode_from := (Decode_from CharsetFromValue toUnicode).
Local Abbreviation Decode :=
  (Decode ISO8859_1 CharsetFromValue toUnicode newExtra).
Local Abbreviation DecodeState := (DecodeState CharacterSet).

Lemma Decode_cond_eq (cw : list Z) (st : DecodeState) :
  (0 < List.length cw)%nat ->
  result_of (Decode_cond cw st)
  = Ret ((codeIndex st <? item cw 0) && negb (StatusIsError (status st))).
Proof.
  intros H. unfold Decode_cond. rewrite rd_in by lia. reflexivity.
Qed.

(** A decode whose first iteration takes the cursor to the declared count
    or past it, with text [r] and no error: the result holds that text. *)
Lemma Decode_single_iteration (cw : list Z) (ec : Z) (result : DecoderResult)
    (st st1 : DecodeState) (fuel : nat) :
  (0 < List.length cw)%nat ->
  codeIndex st < item cw 0 -> status st = NoError ->
  result_of (Decode_switch cw st) = Ret st1 ->
  status st1 = NoError ->
  0 <= codeIndex st1 ->
  item cw 0 <= codeIndex st1 < Z.of_nat (List.length cw) ->
  resultString st1 <> [] ->
  result_of (Decode_from (Datatypes.S (Datatypes.S fuel)) cw ec result st)
  = Ret (NoError,
         mkDecoderResult (resultString st1) (to_string ec)
           (resultMetadata st1)).
Proof.
  intros Hcw Hlt Hs Hsw Hs1 H0 Hci Hr.
  unfold Decode_from. rewrite result_bind.
  rewrite (@while_step_result _ _ _ _ st
             (mkDecodeState (codeIndex st1 + 1) (item cw (codeIndex st1))
                (status st1) (encoding st1) (resultString st1)
                (resultMetadata st1))).
  - rewrite while_exit_result.
    + cbn [result_of snd ret]. unfold Decode_finish.
      cbn [resultString status resultMetadata]. rewrite Hs1.
      destruct (resultString st1); [contradiction | reflexivity].
    + rewrite Decode_cond_eq by assumption. cbn [codeIndex status].
      destruct (Z.ltb_spec (codeIndex st1 + 1) (item cw 0)); [lia |].
      reflexivity.
  - rewrite Decode_cond_eq by assumption. rewrite Hs.
    destruct (Z.ltb_spec (codeIndex st) (item cw 0)); [reflexivity | lia].
  - unfold Decode_body. rewrite result_bind, Hsw.
    rewrite Decode_fetch_in by lia. reflexivity.
Qed.

Lemma alpha_pairs_nonempty (pairs : list (Z * Z)) :
  pairs <> [] -> flat_map alpha_pair pairs <> [].
Proof. destruct pairs; [contradiction | discriminate]. Qed.

(** A symbol of capital letters and spaces, two to a codeword, with at
    least one codeword after the declared count: the decode succeeds and
    the text is the letters, with the Text latch 900 in front of the data
    and also without it when there are two data codewords at least (a
    first codeword that is no control codeword is taken as text). *)
Theorem Decode_capital_letters (pairs : list (Z * Z)) (tl : list Z) (ec : Z)
    (result : DecoderResult) :
  Forall (fun p => 0 <= fst p <= 26 /\ 0 <= snd p <= 26) pairs ->
  pairs <> [] -> tl <> [] ->
  result_of
    (Decode (Z.of_nat (List.length pairs) + 2 :: TEXT_COMPACTION_MODE_LATCH
             :: map pair_codeword pairs ++ tl) ec result)
  = Ret (NoError,
         mkDecoderResult (flat_map alpha_pair pairs) (to_string ec) newExtra)
  /\
  ((2 <= List.length pairs)%nat ->
   result_of
     (Decode (Z.of_nat (List.length pairs) + 1 :: map pair_codeword pairs ++ tl)
        ec result)
   = Ret (NoError,
          mkDecoderResult (flat_map alpha_pair pairs) (to_string ec) newExtra)).
Proof.
  intros Hp Hne Htl.
  assert (Hlen : (0 < List.length pairs)%nat)
    by (destruct pairs; [contradiction | simpl; lia]).
  assert (Htlen : (0 < List.length tl)%nat)
    by (destruct tl; [contradiction | simpl; lia]).
  split.
  - set (cw := Z.of_nat (List.length pairs) + 2 :: TEXT_COMPACTION_MODE_LATCH
               :: map pair_codeword pairs ++ tl).
    assert (Hsize : List.length cw
                    = (2 + List.length pairs + List.length tl)%nat).
    { subst cw. cbn [List.length]. rewrite length_app, length_map. lia. }
    assert (Hcount : item cw 0 = Z.of_nat (List.length pairs) + 2)
      by reflexivity.
    assert (Htext : result_of (TextCompaction cw 2 [])
                    = Ret (2 + Z.of_nat (List.length pairs),
                           [] ++ flat_map alpha_pair pairs)).
    { apply TextCompaction_capitals; [assumption | | lia |].
      - assert (H := @codewords_at_app
                       [Z.of_nat (List.length pairs) + 2;
                        TEXT_COMPACTION_MODE_LATCH]
                       (map pair_codeword pairs) tl).
        exact H.
      - left. lia. }
    unfold Decode. rewrite result_bind, rd_in by lia. cbn [result_of snd].
    change (item cw 1) with TEXT_COMPACTION_MODE_LATCH.
    unfold fuel_from. rewrite Hcount.
    replace (Z.to_nat (Z.of_nat (List.length pairs) + 2 - 2))
      with (Datatypes.S (List.length pairs - 1)) by lia.
    rewrite (@Decode_single_iteration cw ec result _
               (mkDecodeState (2 + Z.of_nat (List.length pairs))
                  TEXT_COMPACTION_MODE_LATCH NoError (DEFAULT_ENCODING ISO8859_1)
                  ([] ++ flat_map alpha_pair pairs) newExtra)).
    + reflexivity.
    + lia.
    + cbn [codeIndex]. lia.
    + reflexivity.
    + unfold Decode_switch. cbn [code codeIndex resultString].
      rewrite Z.eqb_refl, result_bind, Htext. reflexivity.
    + reflexivity.
    + cbn [codeIndex]. lia.
    + cbn [codeIndex]. lia.
    + cbn [resultString app]. apply alpha_pairs_nonempty. assumption.
  - intros H2.
    set (cw := Z.of_nat (List.length pairs) + 1 :: map pair_codeword pairs ++ tl).
    assert (Hsize : List.length cw
                    = (1 + List.length pairs + List.length tl)%nat).
    { subst cw. cbn [List.length]. rewrite length_app, length_map. lia. }
    assert (Hcount : item cw 0 = Z.of_nat (List.length pairs) + 1)
      by reflexivity.
    assert (Htext : result_of (TextCompaction cw 1 [])
                    = Ret (1 + Z.of_nat (List.length pairs),
                           [] ++ flat_map alpha_pair pairs)).
    { apply TextCompaction_capitals; [assumption | | lia |].
      - assert (H := @codewords_at_app
                       [Z.of_nat (List.length pairs) + 1]
                       (map pair_codeword pairs) tl).
        exact H.
      - left. lia. }
    assert (Hfirst : 0 <= item cw 1 < 900).
    { destruct (flat_map_pairs Hp) as (_ & Hd & _).
      subst cw. destruct pairs as [| p pairs']; [contradiction |].
      inversion Hp as [| ? ? [Hh Hl] _]; subst.
      change (0 <= pair_codeword p < 900). unfold pair_codeword. lia. }
    unfold Decode. rewrite result_bind, rd_in by lia. cbn [result_of snd].
    unfold fuel_from. rewrite Hcount.
    replace (Z.to_nat (Z.of_nat (List.length pairs) + 1 - 2))
      with (Datatypes.S (List.length pairs - 2)) by lia.
    rewrite (@Decode_single_iteration cw ec result _
               (mkDecodeState (1 + Z.of_nat (List.length pairs))
                  (item cw 1) NoError (DEFAULT_ENCODING ISO8859_1)
                  ([] ++ flat_map alpha_pair pairs) newExtra)).
    + reflexivity.
    + lia.
    + cbn [codeIndex]. lia.
    + reflexivity.
    + unfold Decode_switch. cbn [code codeIndex resultString].
      cbv [TEXT_COMPACTION_MODE_LATCH BYTE_COMPACTION_MODE_LATCH
           BYTE_COMPACTION_MODE_LATCH_6 MODE_SHIFT_TO_BYTE_COMPACTION_MODE
           NUMERIC_COMPACTION_MODE_LATCH ECI_CHARSET ECI_GENERAL_PURPOSE
           ECI_USER_DEFINED BEGIN_MACRO_PDF417_CONTROL_BLOCK
           BEGIN_MACRO_PDF417_OPTIONAL_FIELD MACRO_PDF417_TERMINATOR].
      repeat (rewrite (proj2 (Z.eqb_neq (item cw 1) _)) by lia).
      cbn [orb]. replace (2 - 1) with 1 by lia.
      rewrite result_bind, Htext. reflexivity.
    + reflexivity.
    + cbn [codeIndex]. lia.
    + cbn [codeIndex]. lia.
    + cbn [resultString app]. apply alpha_pairs_nonempty. assumption.
Qed.

Lemma Decode_from_step (cw : list Z) (ec : Z) (result : DecoderResult)
    (st st' : DecodeState) (fuel : nat) :
  (0 < List.length cw)%nat ->
  codeIndex st < item cw 0 -> status st = NoError ->
  result_of (Decode_body cw st) = Ret st' ->
  result_of (Decode_from (Datatypes.S fuel) cw ec result st)
  = result_of (Decode_from fuel cw ec result st').
Proof.
  intros Hcw Hlt Hs Hb. unfold Decode_from. rewrite !result_bind.
  rewrite (@while_step_result _ _ _ _ st st'); [reflexivity | | assumption].
  rewrite Decode_cond_eq by assumption. rewrite Hs.
  destruct (Z.ltb_spec (codeIndex st) (item cw 0)); [reflexivity | lia].
Qed.

(** A symbol with a declared count of at most 2 has no text: the decode
    reads the codeword at index 1 and the declared count, does not enter
    its loop and returns [FormatError], leaving [result] alone.  On a
    vector with fewer than two codewords the read at index 1 is outside
    the vector. *)
Theorem Decode_short_symbol (cw : list Z) (ec : Z) (result : DecoderResult) :
  ((List.length cw <= 1)%nat ->
   Decode cw ec result = ([1], Stuck OutOfBounds)) /\
  ((2 <= List.length cw)%nat -> item cw 0 <= 2 ->
   Decode cw ec result = ([1; 0], Ret (FormatError, result))).
Proof.
  split.
  - intros H. unfold Decode. rewrite rd_out by lia. reflexivity.
  - intros H Hcount. unfold Decode. rewrite rd_in by lia. cbn [bind].
    unfold Decode_from, fuel_from.
    replace (Z.to_nat (item cw 0 - 2)) with 0%nat by lia.
    rewrite while_unfold. unfold Decode_cond. rewrite rd_in by lia.
    cbn [bind ret codeIndex app].
    destruct (Z.ltb_spec 2 (item cw 0)); [lia |]. reflexivity.
Qed.

Lemma ByteCompaction_901_run (cw ds : list Z) (ci : Z) :
  ds <> [] ->
  Forall (fun c => c < 900) ds ->
  codewords_at cw ci ds ->
  run_ends cw (ci + Z.of_nat (List.length ds)) ->
  result_of (ByteCompaction_bytes BYTE_COMPACTION_MODE_LATCH cw ci)
  = Ret (ci + Z.of_nat (List.length ds), bytes901 ds).
Proof.
  intros Hne Hdata Hat Hend.
  destruct ds as [| d rest]; [contradiction |].
  assert (Hat' := Hat). apply codewords_at_cons in Hat'.
  destruct Hat' as [Hrd Hat'].
  assert (Hcw : (0 < List.length cw)%nat).
  { apply (f_equal result_of) in Hrd. apply rd_Ret in Hrd. lia. }
  assert (Hq : ci + 1 + Z.of_nat (List.length rest)
               = ci + Z.of_nat (List.length (d :: rest)))
    by (cbn [List.length]; lia).
  unfold ByteCompaction_bytes. rewrite Z.eqb_refl. unfold ByteCompaction_901.
  rewrite result_bind, Hrd. cbn [result_of snd].
  rewrite (@byte901_loop cw rest [] d ci 0 0 [] [0; 0; 0; 0; 0; 0]);
    [| first [assumption | reflexivity | simpl; lia
             | rewrite Hq; assumption | unfold fuel_from; lia] ..].
  cbn [app]. rewrite Hq. reflexivity.
Qed.

(** The character set of an ECI codeword is the one that the bytes after
    it are read in.  In a symbol that is one run of byte codewords under
    the latch 901, the text is the bytes of the run read in the default
    character set ISO 8859-1; with [927 v] in front of the latch it is the
    bytes read in the character set that [v] identifies. *)
Theorem Decode_eci_then_bytes (v : Z) (bs tl : list Z) (ec : Z)
    (result : DecoderResult) :
  bs <> [] -> tl <> [] -> Forall (fun c => c < 900) bs ->
  let finish := fun text : String =>
    if empty text then (FormatError, result)
    else (NoError, mkDecoderResult text (to_string ec) newExtra) in
  result_of
    (Decode (Z.of_nat (List.length bs) + 2 :: BYTE_COMPACTION_MODE_LATCH
             :: bs ++ tl) ec result)
  = Ret (finish (toUnicode (bytes901 bs) ISO8859_1)) /\
  result_of
    (Decode (Z.of_nat (List.length bs) + 4 :: ECI_CHARSET :: v
             :: BYTE_COMPACTION_MODE_LATCH :: bs ++ tl) ec result)
  = Ret (finish (toUnicode (bytes901 bs) (CharsetFromValue v))).
Proof.
  intros Hne Htl Hdata finish.
  assert (Hlen : (0 < List.length bs)%nat)
    by (destruct bs; [contradiction | simpl; lia]).
  assert (Htlen : (0 < List.length tl)%nat)
    by (destruct tl; [contradiction | simpl; lia]).
  assert (Hlast : forall cw st fuel enc p,
    List.length cw = (Z.to_nat p + List.length bs + List.length tl)%nat ->
    item cw 0 = p + Z.of_nat (List.length bs) ->
    codewords_at cw p bs -> 2 <= p ->
    st = mkDecodeState p BYTE_COMPACTION_MODE_LATCH NoError enc [] newExtra ->
    result_of (Decode_from (Datatypes.S (Datatypes.S fuel)) cw ec result st)
    = Ret (finish (toUnicode (bytes901 bs) enc))).
  { intros cw st fuel enc p Hsize Hcount Hat Hp ->.
    assert (Hbytes : result_of (ByteCompaction_bytes
                                  BYTE_COMPACTION_MODE_LATCH cw p)
                     = Ret (p + Z.of_nat (List.length bs), bytes901 bs)).
    { apply ByteCompaction_901_run; try assumption. left. lia. }
    unfold Decode_from. rewrite result_bind.
    rewrite (@while_step_result _ _ _ _ _
               (mkDecodeState (p + Z.of_nat (List.length bs) + 1)
                  (item cw (p + Z.of_nat (List.length bs))) NoError enc
                  ([] ++ toUnicode (bytes901 bs) enc) newExtra)).
    - rewrite while_exit_result.
      + cbn [result_of snd ret]. unfold Decode_finish, finish.
        cbn [resultString status resultMetadata app].
        destruct (empty (toUnicode (bytes901 bs) enc)); reflexivity.
      + rewrite Decode_cond_eq by lia. cbn [codeIndex status].
        destruct (Z.ltb_spec (p + Z.of_nat (List.length bs) + 1) (item cw 0));
          [lia | reflexivity].
    - rewrite Decode_cond_eq by lia. cbn [codeIndex status StatusIsError].
      destruct (Z.ltb_spec p (item cw 0)); [reflexivity | lia].
    - unfold Decode_body. rewrite result_bind.
      unfold Decode_switch. cbn [code codeIndex resultString encoding].
      change (BYTE_COMPACTION_MODE_LATCH =? TEXT_COMPACTION_MODE_LATCH)
        with false.
      rewrite Z.eqb_refl. cbn [orb]. cbv iota.
      unfold ByteCompaction. rewrite !result_bind, Hbytes.
      cbn [result_of snd ret]. rewrite Decode_fetch_in by (cbn [codeIndex]; lia).
      reflexivity. }
  split.
  - set (cw := Z.of_nat (List.length bs) + 2 :: BYTE_COMPACTION_MODE_LATCH
               :: bs ++ tl).
    assert (Hsize : List.length cw
                    = (2 + List.length bs + List.length tl)%nat).
    { subst cw. cbn [List.length]. rewrite length_app. lia. }
    unfold Decode. rewrite result_bind, rd_in by lia. cbn [result_of snd].
    unfold fuel_from. change (item cw 0) with (Z.of_nat (List.length bs) + 2).
    replace (Z.to_nat (Z.of_nat (List.length bs) + 2 - 2))
      with (Datatypes.S (List.length bs - 1)) by lia.
    apply (Hlast cw _ _ (DEFAULT_ENCODING ISO8859_1) 2).
    + rewrite Hsize. reflexivity.
    + change (item cw 0) with (Z.of_nat (List.length bs) + 2). lia.
    + exact (@codewords_at_app
               [Z.of_nat (List.length bs) + 2; BYTE_COMPACTION_MODE_LATCH]
               bs tl).
    + lia.
    + reflexivity.
  - set (cw := Z.of_nat (List.length bs) + 4 :: ECI_CHARSET :: v
               :: BYTE_COMPACTION_MODE_LATCH :: bs ++ tl).
    assert (Hsize : List.length cw
                    = (4 + List.length bs + List.length tl)%nat).
    { subst cw. cbn [List.length]. rewrite length_app. lia. }
    unfold Decode. rewrite result_bind, rd_in by lia. cbn [result_of snd].
    unfold fuel_from. change (item cw 0) with (Z.of_nat (List.length bs) + 4).
    replace (Z.to_nat (Z.of_nat (List.length bs) + 4 - 2))
      with (Datatypes.S (Datatypes.S (Datatypes.S (List.length bs - 1))))
      by lia.
    rewrite (@Decode_from_step cw ec result _
               (mkDecodeState 4 BYTE_COMPACTION_MODE_LATCH NoError
                  (CharsetFromValue v) [] newExtra)).
    + apply (Hlast cw _ _ (CharsetFromValue v) 4).
      * rewrite Hsize. reflexivity.
      * change (item cw 0) with (Z.of_nat (List.length bs) + 4). lia.
      * exact (@codewords_at_app
                 [Z.of_nat (List.length bs) + 4; ECI_CHARSET; v;
                  BYTE_COMPACTION_MODE_LATCH] bs tl).
      * lia.
      * reflexivity.
    + lia.
    + change (item cw 0) with (Z.of_nat (List.length bs) + 4).
      cbn [codeIndex]. lia.
    + reflexivity.
    + unfold Decode_body, Decode_switch. cbn [code codeIndex].
      change (item cw 1) with ECI_CHARSET.
      cbn [Z.eqb ECI_CHARSET TEXT_COMPACTION_MODE_LATCH
           BYTE_COMPACTION_MODE_LATCH BYTE_COMPACTION_MODE_LATCH_6
           MODE_SHIFT_TO_BYTE_COMPACTION_MODE NUMERIC_COMPACTION_MODE_LATCH
           Pos.eqb orb].
      rewrite result_bind, result_bind, rd_in by lia.
      cbn [result_of snd ret]. rewrite Decode_fetch_in by (cbn [codeIndex]; lia).
      reflexivity.
Qed.

End WholeSymbols.

Lemma Decode_capital_letters_witness :
  result_of (Sample.run [5; 900; 214; 341; 446; 0] 3)
  = Ret (NoError,
         mkDecoderResult [72; 69; 76; 76; 79; 32] "3" Sample.newExtra) /\
  result_of (Sample.run [4; 214; 341; 446; 0] 3)
  = Ret (NoError,
         mkDecoderResult [72; 69; 76; 76; 79; 32] "3" Sample.newExtra).
Proof.
  assert (H : Forall (fun p : Z * Z => 0 <= fst p <= 26 /\ 0 <= snd p <= 26)
                [(7, 4); (11, 11); (14, 26)]).
  { repeat (apply Forall_cons; [cbn [fst snd]; lia |]). apply Forall_nil. }
  split.
  - exact (proj1 (@Decode_capital_letters Sample.CharacterSet
                    Sample.ISO8859_1 Sample.CharsetFromValue Sample.toUnicode
                    Sample.newExtra [(7, 4); (11, 11); (14, 26)] [0] 3
                    Sample.noResult H ltac:(discriminate)
                    ltac:(discriminate))).
  - exact (proj2 (@Decode_capital_letters Sample.CharacterSet
                    Sample.ISO8859_1 Sample.CharsetFromValue Sample.toUnicode
                    Sample.newExtra [(7, 4); (11, 11); (14, 26)] [0] 3
                    Sample.noResult H ltac:(discriminate)
                    ltac:(discriminate))
             ltac:(simpl; lia)).
Defined.

Lemma Decode_short_symbol_witness :
  Sample.run [2] 0 = ([1], Stuck OutOfBounds) /\
  Sample.run [2; 65; 0; 0] 0 = ([1; 0], Ret (FormatError, Sample.noResult)).
Proof.
  split.
  - apply (proj1 (@Decode_short_symbol Sample.CharacterSet Sample.ISO8859_1
                    Sample.CharsetFromValue Sample.toUnicode Sample.newExtra
                    [2] 0 Sample.noResult)).
    simpl. lia.
  - apply (proj2 (@Decode_short_symbol Sample.CharacterSet Sample.ISO8859_1
                    Sample.CharsetFromValue Sample.toUnicode Sample.newExtra
                    [2; 65; 0; 0] 0 Sample.noResult)).
    + simpl. lia.
    + vm_compute. discriminate.
Defined.

Lemma Decode_eci_then_bytes_witness :
  result_of (Decode Sample.ISO8859_1 Sample.CharsetFromValue
               Tagged.toUnicode Sample.newExtra
               [4; 901; 65; 66; 0] 0 Sample.noResult)
  = Ret (NoError, mkDecoderResult [3; 65; 66] "0" Sample.newExtra) /\
  result_of (Decode Sample.ISO8859_1 Sample.CharsetFromValue
               Tagged.toUnicode Sample.newExtra
               [6; 927; 26; 901; 65; 66; 0] 0 Sample.noResult)
  = Ret (NoError, mkDecoderResult [26; 65; 66] "0" Sample.newExtra).
Proof.
  assert (H : Forall (fun c => c < 900) [65; 66])
    by (repeat (apply Forall_cons; [lia |]); apply Forall_nil).
  split.
  - exact (proj1 (@Decode_eci_then_bytes Sample.CharacterSet
                    Sample.ISO8859_1 Sample.CharsetFromValue
                    Tagged.toUnicode Sample.newExtra
                    26 [65; 66] [0] 0 Sample.noResult
                    ltac:(discriminate) ltac:(discriminate) H)).
  - exact (proj2 (@Decode_eci_then_bytes Sample.CharacterSet
                    Sample.ISO8859_1 Sample.CharsetFromValue
                    Tagged.toUnicode Sample.newExtra
                    26 [65; 66] [0] 0 Sample.noResult
                    ltac:(discriminate) ltac:(discriminate) H)).
Defined.

(** ** No fault on well-formed vectors *)

(** A loop whose condition and body return while an invariant holds ends
    in a state, unless it runs out of fuel. *)
Lemma while_no_fault (S : Type) (cond : S -> M bool) (body : S -> M S)
    (inv : S -> Prop) :
  (forall s, inv s -> exists b, result_of (cond s) = Ret b) ->
  (forall s, inv s -> result_of (cond s) = Ret true ->
     exists s', result_of (body s) = Ret s' /\ inv s') ->
  forall fuel s, inv s ->
    result_of (while fuel cond body s) = Stuck OutOfFuel \/
    exists s', result_of (while fuel cond body s) = Ret s' /\ inv s' /\
               result_of (cond s') = Ret false.
Proof.
  intros Hc Hb fuel. induction fuel as [| fuel IH]; intros s Hinv.
  - left. reflexivity.
  - rewrite while_unfold, result_bind.
    destruct (Hc s Hinv) as ([|] & Ec); rewrite Ec.
    + destruct (Hb s Hinv Ec) as (s1 & Eb & Hinv1).
      rewrite result_bind, Eb. apply IH. assumption.
    + right. exists s. auto.
Qed.

Lemma Forall_upd (P : Z -> Prop) (v : vec) (n : nat) (x : Z) :
  Forall P v -> P x -> Forall P (upd v n x).
Proof.
  intros Hv Hx. revert n. induction Hv as [| y v Hy Hv IH]; intros [| n];
    cbn [upd]; constructor; auto.
Qed.

(** *** Byte Compaction *)

Lemma ByteCompaction_924_no_fault (cw : list Z) (ci : Z) :
  0 <= ci -> item cw 0 <= Z.of_nat (List.length cw) ->
  (0 < List.length cw)%nat ->
  exists ci' bytes,
    result_of (ByteCompaction_924 cw ci) = Ret (ci', bytes).
Proof.
  intros H0 Hcount Hcw. unfold ByteCompaction_924.
  destruct (@while_no_fault _ (ByteCompaction6_cond cw)
              (ByteCompaction6_body cw) (fun st => 0 <= s_codeIndex st))
    with (fuel := fuel_from cw ci) (s := mkByte6State ci 0 0 false [])
    as [Hfuel | (st & Hw & _)].
  - intros s _. rewrite ByteCompaction6_cond_eq by assumption.
    eexists. reflexivity.
  - intros s Hinv Hc. apply ByteCompaction6_cond_true in Hc.
    destruct Hc as [Hlt _].
    unfold ByteCompaction6_body. rewrite result_bind, rd_in by lia.
    cbn [result_of snd].
    match goal with
    | |- context [if group_full (s_count ?x) then _ else _] =>
        set (st1 := x);
        assert (H1 : 0 <= s_codeIndex st1)
    end.
    { subst st1.
      destruct (item cw (s_codeIndex s) <? TEXT_COMPACTION_MODE_LATCH);
        [| destruct (byte_stop (item cw (s_codeIndex s)))];
        cbn [s_codeIndex]; lia. }
    destruct (group_full (s_count st1)); eexists; (split; [reflexivity |]);
      cbn [s_codeIndex]; assumption.
  - cbn [s_codeIndex]. assumption.
  - exfalso. revert Hfuel. apply Byte6_loop_not_fuel.
    unfold remaining, fuel_from. cbn [s_end s_codeIndex]. lia.
  - rewrite result_bind, Hw. cbn [result_of snd ret]. eauto.
Qed.

Lemma group_full_bound (c : Z) :
  1 <= c <= 5 -> group_full c = false -> c <= 4.
Proof.
  intros Hc Hg. unfold group_full in Hg.
  destruct (Z.eq_dec c 5) as [-> | Hne]; [discriminate Hg | lia].
Qed.

Lemma push_raw_ret (bcc : vec) (n : nat) :
  forall (bytes : list Z),
  (n <= List.length bcc)%nat ->
  exists bytes', for_range n 0 (push_raw bcc) bytes = ret bytes'.
Proof.
  intros bytes Hn.
  destruct (@for_range_ret _ (push_raw bcc) (fun i _ => 0 <= i)
              (Z.of_nat n)) with (n := n) (i := 0) (s := bytes)
    as (bytes' & Hr & _).
  - intros i s Hi H0. unfold push_raw. rewrite vget_in by lia.
    rewrite bind_ret. eexists. split; [reflexivity | lia].
  - lia.
  - lia.
  - eauto.
Qed.

Lemma ByteCompaction_901_no_fault (cw : list Z) (ci : Z) :
  0 <= ci < Z.of_nat (List.length cw) ->
  item cw 0 <= Z.of_nat (List.length cw) ->
  exists ci' bytes,
    result_of (ByteCompaction_901 cw ci) = Ret (ci', bytes).
Proof.
  intros Hci Hcount.
  assert (Hcw : (0 < List.length cw)%nat) by lia.
  unfold ByteCompaction_901.
  rewrite result_bind, rd_in by lia. cbn [result_of snd].
  pose (inv := fun st : ByteState =>
    0 <= b_codeIndex st /\ 0 <= b_count st <= 5 /\
    (b_end st = false -> b_count st <= 4) /\
    List.length (byteCompactedCodewords st) = 6%nat).
  destruct (@while_no_fault _ (ByteCompaction_cond cw)
              (ByteCompaction_body cw) inv)
    with (fuel := fuel_from cw (ci + 1))
         (s := mkByteState (ci + 1) 0 0 [0; 0; 0; 0; 0; 0] false (item cw ci) [])
    as [Hfuel | (st & Hw & (Hc0 & Hcnt & _ & Hlen) & _)].
  - intros s _. rewrite ByteCompaction_cond_eq by assumption.
    eexists. reflexivity.
  - intros s (Hs0 & Hscnt & Hs4 & Hslen) Hc.
    apply ByteCompaction_cond_true in Hc. destruct Hc as [Hlt He].
    specialize (Hs4 He).
    unfold ByteCompaction_body.
    rewrite vset_in, bind_ret by lia.
    rewrite result_bind, rd_in by lia. cbn [result_of snd].
    destruct (byte_stop (item cw (b_codeIndex s))).
    + eexists. split; [reflexivity |]. unfold inv.
      cbn [b_codeIndex b_count b_end byteCompactedCodewords].
      rewrite upd_length. repeat split; try lia; discriminate.
    + destruct (group_full (b_count s + 1)) eqn:Eg.
      * eexists. split; [reflexivity |]. unfold inv.
        cbn [b_codeIndex b_count b_end byteCompactedCodewords].
        rewrite upd_length. repeat split; try lia.
      * eexists. split; [reflexivity |]. unfold inv.
        cbn [b_codeIndex b_count b_end byteCompactedCodewords].
        rewrite upd_length. repeat split; try lia.
        intros _. apply group_full_bound; [lia | assumption].
  - unfold inv. cbn [b_codeIndex b_count b_end byteCompactedCodewords
                       List.length]. repeat split; lia.
  - exfalso. revert Hfuel. apply Byte_loop_not_fuel.
    unfold remaining, fuel_from. cbn [b_end b_codeIndex]. lia.
  - rewrite result_bind, Hw. unfold ByteCompaction_tail.
    rewrite result_bind, rd_in by lia. cbn [result_of snd].
    destruct ((b_codeIndex st =? item cw 0)
              && (nextCode st <? TEXT_COMPACTION_MODE_LATCH)).
    + rewrite vset_in, !bind_ret by lia.
      destruct (@push_raw_ret
                  (upd (byteCompactedCodewords st) (Z.to_nat (b_count st))
                     (nextCode st))
                  (Z.to_nat (b_count st + 1)) (decodedBytes st))
        as (bytes & ->); [rewrite upd_length; lia |].
      rewrite bind_ret. cbn [result_of snd ret]. eauto.
    + rewrite bind_ret.
      destruct (@push_raw_ret (byteCompactedCodewords st)
                  (Z.to_nat (b_count st)) (decodedBytes st))
        as (bytes & ->); [lia |].
      rewrite bind_ret. cbn [result_of snd ret]. eauto.
Qed.

Lemma ByteCompaction_bytes_no_fault (mode : Z) (cw : list Z) (ci : Z) :
  0 <= ci < Z.of_nat (List.length cw) ->
  item cw 0 <= Z.of_nat (List.length cw) ->
  exists ci' bytes,
    result_of (ByteCompaction_bytes mode cw ci) = Ret (ci', bytes).
Proof.
  intros Hci Hcount. unfold ByteCompaction_bytes.
  destruct (mode =? BYTE_COMPACTION_MODE_LATCH);
    [apply ByteCompaction_901_no_fault; assumption |].
  destruct (mode =? BYTE_COMPACTION_MODE_LATCH_6);
    [apply ByteCompaction_924_no_fault; lia |].
  cbn [result_of snd ret]. eauto.
Qed.

(** *** Numeric Compaction *)

Lemma DecodeBase900toBase10_no_fault (codewords : vec) (count : Z) :
  0 <= count <= 16 -> count <= Z.of_nat (List.length codewords) ->
  exists r, DecodeBase900toBase10 codewords count = ret r.
Proof.
  intros Hc Hlen.
  assert (Hk : exists k, count = Z.of_nat k) by (exists (Z.to_nat count); lia).
  destruct Hk as (k & ->).
  rewrite DecodeBase900toBase10_spec by lia. eauto.
Qed.

Lemma NumericCompaction_flush_no_fault (st : NumericState) :
  List.length (numericCodewords st) = 15%nat ->
  0 <= n_count st <= 15 ->
  exists st',
    result_of (NumericCompaction_flush st) = Ret st' /\
    n_codeIndex st' = n_codeIndex st /\
    numericCodewords st' = numericCodewords st /\
    (n_status st' = NoError -> n_count st' = 0).
Proof.
  intros Hlen Hcount. unfold NumericCompaction_flush.
  destruct (Z.gtb_spec (n_count st) 0) as [Hpos | Hzero].
  - destruct (@DecodeBase900toBase10_no_fault (numericCodewords st)
                (n_count st)) as ([s tmp] & ->); [lia | lia |].
    rewrite bind_ret.
    destruct s; cbn [StatusIsError]; eexists; (split; [reflexivity |]);
      cbn [n_codeIndex numericCodewords n_status n_count];
      repeat split; try reflexivity; discriminate.
  - exists st. repeat split. intros _. lia.
Qed.

Lemma NumericCompaction_no_fault (cw : list Z) (ci : Z) (result : String)
    (next : Z) :
  0 <= ci -> item cw 0 <= Z.of_nat (List.length cw) ->
  (0 < List.length cw)%nat ->
  exists s r ci',
    result_of (NumericCompaction cw ci result next) = Ret (s, r, ci').
Proof.
  intros H0 Hcount Hcw. unfold NumericCompaction.
  unfold vnew, MAX_NUMERIC_CODEWORDS. cbn [Z.ltb Z.compare].
  rewrite bind_ret.
  pose (inv := fun st : NumericState =>
    0 <= n_codeIndex st /\ List.length (numericCodewords st) = 15%nat /\
    (n_status st = NoError -> 0 <= n_count st <= 14)).
  destruct (@while_no_fault _ (NumericCompaction_cond cw)
              (NumericCompaction_body cw) inv)
    with (fuel := fuel_from cw ci)
         (s := mkNumericState ci 0 false (repeat 0 (Z.to_nat 15)) result
                 NoError)
    as [Hfuel | (st & Hw & _)].
  - intros s _. unfold NumericCompaction_cond.
    destruct (StatusIsError (n_status s)); [eexists; reflexivity |].
    rewrite result_bind, rd_in by lia. eexists. reflexivity.
  - intros s (Hs0 & Hslen & Hscnt) Hc.
    apply NumericCompaction_cond_true in Hc. destruct Hc as (Hlt & He & Hs).
    specialize (Hscnt Hs).
    unfold NumericCompaction_body.
    rewrite result_bind, rd_in by lia. cbn [result_of snd].
    rewrite result_bind, rd_in by lia. cbn [result_of snd].
    set (c := item cw (n_codeIndex s)).
    set (e := if n_codeIndex s + 1 =? item cw 0 then true else n_end s).
    assert (Hst1 : exists st1,
      (if c <? TEXT_COMPACTION_MODE_LATCH
       then nc <- vset (numericCodewords s) (n_count s) c ;;
            ret (mkNumericState (n_codeIndex s + 1) (n_count s + 1) e nc
                   (n_result s) (n_status s))
       else if numeric_stop c
            then ret (mkNumericState (n_codeIndex s + 1 - 1) (n_count s) true
                        (numericCodewords s) (n_result s) (n_status s))
            else ret (mkNumericState (n_codeIndex s + 1) (n_count s) e
                        (numericCodewords s) (n_result s) (n_status s)))
      = ret st1 /\
      0 <= n_codeIndex st1 /\ List.length (numericCodewords st1) = 15%nat /\
      0 <= n_count st1 <= 15 /\ n_status st1 = NoError).
    { destruct (c <? TEXT_COMPACTION_MODE_LATCH).
      - rewrite vset_in, bind_ret by lia. eexists. split; [reflexivity |].
        cbn [n_codeIndex numericCodewords n_count n_status].
        rewrite upd_length. repeat split; try lia; assumption.
      - destruct (numeric_stop c); eexists; (split; [reflexivity |]);
          cbn [n_codeIndex numericCodewords n_count n_status];
          repeat split; try lia; assumption. }
    destruct Hst1 as (st1 & -> & H10 & H1len & H1cnt & H1s).
    rewrite bind_ret.
    destruct ((Z.rem (n_count st1) MAX_NUMERIC_CODEWORDS =? 0)
              || (c =? NUMERIC_COMPACTION_MODE_LATCH) || n_end st1) eqn:Ef.
    + destruct (NumericCompaction_flush_no_fault st1 H1len H1cnt)
        as (st' & Hf & Hci & Hnc & Hz).
      exists st'. split; [assumption |]. unfold inv.
      rewrite Hci, Hnc. split; [assumption |]. split; [assumption |].
      intros Hs'. rewrite (Hz Hs'). lia.
    + exists st1. split; [reflexivity |]. unfold inv.
      repeat split; try assumption; try lia.
      apply orb_false_iff in Ef. destruct Ef as [Ef _].
      apply orb_false_iff in Ef. destruct Ef as [Ef _].
      unfold MAX_NUMERIC_CODEWORDS in Ef.
      destruct (Z.eq_dec (n_count st1) 15) as [E15 | N15]; [| lia].
      rewrite E15 in Ef. discriminate Ef.
  - unfold inv. cbn [n_codeIndex numericCodewords n_status n_count].
    rewrite repeat_length. repeat split; lia.
  - exfalso. revert Hfuel. apply Numeric_loop_not_fuel.
    unfold remaining, fuel_from. cbn [n_end n_codeIndex]. lia.
  - rewrite result_bind, Hw. cbn [result_of snd ret].
    destruct (NumericCompaction_return st next) as [[s r] ci'].
    eauto.
Qed.

(** *** Text Compaction *)

Lemma TextCompaction_no_fault (cw : list Z) (ci : Z) (result : String) :
  Forall (fun c => 0 <= c) cw ->
  0 <= ci <= item cw 0 -> item cw 0 < Z.of_nat (List.length cw) ->
  exists ci' r, result_of (TextCompaction cw ci result) = Ret (ci', r).
Proof.
  intros Hpos Hci Hcount.
  assert (Hcw : (0 < List.length cw)%nat) by lia.
  unfold TextCompaction.
  rewrite result_bind, rd_in by lia. cbn [result_of snd].
  unfold vnew.
  destruct (Z.ltb_spec ((item cw 0 - ci) * 2) 0); [lia |].
  rewrite bind_ret. rewrite result_bind. cbn [result_of snd].
  destruct (Z.ltb_spec ((item cw 0 - ci) * 2) 0); [lia |].
  rewrite bind_ret.
  set (zeros := repeat 0 (Z.to_nat ((item cw 0 - ci) * 2))).
  assert (Hz : Z.of_nat (List.length zeros) = 2 * (item cw 0 - ci))
    by (subst zeros; rewrite repeat_length; lia).
  pose (inv := fun st : TextState =>
    ci <= t_codeIndex st /\ 0 <= t_index st /\
    t_index st <= 2 * (t_codeIndex st - ci) /\
    t_index st <= 2 * (item cw 0 - ci) /\
    Z.of_nat (List.length (textCompactionData st)) = 2 * (item cw 0 - ci) /\
    Z.of_nat (List.length (byteCompactionData st)) = 2 * (item cw 0 - ci) /\
    Forall (fun v => 0 <= v) (textCompactionData st)).
  destruct (@while_no_fault _ (TextCompaction_cond cw)
              (TextCompaction_body cw) inv)
    with (fuel := fuel_from cw ci) (s := mkTextState ci 0 false zeros zeros)
    as [Hfuel | (st & Hw & (_ & Hi0 & _ & HiL & Htl & Hbl & Htpos) & _)].
  - intros s _. rewrite TextCompaction_cond_eq by assumption.
    eexists. reflexivity.
  - intros s (Hs1 & Hs2 & Hs3 & Hs4 & Hs5 & Hs6 & Hs7) Hc.
    apply TextCompaction_cond_true in Hc. destruct Hc as [Hlt He].
    assert (Hc0 : 0 <= item cw (t_codeIndex s))
      by (apply (Forall_item Hpos); lia).
    unfold TextCompaction_body.
    rewrite result_bind, rd_in by lia. cbn [result_of snd].
    destruct (Z.ltb_spec (item cw (t_codeIndex s)) TEXT_COMPACTION_MODE_LATCH).
    { rewrite vset_in, bind_ret by lia.
      rewrite vset_in, bind_ret by (rewrite upd_length; lia).
      eexists. split; [reflexivity |]. unfold inv.
      cbn [t_codeIndex t_index textCompactionData byteCompactionData].
      rewrite !upd_length.
      repeat split; try lia.
      apply Forall_upd; [apply Forall_upd; [assumption |] |].
      - apply Z.quot_pos; lia.
      - apply Z.rem_nonneg; lia. }
    destruct (item cw (t_codeIndex s) =? TEXT_COMPACTION_MODE_LATCH).
    { rewrite vset_in, bind_ret by lia.
      eexists. split; [reflexivity |]. unfold inv.
      cbn [t_codeIndex t_index textCompactionData byteCompactionData].
      rewrite !upd_length.
      repeat split; try lia.
      apply Forall_upd; [assumption |]. unfold TEXT_COMPACTION_MODE_LATCH.
      lia. }
    destruct (text_stop (item cw (t_codeIndex s))).
    { eexists. split; [reflexivity |]. unfold inv.
      cbn [t_codeIndex t_index textCompactionData byteCompactionData].
      repeat split; try lia; assumption. }
    destruct (item cw (t_codeIndex s) =? MODE_SHIFT_TO_BYTE_COMPACTION_MODE).
    { rewrite vset_in, bind_ret by lia.
      rewrite result_bind, rd_in by lia. cbn [result_of snd].
      rewrite vset_in, bind_ret by lia.
      eexists. split; [reflexivity |]. unfold inv.
      cbn [t_codeIndex t_index textCompactionData byteCompactionData].
      rewrite !upd_length.
      repeat split; try lia.
      apply Forall_upd; [assumption |].
      unfold MODE_SHIFT_TO_BYTE_COMPACTION_MODE. lia. }
    eexists. split; [reflexivity |]. unfold inv.
    cbn [t_codeIndex t_index textCompactionData byteCompactionData].
    repeat split; try lia; assumption.
  - unfold inv.
    cbn [t_codeIndex t_index textCompactionData byteCompactionData].
    repeat split; try lia.
    subst zeros. apply Forall_forall. intros x Hx.
    apply repeat_spec in Hx. lia.
  - exfalso. revert Hfuel. apply Text_loop_not_fuel.
    unfold remaining, fuel_from. cbn [t_end t_codeIndex]. lia.
  - rewrite result_bind, Hw.
    destruct (@DecodeTextCompaction_loop_total (textCompactionData st)
                (byteCompactionData st) (t_index st) result)
      as (dst & suffix & Hrun & _); [assumption | lia | lia |].
    unfold DecodeTextCompaction. rewrite Hrun, !bind_ret.
    cbn [result_of snd ret]. eauto.
Qed.

(** *** The dispatcher *)

Section NoFault.

Variable CharacterSet : Type.
Variable ISO8859_1 : CharacterSet.
Variable CharsetFromValue : Z -> CharacterSet.
Variable toUnicode : list Z -> CharacterSet -> String.
Variable newExtra : DecoderResultExtra.

Local Abbreviation Decode_switch := (Decode_switch CharsetFromValue toUnicode).
Local Abbreviation Decode_body := (Decode_body CharsetFromValue toUnicode).
Local Abbreviation Decode_from := (Decode_from CharsetFromValue toUnicode).
Local Abbreviation Decode :=
  (Decode ISO8859_1 CharsetFromValue toUnicode newExtra).
Local Abbreviation DecodeState := (DecodeState CharacterSet).

Lemma Decode_switch_no_fault (cw : list Z) (st : DecodeState) :
  Forall (fun c => 0 <= c) cw ->
  item cw 0 < Z.of_nat (List.length cw) ->
  1 <= codeIndex st < item cw 0 ->
  code st <> BEGIN_MACRO_PDF417_CONTROL_BLOCK ->
  exists st1, result_of (Decode_switch cw st) = Ret st1.
Proof.
  intros Hpos Hcount Hci Hcode. unfold Decode_switch.
  destruct (code st =? TEXT_COMPACTION_MODE_LATCH).
  { destruct (@TextCompaction_no_fault cw (codeIndex st) (resultString st))
      as (ci' & r & Ht); [assumption | lia | assumption |].
    rewrite result_bind, Ht. cbn [result_of snd ret]. eauto. }
  destruct ((code st =? BYTE_COMPACTION_MODE_LATCH)
            || (code st =? BYTE_COMPACTION_MODE_LATCH_6)).
  { destruct (@ByteCompaction_bytes_no_fault (code st) cw (codeIndex st))
      as (ci' & bytes & Hb); [lia | lia |].
    unfold ByteCompaction. rewrite !result_bind, Hb.
    cbn [result_of snd ret]. eauto. }
  destruct (code st =? MODE_SHIFT_TO_BYTE_COMPACTION_MODE).
  { rewrite result_bind, rd_in by lia. cbn [result_of snd ret]. eauto. }
  destruct (code st =? NUMERIC_COMPACTION_MODE_LATCH).
  { destruct (@NumericCompaction_no_fault cw (codeIndex st) (resultString st)
                (codeIndex st)) as (s & r & ci' & Hn); [lia | lia | lia |].
    rewrite result_bind, Hn. cbn [result_of snd ret]. eauto. }
  destruct (code st =? ECI_CHARSET).
  { rewrite result_bind, rd_in by lia. cbn [result_of snd ret]. eauto. }
  destruct (code st =? ECI_GENERAL_PURPOSE);
    [cbn [result_of snd ret]; eauto |].
  destruct (code st =? ECI_USER_DEFINED);
    [cbn [result_of snd ret]; eauto |].
  destruct (Z.eqb_spec (code st) BEGIN_MACRO_PDF417_CONTROL_BLOCK);
    [contradiction |].
  destruct ((code st =? BEGIN_MACRO_PDF417_OPTIONAL_FIELD)
            || (code st =? MACRO_PDF417_TERMINATOR));
    [cbn [result_of snd ret]; eauto |].
  destruct (@TextCompaction_no_fault cw (codeIndex st - 1) (resultString st))
    as (ci' & r & Ht); [assumption | lia | assumption |].
  rewrite result_bind, Ht. cbn [result_of snd ret]. eauto.
Qed.

(** The decode does not fault on a well-formed vector without a macro
    block.  When the vector has two codewords at least, no codeword is
    negative, the declared count is smaller than the size of the vector
    (a codeword follows the data) and no codeword after the first is the
    macro control block 928, [Decode] returns a status: no read of the
    codewords, of a table or of a local buffer is out of bounds, no vector
    is made with a negative size, and the loops end. *)
Theorem Decode_no_fault (cw : list Z) (ec : Z) (result : DecoderResult) :
  (2 <= List.length cw)%nat ->
  Forall (fun c => 0 <= c) cw ->
  item cw 0 < Z.of_nat (List.length cw) ->
  (forall i, 1 <= i < Z.of_nat (List.length cw) ->
     item cw i <> BEGIN_MACRO_PDF417_CONTROL_BLOCK) ->
  exists s r, result_of (Decode cw ec result) = Ret (s, r).
Proof.
  intros Hlen Hpos Hcount Hmacro. unfold Decode.
  rewrite result_bind, rd_in by lia. cbn [result_of snd].
  unfold Decode_from. rewrite result_bind.
  pose (inv := fun st : DecodeState =>
    2 <= codeIndex st /\ code_before_cursor cw st).
  destruct (@while_no_fault _ (@Decode_cond CharacterSet cw) (Decode_body cw) inv)
    with (fuel := fuel_from cw 2)
         (s := mkDecodeState 2 (item cw 1) NoError
                 (DEFAULT_ENCODING ISO8859_1) [] newExtra)
    as [Hfuel | (st & Hw & _)].
  - intros s _. unfold Decode_cond. rewrite result_bind, rd_in by lia.
    eexists. reflexivity.
  - intros s (Hs2 & Hsc) Hc.
    assert (Hc' := Hc). apply Decode_cond_true in Hc'.
    destruct Hc' as (_ & Hlt & Hs).
    assert (Hcode : code s = item cw (codeIndex s - 1))
      by (destruct Hsc as [Herr | Hcode]; [congruence | assumption]).
    destruct (@Decode_switch_no_fault cw s) as (st1 & Hsw);
      [assumption | assumption | lia | rewrite Hcode; apply Hmacro; lia |].
    assert (Hcur := @Decode_switch_cursor _ CharsetFromValue toUnicode cw s
                      st1 Hlt Hcode Hsw).
    assert (Hbody : exists s', result_of (Decode_body cw s) = Ret s' /\
                               2 <= codeIndex s').
    { unfold Decode_body. rewrite result_bind, Hsw.
      rewrite Decode_fetch_guard by lia.
      destruct (codeIndex st1 <? Z.of_nat (List.length cw));
        eexists; (split; [reflexivity |]); cbn [codeIndex]; lia. }
    destruct Hbody as (s' & Hb & Hs').
    exists s'. split; [assumption |]. split; [assumption |].
    eapply Decode_body_progress; eassumption.
  - split; [cbn [codeIndex]; lia |]. right. reflexivity.
  - exfalso. revert Hfuel. apply Decode_loop_not_fuel.
    + right. reflexivity.
    + unfold remaining, fuel_from. cbn [status StatusIsError codeIndex]. lia.
  - rewrite Hw. cbn [result_of snd ret].
    destruct (Decode_finish ec result st) as [s r]. eauto.
Qed.

End NoFault.

Lemma Decode_no_fault_witness :
  exists s r,
    result_of (Sample.run [6; 900; 214; 913; 200; 902; 0; 1] 0) = Ret (s, r).
Proof.
  apply (@Decode_no_fault Sample.CharacterSet Sample.ISO8859_1
           Sample.CharsetFromValue Sample.toUnicode Sample.newExtra
           [6; 900; 214; 913; 200; 902; 0; 1] 0 Sample.noResult).
  - simpl. lia.
  - repeat (apply Forall_cons; [lia |]). apply Forall_nil.
  - vm_compute. reflexivity.
  - intros i Hi. cbn [List.length Z.of_nat Pos.of_succ_nat Pos.succ] in Hi.
    assert (Hcases : i = 1 \/ i = 2 \/ i = 3 \/ i = 4 \/ i = 5 \/ i = 6
                     \/ i = 7) by lia.
    destruct Hcases as [-> | [-> | [-> | [-> | [-> | [-> | ->]]]]]];
      vm_compute; discriminate.
Defined.

(** ** How far the codewords are read *)

(** *** Text Compaction *)

Lemma TextCompaction_body_upper (cw : list Z) (s s' : TextState) :
  result_of (TextCompaction_body cw s) = Ret s' ->
  t_codeIndex s' <= t_codeIndex s + 2.
Proof.
  intros H. unfold TextCompaction_body in H.
  take_apart H; injection H as <-; cbn [t_codeIndex]; lia.
Qed.

Lemma Text_loop_upper (cw : list Z) (fuel : nat) (s s' : TextState) :
  t_codeIndex s <= item cw 0 + 1 ->
  result_of (while fuel (TextCompaction_cond cw) (TextCompaction_body cw) s)
  = Ret s' ->
  t_codeIndex s' <= item cw 0 + 1.
Proof.
  intros Hhi H.
  apply (@while_inv _ _ _ (fun s => t_codeIndex s <= item cw 0 + 1)) in H.
  - apply H.
  - intros s0 s1 H0 Hc Hb. apply TextCompaction_cond_true in Hc.
    apply TextCompaction_body_upper in Hb. lia.
  - assumption.
Qed.

(** [TextCompaction] hands back a cursor that is at most one past the
    declared count. *)
Lemma TextCompaction_upper (cw : list Z) (ci : Z) (result : String)
    (ci' : Z) (result' : String) :
  result_of (TextCompaction cw ci result) = Ret (ci', result') ->
  ci' <= item cw 0 + 1.
Proof.
  intros H. unfold TextCompaction in H.
  rewrite result_bind in H.
  destruct (result_of (rd cw 0)) as [c0 |] eqn:E0; [| discriminate H].
  apply rd_Ret in E0. destruct E0 as [Hcw ->].
  rewrite result_bind in H. unfold vnew in H.
  destruct (Z.ltb_spec ((item cw 0 - ci) * 2) 0); [discriminate H |].
  cbn [result_of snd ret] in H.
  rewrite result_bind in H.
  destruct (result_of (rd cw 0)) as [c0 |]; [| discriminate H].
  rewrite result_bind in H.
  destruct ((c0 - ci) * 2 <? 0); [discriminate H |].
  cbn [result_of snd ret] in H.
  rewrite result_bind in H.
  match type of H with
  | match result_of ?m with _ => _ end = _ =>
      destruct (result_of m) as [st |] eqn:Ew; [| discriminate H]
  end.
  rewrite result_bind in H.
  destruct (result_of (DecodeTextCompaction (textCompactionData st)
                         (byteCompactionData st) (t_index st) result));
    [| discriminate H].
  cbn [result_of snd ret] in H. injection H as <- _.
  eapply Text_loop_upper; [| exact Ew]. cbn [t_codeIndex]. lia.
Qed.

Lemma reads_DecodeTextCompaction (P : Z -> Prop) (tcd bcd : vec) (len : Z)
    (result : String) :
  Forall P (reads (DecodeTextCompaction tcd bcd len result)).
Proof.
  unfold DecodeTextCompaction.
  apply reads_bind_Forall; [| intros; constructor].
  apply reads_for_range. intros i s.
  unfold DecodeTextCompaction_step.
  apply reads_bind_Forall; [reads_ok | intros v _].
  apply reads_bind_Forall; [| intros [st ch] _; constructor].
  unfold DecodeTextCompaction_switch, append_escaped.
  destruct (subMode s); reads_ok.
Qed.

(** Every codeword that [TextCompaction] reads is at its cursor or after
    it, and none is after the declared count; the codeword at the declared
    count is read only as the byte of an escape 913. *)
Lemma TextCompaction_reads (cw : list Z) (ci : Z) (result : String) :
  Forall (fun i => i = 0 \/ ci <= i <= item cw 0)
    (reads (TextCompaction cw ci result)).
Proof.
  unfold TextCompaction.
  apply reads_bind_Forall; [reads_ok; left; reflexivity | intros c0 _].
  apply reads_bind_Forall; [reads_ok | intros tcd _].
  apply reads_bind_Forall; [reads_ok; left; reflexivity | intros c1 _].
  apply reads_bind_Forall; [reads_ok | intros bcd _].
  apply reads_bind_Forall.
  - apply (@while_reads _ _ _ (fun s => ci <= t_codeIndex s)).
    + intros s _. unfold TextCompaction_cond. reads_ok. left; reflexivity.
    + intros s Hinv Hc. apply TextCompaction_cond_true in Hc.
      destruct Hc as (Hlt & _). unfold TextCompaction_body.
      apply reads_bind_Forall; [reads_ok; right; lia | intros c _].
      reads_ok; right; lia.
    + intros s s' Hinv _ Hb. apply TextCompaction_body_progress in Hb. lia.
    + cbn [t_codeIndex]. lia.
  - intros st _.
    apply reads_bind_Forall; [apply reads_DecodeTextCompaction |].
    intros; constructor.
Qed.
(** *** Byte Compaction and Numeric Compaction *)

Lemma Byte_loop_upper (cw : list Z) (fuel : nat) (s s' : ByteState) (hi : Z) :
  item cw 0 <= hi -> b_codeIndex s <= hi ->
  result_of (while fuel (ByteCompaction_cond cw) (ByteCompaction_body cw) s)
  = Ret s' ->
  b_codeIndex s' <= hi.
Proof.
  intros Hhi Hs H.
  apply (@while_inv _ _ _ (fun s => b_codeIndex s <= hi)) in H.
  - apply H.
  - intros s0 s1 H0 Hc Hb. apply ByteCompaction_cond_true in Hc.
    unfold ByteCompaction_body in Hb.
    take_apart Hb; injection Hb as <-; cbn [b_codeIndex]; lia.
  - assumption.
Qed.

Lemma Byte6_loop_upper (cw : list Z) (fuel : nat) (s s' : Byte6State)
    (hi : Z) :
  item cw 0 <= hi -> s_codeIndex s <= hi ->
  result_of (while fuel (ByteCompaction6_cond cw) (ByteCompaction6_body cw) s)
  = Ret s' ->
  s_codeIndex s' <= hi.
Proof.
  intros Hhi Hs H.
  apply (@while_inv _ _ _ (fun s => s_codeIndex s <= hi)) in H.
  - apply H.
  - intros s0 s1 H0 Hc Hb. apply ByteCompaction6_cond_true in Hc.
    unfold ByteCompaction6_body in Hb.
    take_apart Hb; injection Hb as <-; cbn [s_codeIndex]; lia.
  - assumption.
Qed.

(** [ByteCompaction], called before the declared count, hands back a
    cursor that is not after the declared count. *)
Lemma ByteCompaction_bytes_upper (mode : Z) (cw : list Z) (ci ci' : Z)
    (bytes : list Z) :
  ci < item cw 0 ->
  result_of (ByteCompaction_bytes mode cw ci) = Ret (ci', bytes) ->
  ci' <= item cw 0.
Proof.
  intros Hlt. unfold ByteCompaction_bytes.
  destruct (mode =? BYTE_COMPACTION_MODE_LATCH);
    [| destruct (mode =? BYTE_COMPACTION_MODE_LATCH_6)].
  - unfold ByteCompaction_901. intros H.
    rewrite result_bind in H.
    destruct (result_of (rd cw ci)) as [next |]; [| discriminate H].
    rewrite result_bind in H.
    destruct (result_of (while (fuel_from cw (ci + 1)) (ByteCompaction_cond cw)
                (ByteCompaction_body cw)
                (mkByteState (ci + 1) 0 0 [0; 0; 0; 0; 0; 0] false next [])))
      as [st |] eqn:Ew; [| discriminate H].
    apply (@Byte_loop_upper _ _ _ _ (item cw 0)) in Ew;
      [| lia | cbn [b_codeIndex]; lia].
    unfold ByteCompaction_tail in H.
    take_apart H; injection H as <- _; assumption.
  - unfold ByteCompaction_924. intros H.
    rewrite result_bind in H.
    destruct (result_of (while (fuel_from cw ci) (ByteCompaction6_cond cw)
                (ByteCompaction6_body cw) (mkByte6State ci 0 0 false [])))
      as [st |] eqn:Ew; [| discriminate H].
    apply (@Byte6_loop_upper _ _ _ _ (item cw 0)) in Ew;
      [| lia | cbn [s_codeIndex]; lia].
    cbn [result_of snd ret] in H. injection H as <- _. assumption.
  - intros [= <- _]. lia.
Qed.

Lemma NumericCompaction_body_upper (cw : list Z) (s s' : NumericState) :
  result_of (NumericCompaction_body cw s) = Ret s' ->
  n_codeIndex s' <= n_codeIndex s + 1.
Proof.
  intros H. unfold NumericCompaction_body in H.
  rewrite result_bind in H.
  destruct (result_of (rd cw (n_codeIndex s))) as [c |]; [| discriminate H].
  rewrite result_bind in H.
  destruct (result_of (rd cw 0)) as [c0 |]; [| discriminate H].
  rewrite result_bind in H.
  match type of H with
  | match result_of ?m with _ => _ end = _ =>
      destruct (result_of m) as [s1 |] eqn:E1; [| discriminate H]
  end.
  assert (H1 : n_codeIndex s1 <= n_codeIndex s + 1).
  { take_apart E1; injection E1 as <-; cbn [n_codeIndex]; lia. }
  destruct ((Z.rem (n_count s1) MAX_NUMERIC_CODEWORDS =? 0)
            || (c =? NUMERIC_COMPACTION_MODE_LATCH) || n_end s1).
  - apply NumericCompaction_flush_frame in H. destruct H as (-> & _).
    exact H1.
  - cbn [result_of snd ret] in H. injection H as <-. exact H1.
Qed.

(** [NumericCompaction], called before the declared count, hands back a
    cursor that is not after the declared count, or [next] as it was. *)
Lemma NumericCompaction_upper (cw : list Z) (ci : Z) (result : String)
    (next : Z) (s : ErrorStatus) (result' : String) (ci' : Z) :
  ci <= item cw 0 ->
  result_of (NumericCompaction cw ci result next) = Ret (s, result', ci') ->
  ci' = next \/ ci' <= item cw 0.
Proof.
  intros Hle. unfold NumericCompaction. intros H.
  rewrite result_bind in H.
  destruct (result_of (vnew MAX_NUMERIC_CODEWORDS)) as [nc |];
    [| discriminate H].
  rewrite result_bind in H.
  destruct (result_of (while (fuel_from cw ci) (NumericCompaction_cond cw)
              (NumericCompaction_body cw)
              (mkNumericState ci 0 false nc result NoError)))
    as [st |] eqn:Ew; [| discriminate H].
  apply (@while_inv _ _ _ (fun s => n_codeIndex s <= item cw 0)) in Ew.
  - destruct Ew as [Ew _].
    cbn [result_of snd ret] in H. unfold NumericCompaction_return in H.
    destruct (StatusIsError (n_status st)); injection H as _ _ <-;
      [left; reflexivity | right; assumption].
  - intros s0 s1 H0 Hc Hb. apply NumericCompaction_cond_true in Hc.
    apply NumericCompaction_body_upper in Hb. lia.
  - cbn [n_codeIndex]. assumption.
Qed.

(** *** Macro block *)

Lemma reads_stoi (P : Z -> Prop) (s : string) : Forall P (reads (stoi s)).
Proof.
  unfold stoi. destruct (NilZero.uint_of_string s) as [u |]; [| constructor].
  destruct (Z.of_uint u <=? INT_MAX); constructor.
Qed.

Lemma Optional_loop_upper (cw : list Z) (fuel : nat) (s s' : OptionalState) :
  o_codeIndex s <= item cw 0 + 1 ->
  result_of (while fuel (Optional_cond cw) (Optional_body cw) s) = Ret s' ->
  o_codeIndex s' <= item cw 0 + 1.
Proof.
  intros Hs H.
  apply (@while_inv _ _ _ (fun s => o_codeIndex s <= item cw 0 + 1)) in H.
  - apply H.
  - intros s0 s1 H0 Hc Hb. apply Optional_cond_true in Hc.
    unfold Optional_body in Hb.
    take_apart Hb; injection Hb as <-; cbn [o_codeIndex]; lia.
  - assumption.
Qed.

Lemma copy_segment_index_two (cw : list Z) (ci : Z) (v seg : vec) (ci1 : Z) :
  result_of (for_range (Z.to_nat NUMBER_OF_SEQUENCE_CODEWORDS) 0
               (copy_segment_index cw) (v, ci)) = Ret (seg, ci1) ->
  ci1 = ci + 2.
Proof.
  change (Z.to_nat NUMBER_OF_SEQUENCE_CODEWORDS) with 2%nat.
  cbn [for_range]. unfold copy_segment_index. intros H.
  take_apart H. injection H as ->.
  cbn [result_of ret snd] in E1. injection E1 as <-.
  take_apart E2. injection E2 as _ <-. lia.
Qed.

(** [DecodeMacroBlock] hands back a cursor that is at most two past the
    declared count, or [next] as it was. *)
Lemma DecodeMacroBlock_upper (cw : list Z) (ci : Z)
    (meta : DecoderResultExtra) (next : Z) (s : ErrorStatus)
    (meta' : DecoderResultExtra) (ci' : Z) :
  result_of (DecodeMacroBlock cw ci meta next) = Ret (s, meta', ci') ->
  ci' = next \/ ci' <= item cw 0 + 2.
Proof.
  unfold DecodeMacroBlock. intros H.
  rewrite result_bind in H.
  destruct (result_of (rd cw 0)) as [c0 |] eqn:E0; [| discriminate H].
  apply rd_Ret in E0. destruct E0 as [Hcw ->].
  destruct (ci + NUMBER_OF_SEQUENCE_CODEWORDS >? item cw 0).
  { cbn [result_of snd ret] in H. injection H as _ _ <-. left; reflexivity. }
  rewrite result_bind in H.
  destruct (result_of (vnew NUMBER_OF_SEQUENCE_CODEWORDS)) as [v |];
    [| discriminate H].
  rewrite result_bind in H.
  match type of H with
  | match result_of ?m with _ => _ end = _ =>
      destruct (result_of m) as [[seg ci1] |]; [| discriminate H]
  end.
  rewrite result_bind in H.
  destruct (result_of (DecodeBase900toBase10 seg NUMBER_OF_SEQUENCE_CODEWORDS))
    as [[st strBuf] |]; [| discriminate H].
  destruct (StatusIsError st).
  { cbn [result_of snd ret] in H. injection H as _ _ <-. left; reflexivity. }
  rewrite result_bind in H.
  destruct (result_of (stoi strBuf)) as [n |]; [| discriminate H].
  rewrite result_bind in H.
  destruct (result_of (TextCompaction cw ci1 [])) as [[ci2 fileId] |] eqn:Et;
    [| discriminate H].
  apply TextCompaction_upper in Et.
  rewrite result_bind in H.
  destruct (result_of (rd cw ci2)) as [c |]; [| discriminate H].
  destruct (c =? BEGIN_MACRO_PDF417_OPTIONAL_FIELD).
  - rewrite result_bind in H.
    destruct (result_of (rd cw 0)) as [c1 |] eqn:E1; [| discriminate H].
    apply rd_Ret in E1. destruct E1 as [_ ->].
    destruct (Z.ltb_spec (item cw 0 - (ci2 + 1)) 0); [discriminate H |].
    rewrite result_bind in H.
    match type of H with
    | match result_of ?m with _ => _ end = _ =>
        destruct (result_of m) as [os |] eqn:Ew; [| discriminate H]
    end.
    apply Optional_loop_upper in Ew; [| cbn [o_codeIndex]; lia].
    destruct (StatusIsError (o_status os));
      cbn [result_of snd ret] in H; injection H as _ _ <-;
      [left; reflexivity | right; lia].
  - rewrite result_bind in H.
    destruct (result_of (rd cw ci2)) as [c1 |]; [| discriminate H].
    destruct (c1 =? MACRO_PDF417_TERMINATOR);
      cbn [result_of snd ret] in H; injection H as _ _ <-; right; lia.
Qed.

(** Every codeword that [DecodeMacroBlock] reads is at its cursor or after
    it, and none is more than one past the declared count. *)
Lemma DecodeMacroBlock_reads (cw : list Z) (ci : Z)
    (meta : DecoderResultExtra) (next : Z) :
  Forall (fun i => i = 0 \/ ci <= i <= item cw 0 + 1)
    (reads (DecodeMacroBlock cw ci meta next)).
Proof.
  unfold DecodeMacroBlock.
  apply reads_bind_Forall; [reads_ok; left; reflexivity | intros c0 E0].
  apply rd_Ret in E0. destruct E0 as [_ ->].
  destruct (Z.gtb_spec (ci + NUMBER_OF_SEQUENCE_CODEWORDS) (item cw 0))
    as [Hgt | Hle]; [constructor |].
  unfold NUMBER_OF_SEQUENCE_CODEWORDS in Hle.
  apply reads_bind_Forall; [reads_ok | intros v _].
  apply reads_bind_Forall.
  { change (Z.to_nat NUMBER_OF_SEQUENCE_CODEWORDS) with 2%nat.
    cbn [for_range].
    apply reads_bind_Forall;
      [unfold copy_segment_index; reads_ok; right; lia | intros [v1 c1] E1].
    unfold copy_segment_index in E1. take_apart E1. injection E1 as _ <-.
    apply reads_bind_Forall; [| intros; constructor].
    unfold copy_segment_index. reads_ok; right; lia. }
  intros [seg ci1] Eseg. apply copy_segment_index_two in Eseg. subst ci1.
  apply reads_bind_Forall; [apply reads_DecodeBase900toBase10 |].
  intros [st strBuf] _.
  destruct (StatusIsError st); [constructor |].
  apply reads_bind_Forall; [apply reads_stoi | intros n _].
  apply reads_bind_Forall.
  { eapply Forall_impl; [| apply TextCompaction_reads].
    cbv beta. intros i [Hi | Hi]; [left; assumption | right; lia]. }
  intros [ci2 fileId] Et.
  assert (Hup := TextCompaction_upper _ _ _ Et).
  apply TextCompaction_cursor in Et. destruct Et as [Hlo _].
  apply reads_bind_Forall; [reads_ok; right; lia | intros c _].
  destruct (c =? BEGIN_MACRO_PDF417_OPTIONAL_FIELD).
  - apply reads_bind_Forall; [reads_ok; left; reflexivity | intros c1 _].
    destruct (c1 - (ci2 + 1) <? 0); [constructor |].
    apply reads_bind_Forall.
    + apply (@while_reads _ _ _ (fun s => ci <= o_codeIndex s)).
      * intros s _. unfold Optional_cond. reads_ok. left; reflexivity.
      * intros s Hinv Hc. apply Optional_cond_true in Hc.
        unfold Optional_body. reads_ok; right; lia.
      * intros s s' Hinv _ Hb. apply Optional_body_progress in Hb. lia.
      * cbn [o_codeIndex]. lia.
    + intros os _. reads_ok.
  - apply reads_bind_Forall; [reads_ok; right; lia | intros c1 _].
    reads_ok.
Qed.

(** *** The dispatcher *)

Section ReadBounds.

Variable CharacterSet : Type.
Variable ISO8859_1 : CharacterSet.
Variable CharsetFromValue : Z -> CharacterSet.
Variable toUnicode : list Z -> CharacterSet -> String.
Variable newExtra : DecoderResultExtra.

Local Abbreviation Decode_switch := (Decode_switch CharsetFromValue toUnicode).
Local Abbreviation Decode_body := (Decode_body CharsetFromValue toUnicode).
Local Abbreviation Decode := (Decode ISO8859_1 CharsetFromValue toUnicode newExtra).
Local Abbreviation DecodeState := (DecodeState CharacterSet).

Lemma macro_reach_range (c : Z) : 0 <= macro_reach c <= 1.
Proof. unfold macro_reach. destruct (c =? _); lia. Qed.

Lemma Decode_switch_upper (cw : list Z) (st st1 : DecodeState) :
  codeIndex st < item cw 0 ->
  result_of (Decode_switch cw st) = Ret st1 ->
  code st1 = code st /\
  codeIndex st - 1 <= codeIndex st1 /\
  codeIndex st1 <= item cw 0 + 1 + macro_reach (code st).
Proof.
  intros Hlt H. unfold Decode_switch in H.
  assert (Hk := macro_reach_range (code st)).
  destruct (code st =? TEXT_COMPACTION_MODE_LATCH) eqn:E900.
  { rewrite result_bind in H.
    destruct (result_of (TextCompaction cw (codeIndex st) (resultString st)))
      as [[ci r] |] eqn:Et; [| discriminate H].
    assert (Hup := TextCompaction_upper _ _ _ Et).
    apply TextCompaction_cursor in Et.
    cbn [result_of snd ret] in H. injection H as <-. cbn [codeIndex code].
    split; [reflexivity | lia]. }
  destruct ((code st =? BYTE_COMPACTION_MODE_LATCH)
            || (code st =? BYTE_COMPACTION_MODE_LATCH_6)) eqn:Ebyte.
  { rewrite result_bind in H. unfold ByteCompaction in H.
    rewrite result_bind in H.
    destruct (result_of (ByteCompaction_bytes (code st) cw (codeIndex st)))
      as [[ci bytes] |] eqn:Eb; [| discriminate H].
    assert (Hup := ByteCompaction_bytes_upper _ _ Hlt Eb).
    apply ByteCompaction_bytes_cursor in Eb.
    cbn [result_of snd ret] in H. injection H as <-. cbn [codeIndex code].
    split; [reflexivity | lia]. }
  destruct (code st =? MODE_SHIFT_TO_BYTE_COMPACTION_MODE).
  { take_apart H. injection H as <-. cbn [codeIndex code].
    split; [reflexivity | lia]. }
  destruct (code st =? NUMERIC_COMPACTION_MODE_LATCH) eqn:E902.
  { rewrite result_bind in H.
    destruct (result_of (NumericCompaction cw (codeIndex st) (resultString st)
                           (codeIndex st))) as [[[s r] ci] |] eqn:En;
      [| discriminate H].
    assert (Hup : ci = codeIndex st \/ ci <= item cw 0).
    { eapply NumericCompaction_upper; [| exact En]. lia. }
    apply NumericCompaction_cursor in En.
    cbn [result_of snd ret] in H. injection H as <-. cbn [codeIndex code].
    split; [reflexivity | lia]. }
  destruct (code st =? ECI_CHARSET).
  { take_apart H. injection H as <-. cbn [codeIndex code].
    split; [reflexivity | lia]. }
  destruct (code st =? ECI_GENERAL_PURPOSE).
  { injection H as <-. cbn [codeIndex code]. split; [reflexivity | lia]. }
  destruct (code st =? ECI_USER_DEFINED).
  { injection H as <-. cbn [codeIndex code]. split; [reflexivity | lia]. }
  destruct (code st =? BEGIN_MACRO_PDF417_CONTROL_BLOCK) eqn:E928.
  { rewrite result_bind in H.
    destruct (result_of (DecodeMacroBlock cw (codeIndex st) (resultMetadata st)
                           (codeIndex st))) as [[[s m] ci] |] eqn:Em;
      [| discriminate H].
    assert (Hup := DecodeMacroBlock_upper _ _ _ _ Em).
    apply DecodeMacroBlock_cursor in Em.
    cbn [result_of snd ret] in H. injection H as <-. cbn [codeIndex code].
    unfold macro_reach. rewrite E928. split; [reflexivity | lia]. }
  destruct ((code st =? BEGIN_MACRO_PDF417_OPTIONAL_FIELD)
            || (code st =? MACRO_PDF417_TERMINATOR)) eqn:Emacro.
  { injection H as <-. cbn [codeIndex code]. split; [reflexivity | lia]. }
  rewrite result_bind in H.
  destruct (result_of (TextCompaction cw (codeIndex st - 1) (resultString st)))
    as [[ci r] |] eqn:Et; [| discriminate H].
  assert (Hup := TextCompaction_upper _ _ _ Et).
  apply TextCompaction_cursor in Et. destruct Et as [Et _].
  cbn [result_of snd ret] in H. injection H as <-. cbn [codeIndex code].
  split; [reflexivity | lia].
Qed.

Lemma ByteCompaction_bytes_reads (mode : Z) (cw : list Z) (ci : Z) :
  Forall (fun i => i = 0 \/ i = ci \/ ci < i < item cw 0)
    (reads (ByteCompaction_bytes mode cw ci)).
Proof.
  unfold ByteCompaction_bytes.
  destruct (mode =? BYTE_COMPACTION_MODE_LATCH);
    [| destruct (mode =? BYTE_COMPACTION_MODE_LATCH_6)].
  - apply ByteCompaction_901_reads.
  - eapply Forall_impl; [| apply ByteCompaction_924_reads].
    cbv beta. intros i [Hi | Hi]; [left; assumption | right; lia].
  - constructor.
Qed.

Lemma Decode_switch_reads (cw : list Z) (st : DecodeState) :
  codeIndex st < item cw 0 ->
  Forall (fun i => i = 0 \/
            codeIndex st - 1 <= i <= item cw 0 + macro_reach (code st))
    (reads (Decode_switch cw st)).
Proof.
  intros Hlt. unfold Decode_switch.
  assert (Hk := macro_reach_range (code st)).
  destruct (code st =? TEXT_COMPACTION_MODE_LATCH).
  { apply reads_bind_Forall; [| intros [ci r] _; constructor].
    eapply Forall_impl; [| apply TextCompaction_reads].
    cbv beta. intros i [Hi | Hi]; [left; assumption | right; lia]. }
  destruct ((code st =? BYTE_COMPACTION_MODE_LATCH)
            || (code st =? BYTE_COMPACTION_MODE_LATCH_6)).
  { apply reads_bind_Forall; [| intros [ci r] _; constructor].
    unfold ByteCompaction.
    apply reads_bind_Forall; [| intros [ci r] _; constructor].
    eapply Forall_impl; [| apply ByteCompaction_bytes_reads].
    cbv beta. intros i [Hi | Hi]; [left; assumption | right; lia]. }
  destruct (code st =? MODE_SHIFT_TO_BYTE_COMPACTION_MODE).
  { reads_ok. right; lia. }
  destruct (code st =? NUMERIC_COMPACTION_MODE_LATCH).
  { apply reads_bind_Forall; [| intros [[s r] ci] _; constructor].
    eapply Forall_impl; [| apply NumericCompaction_reads].
    cbv beta. intros i [Hi | Hi]; [left; assumption | right; lia]. }
  destruct (code st =? ECI_CHARSET).
  { reads_ok. right; lia. }
  destruct (code st =? ECI_GENERAL_PURPOSE); [constructor |].
  destruct (code st =? ECI_USER_DEFINED); [constructor |].
  destruct (code st =? BEGIN_MACRO_PDF417_CONTROL_BLOCK) eqn:E928.
  { apply reads_bind_Forall; [| intros [[s m] ci] _; constructor].
    eapply Forall_impl; [| apply DecodeMacroBlock_reads].
    unfold macro_reach. rewrite E928.
    cbv beta. intros i [Hi | Hi]; [left; assumption | right; lia]. }
  destruct ((code st =? BEGIN_MACRO_PDF417_OPTIONAL_FIELD)
            || (code st =? MACRO_PDF417_TERMINATOR)); [constructor |].
  apply reads_bind_Forall; [| intros [ci r] _; constructor].
  eapply Forall_impl; [| apply TextCompaction_reads].
  cbv beta. intros i [Hi | Hi]; [left; assumption | right; lia].
Qed.

Lemma Decode_loop_reads (cw : list Z) (k : Z) :
  (forall i, 1 <= i < Z.of_nat (List.length cw) ->
     macro_reach (item cw i) <= k) ->
  forall (fuel : nat) (st : DecodeState),
  reach_inv k st ->
  Forall (fun i => i = 0 \/ 1 <= i <= item cw 0 + 1 + k)
    (reads (while fuel (Decode_cond cw) (Decode_body cw) st)).
Proof.
  intros Hcw. apply while_reads.
  - intros s _. unfold Decode_cond. reads_ok. left; reflexivity.
  - intros s (H1 & H2 & H3) Hc. apply Decode_cond_true in Hc.
    destruct Hc as (_ & Hlt & Hs). specialize (H2 Hs).
    unfold Decode_body. apply reads_bind_Forall.
    + eapply Forall_impl; [| apply Decode_switch_reads; assumption].
      cbv beta. intros i [Hi | Hi]; [left; assumption | right; lia].
    + intros s1 Hs1. apply Decode_switch_upper in Hs1; [| assumption].
      destruct Hs1 as (Hc1 & Hlo & Hup).
      unfold Decode_fetch.
      destruct (codeIndex s1 <? Z.of_nat (List.length cw)); [| constructor].
      reads_ok. right; lia.
  - intros s s' (H1 & H2 & H3) Hc Hb. apply Decode_cond_true in Hc.
    destruct Hc as (_ & Hlt & Hs). specialize (H2 Hs).
    unfold Decode_body in Hb. rewrite result_bind in Hb.
    destruct (result_of (Decode_switch cw s)) as [s1 |] eqn:Hs1;
      [| discriminate Hb].
    apply Decode_switch_upper in Hs1; [| assumption].
    destruct Hs1 as (Hc1 & Hlo & Hup).
    unfold Decode_fetch in Hb.
    destruct (Z.ltb_spec (codeIndex s1) (Z.of_nat (List.length cw))).
    + rewrite result_bind in Hb.
      destruct (result_of (rd cw (codeIndex s1))) as [c |] eqn:Erd;
        [| discriminate Hb].
      apply rd_Ret in Erd. destruct Erd as [_ ->].
      cbn [result_of snd ret] in Hb. injection Hb as <-.
      unfold reach_inv. cbn [codeIndex status code].
      split; [lia | split; [intros _; lia |]].
      apply Hcw. lia.
    + cbn [result_of snd ret] in Hb. injection Hb as <-.
      unfold reach_inv. cbn [codeIndex status code].
      split; [lia | split; [discriminate |]]. rewrite Hc1. assumption.
Qed.

(** The reads of a decode, for a bound [k] on the reach of the control
    codewords of the vector. *)
Lemma Decode_reads_within (cw : list Z) (ec : Z) (result : DecoderResult)
    (k : Z) :
  (forall i, 1 <= i < Z.of_nat (List.length cw) ->
     macro_reach (item cw i) <= k) ->
  Forall (fun i => i = 0 \/ 1 <= i <= Z.max 1 (item cw 0 + 1 + k))
    (reads (Decode cw ec result)).
Proof.
  intros Hcw. unfold Decode.
  apply reads_bind_Forall; [reads_ok; right; lia | intros c Ec].
  apply rd_Ret in Ec. destruct Ec as [Hlen ->].
  unfold Decode_from.
  apply reads_bind_Forall; [| intros; constructor].
  eapply Forall_impl; [| apply Decode_loop_reads with (k := k)].
  - cbv beta. intros i [Hi | Hi]; [left; assumption | right; lia].
  - assumption.
  - unfold reach_inv. cbn [codeIndex status code].
    split; [lia | split; [intros _; lia |]]. apply Hcw. lia.
Qed.

(** The decoder reads the declared count, the first control codeword at
    index 1, and codewords up to two past the declared count and no
    further; in a vector without a macro control block 928, up to one past
    the declared count. *)
Theorem Decode_reads_bounded (cw : list Z) (ec : Z) (result : DecoderResult) :
  Forall (fun i => i = 0 \/ i = 1 \/ 2 <= i <= item cw 0 + 2)
    (reads (Decode cw ec result)) /\
  ((forall i, 1 <= i < Z.of_nat (List.length cw) ->
      item cw i <> BEGIN_MACRO_PDF417_CONTROL_BLOCK) ->
   Forall (fun i => i = 0 \/ i = 1 \/ 2 <= i <= item cw 0 + 1)
     (reads (Decode cw ec result))).
Proof.
  split.
  - eapply Forall_impl; [| apply Decode_reads_within with (k := 1)].
    + cbv beta. intros i [Hi | Hi]; [left; assumption | right; lia].
    + intros i _. apply macro_reach_range.
  - intros Hcw.
    eapply Forall_impl; [| apply Decode_reads_within with (k := 0)].
    + cbv beta. intros i [Hi | Hi]; [left; assumption | right; lia].
    + intros i Hi. unfold macro_reach.
      destruct (Z.eqb_spec (item cw i) BEGIN_MACRO_PDF417_CONTROL_BLOCK)
        as [E | E]; [| lia].
      exfalso. exact (Hcw i Hi E).
Qed.

End ReadBounds.

(** Text Compaction reads the declared count and codewords from its cursor
    up to the declared count, the last one only as the byte of an escape
    913; the cursor it hands back is not before the one it was given and
    at most one past the declared count. *)
Theorem text_compaction_reads_bounded (cw : list Z) (ci : Z)
    (result : String) :
  Forall (fun i => i = 0 \/ ci <= i <= item cw 0)
    (reads (TextCompaction cw ci result)) /\
  (forall ci' result',
     result_of (TextCompaction cw ci result) = Ret (ci', result') ->
     ci <= ci' <= item cw 0 + 1).
Proof.
  split; [apply TextCompaction_reads |].
  intros ci' result' H. split.
  - apply TextCompaction_cursor in H. apply H.
  - eapply TextCompaction_upper. exact H.
Qed.

(** A macro block reads the declared count and codewords from its cursor
    up to one past the declared count; the cursor it hands back is [next]
    as it was or at most two past the declared count. *)
Theorem macro_block_reads_bounded (cw : list Z) (ci : Z)
    (meta : DecoderResultExtra) (next : Z) :
  Forall (fun i => i = 0 \/ ci <= i <= item cw 0 + 1)
    (reads (DecodeMacroBlock cw ci meta next)) /\
  (forall s meta' ci',
     result_of (DecodeMacroBlock cw ci meta next) = Ret (s, meta', ci') ->
     ci' = next \/ ci' <= item cw 0 + 2).
Proof.
  split; [apply DecodeMacroBlock_reads |].
  intros s meta' ci' H.
  apply DecodeMacroBlock_upper in H.
  destruct H as [H | H]; [left | right]; assumption.
Qed.

(** An escape 913 as the last declared codeword: Text Compaction reads the
    codeword at the declared count and hands back a cursor one past it. *)
Lemma text_compaction_reads_bounded_witness :
  Forall (fun i => i = 0 \/ 2 <= i <= item [3; 900; 913; 65] 0)
    (reads (TextCompaction [3; 900; 913; 65] 2 [])) /\
  2 <= 4 <= item [3; 900; 913; 65] 0 + 1.
Proof.
  split.
  - apply (proj1 (text_compaction_reads_bounded [3; 900; 913; 65] 2 [])).
  - apply (proj2 (text_compaction_reads_bounded [3; 900; 913; 65] 2 [])
             4 [65]).
    vm_compute. reflexivity.
Defined.

(** A macro block whose file id ends in an escape 913 at the last declared
    codeword, with a terminator behind it: the cursor handed back is two
    past the declared count. *)
Lemma macro_block_reads_bounded_witness :
  7 = 2 \/ 7 <= item [5; 928; 0; 12; 913; 65; 922] 0 + 2.
Proof.
  apply (proj2 (macro_block_reads_bounded [5; 928; 0; 12; 913; 65; 922] 2
                  Sample.newExtra 2)
           NoError (mkExtra 2 [65] true []) 7).
  vm_compute. reflexivity.
Defined.

Lemma Decode_reads_bounded_witness :
  Forall (fun i => i = 0 \/ i = 1 \/ 2 <= i <= item [3; 900; 913; 65; 0] 0 + 1)
    (reads (Sample.run [3; 900; 913; 65; 0] 0)).
Proof.
  apply (proj2 (Decode_reads_bounded Sample.ISO8859_1 Sample.CharsetFromValue
                  Sample.toUnicode Sample.newExtra [3; 900; 913; 65; 0] 0
                  Sample.noResult)).
  intros i Hi. cbn [List.length Z.of_nat Pos.of_succ_nat Pos.succ] in Hi.
  assert (E : i = 1 \/ i = 2 \/ i = 3 \/ i = 4) by lia.
  destruct E as [-> | [-> | [-> | ->]]]; vm_compute; discriminate.
Defined.

(** With five codewords declared, a macro block that ends two past the
    declared count and one more codeword in the vector: the decode reads
    the codeword at index 7, two past the declared count. *)
Lemma read_two_past_declared_count :
  In 7 (reads (Sample.run [5; 928; 0; 12; 913; 65; 922; 7] 0)) /\
  item [5; 928; 0; 12; 913; 65; 922; 7] 0 + 2 = 7.
Proof.
  split.
  - vm_compute. tauto.
  - vm_compute. reflexivity.
Qed.
